(** * libtsm virtual terminal emulator (src/tsm/tsm-vte.c)

    A shallow embedding of the VT input interpreter: the escape-sequence
    parser, the parameter accumulator, the ESC/CSI dispatchers, the SGR
    accumulator, charset mapping, save/restore of the cursor state, the
    outbound writer with local echo, and the keyboard encoder.

    Integers are [Z]; where the C code relies on a fixed width the
    conversion is written out.  Byte strings are [list Z] with every byte
    in its unsigned view 0..255.  The collaborators that live outside
    tsm-vte.c (screen, UTF-8 machine, charset tables, keysym header) are
    interfaces ([Class]es); every theorem holds for all their instances. *)

From Stdlib Require Import ZArith Lia Bool Ascii String.
From stdpp Require Import base list option.

#[local] Open Scope Z_scope.

(** ** Fixed-width conversions *)

Definition UINT_MAX : Z := 4294967295.
Definition ULONG_MAX : Z := 18446744073709551615.

(** unsigned int arithmetic wraps modulo 2^32 *)
Definition wrap_u32 (x : Z) : Z := x mod 4294967296.

(** unsigned long arithmetic wraps modulo 2^64 (LP64) *)
Definition wrap_u64 (x : Z) : Z := x mod 18446744073709551616.

(** conversion to uint8_t *)
Definition cast_u8 (x : Z) : Z := x mod 256.

(** conversion to int8_t (two's complement) *)
Definition cast_i8 (x : Z) : Z :=
  let m := x mod 256 in if m <? 128 then m else m - 256.

(** [w & mask] is non-zero *)
Definition has_flag (w mask : Z) : bool := negb (Z.land w mask =? 0).

(** [w |= mask] *)
Definition flag_set (w mask : Z) : Z := Z.lor w mask.

(** [w &= ~mask] *)
Definition flag_clear (w mask : Z) : Z := Z.land w (Z.lnot mask).

(** [lo <= x <= hi], the GNU case range [case lo ... hi:] *)
Definition in_range (lo hi x : Z) : bool := (lo <=? x) && (x <=? hi).

(** ** Enumerations and constants of tsm-vte.c *)

(** Input parser states *)
Inductive parser_state : Set :=
  | STATE_NONE
  | STATE_GROUND
  | STATE_ESC
  | STATE_ESC_INT
  | STATE_CSI_ENTRY
  | STATE_CSI_PARAM
  | STATE_CSI_INT
  | STATE_CSI_IGNORE
  | STATE_DCS_ENTRY
  | STATE_DCS_PARAM
  | STATE_DCS_INT
  | STATE_DCS_PASS
  | STATE_DCS_IGNORE
  | STATE_OSC_STRING
  | STATE_ST_IGNORE
  | STATE_NUM.

(** Input parser actions *)
Inductive parser_action : Set :=
  | ACTION_NONE
  | ACTION_IGNORE
  | ACTION_PRINT
  | ACTION_EXECUTE
  | ACTION_CLEAR
  | ACTION_COLLECT
  | ACTION_PARAM
  | ACTION_ESC_DISPATCH
  | ACTION_CSI_DISPATCH
  | ACTION_DCS_START
  | ACTION_DCS_COLLECT
  | ACTION_DCS_END
  | ACTION_OSC_START
  | ACTION_OSC_COLLECT
  | ACTION_OSC_END
  | ACTION_NUM.

(** CSI flags *)
Definition CSI_BANG : Z := 0x0001.
Definition CSI_CASH : Z := 0x0002.
Definition CSI_WHAT : Z := 0x0004.
Definition CSI_GT : Z := 0x0008.
Definition CSI_SPACE : Z := 0x0010.
Definition CSI_SQUOTE : Z := 0x0020.
Definition CSI_DQUOTE : Z := 0x0040.
Definition CSI_MULT : Z := 0x0080.
Definition CSI_PLUS : Z := 0x0100.
Definition CSI_POPEN : Z := 0x0200.
Definition CSI_PCLOSE : Z := 0x0400.

(** max CSI arguments *)
Definition CSI_ARG_MAX : Z := 16.

(** max length of an OSC code *)
Definition OSC_MAX_LEN : Z := 128.

(** terminal flags *)
Definition FLAG_CURSOR_KEY_MODE : Z := 0x00000001.
Definition FLAG_KEYPAD_APPLICATION_MODE : Z := 0x00000002.
Definition FLAG_LINE_FEED_NEW_LINE_MODE : Z := 0x00000004.
Definition FLAG_8BIT_MODE : Z := 0x00000008.
Definition FLAG_7BIT_MODE : Z := 0x00000010.
Definition FLAG_USE_C1 : Z := 0x00000020.
Definition FLAG_KEYBOARD_ACTION_MODE : Z := 0x00000040.
Definition FLAG_INSERT_REPLACE_MODE : Z := 0x00000080.
Definition FLAG_SEND_RECEIVE_MODE : Z := 0x00000100.
Definition FLAG_TEXT_CURSOR_MODE : Z := 0x00000200.
Definition FLAG_INVERSE_SCREEN_MODE : Z := 0x00000400.
Definition FLAG_ORIGIN_MODE : Z := 0x00000800.
Definition FLAG_AUTO_WRAP_MODE : Z := 0x00001000.
Definition FLAG_AUTO_REPEAT_MODE : Z := 0x00002000.
Definition FLAG_NATIONAL_CHARSET_MODE : Z := 0x00004000.
Definition FLAG_BACKGROUND_COLOR_ERASE_MODE : Z := 0x00008000.
Definition FLAG_PREPEND_ESCAPE : Z := 0x00010000.
Definition FLAG_TITE_INHIBIT_MODE : Z := 0x00020000.

(** The escape character, [ESC] in the source *)
Definition ESC : Z := 0x1b.

(** ** Palette slots and screen attributes (libtsm.h) *)

(** Modelled from the spec: the numbering of the palette slots, declared
    in libtsm.h, which is not part of the source under study.  The spec
    gives 18 slots, the 16 named colours followed by FOREGROUND and
    BACKGROUND; the order of the named colours is the order of the palette
    tables of tsm-vte.c. *)
Definition TSM_COLOR_BLACK : Z := 0.
Definition TSM_COLOR_RED : Z := 1.
Definition TSM_COLOR_GREEN : Z := 2.
Definition TSM_COLOR_YELLOW : Z := 3.
Definition TSM_COLOR_BLUE : Z := 4.
Definition TSM_COLOR_MAGENTA : Z := 5.
Definition TSM_COLOR_CYAN : Z := 6.
Definition TSM_COLOR_LIGHT_GREY : Z := 7.
Definition TSM_COLOR_DARK_GREY : Z := 8.
Definition TSM_COLOR_LIGHT_RED : Z := 9.
Definition TSM_COLOR_LIGHT_GREEN : Z := 10.
Definition TSM_COLOR_LIGHT_YELLOW : Z := 11.
Definition TSM_COLOR_LIGHT_BLUE : Z := 12.
Definition TSM_COLOR_LIGHT_MAGENTA : Z := 13.
Definition TSM_COLOR_LIGHT_CYAN : Z := 14.
Definition TSM_COLOR_WHITE : Z := 15.
Definition TSM_COLOR_FOREGROUND : Z := 16.
Definition TSM_COLOR_BACKGROUND : Z := 17.
Definition TSM_COLOR_NUM : Z := 18.

(** Modelled from the spec: [struct tsm_screen_attr] of libtsm.h, with the
    fields tsm-vte.c reads and writes.  The colour codes are int8_t (the
    local [int8_t code] of [to_rgb]), the colour components uint8_t, the
    renditions one-bit fields. *)
Record tsm_screen_attr : Set := Build_tsm_screen_attr {
  fccode : Z;
  bccode : Z;
  fr : Z;
  fg : Z;
  fb : Z;
  br : Z;
  bg : Z;
  bb : Z;
  bold : bool;
  italic : bool;
  underline : bool;
  inverse : bool;
  protect : bool;
  blink : bool
}.

(** The attribute after [memset(.., 0, ..)] *)
Definition attr_zero : tsm_screen_attr :=
  Build_tsm_screen_attr 0 0 0 0 0 0 0 0 false false false false false false.

(** A palette: a table of TSM_COLOR_NUM rows of three uint8_t components *)
Definition palette_t : Set := list (Z * Z * Z).

(** [palette[code]]; reading past the table is undefined in C and is not
    reached: [to_rgb] clamps the code below TSM_COLOR_NUM first *)
Definition palette_row (p : palette_t) (code : Z) : Z * Z * Z :=
  default (0, 0, 0) (p !! Z.to_nat code).

Definition color_palette : palette_t :=
  [ (0, 0, 0); (205, 0, 0); (0, 205, 0); (205, 205, 0);
    (0, 0, 238); (205, 0, 205); (0, 205, 205); (229, 229, 229);
    (127, 127, 127); (255, 0, 0); (0, 255, 0); (255, 255, 0);
    (92, 92, 255); (255, 0, 255); (0, 255, 255); (255, 255, 255);
    (229, 229, 229); (0, 0, 0) ].

Definition color_palette_solarized : palette_t :=
  [ (7, 54, 66); (220, 50, 47); (133, 153, 0); (181, 137, 0);
    (38, 139, 210); (211, 54, 130); (42, 161, 152); (238, 232, 213);
    (0, 43, 54); (203, 75, 22); (88, 110, 117); (101, 123, 131);
    (131, 148, 150); (108, 113, 196); (147, 161, 161); (253, 246, 227);
    (238, 232, 213); (7, 54, 66) ].

Definition color_palette_solarized_black : palette_t :=
  [ (0, 0, 0); (220, 50, 47); (133, 153, 0); (181, 137, 0);
    (38, 139, 210); (211, 54, 130); (42, 161, 152); (238, 232, 213);
    (0, 43, 54); (203, 75, 22); (88, 110, 117); (101, 123, 131);
    (131, 148, 150); (108, 113, 196); (147, 161, 161); (253, 246, 227);
    (238, 232, 213); (0, 0, 0) ].

Definition color_palette_solarized_white : palette_t :=
  [ (7, 54, 66); (220, 50, 47); (133, 153, 0); (181, 137, 0);
    (38, 139, 210); (211, 54, 130); (42, 161, 152); (238, 232, 213);
    (0, 43, 54); (203, 75, 22); (88, 110, 117); (101, 123, 131);
    (131, 148, 150); (108, 113, 196); (147, 161, 161); (253, 246, 227);
    (7, 54, 66); (238, 232, 213) ].

Definition color_palette_soft_black : palette_t :=
  [ (0x3f, 0x3f, 0x3f); (0x70, 0x50, 0x50); (0x60, 0xb4, 0x8a);
    (0xdf, 0xaf, 0x8f); (0x9a, 0xb8, 0xd7); (0xdc, 0x8c, 0xc3);
    (0x8c, 0xd0, 0xd3); (0xff, 0xff, 0xff); (0x70, 0x90, 0x80);
    (0xdc, 0xa3, 0xa3); (0x72, 0xd5, 0xa3); (0xf0, 0xdf, 0xaf);
    (0x94, 0xbf, 0xf3); (0xec, 0x93, 0xd3); (0x93, 0xe0, 0xe3);
    (0xdc, 0xdc, 0xcc); (0xdc, 0xdc, 0xcc); (0x2c, 0x2c, 0x2c) ].

Definition color_palette_base16_dark : palette_t :=
  [ (0x00, 0x00, 0x00); (0xab, 0x46, 0x42); (0xa1, 0xb5, 0x6c);
    (0xf7, 0xca, 0x88); (0x7c, 0xaf, 0xc2); (0xba, 0x8b, 0xaf);
    (0x86, 0xc1, 0xb9); (0xaa, 0xaa, 0xaa); (0x55, 0x55, 0x55);
    (0xab, 0x46, 0x42); (0xa1, 0xb5, 0x6c); (0xf7, 0xca, 0x88);
    (0x7c, 0xaf, 0xc2); (0xba, 0x8b, 0xaf); (0x86, 0xc1, 0xb9);
    (0xff, 0xff, 0xff); (0xd8, 0xd8, 0xd8); (0x18, 0x18, 0x18) ].

Definition color_palette_base16_light : palette_t :=
  [ (0x00, 0x00, 0x00); (0xab, 0x46, 0x42); (0xa1, 0xb5, 0x6c);
    (0xf7, 0xca, 0x88); (0x7c, 0xaf, 0xc2); (0xba, 0x8b, 0xaf);
    (0x86, 0xc1, 0xb9); (0xaa, 0xaa, 0xaa); (0x55, 0x55, 0x55);
    (0xab, 0x46, 0x42); (0xa1, 0xb5, 0x6c); (0xf7, 0xca, 0x88);
    (0x7c, 0xaf, 0xc2); (0xba, 0x8b, 0xaf); (0x86, 0xc1, 0xb9);
    (0xff, 0xff, 0xff); (0x18, 0x18, 0x18); (0xd8, 0xd8, 0xd8) ].

(** Field updates of [struct tsm_screen_attr] *)

Definition attr_set_fccode (x : Z) (v : tsm_screen_attr) : tsm_screen_attr :=
  Build_tsm_screen_attr x (bccode v) (fr v) (fg v) (fb v) (br v) (bg v)
    (bb v) (bold v) (italic v) (underline v) (inverse v) (protect v)
    (blink v).

Definition attr_set_bccode (x : Z) (v : tsm_screen_attr) : tsm_screen_attr :=
  Build_tsm_screen_attr (fccode v) x (fr v) (fg v) (fb v) (br v) (bg v)
    (bb v) (bold v) (italic v) (underline v) (inverse v) (protect v)
    (blink v).

Definition attr_set_fr (x : Z) (v : tsm_screen_attr) : tsm_screen_attr :=
  Build_tsm_screen_attr (fccode v) (bccode v) x (fg v) (fb v) (br v) (bg v)
    (bb v) (bold v) (italic v) (underline v) (inverse v) (protect v)
    (blink v).

Definition attr_set_fg (x : Z) (v : tsm_screen_attr) : tsm_screen_attr :=
  Build_tsm_screen_attr (fccode v) (bccode v) (fr v) x (fb v) (br v) (bg v)
    (bb v) (bold v) (italic v) (underline v) (inverse v) (protect v)
    (blink v).

Definition attr_set_fb (x : Z) (v : tsm_screen_attr) : tsm_screen_attr :=
  Build_tsm_screen_attr (fccode v) (bccode v) (fr v) (fg v) x (br v) (bg v)
    (bb v) (bold v) (italic v) (underline v) (inverse v) (protect v)
    (blink v).

Definition attr_set_br (x : Z) (v : tsm_screen_attr) : tsm_screen_attr :=
  Build_tsm_screen_attr (fccode v) (bccode v) (fr v) (fg v) (fb v) x (bg v)
    (bb v) (bold v) (italic v) (underline v) (inverse v) (protect v)
    (blink v).

Definition attr_set_bg (x : Z) (v : tsm_screen_attr) : tsm_screen_attr :=
  Build_tsm_screen_attr (fccode v) (bccode v) (fr v) (fg v) (fb v) (br v) x
    (bb v) (bold v) (italic v) (underline v) (inverse v) (protect v)
    (blink v).

Definition attr_set_bb (x : Z) (v : tsm_screen_attr) : tsm_screen_attr :=
  Build_tsm_screen_attr (fccode v) (bccode v) (fr v) (fg v) (fb v) (br v)
    (bg v) x (bold v) (italic v) (underline v) (inverse v) (protect v)
    (blink v).

Definition attr_set_bold (x : bool) (v : tsm_screen_attr) : tsm_screen_attr :=
  Build_tsm_screen_attr (fccode v) (bccode v) (fr v) (fg v) (fb v) (br v)
    (bg v) (bb v) x (italic v) (underline v) (inverse v) (protect v)
    (blink v).

Definition attr_set_italic (x : bool) (v : tsm_screen_attr) : tsm_screen_attr :=
  Build_tsm_screen_attr (fccode v) (bccode v) (fr v) (fg v) (fb v) (br v)
    (bg v) (bb v) (bold v) x (underline v) (inverse v) (protect v) (blink v).

Definition attr_set_underline (x : bool) (v : tsm_screen_attr) : tsm_screen_attr :=
  Build_tsm_screen_attr (fccode v) (bccode v) (fr v) (fg v) (fb v) (br v)
    (bg v) (bb v) (bold v) (italic v) x (inverse v) (protect v) (blink v).

Definition attr_set_inverse (x : bool) (v : tsm_screen_attr) : tsm_screen_attr :=
  Build_tsm_screen_attr (fccode v) (bccode v) (fr v) (fg v) (fb v) (br v)
    (bg v) (bb v) (bold v) (italic v) (underline v) x (protect v) (blink v).

Definition attr_set_protect (x : bool) (v : tsm_screen_attr) : tsm_screen_attr :=
  Build_tsm_screen_attr (fccode v) (bccode v) (fr v) (fg v) (fb v) (br v)
    (bg v) (bb v) (bold v) (italic v) (underline v) (inverse v) x (blink v).

Definition attr_set_blink (x : bool) (v : tsm_screen_attr) : tsm_screen_attr :=
  Build_tsm_screen_attr (fccode v) (bccode v) (fr v) (fg v) (fb v) (br v)
    (bg v) (bb v) (bold v) (italic v) (underline v) (inverse v) (protect v)
    x.


(** Several effects may occur when non-RGB colors are used.  This function
    converts a set color-code into an RGB color. *)
Definition to_rgb (p : palette_t) (attr : tsm_screen_attr) : tsm_screen_attr :=
  let attr :=
    let code := fccode attr in
    if 0 <=? code then
      (* bold causes light colors *)
      let code := if bold attr && (code <? 8) then code + 8 else code in
      let code :=
        if TSM_COLOR_NUM <=? code then TSM_COLOR_FOREGROUND else code in
      attr_set_fb (palette_row p code).2
        (attr_set_fg (palette_row p code).1.2
           (attr_set_fr (palette_row p code).1.1 attr))
    else attr in
  let code := bccode attr in
  if 0 <=? code then
    let code :=
      if TSM_COLOR_NUM <=? code then TSM_COLOR_BACKGROUND else code in
    attr_set_bb (palette_row p code).2
      (attr_set_bg (palette_row p code).1.2
         (attr_set_br (palette_row p code).1.1 attr))
  else attr.

Definition copy_fcolor (dest src : tsm_screen_attr) : tsm_screen_attr :=
  attr_set_fb (fb src)
    (attr_set_fg (fg src) (attr_set_fr (fr src)
       (attr_set_fccode (fccode src) dest))).

Definition copy_bcolor (dest src : tsm_screen_attr) : tsm_screen_attr :=
  attr_set_bb (bb src)
    (attr_set_bg (bg src) (attr_set_br (br src)
       (attr_set_bccode (bccode src) dest))).

(** ** Charset pointers *)

(** The four G-set slots of [struct tsm_vte]: [GSLOT0] stands for the
    address [&vte->g0], and so on.  A [tsm_vte_charset **] is an
    [option gslot], [None] being the NULL pointer. *)
Inductive gslot : Set := GSLOT0 | GSLOT1 | GSLOT2 | GSLOT3.

(** The static charset tables a G-set slot can point to: the addresses
    [&tsm_vte_unicode_lower] and so on.  A [tsm_vte_charset *] is an
    [option charset]. *)
Inductive charset : Set :=
  | unicode_lower
  | unicode_upper
  | dec_supplemental_graphics
  | dec_special_graphics.

(** ** Collaborators outside tsm-vte.c *)

(** The screen (tsm-screen.c), driven through its public operations.  A
    screen value is the state of the screen object [vte->con] points to;
    every operation returns the state after the call. *)
Class Screen : Type := {
  tsm_screen : Type;
  TSM_SCREEN_INSERT_MODE : Z;
  TSM_SCREEN_AUTO_WRAP : Z;
  TSM_SCREEN_REL_ORIGIN : Z;
  TSM_SCREEN_INVERSE : Z;
  TSM_SCREEN_HIDE_CURSOR : Z;
  TSM_SCREEN_ALTERNATE : Z;
  tsm_screen_get_cursor_x : tsm_screen -> Z;
  tsm_screen_get_cursor_y : tsm_screen -> Z;
  tsm_screen_move_to : tsm_screen -> Z -> Z -> tsm_screen;
  tsm_screen_move_up : tsm_screen -> Z -> bool -> tsm_screen;
  tsm_screen_move_down : tsm_screen -> Z -> bool -> tsm_screen;
  tsm_screen_move_left : tsm_screen -> Z -> tsm_screen;
  tsm_screen_move_right : tsm_screen -> Z -> tsm_screen;
  tsm_screen_move_line_home : tsm_screen -> tsm_screen;
  tsm_screen_newline : tsm_screen -> tsm_screen;
  tsm_screen_scroll_up : tsm_screen -> Z -> tsm_screen;
  tsm_screen_scroll_down : tsm_screen -> Z -> tsm_screen;
  tsm_screen_tab_left : tsm_screen -> Z -> tsm_screen;
  tsm_screen_tab_right : tsm_screen -> Z -> tsm_screen;
  tsm_screen_set_tabstop : tsm_screen -> tsm_screen;
  tsm_screen_reset_tabstop : tsm_screen -> tsm_screen;
  tsm_screen_reset_all_tabstops : tsm_screen -> tsm_screen;
  tsm_screen_set_margins : tsm_screen -> Z -> Z -> tsm_screen;
  tsm_screen_insert_lines : tsm_screen -> Z -> tsm_screen;
  tsm_screen_delete_lines : tsm_screen -> Z -> tsm_screen;
  tsm_screen_insert_chars : tsm_screen -> Z -> tsm_screen;
  tsm_screen_delete_chars : tsm_screen -> Z -> tsm_screen;
  tsm_screen_erase_chars : tsm_screen -> Z -> tsm_screen;
  tsm_screen_erase_cursor_to_end : tsm_screen -> bool -> tsm_screen;
  tsm_screen_erase_home_to_cursor : tsm_screen -> bool -> tsm_screen;
  tsm_screen_erase_current_line : tsm_screen -> bool -> tsm_screen;
  tsm_screen_erase_cursor_to_screen : tsm_screen -> bool -> tsm_screen;
  tsm_screen_erase_screen_to_cursor : tsm_screen -> bool -> tsm_screen;
  tsm_screen_erase_screen : tsm_screen -> bool -> tsm_screen;
  tsm_screen_clear_sb : tsm_screen -> tsm_screen;
  tsm_screen_write : tsm_screen -> Z -> tsm_screen_attr -> tsm_screen;
  tsm_screen_set_def_attr : tsm_screen -> tsm_screen_attr -> tsm_screen;
  tsm_screen_set_flags : tsm_screen -> Z -> tsm_screen;
  tsm_screen_reset_flags : tsm_screen -> Z -> tsm_screen;
  tsm_screen_reset : tsm_screen -> tsm_screen
}.

(** The UTF-8 machine and symbol helpers (tsm-unicode.c) and the static
    charset tables (tsm-vte-charsets.c).  [tsm_utf8_mach_feed] returns the
    machine after the byte together with the state it reports; a charset
    table is the map from an index 0..95 to the symbol stored there. *)
Class Unicode : Type := {
  tsm_utf8_mach : Type;
  TSM_UTF8_ACCEPT : Z;
  TSM_UTF8_REJECT : Z;
  tsm_utf8_mach_init : tsm_utf8_mach;
  tsm_utf8_mach_feed : tsm_utf8_mach -> Z -> tsm_utf8_mach * Z;
  tsm_utf8_mach_get : tsm_utf8_mach -> Z;
  tsm_utf8_mach_reset : tsm_utf8_mach -> tsm_utf8_mach;
  tsm_ucs4_to_utf8 : Z -> list Z;
  tsm_symbol_make : Z -> Z;
  tsm_vte_unicode_lower : Z -> Z;
  tsm_vte_unicode_upper : Z -> Z;
  tsm_vte_dec_supplemental_graphics : Z -> Z;
  tsm_vte_dec_special_graphics : Z -> Z
}.

(** What the C implementation leaves to the platform: whether plain
    [char] is signed, and the [int] found one element past [csi_argv]
    (read, and never used, by [csi_attribute] when all 16 slots are
    taken). *)
Class Platform : Type := {
  char_is_signed : bool;
  csi_argv_oob : Z
}.

(** The key symbols of xkbcommon-keysyms.h that tsm-vte.c names:
    [XKB_KEY k] is the value of the macro [XKB_KEY_k].  [XKB_KEY_Pause]
    and [XKB_KEY_Scroll_Lock] occur in the source only inside comments. *)
Inductive xkb_key : Set :=
  | XKB_2 | XKB_space | XKB_a | XKB_A | XKB_b | XKB_B | XKB_c | XKB_C
  | XKB_d | XKB_D | XKB_e | XKB_E | XKB_f | XKB_F | XKB_g | XKB_G | XKB_h
  | XKB_H | XKB_i | XKB_I | XKB_j | XKB_J | XKB_k | XKB_K | XKB_l | XKB_L
  | XKB_m | XKB_M | XKB_n | XKB_N | XKB_o | XKB_O | XKB_p | XKB_P | XKB_q
  | XKB_Q | XKB_r | XKB_R | XKB_s | XKB_S | XKB_t | XKB_T | XKB_u | XKB_U
  | XKB_v | XKB_V | XKB_w | XKB_W | XKB_x | XKB_X | XKB_y | XKB_Y | XKB_z
  | XKB_Z | XKB_3 | XKB_bracketleft | XKB_braceleft | XKB_4
  | XKB_backslash | XKB_bar | XKB_5 | XKB_bracketright | XKB_braceright
  | XKB_6 | XKB_grave | XKB_asciitilde | XKB_7 | XKB_slash | XKB_question
  | XKB_8 | XKB_BackSpace | XKB_Tab | XKB_KP_Tab | XKB_ISO_Left_Tab
  | XKB_Linefeed | XKB_Clear | XKB_Pause | XKB_Scroll_Lock | XKB_Sys_Req
  | XKB_Escape | XKB_KP_Enter | XKB_Return | XKB_Find | XKB_Insert
  | XKB_Delete | XKB_Select | XKB_Page_Up | XKB_KP_Page_Up
  | XKB_KP_Page_Down | XKB_Page_Down | XKB_Up | XKB_KP_Up | XKB_Down
  | XKB_KP_Down | XKB_Right | XKB_KP_Right | XKB_Left | XKB_KP_Left
  | XKB_KP_Insert | XKB_KP_0 | XKB_KP_1 | XKB_KP_2 | XKB_KP_3 | XKB_KP_4
  | XKB_KP_5 | XKB_KP_6 | XKB_KP_7 | XKB_KP_8 | XKB_KP_9 | XKB_KP_Subtract
  | XKB_KP_Separator | XKB_KP_Delete | XKB_KP_Decimal | XKB_KP_Equal
  | XKB_KP_Divide | XKB_KP_Multiply | XKB_KP_Add | XKB_Home | XKB_KP_Home
  | XKB_End | XKB_KP_End | XKB_KP_Space | XKB_F1 | XKB_KP_F1 | XKB_F2
  | XKB_KP_F2 | XKB_F3 | XKB_KP_F3 | XKB_F4 | XKB_KP_F4 | XKB_F5 | XKB_F6
  | XKB_F7 | XKB_F8 | XKB_F9 | XKB_F10 | XKB_F11 | XKB_F12 | XKB_F13
  | XKB_F14 | XKB_F15 | XKB_F16 | XKB_F17 | XKB_F18 | XKB_F19 | XKB_F20.

(** The keysym header and the modifier masks of libtsm.h *)
Class Keysyms : Type := {
  XKB_KEY : xkb_key -> Z;
  XKB_KEY_NoSymbol : Z;
  TSM_SHIFT_MASK : Z;
  TSM_CONTROL_MASK : Z;
  TSM_ALT_MASK : Z;
  TSM_VTE_INVALID : Z
}.

(** ** The VTE object *)

(** What the user callbacks were called with, oldest first: the model's
    record of [write_cb], [bell_cb] and [osc_cb] invocations. *)
Inductive cb_event : Set :=
  | CB_WRITE (u8 : list Z)
  | CB_BELL
  | CB_OSC (arg : list Z) (len : Z).

Record vte_saved_state : Set := Build_vte_saved_state {
  saved_cursor_x : Z;
  saved_cursor_y : Z;
  saved_cattr : tsm_screen_attr;
  saved_gl : option gslot;
  saved_gr : option gslot;
  saved_wrap_mode : bool;
  saved_origin_mode : bool
}.

Definition set_saved_cursor_x (x : Z) (v : vte_saved_state) : vte_saved_state :=
  Build_vte_saved_state x (saved_cursor_y v) (saved_cattr v) (saved_gl v)
    (saved_gr v) (saved_wrap_mode v) (saved_origin_mode v).

Definition set_saved_cursor_y (x : Z) (v : vte_saved_state) : vte_saved_state :=
  Build_vte_saved_state (saved_cursor_x v) x (saved_cattr v) (saved_gl v)
    (saved_gr v) (saved_wrap_mode v) (saved_origin_mode v).

Definition set_saved_cattr (x : tsm_screen_attr) (v : vte_saved_state) : vte_saved_state :=
  Build_vte_saved_state (saved_cursor_x v) (saved_cursor_y v) x (saved_gl v)
    (saved_gr v) (saved_wrap_mode v) (saved_origin_mode v).

Definition set_saved_gl (x : option gslot) (v : vte_saved_state) : vte_saved_state :=
  Build_vte_saved_state (saved_cursor_x v) (saved_cursor_y v)
    (saved_cattr v) x (saved_gr v) (saved_wrap_mode v) (saved_origin_mode v).

Definition set_saved_gr (x : option gslot) (v : vte_saved_state) : vte_saved_state :=
  Build_vte_saved_state (saved_cursor_x v) (saved_cursor_y v)
    (saved_cattr v) (saved_gl v) x (saved_wrap_mode v) (saved_origin_mode v).

Definition set_saved_wrap_mode (x : bool) (v : vte_saved_state) : vte_saved_state :=
  Build_vte_saved_state (saved_cursor_x v) (saved_cursor_y v)
    (saved_cattr v) (saved_gl v) (saved_gr v) x (saved_origin_mode v).

Definition set_saved_origin_mode (x : bool) (v : vte_saved_state) : vte_saved_state :=
  Build_vte_saved_state (saved_cursor_x v) (saved_cursor_y v)
    (saved_cattr v) (saved_gl v) (saved_gr v) (saved_wrap_mode v) x.


Section Model.

Context {SCR : Screen} {UNI : Unicode} {KEYS : Keysyms} {PLAT : Platform}.

(** [struct tsm_vte].  [con] is the state of the screen the object is bound
    to; [cb_log] records the callback invocations; [bell_cb] and [osc_cb]
    say whether those callbacks are registered.  The fields of the saved
    state carry the prefix [saved_].  Reference count, logger and the
    opaque user pointers are left out: nothing below depends on them. *)
Record tsm_vte : Type := Build_tsm_vte {
  con : tsm_screen;
  cb_log : list cb_event;
  palette_name : option string;
  mach : tsm_utf8_mach;
  parse_cnt : Z;
  state : parser_state;
  csi_argc : Z;
  csi_argv : list Z;
  csi_flags : Z;
  bell_cb : bool;
  osc_cb : bool;
  osc_len : Z;
  osc_arg : list Z;
  custom_palette_storage : option palette_t;
  palette : palette_t;
  def_attr : tsm_screen_attr;
  cattr : tsm_screen_attr;
  flags : Z;
  gl : option gslot;
  gr : option gslot;
  glt : option gslot;
  grt : option gslot;
  g0 : option charset;
  g1 : option charset;
  g2 : option charset;
  g3 : option charset;
  saved_state : vte_saved_state;
  alt_cursor_x : Z;
  alt_cursor_y : Z
}.


Definition set_con (x : tsm_screen) (v : tsm_vte) : tsm_vte :=
  Build_tsm_vte x (cb_log v) (palette_name v) (mach v) (parse_cnt v)
    (state v) (csi_argc v) (csi_argv v) (csi_flags v) (bell_cb v) (osc_cb v)
    (osc_len v) (osc_arg v) (custom_palette_storage v) (palette v)
    (def_attr v) (cattr v) (flags v) (gl v) (gr v) (glt v) (grt v) (g0 v)
    (g1 v) (g2 v) (g3 v) (saved_state v) (alt_cursor_x v) (alt_cursor_y v).

Definition set_cb_log (x : list cb_event) (v : tsm_vte) : tsm_vte :=
  Build_tsm_vte (con v) x (palette_name v) (mach v) (parse_cnt v) (state v)
    (csi_argc v) (csi_argv v) (csi_flags v) (bell_cb v) (osc_cb v)
    (osc_len v) (osc_arg v) (custom_palette_storage v) (palette v)
    (def_attr v) (cattr v) (flags v) (gl v) (gr v) (glt v) (grt v) (g0 v)
    (g1 v) (g2 v) (g3 v) (saved_state v) (alt_cursor_x v) (alt_cursor_y v).

Definition set_palette_name (x : option string) (v : tsm_vte) : tsm_vte :=
  Build_tsm_vte (con v) (cb_log v) x (mach v) (parse_cnt v) (state v)
    (csi_argc v) (csi_argv v) (csi_flags v) (bell_cb v) (osc_cb v)
    (osc_len v) (osc_arg v) (custom_palette_storage v) (palette v)
    (def_attr v) (cattr v) (flags v) (gl v) (gr v) (glt v) (grt v) (g0 v)
    (g1 v) (g2 v) (g3 v) (saved_state v) (alt_cursor_x v) (alt_cursor_y v).

Definition set_mach (x : tsm_utf8_mach) (v : tsm_vte) : tsm_vte :=
  Build_tsm_vte (con v) (cb_log v) (palette_name v) x (parse_cnt v)
    (state v) (csi_argc v) (csi_argv v) (csi_flags v) (bell_cb v) (osc_cb v)
    (osc_len v) (osc_arg v) (custom_palette_storage v) (palette v)
    (def_attr v) (cattr v) (flags v) (gl v) (gr v) (glt v) (grt v) (g0 v)
    (g1 v) (g2 v) (g3 v) (saved_state v) (alt_cursor_x v) (alt_cursor_y v).

Definition set_parse_cnt (x : Z) (v : tsm_vte) : tsm_vte :=
  Build_tsm_vte (con v) (cb_log v) (palette_name v) (mach v) x (state v)
    (csi_argc v) (csi_argv v) (csi_flags v) (bell_cb v) (osc_cb v)
    (osc_len v) (osc_arg v) (custom_palette_storage v) (palette v)
    (def_attr v) (cattr v) (flags v) (gl v) (gr v) (glt v) (grt v) (g0 v)
    (g1 v) (g2 v) (g3 v) (saved_state v) (alt_cursor_x v) (alt_cursor_y v).

Definition set_state (x : parser_state) (v : tsm_vte) : tsm_vte :=
  Build_tsm_vte (con v) (cb_log v) (palette_name v) (mach v) (parse_cnt v) x
    (csi_argc v) (csi_argv v) (csi_flags v) (bell_cb v) (osc_cb v)
    (osc_len v) (osc_arg v) (custom_palette_storage v) (palette v)
    (def_attr v) (cattr v) (flags v) (gl v) (gr v) (glt v) (grt v) (g0 v)
    (g1 v) (g2 v) (g3 v) (saved_state v) (alt_cursor_x v) (alt_cursor_y v).

Definition set_csi_argc (x : Z) (v : tsm_vte) : tsm_vte :=
  Build_tsm_vte (con v) (cb_log v) (palette_name v) (mach v) (parse_cnt v)
    (state v) x (csi_argv v) (csi_flags v) (bell_cb v) (osc_cb v)
    (osc_len v) (osc_arg v) (custom_palette_storage v) (palette v)
    (def_attr v) (cattr v) (flags v) (gl v) (gr v) (glt v) (grt v) (g0 v)
    (g1 v) (g2 v) (g3 v) (saved_state v) (alt_cursor_x v) (alt_cursor_y v).

Definition set_csi_argv (x : list Z) (v : tsm_vte) : tsm_vte :=
  Build_tsm_vte (con v) (cb_log v) (palette_name v) (mach v) (parse_cnt v)
    (state v) (csi_argc v) x (csi_flags v) (bell_cb v) (osc_cb v)
    (osc_len v) (osc_arg v) (custom_palette_storage v) (palette v)
    (def_attr v) (cattr v) (flags v) (gl v) (gr v) (glt v) (grt v) (g0 v)
    (g1 v) (g2 v) (g3 v) (saved_state v) (alt_cursor_x v) (alt_cursor_y v).

Definition set_csi_flags (x : Z) (v : tsm_vte) : tsm_vte :=
  Build_tsm_vte (con v) (cb_log v) (palette_name v) (mach v) (parse_cnt v)
    (state v) (csi_argc v) (csi_argv v) x (bell_cb v) (osc_cb v) (osc_len v)
    (osc_arg v) (custom_palette_storage v) (palette v) (def_attr v)
    (cattr v) (flags v) (gl v) (gr v) (glt v) (grt v) (g0 v) (g1 v) (g2 v)
    (g3 v) (saved_state v) (alt_cursor_x v) (alt_cursor_y v).

Definition set_bell_cb (x : bool) (v : tsm_vte) : tsm_vte :=
  Build_tsm_vte (con v) (cb_log v) (palette_name v) (mach v) (parse_cnt v)
    (state v) (csi_argc v) (csi_argv v) (csi_flags v) x (osc_cb v)
    (osc_len v) (osc_arg v) (custom_palette_storage v) (palette v)
    (def_attr v) (cattr v) (flags v) (gl v) (gr v) (glt v) (grt v) (g0 v)
    (g1 v) (g2 v) (g3 v) (saved_state v) (alt_cursor_x v) (alt_cursor_y v).

Definition set_osc_cb (x : bool) (v : tsm_vte) : tsm_vte :=
  Build_tsm_vte (con v) (cb_log v) (palette_name v) (mach v) (parse_cnt v)
    (state v) (csi_argc v) (csi_argv v) (csi_flags v) (bell_cb v) x
    (osc_len v) (osc_arg v) (custom_palette_storage v) (palette v)
    (def_attr v) (cattr v) (flags v) (gl v) (gr v) (glt v) (grt v) (g0 v)
    (g1 v) (g2 v) (g3 v) (saved_state v) (alt_cursor_x v) (alt_cursor_y v).

Definition set_osc_len (x : Z) (v : tsm_vte) : tsm_vte :=
  Build_tsm_vte (con v) (cb_log v) (palette_name v) (mach v) (parse_cnt v)
    (state v) (csi_argc v) (csi_argv v) (csi_flags v) (bell_cb v) (osc_cb v)
    x (osc_arg v) (custom_palette_storage v) (palette v) (def_attr v)
    (cattr v) (flags v) (gl v) (gr v) (glt v) (grt v) (g0 v) (g1 v) (g2 v)
    (g3 v) (saved_state v) (alt_cursor_x v) (alt_cursor_y v).

Definition set_osc_arg (x : list Z) (v : tsm_vte) : tsm_vte :=
  Build_tsm_vte (con v) (cb_log v) (palette_name v) (mach v) (parse_cnt v)
    (state v) (csi_argc v) (csi_argv v) (csi_flags v) (bell_cb v) (osc_cb v)
    (osc_len v) x (custom_palette_storage v) (palette v) (def_attr v)
    (cattr v) (flags v) (gl v) (gr v) (glt v) (grt v) (g0 v) (g1 v) (g2 v)
    (g3 v) (saved_state v) (alt_cursor_x v) (alt_cursor_y v).

Definition set_custom_palette_storage (x : option palette_t) (v : tsm_vte) : tsm_vte :=
  Build_tsm_vte (con v) (cb_log v) (palette_name v) (mach v) (parse_cnt v)
    (state v) (csi_argc v) (csi_argv v) (csi_flags v) (bell_cb v) (osc_cb v)
    (osc_len v) (osc_arg v) x (palette v) (def_attr v) (cattr v) (flags v)
    (gl v) (gr v) (glt v) (grt v) (g0 v) (g1 v) (g2 v) (g3 v)
    (saved_state v) (alt_cursor_x v) (alt_cursor_y v).

Definition set_palette (x : palette_t) (v : tsm_vte) : tsm_vte :=
  Build_tsm_vte (con v) (cb_log v) (palette_name v) (mach v) (parse_cnt v)
    (state v) (csi_argc v) (csi_argv v) (csi_flags v) (bell_cb v) (osc_cb v)
    (osc_len v) (osc_arg v) (custom_palette_storage v) x (def_attr v)
    (cattr v) (flags v) (gl v) (gr v) (glt v) (grt v) (g0 v) (g1 v) (g2 v)
    (g3 v) (saved_state v) (alt_cursor_x v) (alt_cursor_y v).

Definition set_def_attr (x : tsm_screen_attr) (v : tsm_vte) : tsm_vte :=
  Build_tsm_vte (con v) (cb_log v) (palette_name v) (mach v) (parse_cnt v)
    (state v) (csi_argc v) (csi_argv v) (csi_flags v) (bell_cb v) (osc_cb v)
    (osc_len v) (osc_arg v) (custom_palette_storage v) (palette v) x
    (cattr v) (flags v) (gl v) (gr v) (glt v) (grt v) (g0 v) (g1 v) (g2 v)
    (g3 v) (saved_state v) (alt_cursor_x v) (alt_cursor_y v).

Definition set_cattr (x : tsm_screen_attr) (v : tsm_vte) : tsm_vte :=
  Build_tsm_vte (con v) (cb_log v) (palette_name v) (mach v) (parse_cnt v)
    (state v) (csi_argc v) (csi_argv v) (csi_flags v) (bell_cb v) (osc_cb v)
    (osc_len v) (osc_arg v) (custom_palette_storage v) (palette v)
    (def_attr v) x (flags v) (gl v) (gr v) (glt v) (grt v) (g0 v) (g1 v)
    (g2 v) (g3 v) (saved_state v) (alt_cursor_x v) (alt_cursor_y v).

Definition set_flags (x : Z) (v : tsm_vte) : tsm_vte :=
  Build_tsm_vte (con v) (cb_log v) (palette_name v) (mach v) (parse_cnt v)
    (state v) (csi_argc v) (csi_argv v) (csi_flags v) (bell_cb v) (osc_cb v)
    (osc_len v) (osc_arg v) (custom_palette_storage v) (palette v)
    (def_attr v) (cattr v) x (gl v) (gr v) (glt v) (grt v) (g0 v) (g1 v)
    (g2 v) (g3 v) (saved_state v) (alt_cursor_x v) (alt_cursor_y v).

Definition set_gl (x : option gslot) (v : tsm_vte) : tsm_vte :=
  Build_tsm_vte (con v) (cb_log v) (palette_name v) (mach v) (parse_cnt v)
    (state v) (csi_argc v) (csi_argv v) (csi_flags v) (bell_cb v) (osc_cb v)
    (osc_len v) (osc_arg v) (custom_palette_storage v) (palette v)
    (def_attr v) (cattr v) (flags v) x (gr v) (glt v) (grt v) (g0 v) (g1 v)
    (g2 v) (g3 v) (saved_state v) (alt_cursor_x v) (alt_cursor_y v).

Definition set_gr (x : option gslot) (v : tsm_vte) : tsm_vte :=
  Build_tsm_vte (con v) (cb_log v) (palette_name v) (mach v) (parse_cnt v)
    (state v) (csi_argc v) (csi_argv v) (csi_flags v) (bell_cb v) (osc_cb v)
    (osc_len v) (osc_arg v) (custom_palette_storage v) (palette v)
    (def_attr v) (cattr v) (flags v) (gl v) x (glt v) (grt v) (g0 v) (g1 v)
    (g2 v) (g3 v) (saved_state v) (alt_cursor_x v) (alt_cursor_y v).

Definition set_glt (x : option gslot) (v : tsm_vte) : tsm_vte :=
  Build_tsm_vte (con v) (cb_log v) (palette_name v) (mach v) (parse_cnt v)
    (state v) (csi_argc v) (csi_argv v) (csi_flags v) (bell_cb v) (osc_cb v)
    (osc_len v) (osc_arg v) (custom_palette_storage v) (palette v)
    (def_attr v) (cattr v) (flags v) (gl v) (gr v) x (grt v) (g0 v) (g1 v)
    (g2 v) (g3 v) (saved_state v) (alt_cursor_x v) (alt_cursor_y v).

Definition set_grt (x : option gslot) (v : tsm_vte) : tsm_vte :=
  Build_tsm_vte (con v) (cb_log v) (palette_name v) (mach v) (parse_cnt v)
    (state v) (csi_argc v) (csi_argv v) (csi_flags v) (bell_cb v) (osc_cb v)
    (osc_len v) (osc_arg v) (custom_palette_storage v) (palette v)
    (def_attr v) (cattr v) (flags v) (gl v) (gr v) (glt v) x (g0 v) (g1 v)
    (g2 v) (g3 v) (saved_state v) (alt_cursor_x v) (alt_cursor_y v).

Definition set_g0 (x : option charset) (v : tsm_vte) : tsm_vte :=
  Build_tsm_vte (con v) (cb_log v) (palette_name v) (mach v) (parse_cnt v)
    (state v) (csi_argc v) (csi_argv v) (csi_flags v) (bell_cb v) (osc_cb v)
    (osc_len v) (osc_arg v) (custom_palette_storage v) (palette v)
    (def_attr v) (cattr v) (flags v) (gl v) (gr v) (glt v) (grt v) x (g1 v)
    (g2 v) (g3 v) (saved_state v) (alt_cursor_x v) (alt_cursor_y v).

Definition set_g1 (x : option charset) (v : tsm_vte) : tsm_vte :=
  Build_tsm_vte (con v) (cb_log v) (palette_name v) (mach v) (parse_cnt v)
    (state v) (csi_argc v) (csi_argv v) (csi_flags v) (bell_cb v) (osc_cb v)
    (osc_len v) (osc_arg v) (custom_palette_storage v) (palette v)
    (def_attr v) (cattr v) (flags v) (gl v) (gr v) (glt v) (grt v) (g0 v) x
    (g2 v) (g3 v) (saved_state v) (alt_cursor_x v) (alt_cursor_y v).

Definition set_g2 (x : option charset) (v : tsm_vte) : tsm_vte :=
  Build_tsm_vte (con v) (cb_log v) (palette_name v) (mach v) (parse_cnt v)
    (state v) (csi_argc v) (csi_argv v) (csi_flags v) (bell_cb v) (osc_cb v)
    (osc_len v) (osc_arg v) (custom_palette_storage v) (palette v)
    (def_attr v) (cattr v) (flags v) (gl v) (gr v) (glt v) (grt v) (g0 v)
    (g1 v) x (g3 v) (saved_state v) (alt_cursor_x v) (alt_cursor_y v).

Definition set_g3 (x : option charset) (v : tsm_vte) : tsm_vte :=
  Build_tsm_vte (con v) (cb_log v) (palette_name v) (mach v) (parse_cnt v)
    (state v) (csi_argc v) (csi_argv v) (csi_flags v) (bell_cb v) (osc_cb v)
    (osc_len v) (osc_arg v) (custom_palette_storage v) (palette v)
    (def_attr v) (cattr v) (flags v) (gl v) (gr v) (glt v) (grt v) (g0 v)
    (g1 v) (g2 v) x (saved_state v) (alt_cursor_x v) (alt_cursor_y v).

Definition set_saved_state (x : vte_saved_state) (v : tsm_vte) : tsm_vte :=
  Build_tsm_vte (con v) (cb_log v) (palette_name v) (mach v) (parse_cnt v)
    (state v) (csi_argc v) (csi_argv v) (csi_flags v) (bell_cb v) (osc_cb v)
    (osc_len v) (osc_arg v) (custom_palette_storage v) (palette v)
    (def_attr v) (cattr v) (flags v) (gl v) (gr v) (glt v) (grt v) (g0 v)
    (g1 v) (g2 v) (g3 v) x (alt_cursor_x v) (alt_cursor_y v).

Definition set_alt_cursor_x (x : Z) (v : tsm_vte) : tsm_vte :=
  Build_tsm_vte (con v) (cb_log v) (palette_name v) (mach v) (parse_cnt v)
    (state v) (csi_argc v) (csi_argv v) (csi_flags v) (bell_cb v) (osc_cb v)
    (osc_len v) (osc_arg v) (custom_palette_storage v) (palette v)
    (def_attr v) (cattr v) (flags v) (gl v) (gr v) (glt v) (grt v) (g0 v)
    (g1 v) (g2 v) (g3 v) (saved_state v) x (alt_cursor_y v).

Definition set_alt_cursor_y (x : Z) (v : tsm_vte) : tsm_vte :=
  Build_tsm_vte (con v) (cb_log v) (palette_name v) (mach v) (parse_cnt v)
    (state v) (csi_argc v) (csi_argv v) (csi_flags v) (bell_cb v) (osc_cb v)
    (osc_len v) (osc_arg v) (custom_palette_storage v) (palette v)
    (def_attr v) (cattr v) (flags v) (gl v) (gr v) (glt v) (grt v) (g0 v)
    (g1 v) (g2 v) (g3 v) (saved_state v) (alt_cursor_x v) x.


(** ** Helpers for C idioms *)

(** A character constant: ['A'] is [chr "A"] *)
Definition chr (c : Ascii.ascii) : Z := Z.of_nat (Ascii.nat_of_ascii c).

Arguments chr c%_char.

(** The bytes of a string literal, without the terminating NUL *)
Definition str (s : string) : list Z :=
  map chr (list_ascii_of_string s).

(** [vte->csi_argv[i]]; one past the end the read yields the platform's
    [csi_argv_oob] *)
Definition csi_arg (v : tsm_vte) (i : Z) : Z :=
  default csi_argv_oob (csi_argv v !! Z.to_nat i).

(** [vte->csi_argv[i] = x] *)
Definition set_csi_arg (i x : Z) (v : tsm_vte) : tsm_vte :=
  set_csi_argv (<[Z.to_nat i := x]> (csi_argv v)) v.

(** [vte->write_cb(vte, u8, len, vte->data)] *)
Definition write_cb (v : tsm_vte) (u8 : list Z) : tsm_vte :=
  set_cb_log (cb_log v ++ [CB_WRITE u8]) v.

(** The charset a slot holds: [*slot] *)
Definition gset (v : tsm_vte) (s : gslot) : option charset :=
  match s with
  | GSLOT0 => g0 v
  | GSLOT1 => g1 v
  | GSLOT2 => g2 v
  | GSLOT3 => g3 v
  end.

(** The entry [idx] of the table behind the pointer to a slot [p], two
    dereferences away.  Dereferencing a NULL pointer is undefined in C; the
    model then yields 0 (theorem [charset_pointers_valid] shows that no
    reachable state has a NULL [gl], [gr] or G-set). *)
Definition charset_lookup (v : tsm_vte) (p : option gslot) (idx : Z) : Z :=
  match p with
  | Some s =>
    match gset v s with
    | Some unicode_lower => tsm_vte_unicode_lower idx
    | Some unicode_upper => tsm_vte_unicode_upper idx
    | Some dec_supplemental_graphics => tsm_vte_dec_supplemental_graphics idx
    | Some dec_special_graphics => tsm_vte_dec_special_graphics idx
    | None => 0
    end
  | None => 0
  end.

(** ** Palette selection *)

Definition get_palette (v : tsm_vte) : palette_t :=
  match palette_name v with
  | None => color_palette
  | Some name =>
    match (if String.eqb name "custom" then custom_palette_storage v
           else None) with
    | Some p => p
    | None =>
      if String.eqb name "solarized" then color_palette_solarized
      else if String.eqb name "solarized-black"
      then color_palette_solarized_black
      else if String.eqb name "solarized-white"
      then color_palette_solarized_white
      else if String.eqb name "soft-black" then color_palette_soft_black
      else if String.eqb name "base16-dark" then color_palette_base16_dark
      else if String.eqb name "base16-light" then color_palette_base16_light
      else color_palette
    end
  end.

Definition tsm_vte_set_bell_cb (v : tsm_vte) (cb : bool) : tsm_vte :=
  set_bell_cb cb v.

Definition tsm_vte_set_osc_cb (v : tsm_vte) (cb : bool) : tsm_vte :=
  set_osc_cb cb v.

Definition vte_update_palette (v : tsm_vte) : tsm_vte :=
  let v := set_palette (get_palette v) v in
  let v := set_def_attr (attr_set_fccode TSM_COLOR_FOREGROUND (def_attr v)) v in
  let v := set_def_attr (attr_set_bccode TSM_COLOR_BACKGROUND (def_attr v)) v in
  let v := set_def_attr (to_rgb (palette v) (def_attr v)) v in
  let v := set_cattr (def_attr v) v in
  let v := set_con (tsm_screen_set_def_attr (con v) (def_attr v)) v in
  set_con (tsm_screen_erase_screen (con v) false) v.

(** The allocation of the copy is taken to succeed *)
Definition tsm_vte_set_palette (v : tsm_vte) (name : option string) : tsm_vte :=
  vte_update_palette (set_palette_name name v).

(** The allocation of the copy is taken to succeed *)
Definition tsm_vte_set_custom_palette (v : tsm_vte) (p : option palette_t)
  : tsm_vte :=
  vte_update_palette (set_custom_palette_storage p v).

Definition tsm_vte_get_def_attr (v : tsm_vte) : tsm_screen_attr := def_attr v.

(** ** Console output, saved state, reset *)

(** write to console *)
Definition write_console (v : tsm_vte) (sym : Z) : tsm_vte :=
  let v := set_cattr (to_rgb (palette v) (cattr v)) v in
  set_con (tsm_screen_write (con v) sym (cattr v)) v.

Definition reset_state (v : tsm_vte) : tsm_vte :=
  let s := saved_state v in
  let s := set_saved_cursor_x 0 s in
  let s := set_saved_cursor_y 0 s in
  let s := set_saved_origin_mode false s in
  let s := set_saved_wrap_mode true s in
  let s := set_saved_gl (Some GSLOT0) s in
  let s := set_saved_gr (Some GSLOT1) s in
  let s := set_saved_cattr (copy_fcolor (saved_cattr s) (def_attr v)) s in
  let s := set_saved_cattr (copy_bcolor (saved_cattr s) (def_attr v)) s in
  let s := set_saved_cattr (attr_set_bold false (saved_cattr s)) s in
  let s := set_saved_cattr (attr_set_italic false (saved_cattr s)) s in
  let s := set_saved_cattr (attr_set_underline false (saved_cattr s)) s in
  let s := set_saved_cattr (attr_set_inverse false (saved_cattr s)) s in
  let s := set_saved_cattr (attr_set_protect false (saved_cattr s)) s in
  let s := set_saved_cattr (attr_set_blink false (saved_cattr s)) s in
  set_saved_state s v.

Definition save_state (v : tsm_vte) : tsm_vte :=
  let s := saved_state v in
  let s := set_saved_cursor_x (tsm_screen_get_cursor_x (con v)) s in
  let s := set_saved_cursor_y (tsm_screen_get_cursor_y (con v)) s in
  let s := set_saved_cattr (cattr v) s in
  let s := set_saved_gl (gl v) s in
  let s := set_saved_gr (gr v) s in
  let s := set_saved_wrap_mode (has_flag (flags v) FLAG_AUTO_WRAP_MODE) s in
  let s := set_saved_origin_mode (has_flag (flags v) FLAG_ORIGIN_MODE) s in
  set_saved_state s v.

(** [restore_state], in the three blocks of its body: cursor, attribute
    and charsets; auto-wrap; origin *)
Definition restore_state_attr (v : tsm_vte) : tsm_vte :=
  let v := set_con (tsm_screen_move_to (con v)
                      (saved_cursor_x (saved_state v))
                      (saved_cursor_y (saved_state v))) v in
  let v := set_cattr (saved_cattr (saved_state v)) v in
  let v := set_cattr (to_rgb (palette v) (cattr v)) v in
  let v :=
    if has_flag (flags v) FLAG_BACKGROUND_COLOR_ERASE_MODE
    then set_con (tsm_screen_set_def_attr (con v) (cattr v)) v
    else v in
  let v := set_gl (saved_gl (saved_state v)) v in
  set_gr (saved_gr (saved_state v)) v.

Definition restore_state_wrap (v : tsm_vte) : tsm_vte :=
  if saved_wrap_mode (saved_state v) then
    let v := set_flags (flag_set (flags v) FLAG_AUTO_WRAP_MODE) v in
    set_con (tsm_screen_set_flags (con v) TSM_SCREEN_AUTO_WRAP) v
  else
    let v := set_flags (flag_clear (flags v) FLAG_AUTO_WRAP_MODE) v in
    set_con (tsm_screen_reset_flags (con v) TSM_SCREEN_AUTO_WRAP) v.

Definition restore_state_origin (v : tsm_vte) : tsm_vte :=
  if saved_origin_mode (saved_state v) then
    let v := set_flags (flag_set (flags v) FLAG_ORIGIN_MODE) v in
    set_con (tsm_screen_set_flags (con v) TSM_SCREEN_REL_ORIGIN) v
  else
    let v := set_flags (flag_clear (flags v) FLAG_ORIGIN_MODE) v in
    set_con (tsm_screen_reset_flags (con v) TSM_SCREEN_REL_ORIGIN) v.

Definition restore_state (v : tsm_vte) : tsm_vte :=
  restore_state_origin (restore_state_wrap (restore_state_attr v)).

(** Reset VTE state: the soft reset *)
Definition tsm_vte_reset (v : tsm_vte) : tsm_vte :=
  let v := set_flags 0 v in
  let v := set_flags (flag_set (flags v) FLAG_TEXT_CURSOR_MODE) v in
  let v := set_flags (flag_set (flags v) FLAG_AUTO_REPEAT_MODE) v in
  let v := set_flags (flag_set (flags v) FLAG_SEND_RECEIVE_MODE) v in
  let v := set_flags (flag_set (flags v) FLAG_AUTO_WRAP_MODE) v in
  let v := set_flags (flag_set (flags v) FLAG_BACKGROUND_COLOR_ERASE_MODE) v in
  let v := set_con (tsm_screen_reset (con v)) v in
  let v := set_con (tsm_screen_set_flags (con v) TSM_SCREEN_AUTO_WRAP) v in
  let v := set_mach (tsm_utf8_mach_reset (mach v)) v in
  let v := set_state STATE_GROUND v in
  let v := set_gl (Some GSLOT0) v in
  let v := set_gr (Some GSLOT1) v in
  let v := set_glt None v in
  let v := set_grt None v in
  let v := set_g0 (Some unicode_lower) v in
  let v := set_g1 (Some unicode_upper) v in
  let v := set_g2 (Some unicode_lower) v in
  let v := set_g3 (Some unicode_upper) v in
  let v := set_cattr (def_attr v) v in
  let v := set_cattr (to_rgb (palette v) (cattr v)) v in
  let v := set_con (tsm_screen_set_def_attr (con v) (def_attr v)) v in
  reset_state v.

Definition tsm_vte_hard_reset (v : tsm_vte) : tsm_vte :=
  let v := tsm_vte_reset v in
  let v := set_con (tsm_screen_erase_screen (con v) false) v in
  let v := set_con (tsm_screen_clear_sb (con v)) v in
  set_con (tsm_screen_move_to (con v) 0 0) v.

(** The object [tsm_vte_new] hands out for a screen [c]: zeroed memory,
    the default palette and attribute, a soft reset and a screen erase.
    (The paths that return an error create no object.) *)
Definition tsm_vte_new (c : tsm_screen) : tsm_vte :=
  let v :=
    Build_tsm_vte c [] None tsm_utf8_mach_init 0 STATE_NONE 0
      (replicate 16 0) 0 false false 0 (replicate 128 0) None [] attr_zero
      attr_zero 0 None None None None None None None None
      (Build_vte_saved_state 0 0 attr_zero None None false false) 0 0 in
  let v := set_palette (get_palette v) v in
  let v := set_def_attr (attr_set_fccode TSM_COLOR_FOREGROUND (def_attr v)) v in
  let v := set_def_attr (attr_set_bccode TSM_COLOR_BACKGROUND (def_attr v)) v in
  let v := set_def_attr (to_rgb (palette v) (def_attr v)) v in
  let v := tsm_vte_reset v in
  set_con (tsm_screen_erase_screen (con v) false) v.

(** ** Parameter accumulator *)

Definition do_clear (v : tsm_vte) : tsm_vte :=
  let v := set_csi_argc 0 v in
  let v := set_csi_argv (replicate (Z.to_nat CSI_ARG_MAX) (-1)) v in
  let v := set_csi_flags 0 v in
  let v := set_osc_len 0 v in
  set_osc_arg (replicate (Z.to_nat OSC_MAX_LEN) 0) v.

Definition do_collect (v : tsm_vte) (data : Z) : tsm_vte :=
  if data =? chr "!" then set_csi_flags (flag_set (csi_flags v) CSI_BANG) v
  else if data =? chr "$" then
    set_csi_flags (flag_set (csi_flags v) CSI_CASH) v
  else if data =? chr "?" then
    set_csi_flags (flag_set (csi_flags v) CSI_WHAT) v
  else if data =? chr ">" then set_csi_flags (flag_set (csi_flags v) CSI_GT) v
  else if data =? chr " " then
    set_csi_flags (flag_set (csi_flags v) CSI_SPACE) v
  else if data =? chr "'" then
    set_csi_flags (flag_set (csi_flags v) CSI_SQUOTE) v
  else if data =? 0x22 (* the double quote *) then
    set_csi_flags (flag_set (csi_flags v) CSI_DQUOTE) v
  else if data =? chr "*" then
    set_csi_flags (flag_set (csi_flags v) CSI_MULT) v
  else if data =? chr "+" then
    set_csi_flags (flag_set (csi_flags v) CSI_PLUS) v
  else if data =? chr "(" then
    set_csi_flags (flag_set (csi_flags v) CSI_POPEN) v
  else if data =? chr ")" then
    set_csi_flags (flag_set (csi_flags v) CSI_PCLOSE) v
  else v.

Definition do_param (v : tsm_vte) (data : Z) : tsm_vte :=
  if data =? chr ";" then
    if csi_argc v <? CSI_ARG_MAX then set_csi_argc (csi_argc v + 1) v else v
  else if CSI_ARG_MAX <=? csi_argc v then v
  (* avoid integer overflows; max allowed value is 16384 anyway *)
  else if 0xffff <? csi_arg v (csi_argc v) then v
  else if (chr "0" <=? data) && (data <=? chr "9") then
    let new := csi_arg v (csi_argc v) in
    let new :=
      if new <=? 0 then data - chr "0" else new * 10 + data - chr "0" in
    set_csi_arg (csi_argc v) new v
  else v.

(** [set_charset]: [Some] of the updated object when the C function
    returns true, [None] when it returns false (and changes nothing) *)
Definition set_charset (v : tsm_vte) (set : charset) : option tsm_vte :=
  if has_flag (csi_flags v) CSI_POPEN then Some (set_g0 (Some set) v)
  else if has_flag (csi_flags v) CSI_PCLOSE then Some (set_g1 (Some set) v)
  else if has_flag (csi_flags v) CSI_MULT then Some (set_g2 (Some set) v)
  else if has_flag (csi_flags v) CSI_PLUS then Some (set_g3 (Some set) v)
  else None.

(** ** SGR *)

Definition bval : list Z := [0x00; 0x5f; 0x87; 0xaf; 0xd7; 0xff].

Definition bval_at (i : Z) : Z := default 0 (bval !! Z.to_nat i).

(** The assignment at the end of [case 38: case 48:] *)
Definition sgr_set_color (v : tsm_vte) (val code cr cg cb : Z) : tsm_vte :=
  if val =? 38 then
    set_cattr (attr_set_fb cb (attr_set_fg cg (attr_set_fr cr
      (attr_set_fccode (cast_i8 code) (cattr v))))) v
  else
    set_cattr (attr_set_bb cb (attr_set_bg cg (attr_set_br cr
      (attr_set_bccode (cast_i8 code) (cattr v))))) v.

(** [case 38: case 48:] of the SGR switch; the result carries the loop
    index, which the case advances past the arguments it consumed *)
Definition sgr_extended (v : tsm_vte) (i : Z) : tsm_vte * Z :=
  let val := csi_arg v i in
  if csi_arg v (i + 1) =? 5 then
    (* 256color mode *)
    if (csi_argc v <=? i + 2) || (csi_arg v (i + 2) <? 0) then (v, i)
    else
      let code := csi_arg v (i + 2) in
      if code <? 16 then
        (* no change *)
        (sgr_set_color v val code 0 0 0, i + 2)
      else if code <? 232 then
        let code := code - 16 in
        let cb := bval_at (code mod 6) in
        let code := code / 6 in
        let cg := bval_at (code mod 6) in
        let code := code / 6 in
        let cr := bval_at (code mod 6) in
        let code := UINT_MAX in
        (sgr_set_color v val code cr cg cb, i + 2)
      else
        let code := wrap_u32 ((code - 232) * 10 + 8) in
        let cr := cast_u8 code in
        let cg := cast_u8 code in
        let cb := cast_u8 code in
        let code := UINT_MAX in
        (sgr_set_color v val code cr cg cb, i + 2)
  else if csi_arg v (i + 1) =? 2 then
    (* true color mode *)
    if (csi_argc v <=? i + 4) || (csi_arg v (i + 2) <? 0)
       || (csi_arg v (i + 3) <? 0) || (csi_arg v (i + 4) <? 0)
    then (v, i)
    else
      let cr := cast_u8 (csi_arg v (i + 2)) in
      let cg := cast_u8 (csi_arg v (i + 3)) in
      let cb := cast_u8 (csi_arg v (i + 4)) in
      let code := UINT_MAX in
      (sgr_set_color v val code cr cg cb, i + 4)
  else (v, i).

(** One turn of the body of the SGR loop, for the index [i] *)
Definition sgr_step (v : tsm_vte) (i : Z) : tsm_vte * Z :=
  let a := csi_arg v i in
  if a =? -1 then (v, i)
  else if a =? 0 then
    let c := copy_fcolor (cattr v) (def_attr v) in
    let c := copy_bcolor c (def_attr v) in
    let c := attr_set_bold false c in
    let c := attr_set_italic false c in
    let c := attr_set_underline false c in
    let c := attr_set_inverse false c in
    let c := attr_set_blink false c in
    (set_cattr c v, i)
  else if a =? 1 then
    (set_cattr (attr_set_bold true (cattr v)) v, i)
  else if a =? 3 then
    (set_cattr (attr_set_italic true (cattr v)) v, i)
  else if a =? 4 then
    (set_cattr (attr_set_underline true (cattr v)) v, i)
  else if a =? 5 then
    (set_cattr (attr_set_blink true (cattr v)) v, i)
  else if a =? 7 then
    (set_cattr (attr_set_inverse true (cattr v)) v, i)
  else if a =? 22 then
    (set_cattr (attr_set_bold false (cattr v)) v, i)
  else if a =? 23 then
    (set_cattr (attr_set_italic false (cattr v)) v, i)
  else if a =? 24 then
    (set_cattr (attr_set_underline false (cattr v)) v, i)
  else if a =? 25 then
    (set_cattr (attr_set_blink false (cattr v)) v, i)
  else if a =? 27 then
    (set_cattr (attr_set_inverse false (cattr v)) v, i)
  else if a =? 30 then
    (set_cattr (attr_set_fccode TSM_COLOR_BLACK (cattr v)) v, i)
  else if a =? 31 then
    (set_cattr (attr_set_fccode TSM_COLOR_RED (cattr v)) v, i)
  else if a =? 32 then
    (set_cattr (attr_set_fccode TSM_COLOR_GREEN (cattr v)) v, i)
  else if a =? 33 then
    (set_cattr (attr_set_fccode TSM_COLOR_YELLOW (cattr v)) v, i)
  else if a =? 34 then
    (set_cattr (attr_set_fccode TSM_COLOR_BLUE (cattr v)) v, i)
  else if a =? 35 then
    (set_cattr (attr_set_fccode TSM_COLOR_MAGENTA (cattr v)) v, i)
  else if a =? 36 then
    (set_cattr (attr_set_fccode TSM_COLOR_CYAN (cattr v)) v, i)
  else if a =? 37 then
    (set_cattr (attr_set_fccode TSM_COLOR_LIGHT_GREY (cattr v)) v, i)
  else if a =? 39 then
    (set_cattr (copy_fcolor (cattr v) (def_attr v)) v, i)
  else if a =? 40 then
    (set_cattr (attr_set_bccode TSM_COLOR_BLACK (cattr v)) v, i)
  else if a =? 41 then
    (set_cattr (attr_set_bccode TSM_COLOR_RED (cattr v)) v, i)
  else if a =? 42 then
    (set_cattr (attr_set_bccode TSM_COLOR_GREEN (cattr v)) v, i)
  else if a =? 43 then
    (set_cattr (attr_set_bccode TSM_COLOR_YELLOW (cattr v)) v, i)
  else if a =? 44 then
    (set_cattr (attr_set_bccode TSM_COLOR_BLUE (cattr v)) v, i)
  else if a =? 45 then
    (set_cattr (attr_set_bccode TSM_COLOR_MAGENTA (cattr v)) v, i)
  else if a =? 46 then
    (set_cattr (attr_set_bccode TSM_COLOR_CYAN (cattr v)) v, i)
  else if a =? 47 then
    (set_cattr (attr_set_bccode TSM_COLOR_LIGHT_GREY (cattr v)) v, i)
  else if a =? 49 then
    (set_cattr (copy_bcolor (cattr v) (def_attr v)) v, i)
  else if a =? 90 then
    (set_cattr (attr_set_fccode TSM_COLOR_DARK_GREY (cattr v)) v, i)
  else if a =? 91 then
    (set_cattr (attr_set_fccode TSM_COLOR_LIGHT_RED (cattr v)) v, i)
  else if a =? 92 then
    (set_cattr (attr_set_fccode TSM_COLOR_LIGHT_GREEN (cattr v)) v, i)
  else if a =? 93 then
    (set_cattr (attr_set_fccode TSM_COLOR_LIGHT_YELLOW (cattr v)) v, i)
  else if a =? 94 then
    (set_cattr (attr_set_fccode TSM_COLOR_LIGHT_BLUE (cattr v)) v, i)
  else if a =? 95 then
    (set_cattr (attr_set_fccode TSM_COLOR_LIGHT_MAGENTA (cattr v)) v, i)
  else if a =? 96 then
    (set_cattr (attr_set_fccode TSM_COLOR_LIGHT_CYAN (cattr v)) v, i)
  else if a =? 97 then
    (set_cattr (attr_set_fccode TSM_COLOR_WHITE (cattr v)) v, i)
  else if a =? 100 then
    (set_cattr (attr_set_bccode TSM_COLOR_DARK_GREY (cattr v)) v, i)
  else if a =? 101 then
    (set_cattr (attr_set_bccode TSM_COLOR_LIGHT_RED (cattr v)) v, i)
  else if a =? 102 then
    (set_cattr (attr_set_bccode TSM_COLOR_LIGHT_GREEN (cattr v)) v, i)
  else if a =? 103 then
    (set_cattr (attr_set_bccode TSM_COLOR_LIGHT_YELLOW (cattr v)) v, i)
  else if a =? 104 then
    (set_cattr (attr_set_bccode TSM_COLOR_LIGHT_BLUE (cattr v)) v, i)
  else if a =? 105 then
    (set_cattr (attr_set_bccode TSM_COLOR_LIGHT_MAGENTA (cattr v)) v, i)
  else if a =? 106 then
    (set_cattr (attr_set_bccode TSM_COLOR_LIGHT_CYAN (cattr v)) v, i)
  else if a =? 107 then
    (set_cattr (attr_set_bccode TSM_COLOR_WHITE (cattr v)) v, i)
  else if (a =? 38) || (a =? 48) then sgr_extended v i
  else (v, i).

(** [for (i = 0; i < vte->csi_argc; ++i)]: every turn advances [i], so
    [csi_argc] turns are enough *)
Fixpoint csi_attribute_loop (n : nat) (i : Z) (v : tsm_vte) : tsm_vte :=
  match n with
  | O => v
  | S n' =>
    if i <? csi_argc v then
      csi_attribute_loop n' ((sgr_step v i).2 + 1) (sgr_step v i).1
    else v
  end.

Definition csi_attribute (v : tsm_vte) : tsm_vte :=
  let v :=
    if (csi_argc v <=? 1) && (csi_arg v 0 =? -1)
    then set_csi_arg 0 0 (set_csi_argc 1 v)
    else v in
  let v := csi_attribute_loop (Z.to_nat (csi_argc v)) 0 v in
  let v := set_cattr (to_rgb (palette v) (cattr v)) v in
  if has_flag (flags v) FLAG_BACKGROUND_COLOR_ERASE_MODE
  then set_con (tsm_screen_set_def_attr (con v) (cattr v)) v
  else v.

Definition csi_soft_reset (v : tsm_vte) : tsm_vte := tsm_vte_reset v.

Definition csi_compat_mode (v : tsm_vte) : tsm_vte :=
  (* always perform soft reset *)
  let v := csi_soft_reset v in
  if csi_arg v 0 =? 61 then
    let v := set_flags (flag_set (flags v) FLAG_7BIT_MODE) v in
    let v := set_g0 (Some unicode_lower) v in
    set_g1 (Some dec_supplemental_graphics) v
  else if (csi_arg v 0 =? 62) || (csi_arg v 0 =? 63) || (csi_arg v 0 =? 64)
  then
    let v :=
      if (csi_arg v 1 =? 1) || (csi_arg v 1 =? 2)
      then set_flags (flag_set (flags v) FLAG_USE_C1) v
      else v in
    let v := set_flags (flag_set (flags v) FLAG_8BIT_MODE) v in
    let v := set_g0 (Some unicode_lower) v in
    set_g1 (Some dec_supplemental_graphics) v
  else v.

Definition set_reset_flag (v : tsm_vte) (set : bool) (flag : Z) : tsm_vte :=
  if set then set_flags (flag_set (flags v) flag) v
  else set_flags (flag_clear (flags v) flag) v.

(** [tsm_screen_set_flags] when [set], [tsm_screen_reset_flags] otherwise *)
Definition screen_flag (v : tsm_vte) (set : bool) (flag : Z) : tsm_vte :=
  if set then set_con (tsm_screen_set_flags (con v) flag) v
  else set_con (tsm_screen_reset_flags (con v) flag) v.

(** The body of the loop of [csi_mode], for the argument [a] *)
Definition csi_mode_arg (v : tsm_vte) (set : bool) (a : Z) : tsm_vte :=
  if negb (has_flag (csi_flags v) CSI_WHAT) then
    if a =? -1 then v
    else if a =? 2 then set_reset_flag v set FLAG_KEYBOARD_ACTION_MODE
    else if a =? 4 then
      let v := set_reset_flag v set FLAG_INSERT_REPLACE_MODE in
      screen_flag v set TSM_SCREEN_INSERT_MODE
    else if a =? 12 then set_reset_flag v set FLAG_SEND_RECEIVE_MODE
    else if a =? 20 then set_reset_flag v set FLAG_LINE_FEED_NEW_LINE_MODE
    else v
  else
    if a =? -1 then v
    else if a =? 1 then set_reset_flag v set FLAG_CURSOR_KEY_MODE
    else if a =? 2 then v
    else if a =? 3 then v
    else if a =? 4 then v
    else if a =? 5 then
      let v := set_reset_flag v set FLAG_INVERSE_SCREEN_MODE in
      screen_flag v set TSM_SCREEN_INVERSE
    else if a =? 6 then
      let v := set_reset_flag v set FLAG_ORIGIN_MODE in
      screen_flag v set TSM_SCREEN_REL_ORIGIN
    else if a =? 7 then
      let v := set_reset_flag v set FLAG_AUTO_WRAP_MODE in
      screen_flag v set TSM_SCREEN_AUTO_WRAP
    else if a =? 8 then set_reset_flag v set FLAG_AUTO_REPEAT_MODE
    else if a =? 12 then v
    else if a =? 18 then v
    else if a =? 19 then v
    else if a =? 25 then
      let v := set_reset_flag v set FLAG_TEXT_CURSOR_MODE in
      screen_flag v (negb set) TSM_SCREEN_HIDE_CURSOR
    else if a =? 42 then set_reset_flag v set FLAG_NATIONAL_CHARSET_MODE
    else if a =? 47 then
      if has_flag (flags v) FLAG_TITE_INHIBIT_MODE then v
      else screen_flag v set TSM_SCREEN_ALTERNATE
    else if a =? 1047 then
      if has_flag (flags v) FLAG_TITE_INHIBIT_MODE then v
      else if set then
        set_con (tsm_screen_set_flags (con v) TSM_SCREEN_ALTERNATE) v
      else
        let v := set_con (tsm_screen_erase_screen (con v) false) v in
        set_con (tsm_screen_reset_flags (con v) TSM_SCREEN_ALTERNATE) v
    else if a =? 1048 then
      if has_flag (flags v) FLAG_TITE_INHIBIT_MODE then v
      else if set then
        let v := set_alt_cursor_x (tsm_screen_get_cursor_x (con v)) v in
        set_alt_cursor_y (tsm_screen_get_cursor_y (con v)) v
      else
        set_con (tsm_screen_move_to (con v) (alt_cursor_x v)
                   (alt_cursor_y v)) v
    else if a =? 1049 then
      if has_flag (flags v) FLAG_TITE_INHIBIT_MODE then v
      else if set then
        let v := set_alt_cursor_x (tsm_screen_get_cursor_x (con v)) v in
        let v := set_alt_cursor_y (tsm_screen_get_cursor_y (con v)) v in
        let v :=
          set_con (tsm_screen_set_flags (con v) TSM_SCREEN_ALTERNATE) v in
        set_con (tsm_screen_erase_screen (con v) false) v
      else
        let v :=
          set_con (tsm_screen_reset_flags (con v) TSM_SCREEN_ALTERNATE) v in
        set_con (tsm_screen_move_to (con v) (alt_cursor_x v)
                   (alt_cursor_y v)) v
    else v.

(** [for (i = 0; i < vte->csi_argc; ++i)] with [n] turns left *)
Fixpoint csi_mode_loop (n : nat) (i : Z) (set : bool) (v : tsm_vte)
  : tsm_vte :=
  match n with
  | O => v
  | S n' => csi_mode_loop n' (i + 1) set (csi_mode_arg v set (csi_arg v i))
  end.

Definition csi_mode (v : tsm_vte) (set : bool) : tsm_vte :=
  csi_mode_loop (Z.to_nat (csi_argc v)) 0 set v.

(** ** Charset mapping and OSC collection *)

(** map a character according to current GL and GR maps; the result is
    the object (a single shift is consumed) and the mapped value *)
Definition vte_map (v : tsm_vte) (val : Z) : tsm_vte * Z :=
  (* 32, 127, 160 and 255 map to identity like all values >255 *)
  if in_range 33 126 val then
    match glt v with
    | Some _ => (set_glt None v, charset_lookup v (glt v) (val - 32))
    | None => (v, charset_lookup v (gl v) (val - 32))
    end
  else if in_range 161 254 val then
    match grt v with
    | Some _ => (set_grt None v, charset_lookup v (grt v) (val - 160))
    | None => (v, charset_lookup v (gr v) (val - 160))
    end
  else (v, val).

Definition do_osc_collect (v : tsm_vte) (val : Z) : tsm_vte :=
  let buf := tsm_ucs4_to_utf8 val in
  let len := Z.of_nat (length buf) in
  if OSC_MAX_LEN - 1 <? osc_len v + len then v
  else
    let v :=
      set_osc_arg (list_inserts (Z.to_nat (osc_len v)) buf (osc_arg v)) v in
    set_osc_len (osc_len v + len) v.

Definition do_osc_end (v : tsm_vte) : tsm_vte :=
  if negb (osc_cb v) then v
  else
    let v := set_osc_arg (<[Z.to_nat (osc_len v) := 0]> (osc_arg v)) v in
    set_cb_log (cb_log v ++ [CB_OSC (osc_arg v) (osc_len v)]) v.

(** ** Replies *)

(** [%u] of printf: the decimal digits of [n], most significant first;
    ten digits cover every unsigned int *)
Fixpoint fmt_u_digits (fuel : nat) (n : Z) (acc : list Z) : list Z :=
  match fuel with
  | O => acc
  | S fuel' =>
    let acc := (chr "0" + n mod 10) :: acc in
    if n / 10 =? 0 then acc else fmt_u_digits fuel' (n / 10) acc
  end.

Definition fmt_u (n : Z) : list Z := fmt_u_digits 10 n [].

(** What [csi_dsr] sends for the cursor [(x, y)] through a buffer of
    [size] bytes: [snprintf(buf, size, ESC "[%u;%uR", y + 1, x + 1)]
    returns the length of the whole text, and a text that does not fit
    (with its NUL) is replaced *)
Definition dsr_reply (size x y : Z) : list Z :=
  let text :=
    ESC :: str "[" ++ fmt_u (wrap_u32 (y + 1)) ++ str ";"
        ++ fmt_u (wrap_u32 (x + 1)) ++ str "R" in
  let len := Z.of_nat (length text) in
  if size <=? len then ESC :: str "[0;0R" else text.

Section Echo.

(** The call of [tsm_vte_input] from inside [vte_write_debug]; the knot
    is tied by [tsm_vte_input_fuel] below. *)
Variable tsm_vte_input_rec : tsm_vte -> list Z -> tsm_vte.

(** Write raw byte-stream to pty ([vte_write] and [vte_write_raw]; the
    debug checks of BUILD_ENABLE_DEBUG only log) *)
Definition vte_write_debug (v : tsm_vte) (u8 : list Z) : tsm_vte :=
  (* in local echo mode, directly parse the data again *)
  let v :=
    if (parse_cnt v =? 0)
       && negb (has_flag (flags v) FLAG_SEND_RECEIVE_MODE)
    then
      let v :=
        if has_flag (flags v) FLAG_PREPEND_ESCAPE
        then tsm_vte_input_rec v [ESC]
        else v in
      tsm_vte_input_rec v u8
    else v in
  let v :=
    if has_flag (flags v) FLAG_PREPEND_ESCAPE then write_cb v [ESC] else v in
  let v := write_cb v u8 in
  set_flags (flag_clear (flags v) FLAG_PREPEND_ESCAPE) v.

Definition send_primary_da (v : tsm_vte) : tsm_vte :=
  vte_write_debug v (ESC :: str "[?60;1;6;9;15c").

(** execute control character (C0 or C1) *)
Definition do_execute (v : tsm_vte) (ctrl : Z) : tsm_vte :=
  if ctrl =? 0x00 then v
  else if ctrl =? 0x05 then vte_write_debug v [0x06]
  else if ctrl =? 0x07 then
    if bell_cb v then set_cb_log (cb_log v ++ [CB_BELL]) v else v
  else if ctrl =? 0x08 then set_con (tsm_screen_move_left (con v) 1) v
  else if ctrl =? 0x09 then set_con (tsm_screen_tab_right (con v) 1) v
  else if (ctrl =? 0x0a) || (ctrl =? 0x0b) || (ctrl =? 0x0c) then
    if has_flag (flags v) FLAG_LINE_FEED_NEW_LINE_MODE
    then set_con (tsm_screen_newline (con v)) v
    else set_con (tsm_screen_move_down (con v) 1 true) v
  else if ctrl =? 0x0d then set_con (tsm_screen_move_line_home (con v)) v
  else if ctrl =? 0x0e then set_gl (Some GSLOT1) v
  else if ctrl =? 0x0f then set_gl (Some GSLOT0) v
  else if ctrl =? 0x11 then v
  else if ctrl =? 0x13 then v
  else if ctrl =? 0x18 then v
  else if ctrl =? 0x1a then write_console v 0xbf
  else if ctrl =? 0x1b then v
  else if ctrl =? 0x1f then v
  else if ctrl =? 0x84 then set_con (tsm_screen_move_down (con v) 1 true) v
  else if ctrl =? 0x85 then set_con (tsm_screen_newline (con v)) v
  else if ctrl =? 0x88 then set_con (tsm_screen_set_tabstop (con v)) v
  else if ctrl =? 0x8d then set_con (tsm_screen_move_up (con v) 1 true) v
  else if ctrl =? 0x8e then set_glt (Some GSLOT2) v
  else if ctrl =? 0x8f then set_glt (Some GSLOT3) v
  else if ctrl =? 0x9a then send_primary_da v
  else if ctrl =? 0x9c then v
  else v.

(** The first switch of [do_esc]: [Some] when the case returns, [None]
    when control reaches the code below the switch *)
Definition do_esc_charset (v : tsm_vte) (data : Z) : option tsm_vte :=
  if data =? chr "B" then set_charset v unicode_lower
  else if data =? chr "<" then set_charset v dec_supplemental_graphics
  else if data =? chr "0" then set_charset v dec_special_graphics
  else if data =? chr "A" then set_charset v unicode_upper
  else if data =? chr "4" then set_charset v unicode_upper
  else if (data =? chr "C") || (data =? chr "5") then
    set_charset v unicode_upper
  else if data =? chr "R" then set_charset v unicode_upper
  else if data =? chr "Q" then set_charset v unicode_upper
  else if data =? chr "K" then set_charset v unicode_upper
  else if data =? chr "Y" then set_charset v unicode_upper
  else if (data =? chr "E") || (data =? chr "6") then
    set_charset v unicode_upper
  else if data =? chr "Z" then set_charset v unicode_upper
  else if (data =? chr "H") || (data =? chr "7") then
    set_charset v unicode_upper
  else if data =? chr "=" then set_charset v unicode_upper
  else if data =? chr "F" then
    if has_flag (csi_flags v) CSI_SPACE
    then Some (set_flags (flag_clear (flags v) FLAG_USE_C1) v)
    else None
  else if data =? chr "G" then
    if has_flag (csi_flags v) CSI_SPACE
    then Some (set_flags (flag_set (flags v) FLAG_USE_C1) v)
    else None
  else None.

Definition do_esc (v : tsm_vte) (data : Z) : tsm_vte :=
  match do_esc_charset v data with
  | Some v' => v'
  | None =>
    (* everything below is only valid without CSI flags *)
    if negb (csi_flags v =? 0) then v
    else if data =? chr "D" then
      set_con (tsm_screen_move_down (con v) 1 true) v
    else if data =? chr "E" then set_con (tsm_screen_newline (con v)) v
    else if data =? chr "H" then set_con (tsm_screen_set_tabstop (con v)) v
    else if data =? chr "M" then
      set_con (tsm_screen_move_up (con v) 1 true) v
    else if data =? chr "N" then set_glt (Some GSLOT2) v
    else if data =? chr "O" then set_glt (Some GSLOT3) v
    else if data =? chr "Z" then send_primary_da v
    else if data =? chr "\" then v
    else if data =? chr "~" then set_gr (Some GSLOT1) v
    else if data =? chr "n" then set_gl (Some GSLOT2) v
    else if data =? chr "}" then set_gr (Some GSLOT2) v
    else if data =? chr "o" then set_gl (Some GSLOT3) v
    else if data =? chr "|" then set_gr (Some GSLOT3) v
    else if data =? chr "=" then
      set_flags (flag_set (flags v) FLAG_KEYPAD_APPLICATION_MODE) v
    else if data =? chr ">" then
      set_flags (flag_clear (flags v) FLAG_KEYPAD_APPLICATION_MODE) v
    else if data =? chr "c" then tsm_vte_hard_reset v
    else if data =? chr "7" then save_state v
    else if data =? chr "8" then restore_state v
    else v
  end.

Definition csi_dev_attr (v : tsm_vte) : tsm_vte :=
  if (csi_argc v <=? 1) && (csi_arg v 0 <=? 0) then
    if csi_flags v =? 0 then send_primary_da v
    else if has_flag (csi_flags v) CSI_GT
    then vte_write_debug v (ESC :: str "[>1;1;0c")
    else v
  else v.

Definition csi_dsr (v : tsm_vte) : tsm_vte :=
  if csi_arg v 0 =? 5 then vte_write_debug v (ESC :: str "[0n")
  else if csi_arg v 0 =? 6 then
    let x := tsm_screen_get_cursor_x (con v) in
    let y := tsm_screen_get_cursor_y (con v) in
    vte_write_debug v (dsr_reply 64 x y)
  else v.

(** [num = vte->csi_argv[0]; if (num <= 0) num = 1;] *)
Definition num_or_1 (num : Z) : Z := if num <=? 0 then 1 else num.

Definition do_csi (v : tsm_vte) (data : Z) : tsm_vte :=
  let v :=
    if csi_argc v <? CSI_ARG_MAX then set_csi_argc (csi_argc v + 1) v
    else v in
  if data =? chr "A" then
    let num := num_or_1 (csi_arg v 0) in
    set_con (tsm_screen_move_up (con v) num false) v
  else if data =? chr "B" then
    let num := num_or_1 (csi_arg v 0) in
    set_con (tsm_screen_move_down (con v) num false) v
  else if data =? chr "C" then
    let num := num_or_1 (csi_arg v 0) in
    set_con (tsm_screen_move_right (con v) num) v
  else if data =? chr "D" then
    let num := num_or_1 (csi_arg v 0) in
    set_con (tsm_screen_move_left (con v) num) v
  else if data =? chr "d" then
    let num := num_or_1 (csi_arg v 0) in
    let x := tsm_screen_get_cursor_x (con v) in
    set_con (tsm_screen_move_to (con v) x (num - 1)) v
  else if data =? chr "e" then
    let num := num_or_1 (csi_arg v 0) in
    let x := tsm_screen_get_cursor_x (con v) in
    let y := tsm_screen_get_cursor_y (con v) in
    (* [x] and [y] are [int], the callee takes [unsigned int]: the sum
       arrives modulo 2^32 (past INT_MAX the addition is undefined in C;
       the model wraps there too) *)
    set_con (tsm_screen_move_to (con v) x (wrap_u32 (y + num))) v
  else if (data =? chr "H") || (data =? chr "f") then
    let x := num_or_1 (csi_arg v 0) in
    let y := num_or_1 (csi_arg v 1) in
    set_con (tsm_screen_move_to (con v) (y - 1) (x - 1)) v
  else if data =? chr "G" then
    let num := num_or_1 (csi_arg v 0) in
    let y := tsm_screen_get_cursor_y (con v) in
    set_con (tsm_screen_move_to (con v) (num - 1) y) v
  else if data =? chr "J" then
    let protect := has_flag (csi_flags v) CSI_WHAT in
    if csi_arg v 0 <=? 0 then
      set_con (tsm_screen_erase_cursor_to_screen (con v) protect) v
    else if csi_arg v 0 =? 1 then
      set_con (tsm_screen_erase_screen_to_cursor (con v) protect) v
    else if csi_arg v 0 =? 2 then
      set_con (tsm_screen_erase_screen (con v) protect) v
    else v
  else if data =? chr "K" then
    let protect := has_flag (csi_flags v) CSI_WHAT in
    if csi_arg v 0 <=? 0 then
      set_con (tsm_screen_erase_cursor_to_end (con v) protect) v
    else if csi_arg v 0 =? 1 then
      set_con (tsm_screen_erase_home_to_cursor (con v) protect) v
    else if csi_arg v 0 =? 2 then
      set_con (tsm_screen_erase_current_line (con v) protect) v
    else v
  else if data =? chr "X" then
    let num := num_or_1 (csi_arg v 0) in
    set_con (tsm_screen_erase_chars (con v) num) v
  else if data =? chr "m" then
    if has_flag (csi_flags v) CSI_GT then v else csi_attribute v
  else if data =? chr "p" then
    if has_flag (csi_flags v) CSI_GT then csi_soft_reset v
    else if has_flag (csi_flags v) CSI_BANG then csi_soft_reset v
    else if has_flag (csi_flags v) CSI_CASH then
      if has_flag (csi_flags v) CSI_WHAT then v else csi_soft_reset v
    else csi_compat_mode v
  else if data =? chr "h" then csi_mode v true
  else if data =? chr "l" then csi_mode v false
  else if data =? chr "r" then
    let upper := csi_arg v 0 in
    let upper := if upper <? 0 then 0 else upper in
    let lower := csi_arg v 1 in
    let lower := if lower <? 0 then 0 else lower in
    set_con (tsm_screen_set_margins (con v) upper lower) v
  else if data =? chr "c" then csi_dev_attr v
  else if data =? chr "L" then
    let num := num_or_1 (csi_arg v 0) in
    set_con (tsm_screen_insert_lines (con v) num) v
  else if data =? chr "M" then
    let num := num_or_1 (csi_arg v 0) in
    set_con (tsm_screen_delete_lines (con v) num) v
  else if data =? chr "g" then
    let num := csi_arg v 0 in
    if num <=? 0 then set_con (tsm_screen_reset_tabstop (con v)) v
    else if num =? 3 then set_con (tsm_screen_reset_all_tabstops (con v)) v
    else v
  else if data =? chr "@" then
    let num := num_or_1 (csi_arg v 0) in
    set_con (tsm_screen_insert_chars (con v) num) v
  else if data =? chr "P" then
    let num := num_or_1 (csi_arg v 0) in
    set_con (tsm_screen_delete_chars (con v) num) v
  else if data =? chr "Z" then
    let num := num_or_1 (csi_arg v 0) in
    set_con (tsm_screen_tab_left (con v) num) v
  else if data =? chr "I" then
    let num := num_or_1 (csi_arg v 0) in
    set_con (tsm_screen_tab_right (con v) num) v
  else if data =? chr "n" then csi_dsr v
  else if data =? chr "S" then
    let num := num_or_1 (csi_arg v 0) in
    set_con (tsm_screen_scroll_up (con v) num) v
  else if data =? chr "T" then
    let num := num_or_1 (csi_arg v 0) in
    set_con (tsm_screen_scroll_down (con v) num) v
  else v.

(** perform parser action *)
Definition do_action (v : tsm_vte) (data : Z) (action : parser_action)
  : tsm_vte :=
  match action with
  | ACTION_NONE => v
  | ACTION_IGNORE => v
  | ACTION_PRINT =>
    let sym := tsm_symbol_make (vte_map v data).2 in
    write_console (vte_map v data).1 sym
  | ACTION_EXECUTE => do_execute v data
  | ACTION_CLEAR => do_clear v
  | ACTION_COLLECT => do_collect v data
  | ACTION_PARAM => do_param v data
  | ACTION_ESC_DISPATCH => do_esc v data
  | ACTION_CSI_DISPATCH => do_csi v data
  | ACTION_DCS_START => v
  | ACTION_DCS_COLLECT => v
  | ACTION_DCS_END => v
  | ACTION_OSC_START => do_clear v
  | ACTION_OSC_COLLECT => do_osc_collect v data
  | ACTION_OSC_END => do_osc_end v
  | ACTION_NUM => v
  end.

(** entry actions to be performed when entering the selected state *)
Definition entry_action (s : parser_state) : parser_action :=
  match s with
  | STATE_CSI_ENTRY => ACTION_CLEAR
  | STATE_DCS_ENTRY => ACTION_CLEAR
  | STATE_DCS_PASS => ACTION_DCS_START
  | STATE_ESC => ACTION_CLEAR
  | STATE_OSC_STRING => ACTION_OSC_START
  | _ => ACTION_NONE
  end.

(** exit actions to be performed when leaving the selected state *)
Definition exit_action (s : parser_state) : parser_action :=
  match s with
  | STATE_DCS_PASS => ACTION_DCS_END
  | STATE_OSC_STRING => ACTION_OSC_END
  | _ => ACTION_NONE
  end.

(** perform state transition and dispatch related actions *)
Definition do_trans (v : tsm_vte) (data : Z) (st : parser_state)
  (act : parser_action) : tsm_vte :=
  match st with
  | STATE_NONE => do_action v data act
  | _ =>
    let v := do_action v data (exit_action (state v)) in
    let v := do_action v data act in
    let v := do_action v data (entry_action st) in
    set_state st v
  end.

(** ** Escape sequence parser

    [parse_data] is a switch whose every branch is one call
    [do_trans(vte, raw, state, action)].  The model splits it into the
    choice of the pair (state, action) and the call. *)

(** [case 0x00 ... 0x17: case 0x19: case 0x1c ... 0x1f:] *)
Definition c0_ctrl (raw : Z) : bool :=
  in_range 0x00 0x17 raw || (raw =? 0x19) || in_range 0x1c 0x1f raw.

(** [case 0x30 ... 0x39: case 0x3b:] *)
Definition param_char (raw : Z) : bool :=
  in_range 0x30 0x39 raw || (raw =? 0x3b).

(** events that may occur in any state *)
Definition parse_anywhere (raw : Z) : option (parser_state * parser_action) :=
  if (raw =? 0x18) || (raw =? 0x1a) || in_range 0x80 0x8f raw
     || in_range 0x91 0x97 raw || (raw =? 0x99) || (raw =? 0x9a)
     || (raw =? 0x9c)
  then Some (STATE_GROUND, ACTION_EXECUTE)
  else if raw =? 0x1b then Some (STATE_ESC, ACTION_NONE)
  else if (raw =? 0x98) || (raw =? 0x9e) || (raw =? 0x9f)
  then Some (STATE_ST_IGNORE, ACTION_NONE)
  else if raw =? 0x90 then Some (STATE_DCS_ENTRY, ACTION_NONE)
  else if raw =? 0x9d then Some (STATE_OSC_STRING, ACTION_NONE)
  else if raw =? 0x9b then Some (STATE_CSI_ENTRY, ACTION_NONE)
  else None.

(** events that depend on the current state; [None] where the source
    falls out of the switch and only logs *)
Definition parse_in_state (s : parser_state) (raw : Z)
  : option (parser_state * parser_action) :=
  match s with
  | STATE_GROUND =>
    if c0_ctrl raw || in_range 0x80 0x8f raw || in_range 0x91 0x9a raw
       || (raw =? 0x9c)
    then Some (STATE_NONE, ACTION_EXECUTE)
    else if in_range 0x20 0x7f raw then Some (STATE_NONE, ACTION_PRINT)
    else Some (STATE_NONE, ACTION_PRINT)
  | STATE_ESC =>
    if c0_ctrl raw then Some (STATE_NONE, ACTION_EXECUTE)
    else if raw =? 0x7f then Some (STATE_NONE, ACTION_IGNORE)
    else if in_range 0x20 0x2f raw then Some (STATE_ESC_INT, ACTION_COLLECT)
    else if in_range 0x30 0x4f raw || in_range 0x51 0x57 raw
            || (raw =? 0x59) || (raw =? 0x5a) || (raw =? 0x5c)
            || in_range 0x60 0x7e raw
    then Some (STATE_GROUND, ACTION_ESC_DISPATCH)
    else if raw =? 0x5b then Some (STATE_CSI_ENTRY, ACTION_NONE)
    else if raw =? 0x5d then Some (STATE_OSC_STRING, ACTION_NONE)
    else if raw =? 0x50 then Some (STATE_DCS_ENTRY, ACTION_NONE)
    else if (raw =? 0x58) || (raw =? 0x5e) || (raw =? 0x5f)
    then Some (STATE_ST_IGNORE, ACTION_NONE)
    else Some (STATE_ESC_INT, ACTION_COLLECT)
  | STATE_ESC_INT =>
    if c0_ctrl raw then Some (STATE_NONE, ACTION_EXECUTE)
    else if in_range 0x20 0x2f raw then Some (STATE_NONE, ACTION_COLLECT)
    else if raw =? 0x7f then Some (STATE_NONE, ACTION_IGNORE)
    else if in_range 0x30 0x7e raw
    then Some (STATE_GROUND, ACTION_ESC_DISPATCH)
    else Some (STATE_NONE, ACTION_COLLECT)
  | STATE_CSI_ENTRY =>
    if c0_ctrl raw then Some (STATE_NONE, ACTION_EXECUTE)
    else if raw =? 0x7f then Some (STATE_NONE, ACTION_IGNORE)
    else if in_range 0x20 0x2f raw then Some (STATE_CSI_INT, ACTION_COLLECT)
    else if raw =? 0x3a then Some (STATE_CSI_IGNORE, ACTION_NONE)
    else if param_char raw then Some (STATE_CSI_PARAM, ACTION_PARAM)
    else if in_range 0x3c 0x3f raw
    then Some (STATE_CSI_PARAM, ACTION_COLLECT)
    else if in_range 0x40 0x7e raw
    then Some (STATE_GROUND, ACTION_CSI_DISPATCH)
    else Some (STATE_CSI_IGNORE, ACTION_NONE)
  | STATE_CSI_PARAM =>
    if c0_ctrl raw then Some (STATE_NONE, ACTION_EXECUTE)
    else if param_char raw then Some (STATE_NONE, ACTION_PARAM)
    else if raw =? 0x7f then Some (STATE_NONE, ACTION_IGNORE)
    else if (raw =? 0x3a) || in_range 0x3c 0x3f raw
    then Some (STATE_CSI_IGNORE, ACTION_NONE)
    else if in_range 0x20 0x2f raw then Some (STATE_CSI_INT, ACTION_COLLECT)
    else if in_range 0x40 0x7e raw
    then Some (STATE_GROUND, ACTION_CSI_DISPATCH)
    else Some (STATE_CSI_IGNORE, ACTION_NONE)
  | STATE_CSI_INT =>
    if c0_ctrl raw then Some (STATE_NONE, ACTION_EXECUTE)
    else if in_range 0x20 0x2f raw then Some (STATE_NONE, ACTION_COLLECT)
    else if raw =? 0x7f then Some (STATE_NONE, ACTION_IGNORE)
    else if in_range 0x30 0x3f raw then Some (STATE_CSI_IGNORE, ACTION_NONE)
    else if in_range 0x40 0x7e raw
    then Some (STATE_GROUND, ACTION_CSI_DISPATCH)
    else Some (STATE_CSI_IGNORE, ACTION_NONE)
  | STATE_CSI_IGNORE =>
    if c0_ctrl raw then Some (STATE_NONE, ACTION_EXECUTE)
    else if in_range 0x20 0x3f raw || (raw =? 0x7f)
    then Some (STATE_NONE, ACTION_IGNORE)
    else if in_range 0x40 0x7e raw then Some (STATE_GROUND, ACTION_NONE)
    else Some (STATE_NONE, ACTION_IGNORE)
  | STATE_DCS_ENTRY =>
    if c0_ctrl raw || (raw =? 0x7f) then Some (STATE_NONE, ACTION_IGNORE)
    else if raw =? 0x3a then Some (STATE_DCS_IGNORE, ACTION_NONE)
    else if in_range 0x20 0x2f raw then Some (STATE_DCS_INT, ACTION_COLLECT)
    else if param_char raw then Some (STATE_DCS_PARAM, ACTION_PARAM)
    else if in_range 0x3c 0x3f raw
    then Some (STATE_DCS_PARAM, ACTION_COLLECT)
    else if in_range 0x40 0x7e raw then Some (STATE_DCS_PASS, ACTION_NONE)
    else Some (STATE_DCS_PASS, ACTION_NONE)
  | STATE_DCS_PARAM =>
    if c0_ctrl raw || (raw =? 0x7f) then Some (STATE_NONE, ACTION_IGNORE)
    else if param_char raw then Some (STATE_NONE, ACTION_PARAM)
    else if (raw =? 0x3a) || in_range 0x3c 0x3f raw
    then Some (STATE_DCS_IGNORE, ACTION_NONE)
    else if in_range 0x20 0x2f raw then Some (STATE_DCS_INT, ACTION_COLLECT)
    else if in_range 0x40 0x7e raw then Some (STATE_DCS_PASS, ACTION_NONE)
    else Some (STATE_DCS_PASS, ACTION_NONE)
  | STATE_DCS_INT =>
    if c0_ctrl raw || (raw =? 0x7f) then Some (STATE_NONE, ACTION_IGNORE)
    else if in_range 0x20 0x2f raw then Some (STATE_NONE, ACTION_COLLECT)
    else if in_range 0x30 0x3f raw then Some (STATE_DCS_IGNORE, ACTION_NONE)
    else if in_range 0x40 0x7e raw then Some (STATE_DCS_PASS, ACTION_NONE)
    else Some (STATE_DCS_PASS, ACTION_NONE)
  | STATE_DCS_PASS =>
    if c0_ctrl raw || in_range 0x20 0x7e raw
    then Some (STATE_NONE, ACTION_DCS_COLLECT)
    else if raw =? 0x7f then Some (STATE_NONE, ACTION_IGNORE)
    else if raw =? 0x9c then Some (STATE_GROUND, ACTION_NONE)
    else Some (STATE_NONE, ACTION_DCS_COLLECT)
  | STATE_DCS_IGNORE =>
    if c0_ctrl raw || in_range 0x20 0x7f raw
    then Some (STATE_NONE, ACTION_IGNORE)
    else if raw =? 0x9c then Some (STATE_GROUND, ACTION_NONE)
    else Some (STATE_NONE, ACTION_IGNORE)
  | STATE_OSC_STRING =>
    if in_range 0x00 0x06 raw || in_range 0x08 0x17 raw || (raw =? 0x19)
       || in_range 0x1c 0x1f raw
    then Some (STATE_NONE, ACTION_IGNORE)
    else if in_range 0x20 0x7f raw then Some (STATE_NONE, ACTION_OSC_COLLECT)
    else if (raw =? 0x07) || (raw =? 0x9c)
    then Some (STATE_GROUND, ACTION_NONE)
    else Some (STATE_NONE, ACTION_OSC_COLLECT)
  | STATE_ST_IGNORE =>
    if c0_ctrl raw || in_range 0x20 0x7f raw
    then Some (STATE_NONE, ACTION_IGNORE)
    else if raw =? 0x9c then Some (STATE_GROUND, ACTION_NONE)
    else Some (STATE_NONE, ACTION_IGNORE)
  | STATE_NONE | STATE_NUM => None
  end.

Definition parse_data (v : tsm_vte) (raw : Z) : tsm_vte :=
  match parse_anywhere raw with
  | Some (st, act) => do_trans v raw st act
  | None =>
    match parse_in_state (state v) raw with
    | Some (st, act) => do_trans v raw st act
    | None => v
    end
  end.

(** ** Input *)

(** The conversion of [u8[i]], a plain [char], to [uint32_t]: a negative
    char wraps around.  [c] is the byte in its unsigned view. *)
Definition char_to_u32 (c : Z) : Z :=
  if char_is_signed && (128 <=? c) then wrap_u32 (c - 256) else c.

(** The body of the loop of [tsm_vte_input] for the byte [c] *)
Definition input_byte (v : tsm_vte) (c : Z) : tsm_vte :=
  if has_flag (flags v) FLAG_7BIT_MODE then parse_data v (Z.land c 0x7f)
  else if has_flag (flags v) FLAG_8BIT_MODE then parse_data v (char_to_u32 c)
  else
    let r := tsm_utf8_mach_feed (mach v) c in
    let v := set_mach r.1 v in
    if (r.2 =? TSM_UTF8_ACCEPT) || (r.2 =? TSM_UTF8_REJECT) then
      let ucs4 := tsm_utf8_mach_get (mach v) in
      parse_data v ucs4
    else v.

(** [tsm_vte_input] for a valid object bound to a screen *)
Definition tsm_vte_input_body (v : tsm_vte) (u8 : list Z) : tsm_vte :=
  let v := set_parse_cnt (wrap_u64 (parse_cnt v + 1)) v in
  let v := fold_left input_byte u8 v in
  set_parse_cnt (wrap_u64 (parse_cnt v - 1)) v.

(** ** Keyboard

    The two switches of [tsm_vte_handle_keyboard] are tables: the case
    labels of an arm and what the arm writes.  The labels of a C switch are
    pairwise distinct, so the arm taken is the one that lists the value. *)

(** [ESC "..."] *)
Definition esc (s : string) : list Z := ESC :: str s.

(** The arm of a switch that has the label [sym], if any *)
Definition switch_arm {A : Type} (table : list (list xkb_key * A)) (sym : Z)
  : option A :=
  snd <$> find (fun arm => existsb (fun k => XKB_KEY k =? sym) arm.1) table.

(** [switch (sym)] under [mods & TSM_CONTROL_MASK]: the byte written *)
Definition ctrl_keys : list (list xkb_key * Z) :=
  [
    ([XKB_2; XKB_space], 0x00);
    ([XKB_a; XKB_A], 0x01);
    ([XKB_b; XKB_B], 0x02);
    ([XKB_c; XKB_C], 0x03);
    ([XKB_d; XKB_D], 0x04);
    ([XKB_e; XKB_E], 0x05);
    ([XKB_f; XKB_F], 0x06);
    ([XKB_g; XKB_G], 0x07);
    ([XKB_h; XKB_H], 0x08);
    ([XKB_i; XKB_I], 0x09);
    ([XKB_j; XKB_J], 0x0a);
    ([XKB_k; XKB_K], 0x0b);
    ([XKB_l; XKB_L], 0x0c);
    ([XKB_m; XKB_M], 0x0d);
    ([XKB_n; XKB_N], 0x0e);
    ([XKB_o; XKB_O], 0x0f);
    ([XKB_p; XKB_P], 0x10);
    ([XKB_q; XKB_Q], 0x11);
    ([XKB_r; XKB_R], 0x12);
    ([XKB_s; XKB_S], 0x13);
    ([XKB_t; XKB_T], 0x14);
    ([XKB_u; XKB_U], 0x15);
    ([XKB_v; XKB_V], 0x16);
    ([XKB_w; XKB_W], 0x17);
    ([XKB_x; XKB_X], 0x18);
    ([XKB_y; XKB_Y], 0x19);
    ([XKB_z; XKB_Z], 0x1a);
    ([XKB_3; XKB_bracketleft; XKB_braceleft], 0x1b);
    ([XKB_4; XKB_backslash; XKB_bar], 0x1c);
    ([XKB_5; XKB_bracketright; XKB_braceright], 0x1d);
    ([XKB_6; XKB_grave; XKB_asciitilde], 0x1e);
    ([XKB_7; XKB_slash; XKB_question], 0x1f);
    ([XKB_8], 0x7f)
  ].

(** [case XKB_KEY_Return:] *)
Definition key_return (v : tsm_vte) : list Z :=
  if has_flag (flags v) FLAG_LINE_FEED_NEW_LINE_MODE
  then [0x0d; 0x0a] else [0x0d].

(** A navigation key: with Ctrl, in cursor-key mode, otherwise *)
Definition key_cursor (v : tsm_vte) (mods : Z) (ctrl ckm plain : string)
  : list Z :=
  if has_flag mods TSM_CONTROL_MASK then esc ctrl
  else if has_flag (flags v) FLAG_CURSOR_KEY_MODE then esc ckm
  else esc plain.

(** A keypad key: in application mode, otherwise *)
Definition key_keypad (v : tsm_vte) (app plain : string) : list Z :=
  if has_flag (flags v) FLAG_KEYPAD_APPLICATION_MODE then esc app
  else str plain.

(** A function key: with Shift, otherwise *)
Definition key_shift (mods : Z) (shifted plain : string) : list Z :=
  if has_flag mods TSM_SHIFT_MASK then esc shifted else esc plain.

(** [switch (keysym)]: what the arm writes, given the object and [mods].
    [XKB_KEY_KP_Enter] outside application mode falls through to
    [XKB_KEY_Return]. *)
Definition keysym_keys : list (list xkb_key * (tsm_vte -> Z -> list Z)) :=
  [
    ([XKB_BackSpace],
     fun v mods => [0x08]);
    ([XKB_Tab; XKB_KP_Tab],
     fun v mods => [0x09]);
    ([XKB_ISO_Left_Tab],
     fun v mods => esc "[Z");
    ([XKB_Linefeed],
     fun v mods => [0x0a]);
    ([XKB_Clear],
     fun v mods => [0x0b]);
    ([XKB_Sys_Req],
     fun v mods => [0x15]);
    ([XKB_Escape],
     fun v mods => [0x1b]);
    ([XKB_KP_Enter],
     fun v mods => if has_flag (flags v) FLAG_KEYPAD_APPLICATION_MODE
                   then esc "OM" else key_return v);
    ([XKB_Return],
     fun v mods => key_return v);
    ([XKB_Find],
     fun v mods => esc "[1~");
    ([XKB_Insert],
     fun v mods => esc "[2~");
    ([XKB_Delete],
     fun v mods => esc "[3~");
    ([XKB_Select],
     fun v mods => esc "[4~");
    ([XKB_Page_Up; XKB_KP_Page_Up],
     fun v mods => esc "[5~");
    ([XKB_KP_Page_Down; XKB_Page_Down],
     fun v mods => esc "[6~");
    ([XKB_Up; XKB_KP_Up],
     fun v mods => key_cursor v mods "[1;5A" "OA" "[A");
    ([XKB_Down; XKB_KP_Down],
     fun v mods => key_cursor v mods "[1;5B" "OB" "[B");
    ([XKB_Right; XKB_KP_Right],
     fun v mods => key_cursor v mods "[1;5C" "OC" "[C");
    ([XKB_Left; XKB_KP_Left],
     fun v mods => key_cursor v mods "[1;5D" "OD" "[D");
    ([XKB_KP_Insert; XKB_KP_0],
     fun v mods => key_keypad v "Op" "0");
    ([XKB_KP_1],
     fun v mods => key_keypad v "Oq" "1");
    ([XKB_KP_2],
     fun v mods => key_keypad v "Or" "2");
    ([XKB_KP_3],
     fun v mods => key_keypad v "Os" "3");
    ([XKB_KP_4],
     fun v mods => key_keypad v "Ot" "4");
    ([XKB_KP_5],
     fun v mods => key_keypad v "Ou" "5");
    ([XKB_KP_6],
     fun v mods => key_keypad v "Ov" "6");
    ([XKB_KP_7],
     fun v mods => key_keypad v "Ow" "7");
    ([XKB_KP_8],
     fun v mods => key_keypad v "Ox" "8");
    ([XKB_KP_9],
     fun v mods => key_keypad v "Oy" "9");
    ([XKB_KP_Subtract],
     fun v mods => key_keypad v "Om" "-");
    ([XKB_KP_Separator],
     fun v mods => key_keypad v "Ol" ",");
    ([XKB_KP_Delete; XKB_KP_Decimal],
     fun v mods => key_keypad v "On" ".");
    ([XKB_KP_Equal; XKB_KP_Divide],
     fun v mods => key_keypad v "Oj" "/");
    ([XKB_KP_Multiply],
     fun v mods => key_keypad v "Oo" "*");
    ([XKB_KP_Add],
     fun v mods => key_keypad v "Ok" "+");
    ([XKB_Home; XKB_KP_Home],
     fun v mods => key_cursor v mods "[1;5H" "OH" "[H");
    ([XKB_End; XKB_KP_End],
     fun v mods => key_cursor v mods "[1;5F" "OF" "[F");
    ([XKB_KP_Space],
     fun v mods => str " ");
    ([XKB_F1; XKB_KP_F1],
     fun v mods => key_shift mods "[23~" "OP");
    ([XKB_F2; XKB_KP_F2],
     fun v mods => key_shift mods "[24~" "OQ");
    ([XKB_F3; XKB_KP_F3],
     fun v mods => key_shift mods "[25~" "OR");
    ([XKB_F4; XKB_KP_F4],
     fun v mods => key_shift mods "[26~" "OS");
    ([XKB_F5],
     fun v mods => key_shift mods "[28~" "[15~");
    ([XKB_F6],
     fun v mods => key_shift mods "[29~" "[17~");
    ([XKB_F7],
     fun v mods => key_shift mods "[31~" "[18~");
    ([XKB_F8],
     fun v mods => key_shift mods "[32~" "[19~");
    ([XKB_F9],
     fun v mods => key_shift mods "[33~" "[20~");
    ([XKB_F10],
     fun v mods => key_shift mods "[34~" "[21~");
    ([XKB_F11],
     fun v mods => key_shift mods "[23;2~" "[23~");
    ([XKB_F12],
     fun v mods => key_shift mods "[24;2~" "[24~");
    ([XKB_F13],
     fun v mods => key_shift mods "[25;2~" "[25~");
    ([XKB_F14],
     fun v mods => key_shift mods "[26;2~" "[26~");
    ([XKB_F15],
     fun v mods => key_shift mods "[28;2~" "[28~");
    ([XKB_F16],
     fun v mods => key_shift mods "[29;2~" "[29~");
    ([XKB_F17],
     fun v mods => key_shift mods "[31;2~" "[31~");
    ([XKB_F18],
     fun v mods => key_shift mods "[32;2~" "[32~");
    ([XKB_F19],
     fun v mods => key_shift mods "[33;2~" "[33~");
    ([XKB_F20],
     fun v mods => key_shift mods "[34;2~" "[34~")
  ].

Definition tsm_vte_handle_keyboard (v : tsm_vte)
  (keysym ascii mods unicode : Z) : tsm_vte * bool :=
  let v :=
    if has_flag mods TSM_ALT_MASK
    then set_flags (flag_set (flags v) FLAG_PREPEND_ESCAPE) v
    else v in
  let sym := ascii in
  let sym := if sym =? XKB_KEY_NoSymbol then keysym else sym in
  match (if has_flag mods TSM_CONTROL_MASK then switch_arm ctrl_keys sym
         else None) with
  | Some byte => (vte_write_debug v [byte], true)
  | None =>
    match switch_arm keysym_keys keysym with
    | Some payload => (vte_write_debug v (payload v mods), true)
    | None =>
      if negb (unicode =? TSM_VTE_INVALID) then
        if has_flag (flags v) FLAG_7BIT_MODE then
          let val := cast_u8 unicode in
          let val := if has_flag unicode 0x80 then chr "?" else val in
          (vte_write_debug v [val], true)
        else if has_flag (flags v) FLAG_8BIT_MODE then
          let val := cast_u8 unicode in
          let val := if 0xff <? unicode then chr "?" else val in
          (vte_write_debug v [val], true)
        else
          let u8 := tsm_ucs4_to_utf8 (tsm_symbol_make unicode) in
          (vte_write_debug v u8, true)
      else
        (set_flags (flag_clear (flags v) FLAG_PREPEND_ESCAPE) v, false)
    end
  end.

End Echo.

(** ** Tying the knot

    [vte_write_debug] calls [tsm_vte_input], which reaches
    [vte_write_debug] again.  [tsm_vte_input_fuel n] allows [n] nested
    calls of [tsm_vte_input]; a call beyond that returns at once.  The
    re-entry counter stops the nesting at depth one (theorem
    [tsm_vte_input_fuel_enough]), so one unit of fuel already gives the
    result of the C function. *)
Fixpoint tsm_vte_input_fuel (n : nat) (v : tsm_vte) (u8 : list Z) : tsm_vte :=
  match n with
  | O => v
  | S n' => tsm_vte_input_body (tsm_vte_input_fuel n') v u8
  end.

Definition tsm_vte_input : tsm_vte -> list Z -> tsm_vte :=
  tsm_vte_input_fuel 2.

(** The keyboard entry point, with the writer echoing through
    [tsm_vte_input] *)
Definition handle_keyboard (v : tsm_vte) (keysym ascii mods unicode : Z)
  : tsm_vte * bool :=
  tsm_vte_handle_keyboard tsm_vte_input v keysym ascii mods unicode.

End Model.

(** ** Instances of the collaborators, for the examples

    The theorems below hold for every screen, UTF-8 machine, charset
    table and keysym numbering.  The instances of this part make closed
    examples computable. *)

(** A call received by the recording screen *)
Inductive screen_call : Set :=
  | SC_move_to (x y : Z)
  | SC_move_up (num : Z) (scroll : bool)
  | SC_move_down (num : Z) (scroll : bool)
  | SC_set_margins (top bottom : Z)
  | SC_write (sym : Z) (attr : tsm_screen_attr)
  | SC_set_def_attr (attr : tsm_screen_attr)
  | SC_newline
  | SC_move_line_home
  | SC_set_tabstop
  | SC_reset_tabstop
  | SC_reset_all_tabstops
  | SC_clear_sb
  | SC_reset
  | SC_move_left (n : Z)
  | SC_move_right (n : Z)
  | SC_scroll_up (n : Z)
  | SC_scroll_down (n : Z)
  | SC_tab_left (n : Z)
  | SC_tab_right (n : Z)
  | SC_insert_lines (n : Z)
  | SC_delete_lines (n : Z)
  | SC_insert_chars (n : Z)
  | SC_delete_chars (n : Z)
  | SC_erase_chars (n : Z)
  | SC_set_flags (n : Z)
  | SC_reset_flags (n : Z)
  | SC_erase_cursor_to_end (protect : bool)
  | SC_erase_home_to_cursor (protect : bool)
  | SC_erase_current_line (protect : bool)
  | SC_erase_cursor_to_screen (protect : bool)
  | SC_erase_screen_to_cursor (protect : bool)
  | SC_erase_screen (protect : bool).

(** Modelled from the spec: the SCREEN collaborator, tsm-screen.c, of which
    the spec lists only the interface consumed (move_to(x,y), the
    cursor_x/y getters, and so on).  This is a recording double: it keeps
    the cursor, which [move_to] sets to its arguments, and the list of the
    calls received, oldest first. *)
Record rec_screen : Set := Build_rec_screen {
  rs_cursor_x : Z;
  rs_cursor_y : Z;
  rs_calls : list screen_call
}.

Definition rs_log (s : rec_screen) (c : screen_call) : rec_screen :=
  Build_rec_screen (rs_cursor_x s) (rs_cursor_y s) (rs_calls s ++ [c]).

Definition rs_move_to (s : rec_screen) (x y : Z) : rec_screen :=
  Build_rec_screen x y (rs_calls s ++ [SC_move_to x y]).

Definition recording_screen : Screen := {|
  tsm_screen := rec_screen;
  TSM_SCREEN_INSERT_MODE := 0x01;
  TSM_SCREEN_AUTO_WRAP := 0x02;
  TSM_SCREEN_REL_ORIGIN := 0x04;
  TSM_SCREEN_INVERSE := 0x08;
  TSM_SCREEN_HIDE_CURSOR := 0x10;
  TSM_SCREEN_ALTERNATE := 0x40;
  tsm_screen_get_cursor_x := rs_cursor_x;
  tsm_screen_get_cursor_y := rs_cursor_y;
  tsm_screen_move_to := rs_move_to;
  tsm_screen_move_up := fun s n b => rs_log s (SC_move_up n b);
  tsm_screen_move_down := fun s n b => rs_log s (SC_move_down n b);
  tsm_screen_set_margins := fun s t b => rs_log s (SC_set_margins t b);
  tsm_screen_write := fun s sym a => rs_log s (SC_write sym a);
  tsm_screen_set_def_attr := fun s a => rs_log s (SC_set_def_attr a);
  tsm_screen_newline := fun s => rs_log s SC_newline;
  tsm_screen_move_line_home := fun s => rs_log s SC_move_line_home;
  tsm_screen_set_tabstop := fun s => rs_log s SC_set_tabstop;
  tsm_screen_reset_tabstop := fun s => rs_log s SC_reset_tabstop;
  tsm_screen_reset_all_tabstops := fun s => rs_log s SC_reset_all_tabstops;
  tsm_screen_clear_sb := fun s => rs_log s SC_clear_sb;
  tsm_screen_reset := fun s => rs_log s SC_reset;
  tsm_screen_move_left := fun s n => rs_log s (SC_move_left n);
  tsm_screen_move_right := fun s n => rs_log s (SC_move_right n);
  tsm_screen_scroll_up := fun s n => rs_log s (SC_scroll_up n);
  tsm_screen_scroll_down := fun s n => rs_log s (SC_scroll_down n);
  tsm_screen_tab_left := fun s n => rs_log s (SC_tab_left n);
  tsm_screen_tab_right := fun s n => rs_log s (SC_tab_right n);
  tsm_screen_insert_lines := fun s n => rs_log s (SC_insert_lines n);
  tsm_screen_delete_lines := fun s n => rs_log s (SC_delete_lines n);
  tsm_screen_insert_chars := fun s n => rs_log s (SC_insert_chars n);
  tsm_screen_delete_chars := fun s n => rs_log s (SC_delete_chars n);
  tsm_screen_erase_chars := fun s n => rs_log s (SC_erase_chars n);
  tsm_screen_set_flags := fun s n => rs_log s (SC_set_flags n);
  tsm_screen_reset_flags := fun s n => rs_log s (SC_reset_flags n);
  tsm_screen_erase_cursor_to_end := fun s p => rs_log s (SC_erase_cursor_to_end p);
  tsm_screen_erase_home_to_cursor := fun s p => rs_log s (SC_erase_home_to_cursor p);
  tsm_screen_erase_current_line := fun s p => rs_log s (SC_erase_current_line p);
  tsm_screen_erase_cursor_to_screen := fun s p => rs_log s (SC_erase_cursor_to_screen p);
  tsm_screen_erase_screen_to_cursor := fun s p => rs_log s (SC_erase_screen_to_cursor p);
  tsm_screen_erase_screen := fun s p => rs_log s (SC_erase_screen p)
|}.

(** An empty screen with the cursor at [(x, y)] *)
Definition screen_at (x y : Z) : rec_screen := Build_rec_screen x y [].

(** Modelled from the spec: the UTF-8 decoder of tsm-unicode.c, a machine
    fed one byte at a time that reaches ACCEPT with a complete codepoint
    or REJECT, for which it yields the replacement character U+FFFD. *)
Inductive utf8_state : Set :=
  | UTF8_START | UTF8_ACCEPT | UTF8_REJECT
  | UTF8_EXPECT1 | UTF8_EXPECT2 | UTF8_EXPECT3.

Record utf8_mach : Set := Build_utf8_mach {
  utf8_st : utf8_state;
  utf8_ch : Z
}.

Definition utf8_state_code (s : utf8_state) : Z :=
  match s with
  | UTF8_START => 0
  | UTF8_ACCEPT => 1
  | UTF8_REJECT => 2
  | UTF8_EXPECT1 => 3
  | UTF8_EXPECT2 => 4
  | UTF8_EXPECT3 => 5
  end.

Definition utf8_continue (m : utf8_mach) (c : Z) (shift : Z)
  (next : utf8_state) : utf8_mach :=
  if Z.land c 0xC0 =? 0x80
  then Build_utf8_mach next
         (Z.lor (utf8_ch m) (Z.shiftl (Z.land c 0x3F) shift))
  else Build_utf8_mach UTF8_REJECT (utf8_ch m).

Definition utf8_feed (m : utf8_mach) (c : Z) : utf8_mach :=
  match utf8_st m with
  | UTF8_START | UTF8_ACCEPT | UTF8_REJECT =>
    if (c =? 0xC0) || (c =? 0xC1) then Build_utf8_mach UTF8_REJECT (utf8_ch m)
    else if Z.land c 0x80 =? 0 then Build_utf8_mach UTF8_ACCEPT c
    else if Z.land c 0xC0 =? 0x80 then Build_utf8_mach UTF8_START (utf8_ch m)
    else if Z.land c 0xE0 =? 0xC0
    then Build_utf8_mach UTF8_EXPECT1 (Z.shiftl (Z.land c 0x1F) 6)
    else if Z.land c 0xF0 =? 0xE0
    then Build_utf8_mach UTF8_EXPECT2 (Z.shiftl (Z.land c 0x0F) 12)
    else if Z.land c 0xF8 =? 0xF0
    then Build_utf8_mach UTF8_EXPECT3 (Z.shiftl (Z.land c 0x07) 18)
    else Build_utf8_mach UTF8_REJECT (utf8_ch m)
  | UTF8_EXPECT3 => utf8_continue m c 12 UTF8_EXPECT2
  | UTF8_EXPECT2 => utf8_continue m c 6 UTF8_EXPECT1
  | UTF8_EXPECT1 => utf8_continue m c 0 UTF8_ACCEPT
  end.

Definition utf8_get (m : utf8_mach) : Z :=
  match utf8_st m with
  | UTF8_ACCEPT => utf8_ch m
  | _ => 0xFFFD
  end.

Definition utf8_encode (u : Z) : list Z :=
  if u <? 0x80 then [u]
  else if u <? 0x800 then
    [Z.lor 0xC0 (Z.shiftr u 6); Z.lor 0x80 (Z.land u 0x3F)]
  else if u <? 0x10000 then
    [Z.lor 0xE0 (Z.shiftr u 12);
     Z.lor 0x80 (Z.land (Z.shiftr u 6) 0x3F);
     Z.lor 0x80 (Z.land u 0x3F)]
  else
    [Z.lor 0xF0 (Z.shiftr u 18);
     Z.lor 0x80 (Z.land (Z.shiftr u 12) 0x3F);
     Z.lor 0x80 (Z.land (Z.shiftr u 6) 0x3F);
     Z.lor 0x80 (Z.land u 0x3F)].

(** Modelled from the spec: the static charset tables of
    tsm-vte-charsets.c.  The spec fixes the ASCII/Unicode-lower table as
    the identity on 32..127; Unicode-upper is taken as the identity on
    160..255, and the two DEC tables, whose contents the spec does not
    give, stand in as copies of them. *)
Definition simple_unicode : Unicode := {|
  tsm_utf8_mach := utf8_mach;
  TSM_UTF8_ACCEPT := utf8_state_code UTF8_ACCEPT;
  TSM_UTF8_REJECT := utf8_state_code UTF8_REJECT;
  tsm_utf8_mach_init := Build_utf8_mach UTF8_START 0;
  tsm_utf8_mach_feed := fun m c =>
    (utf8_feed m c, utf8_state_code (utf8_st (utf8_feed m c)));
  tsm_utf8_mach_get := utf8_get;
  tsm_utf8_mach_reset := fun m => Build_utf8_mach UTF8_START (utf8_ch m);
  tsm_ucs4_to_utf8 := utf8_encode;
  tsm_symbol_make := fun u => if 0x7FFFFFFF <? u then 0 else u;
  tsm_vte_unicode_lower := fun i => i + 32;
  tsm_vte_unicode_upper := fun i => i + 160;
  tsm_vte_dec_supplemental_graphics := fun i => i + 160;
  tsm_vte_dec_special_graphics := fun i => i + 32
|}.

(** The numbering of xkbcommon-keysyms.h *)
Definition xkb_value (k : xkb_key) : Z :=
  match k with
  | XKB_2 => 0x32
  | XKB_space => 0x20
  | XKB_a => 0x61
  | XKB_A => 0x41
  | XKB_b => 0x62
  | XKB_B => 0x42
  | XKB_c => 0x63
  | XKB_C => 0x43
  | XKB_d => 0x64
  | XKB_D => 0x44
  | XKB_e => 0x65
  | XKB_E => 0x45
  | XKB_f => 0x66
  | XKB_F => 0x46
  | XKB_g => 0x67
  | XKB_G => 0x47
  | XKB_h => 0x68
  | XKB_H => 0x48
  | XKB_i => 0x69
  | XKB_I => 0x49
  | XKB_j => 0x6a
  | XKB_J => 0x4a
  | XKB_k => 0x6b
  | XKB_K => 0x4b
  | XKB_l => 0x6c
  | XKB_L => 0x4c
  | XKB_m => 0x6d
  | XKB_M => 0x4d
  | XKB_n => 0x6e
  | XKB_N => 0x4e
  | XKB_o => 0x6f
  | XKB_O => 0x4f
  | XKB_p => 0x70
  | XKB_P => 0x50
  | XKB_q => 0x71
  | XKB_Q => 0x51
  | XKB_r => 0x72
  | XKB_R => 0x52
  | XKB_s => 0x73
  | XKB_S => 0x53
  | XKB_t => 0x74
  | XKB_T => 0x54
  | XKB_u => 0x75
  | XKB_U => 0x55
  | XKB_v => 0x76
  | XKB_V => 0x56
  | XKB_w => 0x77
  | XKB_W => 0x57
  | XKB_x => 0x78
  | XKB_X => 0x58
  | XKB_y => 0x79
  | XKB_Y => 0x59
  | XKB_z => 0x7a
  | XKB_Z => 0x5a
  | XKB_3 => 0x33
  | XKB_bracketleft => 0x5b
  | XKB_braceleft => 0x7b
  | XKB_4 => 0x34
  | XKB_backslash => 0x5c
  | XKB_bar => 0x7c
  | XKB_5 => 0x35
  | XKB_bracketright => 0x5d
  | XKB_braceright => 0x7d
  | XKB_6 => 0x36
  | XKB_grave => 0x60
  | XKB_asciitilde => 0x7e
  | XKB_7 => 0x37
  | XKB_slash => 0x2f
  | XKB_question => 0x3f
  | XKB_8 => 0x38
  | XKB_BackSpace => 0xff08
  | XKB_Tab => 0xff09
  | XKB_KP_Tab => 0xff89
  | XKB_ISO_Left_Tab => 0xfe20
  | XKB_Linefeed => 0xff0a
  | XKB_Clear => 0xff0b
  | XKB_Pause => 0xff13
  | XKB_Scroll_Lock => 0xff14
  | XKB_Sys_Req => 0xff15
  | XKB_Escape => 0xff1b
  | XKB_KP_Enter => 0xff8d
  | XKB_Return => 0xff0d
  | XKB_Find => 0xff68
  | XKB_Insert => 0xff63
  | XKB_Delete => 0xffff
  | XKB_Select => 0xff60
  | XKB_Page_Up => 0xff55
  | XKB_KP_Page_Up => 0xff9a
  | XKB_KP_Page_Down => 0xff9b
  | XKB_Page_Down => 0xff56
  | XKB_Up => 0xff52
  | XKB_KP_Up => 0xff97
  | XKB_Down => 0xff54
  | XKB_KP_Down => 0xff99
  | XKB_Right => 0xff53
  | XKB_KP_Right => 0xff98
  | XKB_Left => 0xff51
  | XKB_KP_Left => 0xff96
  | XKB_KP_Insert => 0xff9e
  | XKB_KP_0 => 0xffb0
  | XKB_KP_1 => 0xffb1
  | XKB_KP_2 => 0xffb2
  | XKB_KP_3 => 0xffb3
  | XKB_KP_4 => 0xffb4
  | XKB_KP_5 => 0xffb5
  | XKB_KP_6 => 0xffb6
  | XKB_KP_7 => 0xffb7
  | XKB_KP_8 => 0xffb8
  | XKB_KP_9 => 0xffb9
  | XKB_KP_Subtract => 0xffad
  | XKB_KP_Separator => 0xffac
  | XKB_KP_Delete => 0xff9f
  | XKB_KP_Decimal => 0xffae
  | XKB_KP_Equal => 0xffbd
  | XKB_KP_Divide => 0xffaf
  | XKB_KP_Multiply => 0xffaa
  | XKB_KP_Add => 0xffab
  | XKB_Home => 0xff50
  | XKB_KP_Home => 0xff95
  | XKB_End => 0xff57
  | XKB_KP_End => 0xff9c
  | XKB_KP_Space => 0xff80
  | XKB_F1 => 0xffbe
  | XKB_KP_F1 => 0xff91
  | XKB_F2 => 0xffbf
  | XKB_KP_F2 => 0xff92
  | XKB_F3 => 0xffc0
  | XKB_KP_F3 => 0xff93
  | XKB_F4 => 0xffc1
  | XKB_KP_F4 => 0xff94
  | XKB_F5 => 0xffc2
  | XKB_F6 => 0xffc3
  | XKB_F7 => 0xffc4
  | XKB_F8 => 0xffc5
  | XKB_F9 => 0xffc6
  | XKB_F10 => 0xffc7
  | XKB_F11 => 0xffc8
  | XKB_F12 => 0xffc9
  | XKB_F13 => 0xffca
  | XKB_F14 => 0xffcb
  | XKB_F15 => 0xffcc
  | XKB_F16 => 0xffcd
  | XKB_F17 => 0xffce
  | XKB_F18 => 0xffcf
  | XKB_F19 => 0xffd0
  | XKB_F20 => 0xffd1
  end.

(** The keysym header, with the modifier masks and the invalid-codepoint
    marker of libtsm.h *)
Definition xkb_keysyms : Keysyms := {|
  XKB_KEY := xkb_value;
  XKB_KEY_NoSymbol := 0;
  TSM_SHIFT_MASK := 1;
  TSM_CONTROL_MASK := 4;
  TSM_ALT_MASK := 8;
  TSM_VTE_INVALID := 0xffffffff
|}.

(** A platform with signed [char], and 0 behind [csi_argv] *)
Definition signed_char_platform : Platform := {|
  char_is_signed := true;
  csi_argv_oob := 0
|}.

(** * Properties *)

(** ** Invariants *)

Section Invariants.

Context {SCR : Screen} {UNI : Unicode} {KEYS : Keysyms} {PLAT : Platform}.

(** The largest value a CSI parameter takes: [do_param] accepts a digit
    as long as the value is at most 0xffff *)
Definition CSI_VALUE_MAX : Z := 0xffff * 10 + 9.

(** The CSI parameter vector is within its bounds *)
Definition csi_ok (v : tsm_vte) : Prop :=
  0 <= csi_argc v <= CSI_ARG_MAX
  /\ length (csi_argv v) = Z.to_nat CSI_ARG_MAX
  /\ Forall (fun x => -1 <= x <= CSI_VALUE_MAX) (csi_argv v).

(** No charset pointer that the code dereferences or restores is NULL *)
Definition charsets_ok (v : tsm_vte) : Prop :=
  (is_Some (gl v) /\ is_Some (gr v))
  /\ (is_Some (saved_gl (saved_state v))
      /\ is_Some (saved_gr (saved_state v)))
  /\ (is_Some (g0 v) /\ is_Some (g1 v) /\ is_Some (g2 v) /\ is_Some (g3 v)).

(** The RGB fields of an attribute are those the palette gives for its
    colour codes *)
Definition resolved (p : palette_t) (a : tsm_screen_attr) : Prop :=
  to_rgb p a = a.

(** The palette row [to_rgb] reads for the foreground of an attribute:
    bold makes the first eight colours light, and a code past the table
    selects the default foreground *)
Definition fg_index (a : tsm_screen_attr) : Z :=
  let code := if bold a && (fccode a <? 8) then fccode a + 8 else fccode a in
  if TSM_COLOR_NUM <=? code then TSM_COLOR_FOREGROUND else code.

(** The palette row [to_rgb] reads for the background *)
Definition bg_index (a : tsm_screen_attr) : Z :=
  if TSM_COLOR_NUM <=? bccode a then TSM_COLOR_BACKGROUND else bccode a.

(** The RGB triples of an attribute are those of the palette, for each
    half whose colour code is not negative *)
Definition rgb_matches (p : palette_t) (a : tsm_screen_attr) : Prop :=
  (0 <= fccode a -> (fr a, fg a, fb a) = palette_row p (fg_index a))
  /\ (0 <= bccode a -> (br a, bg a, bb a) = palette_row p (bg_index a)).

(** The default attribute is resolved *)
Definition def_ok (v : tsm_vte) : Prop := resolved (palette v) (def_attr v).

(** The default and the current attribute are resolved *)
Inductive attrs_ok (v : tsm_vte) : Prop :=
  | attrs_ok_intro : def_ok v -> resolved (palette v) (cattr v) -> attrs_ok v.

(** The OSC buffer has its size and the length stays below it, which
    leaves room for the terminating NUL *)
Inductive osc_ok (v : tsm_vte) : Prop :=
  | osc_ok_intro :
      0 <= osc_len v < OSC_MAX_LEN ->
      length (osc_arg v) = Z.to_nat OSC_MAX_LEN ->
      osc_ok v.

(** The characters an OSC string collects: the printable ones, that is
    all but the C0 and C1 controls *)
Definition osc_char (c : Z) : Prop := 0x20 <= c <= 0x7f \/ 0x9f < c.

(** The bytes [do_osc_collect] stores for a string of characters *)
Definition osc_bytes (cs : list Z) : list Z :=
  concat (map tsm_ucs4_to_utf8 cs).

(** [do_csi] first counts the last parameter in *)
Definition csi_count_last (v : tsm_vte) : tsm_vte :=
  if csi_argc v <? CSI_ARG_MAX then set_csi_argc (csi_argc v + 1) v else v.

(** The colour code and the RGB triple of the foreground *)
Definition fg_color (a : tsm_screen_attr) : Z * (Z * Z * Z) :=
  (fccode a, (fr a, fg a, fb a)).

(** The colour code and the RGB triple of the background *)
Definition bg_color (a : tsm_screen_attr) : Z * (Z * Z * Z) :=
  (bccode a, (br a, bg a, bb a)).

(** What SGR 38 (foreground) or SGR 48 (background) sets *)
Definition sgr_target (sel : Z) (a : tsm_screen_attr) : Z * (Z * Z * Z) :=
  if sel =? 38 then fg_color a else bg_color a.

(** The re-entry counter has the value [c] *)
Definition cnt_is (c : Z) (v : tsm_vte) : Prop := parse_cnt v = c.

(** The number a string of decimal digits denotes *)
Definition dec_value (l : list Z) : Z :=
  fold_left (fun a d => a * 10 + (d - chr "0")) l 0.

(** Bytes that a 7-bit client takes *)
Definition seven_bit (l : list Z) : Prop := Forall (fun b => 0 <= b < 128) l.

(** The same, as a test *)
Definition seven_bitb (l : list Z) : bool :=
  forallb (fun b => (0 <=? b) && (b <? 128)) l.

(** Leaving the current state: the exit action of the parser *)
Definition leave_state (v : tsm_vte) : tsm_vte :=
  match state v with
  | STATE_OSC_STRING => do_osc_end v
  | _ => v
  end.

(** The fields that printing a character reads *)
Definition print_view (v : tsm_vte) :=
  (con v, palette v, cattr v, gl v, (g0 v, g1 v, g2 v, g3 v)).

(** The mode flags after a soft reset *)
Definition reset_flags : Z :=
  Z.lor FLAG_TEXT_CURSOR_MODE
    (Z.lor FLAG_AUTO_REPEAT_MODE
       (Z.lor FLAG_SEND_RECEIVE_MODE
          (Z.lor FLAG_AUTO_WRAP_MODE FLAG_BACKGROUND_COLOR_ERASE_MODE))).

(** A decimal digit *)
Definition is_digit (d : Z) : Prop := chr "0" <= d <= chr "9".

(** The text of a CSI parameter list: the parameters, each a string of
    digits, with semicolons between them *)
Fixpoint csi_params_text (dss : list (list Z)) : list Z :=
  match dss with
  | [] => []
  | ds :: rest =>
    match rest with
    | [] => ds
    | _ => ds ++ chr ";" :: csi_params_text rest
    end
  end.

(** The value a parameter written as [ds] denotes: a parameter without
    digits is absent *)
Definition param_value (ds : list Z) : Z :=
  match ds with
  | [] => -1
  | _ => dec_value ds
  end.

(** What [do_param] makes of the value [cur] of a parameter and the
    digits that follow *)
Definition digits_value (cur : Z) (ds : list Z) : Z :=
  fold_left (fun a d => Z.max 0 a * 10 + (d - chr "0")) ds cur.

(** Every digit finds the parameter at most 0xffff, so that [do_param]
    absorbs it *)
Fixpoint digits_absorbed (cur : Z) (ds : list Z) : Prop :=
  match ds with
  | [] => True
  | d :: r =>
    cur <= 0xffff /\ is_digit d
    /\ digits_absorbed (Z.max 0 cur * 10 + (d - chr "0")) r
  end.

(** The states an application can bring the object into through the
    public entry points; the application may also drive the screen
    itself. *)
Inductive reachable : tsm_vte -> Prop :=
  | reach_new c : reachable (tsm_vte_new c)
  | reach_input v u8 : reachable v -> reachable (tsm_vte_input v u8)
  | reach_keyboard v keysym ascii mods unicode :
      reachable v ->
      reachable (handle_keyboard v keysym ascii mods unicode).1
  | reach_reset v : reachable v -> reachable (tsm_vte_reset v)
  | reach_hard_reset v : reachable v -> reachable (tsm_vte_hard_reset v)
  | reach_set_palette v name :
      reachable v -> reachable (tsm_vte_set_palette v name)
  | reach_set_custom_palette v p :
      reachable v -> reachable (tsm_vte_set_custom_palette v p)
  | reach_set_bell_cb v cb :
      reachable v -> reachable (tsm_vte_set_bell_cb v cb)
  | reach_set_osc_cb v cb :
      reachable v -> reachable (tsm_vte_set_osc_cb v cb)
  | reach_screen v c : reachable v -> reachable (set_con c v).

End Invariants.

(** ** Flag words *)

Lemma has_flag_clear_same (w m : Z) : has_flag (flag_clear w m) m = false.
Proof.
  unfold has_flag, flag_clear.
  rewrite <- Z.land_assoc, (Z.land_comm (Z.lnot m)), Z.land_lnot_diag.
  by rewrite Z.land_0_r.
Qed.

Lemma has_flag_set_same (w m : Z) : m <> 0 -> has_flag (flag_set w m) m = true.
Proof.
  intros Hm. unfold has_flag, flag_set.
  replace (Z.land (Z.lor w m) m) with m.
  - by apply negb_true_iff, Z.eqb_neq.
  - apply Z.bits_inj'. intros n _.
    rewrite Z.land_spec, Z.lor_spec. by destruct (Z.testbit w n), (Z.testbit m n).
Qed.

Lemma has_flag_set_other (w m k : Z) :
  Z.land m k = 0 -> has_flag (flag_set w m) k = has_flag w k.
Proof.
  intros Hd. unfold has_flag, flag_set.
  by rewrite Z.land_lor_distr_l, Hd, Z.lor_0_r.
Qed.

Lemma has_flag_clear_other (w m k : Z) :
  Z.land m k = 0 -> has_flag (flag_clear w m) k = has_flag w k.
Proof.
  intros Hd. unfold has_flag, flag_clear. f_equal. f_equal.
  apply Z.bits_inj'. intros n Hn.
  rewrite !Z.land_spec, Z.lnot_spec by done.
  assert (Hb : Z.testbit (Z.land m k) n = false) by (by rewrite Hd, Z.bits_0).
  rewrite Z.land_spec in Hb.
  by destruct (Z.testbit w n), (Z.testbit m n), (Z.testbit k n).
Qed.

Lemma flag_clear_set (w m : Z) : flag_clear (flag_set w m) m = flag_clear w m.
Proof.
  unfold flag_clear, flag_set. apply Z.bits_inj'. intros n Hn.
  rewrite !Z.land_spec, Z.lor_spec, Z.lnot_spec by done.
  by destruct (Z.testbit w n), (Z.testbit m n).
Qed.

(** The updates of a single field *)
Ltac is_setter s :=
  lazymatch s with
  | @set_con _ _ => idtac
  | @set_cb_log _ _ => idtac
  | @set_palette_name _ _ => idtac
  | @set_mach _ _ => idtac
  | @set_parse_cnt _ _ => idtac
  | @set_state _ _ => idtac
  | @set_csi_argc _ _ => idtac
  | @set_csi_argv _ _ => idtac
  | @set_csi_flags _ _ => idtac
  | @set_bell_cb _ _ => idtac
  | @set_osc_cb _ _ => idtac
  | @set_osc_len _ _ => idtac
  | @set_osc_arg _ _ => idtac
  | @set_custom_palette_storage _ _ => idtac
  | @set_palette _ _ => idtac
  | @set_def_attr _ _ => idtac
  | @set_cattr _ _ => idtac
  | @set_flags _ _ => idtac
  | @set_gl _ _ => idtac
  | @set_gr _ _ => idtac
  | @set_glt _ _ => idtac
  | @set_grt _ _ => idtac
  | @set_g0 _ _ => idtac
  | @set_g1 _ _ => idtac
  | @set_g2 _ _ => idtac
  | @set_g3 _ _ => idtac
  | @set_saved_state _ _ => idtac
  | @set_alt_cursor_x _ _ => idtac
  | @set_alt_cursor_y _ _ => idtac
  end.

(** An invariant that does not read the field a setter writes passes
    through the setter: [ext] says which fields the invariant reads.  The
    object under the setter is abstracted first, so that the equations
    are checked on a variable. *)
Ltac peel_setter ext :=
  lazymatch goal with
  | |- ?P (?s ?x ?w) =>
    cut (P w);
    [ generalize w; intros ? ?; eapply ext; [ .. | eassumption ];
      reflexivity
    | ]
  end.


(** Walking a chain of [let]s: the invariant is established for the bound
    object, which is then abstracted before the body is entered. *)
Ltac step_let tac :=
  lazymatch goal with
  | |- ?P (let v := ?a in @?b v) =>
    let H := fresh "H" in
    assert (H : P a);
    [ solve [tac]
    | revert H; generalize a; intros ? H;
      lazymatch goal with
      | |- ?Q (let v := ?w in @?c v) => change (Q (c w)); cbv beta
      end ]
  end.

(** A [let] that binds something else than the object is unfolded *)
Ltac zeta_head :=
  lazymatch goal with
  | |- ?P (let x := ?a in @?b x) =>
    let t := eval cbv beta in (b a) in change (P t)
  end.

Ltac inv_go tac :=
  repeat first [ step_let ltac:(inv_go tac) | zeta_head | case_match ]; tac.

(** The same with an invariant [Q] of the bound object that differs from
    the one of the goal *)
Ltac step_let_with Q tac :=
  lazymatch goal with
  | |- ?P (let v := ?a in @?b v) =>
    let H := fresh "H" in
    assert (H : Q a);
    [ solve [tac]
    | revert H; generalize a; intros ? H;
      lazymatch goal with
      | |- ?R (let v := ?w in @?c v) => change (R (c w)); cbv beta
      end ]
  end.

(** Entering the body of a [let] whose bound object is arbitrary *)
Ltac skip_let :=
  lazymatch goal with
  | |- ?P (let v := ?a in @?b v) =>
    generalize a; intros ?;
    lazymatch goal with
    | |- ?R (let v := ?w in @?c v) => change (R (c w)); cbv beta
    end
  end.

(** Comparisons of integers that the hypotheses decide *)
Ltac bool_lia :=
  repeat match goal with
  | |- context [Z.eqb ?a ?b] => destruct (Z.eqb_spec a b); try lia
  | |- context [Z.leb ?a ?b] => destruct (Z.leb_spec a b); try lia
  | |- context [Z.ltb ?a ?b] => destruct (Z.ltb_spec a b); try lia
  end.
(** ** The CSI parameter vector stays within its bounds *)

Section CsiBounds.

Context {SCR : Screen} {UNI : Unicode} {KEYS : Keysyms} {PLAT : Platform}.

Lemma csi_ok_ext (v v' : tsm_vte) :
  csi_argc v' = csi_argc v -> csi_argv v' = csi_argv v ->
  csi_ok v -> csi_ok v'.
Proof. unfold csi_ok. intros -> ->. auto. Qed.

Create HintDb csi_db.

#[local] Hint Extern 1 (csi_ok (?s ?x ?w)) =>
  is_setter s; peel_setter csi_ok_ext : csi_db.

Lemma csi_ok_write_console v sym : csi_ok v -> csi_ok (write_console v sym).
Proof. unfold write_console. intros; repeat case_match; eauto 60 with csi_db. Qed.

#[local] Hint Resolve csi_ok_write_console : csi_db.

Lemma csi_ok_reset_state v : csi_ok v -> csi_ok (reset_state v).
Proof. unfold reset_state. intros; repeat case_match; eauto 60 with csi_db. Qed.

#[local] Hint Resolve csi_ok_reset_state : csi_db.

Lemma csi_ok_save_state v : csi_ok v -> csi_ok (save_state v).
Proof. unfold save_state. intros; repeat case_match; eauto 60 with csi_db. Qed.

#[local] Hint Resolve csi_ok_save_state : csi_db.

Lemma csi_ok_restore_state_attr v :
  csi_ok v -> csi_ok (restore_state_attr v).
Proof.
  unfold restore_state_attr. intros; repeat case_match; eauto 60 with csi_db.
Qed.

#[local] Hint Resolve csi_ok_restore_state_attr : csi_db.

Lemma csi_ok_restore_state_wrap v :
  csi_ok v -> csi_ok (restore_state_wrap v).
Proof.
  unfold restore_state_wrap. intros; repeat case_match; eauto 60 with csi_db.
Qed.

#[local] Hint Resolve csi_ok_restore_state_wrap : csi_db.

Lemma csi_ok_restore_state_origin v :
  csi_ok v -> csi_ok (restore_state_origin v).
Proof.
  unfold restore_state_origin. intros; repeat case_match; eauto 60 with csi_db.
Qed.

#[local] Hint Resolve csi_ok_restore_state_origin : csi_db.

Lemma csi_ok_restore_state v : csi_ok v -> csi_ok (restore_state v).
Proof. unfold restore_state. eauto with csi_db. Qed.

#[local] Hint Resolve csi_ok_restore_state : csi_db.

Lemma csi_ok_tsm_vte_reset v : csi_ok v -> csi_ok (tsm_vte_reset v).
Proof. unfold tsm_vte_reset. intros; repeat case_match; eauto 60 with csi_db. Qed.

#[local] Hint Resolve csi_ok_tsm_vte_reset : csi_db.

Lemma csi_ok_tsm_vte_hard_reset v : csi_ok v -> csi_ok (tsm_vte_hard_reset v).
Proof. unfold tsm_vte_hard_reset. intros; repeat case_match; eauto 60 with csi_db. Qed.

#[local] Hint Resolve csi_ok_tsm_vte_hard_reset : csi_db.

Lemma csi_ok_do_collect v data : csi_ok v -> csi_ok (do_collect v data).
Proof. unfold do_collect. intros; repeat case_match; eauto 60 with csi_db. Qed.

#[local] Hint Resolve csi_ok_do_collect : csi_db.

Lemma csi_ok_do_osc_collect v val : csi_ok v -> csi_ok (do_osc_collect v val).
Proof. unfold do_osc_collect. intros; repeat case_match; eauto 60 with csi_db. Qed.

#[local] Hint Resolve csi_ok_do_osc_collect : csi_db.

Lemma csi_ok_do_osc_end v : csi_ok v -> csi_ok (do_osc_end v).
Proof. unfold do_osc_end. intros; repeat case_match; eauto 60 with csi_db. Qed.

#[local] Hint Resolve csi_ok_do_osc_end : csi_db.

Lemma csi_ok_sgr_set_color v val code cr cg cb : csi_ok v -> csi_ok (sgr_set_color v val code cr cg cb).
Proof. unfold sgr_set_color. intros; repeat case_match; eauto 60 with csi_db. Qed.

#[local] Hint Resolve csi_ok_sgr_set_color : csi_db.

Lemma csi_ok_set_reset_flag v set flag : csi_ok v -> csi_ok (set_reset_flag v set flag).
Proof. unfold set_reset_flag. intros; repeat case_match; eauto 60 with csi_db. Qed.

#[local] Hint Resolve csi_ok_set_reset_flag : csi_db.

Lemma csi_ok_screen_flag v set flag : csi_ok v -> csi_ok (screen_flag v set flag).
Proof. unfold screen_flag. intros; repeat case_match; eauto 60 with csi_db. Qed.

#[local] Hint Resolve csi_ok_screen_flag : csi_db.

Lemma csi_ok_csi_mode_arg v set a : csi_ok v -> csi_ok (csi_mode_arg v set a).
Proof. unfold csi_mode_arg. intros; repeat case_match; eauto 60 with csi_db. Qed.

#[local] Hint Resolve csi_ok_csi_mode_arg : csi_db.

Lemma csi_ok_csi_soft_reset v : csi_ok v -> csi_ok (csi_soft_reset v).
Proof. unfold csi_soft_reset. intros; repeat case_match; eauto 60 with csi_db. Qed.

#[local] Hint Resolve csi_ok_csi_soft_reset : csi_db.

Lemma csi_ok_csi_compat_mode v : csi_ok v -> csi_ok (csi_compat_mode v).
Proof. unfold csi_compat_mode. intros; repeat case_match; eauto 60 with csi_db. Qed.

#[local] Hint Resolve csi_ok_csi_compat_mode : csi_db.

Lemma csi_ok_do_clear v : csi_ok (do_clear v).
Proof.
  unfold do_clear, csi_ok. cbn [csi_argc csi_argv set_csi_argv set_csi_argc
    set_csi_flags set_osc_len set_osc_arg].
  split; [done|]. split; [apply length_replicate|].
  apply Forall_replicate. unfold CSI_VALUE_MAX. lia.
Qed.

Lemma csi_ok_bump v :
  csi_ok v ->
  csi_ok (if csi_argc v <? CSI_ARG_MAX then set_csi_argc (csi_argc v + 1) v
          else v).
Proof.
  intros H. destruct (csi_argc v <? CSI_ARG_MAX) eqn:E; [|done].
  destruct H as (? & ? & ?). unfold csi_ok. cbn [csi_argc csi_argv set_csi_argc].
  split_and!; [lia | lia | done | done].
Qed.

Lemma csi_ok_set_csi_arg v i x :
  -1 <= x <= CSI_VALUE_MAX -> csi_ok v -> csi_ok (set_csi_arg i x v).
Proof.
  intros ? (? & ? & ?). unfold csi_ok, set_csi_arg.
  cbn [csi_argc csi_argv set_csi_argv].
  split_and!; [lia | lia | by rewrite length_insert | by apply Forall_insert].
Qed.

(** A digit is absorbed only while the value is at most 0xffff, so the
    value never exceeds [CSI_VALUE_MAX] *)
Lemma csi_ok_do_param v data : csi_ok v -> csi_ok (do_param v data).
Proof.
  intros H. unfold do_param.
  destruct (data =? chr ";"); [by apply csi_ok_bump|].
  destruct (CSI_ARG_MAX <=? csi_argc v); [done|].
  destruct (65535 <? csi_arg v (csi_argc v)) eqn:E; [done|].
  destruct ((chr "0" <=? data) && (data <=? chr "9")) eqn:D; [|done].
  apply csi_ok_set_csi_arg; [|done].
  apply andb_true_iff in D as [D1 D2]. change (chr "0") with 48 in *.
  change (chr "9") with 57 in *. unfold CSI_VALUE_MAX.
  destruct (csi_arg v (csi_argc v) <=? 0) eqn:F; lia.
Qed.

#[local] Hint Resolve csi_ok_do_clear csi_ok_do_param : csi_db.

Lemma csi_ok_set_charset v set v' :
  set_charset v set = Some v' -> csi_ok v -> csi_ok v'.
Proof.
  unfold set_charset. intros E H.
  repeat case_match; simplify_eq; eauto 60 with csi_db.
Qed.

Lemma csi_ok_do_esc_charset v data v' :
  do_esc_charset v data = Some v' -> csi_ok v -> csi_ok v'.
Proof.
  unfold do_esc_charset. intros E H.
  repeat case_match; simplify_eq;
    eauto 60 using csi_ok_set_charset with csi_db.
Qed.

Lemma csi_ok_sgr_extended v i : csi_ok v -> csi_ok (sgr_extended v i).1.
Proof.
  unfold sgr_extended. intros.
  repeat case_match; cbn [fst]; eauto 60 with csi_db.
Qed.

Lemma csi_ok_sgr_step v i : csi_ok v -> csi_ok (sgr_step v i).1.
Proof.
  unfold sgr_step. intros.
  repeat case_match; cbn [fst];
    eauto 60 using csi_ok_sgr_extended with csi_db.
Qed.

Lemma csi_ok_csi_attribute_loop n i v :
  csi_ok v -> csi_ok (csi_attribute_loop n i v).
Proof.
  revert i v. induction n as [|n IH]; intros i v H; cbn; [done|].
  case_match; [|done]. by apply IH, csi_ok_sgr_step.
Qed.

Lemma csi_ok_csi_attribute v : csi_ok v -> csi_ok (csi_attribute v).
Proof.
  intros H. unfold csi_attribute.
  assert (H1 : csi_ok (if (csi_argc v <=? 1) && (csi_arg v 0 =? -1)
                       then set_csi_arg 0 0 (set_csi_argc 1 v) else v)).
  { case_match; [|done]. apply csi_ok_set_csi_arg; [unfold CSI_VALUE_MAX; lia|].
    destruct H as (? & ? & ?). unfold csi_ok.
    cbn [csi_argc csi_argv set_csi_argc]. by split_and!. }
  pose proof (csi_ok_csi_attribute_loop
    (Z.to_nat (csi_argc (if (csi_argc v <=? 1) && (csi_arg v 0 =? -1)
                         then set_csi_arg 0 0 (set_csi_argc 1 v) else v)))
    0 _ H1).
  repeat case_match; eauto 60 with csi_db.
Qed.

Lemma csi_ok_csi_mode_loop n i set v :
  csi_ok v -> csi_ok (csi_mode_loop n i set v).
Proof.
  revert i v. induction n as [|n IH]; intros i v H; cbn; [done|].
  by apply IH, csi_ok_csi_mode_arg.
Qed.

Lemma csi_ok_csi_mode v set : csi_ok v -> csi_ok (csi_mode v set).
Proof. apply csi_ok_csi_mode_loop. Qed.

Lemma csi_ok_vte_map v val : csi_ok v -> csi_ok (vte_map v val).1.
Proof.
  unfold vte_map. intros. repeat case_match; cbn [fst]; eauto 60 with csi_db.
Qed.

#[local] Hint Resolve csi_ok_csi_attribute csi_ok_csi_mode csi_ok_vte_map
  csi_ok_bump : csi_db.

Section WithEcho.

Variable echo : tsm_vte -> list Z -> tsm_vte.
Hypothesis echo_ok : forall v u8, csi_ok v -> csi_ok (echo v u8).

#[local] Hint Resolve echo_ok : csi_db.

Lemma csi_ok_vte_write_debug v u8 : csi_ok v -> csi_ok (vte_write_debug echo v u8).
Proof. unfold vte_write_debug, write_cb. intros; repeat case_match; eauto 60 with csi_db. Qed.

#[local] Hint Resolve csi_ok_vte_write_debug : csi_db.

Lemma csi_ok_send_primary_da v : csi_ok v -> csi_ok (send_primary_da echo v).
Proof. unfold send_primary_da. intros; repeat case_match; eauto 60 with csi_db. Qed.

#[local] Hint Resolve csi_ok_send_primary_da : csi_db.

Lemma csi_ok_do_execute v ctrl : csi_ok v -> csi_ok (do_execute echo v ctrl).
Proof. unfold do_execute. intros; repeat case_match; eauto 60 with csi_db. Qed.

#[local] Hint Resolve csi_ok_do_execute : csi_db.

Lemma csi_ok_csi_dev_attr v : csi_ok v -> csi_ok (csi_dev_attr echo v).
Proof. unfold csi_dev_attr. intros; repeat case_match; eauto 60 with csi_db. Qed.

#[local] Hint Resolve csi_ok_csi_dev_attr : csi_db.

Lemma csi_ok_csi_dsr v : csi_ok v -> csi_ok (csi_dsr echo v).
Proof. unfold csi_dsr. intros; repeat case_match; eauto 60 with csi_db. Qed.

#[local] Hint Resolve csi_ok_csi_dsr : csi_db.

Lemma csi_ok_do_esc v data : csi_ok v -> csi_ok (do_esc echo v data).
Proof.
  unfold do_esc. intros.
  destruct (do_esc_charset v data) eqn:E;
    [by eapply csi_ok_do_esc_charset|].
  repeat case_match; eauto 60 with csi_db.
Qed.

Lemma csi_ok_do_csi v data : csi_ok v -> csi_ok (do_csi echo v data).
Proof.
  intros H%csi_ok_bump. unfold do_csi.
  set (v1 := if csi_argc v <? CSI_ARG_MAX then set_csi_argc (csi_argc v + 1) v
             else v) in *.
  clearbody v1. repeat case_match; eauto 60 with csi_db.
Qed.

#[local] Hint Resolve csi_ok_do_esc csi_ok_do_csi : csi_db.

Lemma csi_ok_do_action v data act :
  csi_ok v -> csi_ok (do_action echo v data act).
Proof. intros. destruct act; cbn; eauto 60 with csi_db. Qed.

Lemma csi_ok_do_trans v data st act :
  csi_ok v -> csi_ok (do_trans echo v data st act).
Proof.
  intros. unfold do_trans.
  destruct st; eauto 60 using csi_ok_do_action with csi_db.
Qed.

Lemma csi_ok_parse_data v raw : csi_ok v -> csi_ok (parse_data echo v raw).
Proof.
  intros. unfold parse_data.
  repeat case_match; eauto using csi_ok_do_trans.
Qed.

Lemma csi_ok_input_byte v c : csi_ok v -> csi_ok (input_byte echo v c).
Proof.
  intros. unfold input_byte.
  repeat case_match; eauto 10 using csi_ok_parse_data with csi_db.
Qed.

Lemma csi_ok_input_bytes u8 v :
  csi_ok v -> csi_ok (fold_left (input_byte echo) u8 v).
Proof.
  revert v. induction u8 as [|c u8 IH]; intros v H; cbn; [done|].
  by apply IH, csi_ok_input_byte.
Qed.

Lemma csi_ok_tsm_vte_input_body v u8 :
  csi_ok v -> csi_ok (tsm_vte_input_body echo v u8).
Proof.
  intros. unfold tsm_vte_input_body.
  eauto 10 using csi_ok_input_bytes with csi_db.
Qed.

Lemma csi_ok_tsm_vte_handle_keyboard v keysym ascii mods unicode :
  csi_ok v ->
  csi_ok (tsm_vte_handle_keyboard echo v keysym ascii mods unicode).1.
Proof.
  intros. unfold tsm_vte_handle_keyboard.
  repeat case_match; cbn [fst]; eauto 10 with csi_db.
Qed.

End WithEcho.

Lemma csi_ok_tsm_vte_input_fuel n v u8 :
  csi_ok v -> csi_ok (tsm_vte_input_fuel n v u8).
Proof.
  revert v u8. induction n as [|n IH]; intros v u8 H; cbn; [done|].
  by apply csi_ok_tsm_vte_input_body.
Qed.

Lemma csi_ok_vte_update_palette v : csi_ok v -> csi_ok (vte_update_palette v).
Proof. unfold vte_update_palette. intros. eauto 20 with csi_db. Qed.

Lemma csi_ok_tsm_vte_new c : csi_ok (tsm_vte_new c).
Proof.
  unfold tsm_vte_new.
  match goal with
  | |- csi_ok (set_con _ (tsm_vte_reset ?w)) =>
    assert (H : csi_ok w); [|eauto 20 with csi_db]
  end.
  unfold csi_ok. cbn. split_and!; [done | done | done |].
  repeat constructor; unfold CSI_VALUE_MAX; lia.
Qed.

Lemma csi_ok_reachable v : reachable v -> csi_ok v.
Proof.
  induction 1; eauto 20 using csi_ok_tsm_vte_new, csi_ok_tsm_vte_input_fuel,
    csi_ok_tsm_vte_handle_keyboard, csi_ok_vte_update_palette with csi_db.
Qed.

End CsiBounds.

Section CsiBoundsClaim.
Context {SCR : Screen} {UNI : Unicode} {KEYS : Keysyms} {PLAT : Platform}.

(** A digit is absorbed by a parameter whose value is at most 65535 *)
Lemma do_param_digit (v : tsm_vte) (d cur : Z) (k : nat) :
  csi_argc v = Z.of_nat k -> (k < 16)%nat ->
  csi_argv v !! k = Some cur -> cur <= 0xffff -> is_digit d ->
  do_param v d
  = set_csi_argv (<[k := Z.max 0 cur * 10 + (d - chr "0")]> (csi_argv v)) v.
Proof.
  unfold is_digit. change (chr "0") with 48. change (chr "9") with 57.
  intros Hk Hlt Hcur Hle Hd. unfold do_param, set_csi_arg, csi_arg.
  rewrite Hk, Nat2Z.id, Hcur. unfold default, from_option, id.
  change (chr ";") with 59. change (chr "0") with 48.
  change (chr "9") with 57. unfold CSI_ARG_MAX. cbv zeta.
  bool_lia; cbn [andb]; do 2 f_equal; lia.
Qed.

(** C1 (amended).  After any call of [tsm_vte_input] in a state the
    public entry points can reach, [csi_argc] is at most 16 and every
    stored CSI parameter lies in [-1, 655359]: a parameter stops absorbing
    digits once its value exceeds 65535, and one more digit is still
    absorbed at every value up to 65535, so the last digit absorbed can
    take it up to 65535 * 10 + 9. *)
Theorem csi_parameters_bounded (v : tsm_vte) (u8 : list Z) :
  reachable v ->
  let v' := tsm_vte_input v u8 in
  csi_argc v' <= 16
  /\ (forall (j : nat) (x : Z),
        csi_argv v' !! j = Some x -> -1 <= x <= 655359)
  /\ (forall (w : tsm_vte) (data : Z),
        0xffff < csi_arg w (csi_argc w) -> data <> chr ";" ->
        do_param w data = w)
  /\ (forall (w : tsm_vte) (d cur : Z) (k : nat),
        csi_argc w = Z.of_nat k -> (k < 16)%nat ->
        csi_argv w !! k = Some cur -> cur <= 0xffff -> is_digit d ->
        do_param w d
        = set_csi_argv
            (<[k := Z.max 0 cur * 10 + (d - chr "0")]> (csi_argv w)) w).
Proof.
  intros Hr v'.
  destruct (csi_ok_tsm_vte_input_fuel 2 v u8 (csi_ok_reachable v Hr))
    as ([_ Hc] & _ & Hv).
  split_and!.
  - exact Hc.
  - intros j x Hj. eapply Forall_lookup_1 in Hv; [|exact Hj]. exact Hv.
  - intros w data Hw Hd. unfold do_param.
    apply Z.eqb_neq in Hd. rewrite Hd.
    destruct (CSI_ARG_MAX <=? csi_argc w); [done|].
    apply Z.ltb_lt in Hw. by rewrite Hw.
  - intros w d cur k. apply do_param_digit.
Qed.
End CsiBoundsClaim.

(** ** The charset pointers are never NULL *)

Ltac cs_tac := cbv zeta; eauto 30 with cs_db.

Section CharsetPointers.

Context {SCR : Screen} {UNI : Unicode} {KEYS : Keysyms} {PLAT : Platform}.

Lemma charsets_ok_ext (v v' : tsm_vte) :
  gl v' = gl v -> gr v' = gr v -> saved_state v' = saved_state v ->
  g0 v' = g0 v -> g1 v' = g1 v -> g2 v' = g2 v -> g3 v' = g3 v ->
  charsets_ok v -> charsets_ok v'.
Proof. unfold charsets_ok. by intros -> -> -> -> -> -> ->. Qed.

Create HintDb cs_db discriminated.

#[local] Hint Constants Opaque : cs_db.

#[local] Hint Extern 1 (charsets_ok (?s ?x ?w)) =>
  is_setter s; peel_setter charsets_ok_ext : cs_db.

Lemma charsets_ok_set_gl s v : charsets_ok v -> charsets_ok (set_gl (Some s) v).
Proof. unfold charsets_ok. cbn. intuition eauto. Qed.

Lemma charsets_ok_set_gr s v : charsets_ok v -> charsets_ok (set_gr (Some s) v).
Proof. unfold charsets_ok. cbn. intuition eauto. Qed.

Lemma charsets_ok_set_g0 s v : charsets_ok v -> charsets_ok (set_g0 (Some s) v).
Proof. unfold charsets_ok. cbn. intuition eauto. Qed.

Lemma charsets_ok_set_g1 s v : charsets_ok v -> charsets_ok (set_g1 (Some s) v).
Proof. unfold charsets_ok. cbn. intuition eauto. Qed.

Lemma charsets_ok_set_g2 s v : charsets_ok v -> charsets_ok (set_g2 (Some s) v).
Proof. unfold charsets_ok. cbn. intuition eauto. Qed.

Lemma charsets_ok_set_g3 s v : charsets_ok v -> charsets_ok (set_g3 (Some s) v).
Proof. unfold charsets_ok. cbn. intuition eauto. Qed.

(** DECRC loads GL and GR from the saved state, which holds valid
    pointers *)
Lemma charsets_ok_load_gl v :
  charsets_ok v -> charsets_ok (set_gl (saved_gl (saved_state v)) v).
Proof. unfold charsets_ok. cbn. intuition eauto. Qed.

Lemma charsets_ok_load_gr v :
  charsets_ok v -> charsets_ok (set_gr (saved_gr (saved_state v)) v).
Proof. unfold charsets_ok. cbn. intuition eauto. Qed.

#[local] Hint Resolve charsets_ok_set_gl charsets_ok_set_gr
  charsets_ok_set_g0 charsets_ok_set_g1 charsets_ok_set_g2
  charsets_ok_set_g3 charsets_ok_load_gl charsets_ok_load_gr : cs_db.

Lemma charsets_ok_write_console v sym :
  charsets_ok v -> charsets_ok (write_console v sym).
Proof. cbv beta delta [write_console]. intros. inv_go cs_tac. Qed.

#[local] Hint Resolve charsets_ok_write_console : cs_db.

Lemma charsets_ok_reset_state v : charsets_ok v -> charsets_ok (reset_state v).
Proof.
  unfold charsets_ok. intros (? & _ & ?).
  change (saved_gl (saved_state (reset_state v))) with (Some GSLOT0).
  change (saved_gr (saved_state (reset_state v))) with (Some GSLOT1).
  intuition eauto.
Qed.

#[local] Hint Resolve charsets_ok_reset_state : cs_db.

Lemma charsets_ok_save_state v : charsets_ok v -> charsets_ok (save_state v).
Proof.
  unfold charsets_ok. intros (? & _ & ?).
  change (saved_gl (saved_state (save_state v))) with (gl v).
  change (saved_gr (saved_state (save_state v))) with (gr v).
  intuition eauto.
Qed.

#[local] Hint Resolve charsets_ok_save_state : cs_db.

Lemma charsets_ok_restore_state_attr v :
  charsets_ok v -> charsets_ok (restore_state_attr v).
Proof. cbv beta delta [restore_state_attr]. intros. inv_go cs_tac. Qed.

#[local] Hint Resolve charsets_ok_restore_state_attr : cs_db.

Lemma charsets_ok_restore_state_wrap v :
  charsets_ok v -> charsets_ok (restore_state_wrap v).
Proof. cbv beta delta [restore_state_wrap]. intros. inv_go cs_tac. Qed.

#[local] Hint Resolve charsets_ok_restore_state_wrap : cs_db.

Lemma charsets_ok_restore_state_origin v :
  charsets_ok v -> charsets_ok (restore_state_origin v).
Proof. cbv beta delta [restore_state_origin]. intros. inv_go cs_tac. Qed.

#[local] Hint Resolve charsets_ok_restore_state_origin : cs_db.

Lemma charsets_ok_restore_state v : charsets_ok v -> charsets_ok (restore_state v).
Proof. cbv beta delta [restore_state]. intros. inv_go cs_tac. Qed.

#[local] Hint Resolve charsets_ok_restore_state : cs_db.

Lemma charsets_ok_tsm_vte_reset v : charsets_ok v -> charsets_ok (tsm_vte_reset v).
Proof. cbv beta delta [tsm_vte_reset]. intros. inv_go cs_tac. Qed.

#[local] Hint Resolve charsets_ok_tsm_vte_reset : cs_db.

Lemma charsets_ok_tsm_vte_hard_reset v :
  charsets_ok v -> charsets_ok (tsm_vte_hard_reset v).
Proof. cbv beta delta [tsm_vte_hard_reset]. intros. inv_go cs_tac. Qed.

#[local] Hint Resolve charsets_ok_tsm_vte_hard_reset : cs_db.

Lemma charsets_ok_do_clear v : charsets_ok v -> charsets_ok (do_clear v).
Proof. cbv beta delta [do_clear]. intros. inv_go cs_tac. Qed.

#[local] Hint Resolve charsets_ok_do_clear : cs_db.

Lemma charsets_ok_do_collect v data :
  charsets_ok v -> charsets_ok (do_collect v data).
Proof. cbv beta delta [do_collect]. intros. inv_go cs_tac. Qed.

#[local] Hint Resolve charsets_ok_do_collect : cs_db.

Lemma charsets_ok_csi_count_last v :
  charsets_ok v -> charsets_ok (csi_count_last v).
Proof. cbv beta delta [csi_count_last]. intros. inv_go cs_tac. Qed.

#[local] Hint Resolve charsets_ok_csi_count_last : cs_db.

Lemma charsets_ok_do_param v data : charsets_ok v -> charsets_ok (do_param v data).
Proof. cbv beta delta [do_param set_csi_arg]. intros. inv_go cs_tac. Qed.

#[local] Hint Resolve charsets_ok_do_param : cs_db.

Lemma charsets_ok_set_charset v set v' :
  set_charset v set = Some v' -> charsets_ok v -> charsets_ok v'.
Proof.
  unfold set_charset. intros E H. repeat case_match; simplify_eq; cs_tac.
Qed.

#[local] Hint Resolve charsets_ok_set_charset : cs_db.

Lemma charsets_ok_do_esc_charset v data v' :
  do_esc_charset v data = Some v' -> charsets_ok v -> charsets_ok v'.
Proof.
  unfold do_esc_charset. intros E H.
  repeat case_match; simplify_eq; cs_tac.
Qed.

Lemma charsets_ok_sgr_set_color v val code cr cg cb :
  charsets_ok v -> charsets_ok (sgr_set_color v val code cr cg cb).
Proof. cbv beta delta [sgr_set_color]. intros. inv_go cs_tac. Qed.

#[local] Hint Resolve charsets_ok_sgr_set_color : cs_db.

Lemma charsets_ok_sgr_extended v i :
  charsets_ok v -> charsets_ok (sgr_extended v i).1.
Proof.
  unfold sgr_extended. intros. cbv zeta. repeat case_match; cbn [fst]; cs_tac.
Qed.

#[local] Hint Resolve charsets_ok_sgr_extended : cs_db.

Lemma charsets_ok_sgr_step v i : charsets_ok v -> charsets_ok (sgr_step v i).1.
Proof.
  unfold sgr_step. intros. cbv zeta. repeat case_match; cbn [fst]; cs_tac.
Qed.

#[local] Hint Resolve charsets_ok_sgr_step : cs_db.

Lemma charsets_ok_csi_attribute_loop n i v :
  charsets_ok v -> charsets_ok (csi_attribute_loop n i v).
Proof.
  revert i v. induction n as [|n IH]; intros i v H; cbn; [done|].
  case_match; [|done]. by apply IH, charsets_ok_sgr_step.
Qed.

#[local] Hint Resolve charsets_ok_csi_attribute_loop : cs_db.

Lemma charsets_ok_csi_attribute v : charsets_ok v -> charsets_ok (csi_attribute v).
Proof. cbv beta delta [csi_attribute set_csi_arg]. intros. inv_go cs_tac. Qed.

#[local] Hint Resolve charsets_ok_csi_attribute : cs_db.

Lemma charsets_ok_csi_soft_reset v :
  charsets_ok v -> charsets_ok (csi_soft_reset v).
Proof. cbv beta delta [csi_soft_reset]. intros. inv_go cs_tac. Qed.

#[local] Hint Resolve charsets_ok_csi_soft_reset : cs_db.

Lemma charsets_ok_csi_compat_mode v :
  charsets_ok v -> charsets_ok (csi_compat_mode v).
Proof. cbv beta delta [csi_compat_mode]. intros. inv_go cs_tac. Qed.

#[local] Hint Resolve charsets_ok_csi_compat_mode : cs_db.

Lemma charsets_ok_set_reset_flag v set flag :
  charsets_ok v -> charsets_ok (set_reset_flag v set flag).
Proof. cbv beta delta [set_reset_flag]. intros. inv_go cs_tac. Qed.

#[local] Hint Resolve charsets_ok_set_reset_flag : cs_db.

Lemma charsets_ok_screen_flag v set flag :
  charsets_ok v -> charsets_ok (screen_flag v set flag).
Proof. cbv beta delta [screen_flag]. intros. inv_go cs_tac. Qed.

#[local] Hint Resolve charsets_ok_screen_flag : cs_db.

Lemma charsets_ok_csi_mode_arg v set a :
  charsets_ok v -> charsets_ok (csi_mode_arg v set a).
Proof. cbv beta delta [csi_mode_arg]. intros. inv_go cs_tac. Qed.

#[local] Hint Resolve charsets_ok_csi_mode_arg : cs_db.

Lemma charsets_ok_csi_mode_loop n i set v :
  charsets_ok v -> charsets_ok (csi_mode_loop n i set v).
Proof.
  revert i v. induction n as [|n IH]; intros i v H; cbn; [done|].
  by apply IH, charsets_ok_csi_mode_arg.
Qed.

Lemma charsets_ok_csi_mode v set : charsets_ok v -> charsets_ok (csi_mode v set).
Proof. apply charsets_ok_csi_mode_loop. Qed.

#[local] Hint Resolve charsets_ok_csi_mode : cs_db.

Lemma charsets_ok_vte_map v val : charsets_ok v -> charsets_ok (vte_map v val).1.
Proof.
  unfold vte_map. intros. cbv zeta. repeat case_match; cbn [fst]; cs_tac.
Qed.

#[local] Hint Resolve charsets_ok_vte_map : cs_db.

Lemma charsets_ok_do_osc_collect v val :
  charsets_ok v -> charsets_ok (do_osc_collect v val).
Proof. cbv beta delta [do_osc_collect]. intros. inv_go cs_tac. Qed.

#[local] Hint Resolve charsets_ok_do_osc_collect : cs_db.

Lemma charsets_ok_do_osc_end v : charsets_ok v -> charsets_ok (do_osc_end v).
Proof. cbv beta delta [do_osc_end]. intros. inv_go cs_tac. Qed.

#[local] Hint Resolve charsets_ok_do_osc_end : cs_db.

Section WithEcho.

Variable echo : tsm_vte -> list Z -> tsm_vte.
Hypothesis echo_ok : forall v u8, charsets_ok v -> charsets_ok (echo v u8).

#[local] Hint Resolve echo_ok : cs_db.

Lemma charsets_ok_vte_write_debug v u8 :
  charsets_ok v -> charsets_ok (vte_write_debug echo v u8).
Proof. cbv beta delta [vte_write_debug write_cb]. intros. inv_go cs_tac. Qed.

#[local] Hint Resolve charsets_ok_vte_write_debug : cs_db.

Lemma charsets_ok_send_primary_da v :
  charsets_ok v -> charsets_ok (send_primary_da echo v).
Proof. cbv beta delta [send_primary_da]. intros. inv_go cs_tac. Qed.

#[local] Hint Resolve charsets_ok_send_primary_da : cs_db.

Lemma charsets_ok_do_execute v ctrl :
  charsets_ok v -> charsets_ok (do_execute echo v ctrl).
Proof. cbv beta delta [do_execute]. intros. inv_go cs_tac. Qed.

#[local] Hint Resolve charsets_ok_do_execute : cs_db.

Lemma charsets_ok_do_esc v data : charsets_ok v -> charsets_ok (do_esc echo v data).
Proof.
  cbv beta delta [do_esc]. intros.
  destruct (do_esc_charset v data) eqn:E;
    [by eapply charsets_ok_do_esc_charset|].
  inv_go cs_tac.
Qed.

#[local] Hint Resolve charsets_ok_do_esc : cs_db.

Lemma charsets_ok_csi_dev_attr v :
  charsets_ok v -> charsets_ok (csi_dev_attr echo v).
Proof. cbv beta delta [csi_dev_attr]. intros. inv_go cs_tac. Qed.

#[local] Hint Resolve charsets_ok_csi_dev_attr : cs_db.

Lemma charsets_ok_csi_dsr v : charsets_ok v -> charsets_ok (csi_dsr echo v).
Proof. cbv beta delta [csi_dsr]. intros. inv_go cs_tac. Qed.

#[local] Hint Resolve charsets_ok_csi_dsr : cs_db.

Lemma charsets_ok_do_csi v data : charsets_ok v -> charsets_ok (do_csi echo v data).
Proof.
  cbv beta delta [do_csi]. intros.
  change (if csi_argc v <? CSI_ARG_MAX then set_csi_argc (csi_argc v + 1) v
          else v) with (csi_count_last v).
  inv_go cs_tac.
Qed.

#[local] Hint Resolve charsets_ok_do_csi : cs_db.

Lemma charsets_ok_do_action v data act :
  charsets_ok v -> charsets_ok (do_action echo v data act).
Proof. intros. destruct act; cbn [do_action]; cbv zeta; cs_tac. Qed.

#[local] Hint Resolve charsets_ok_do_action : cs_db.

Lemma charsets_ok_do_trans v data st act :
  charsets_ok v -> charsets_ok (do_trans echo v data st act).
Proof. cbv beta delta [do_trans]. intros. destruct st; inv_go cs_tac. Qed.

#[local] Hint Resolve charsets_ok_do_trans : cs_db.

Lemma charsets_ok_parse_data v raw :
  charsets_ok v -> charsets_ok (parse_data echo v raw).
Proof. cbv beta delta [parse_data]. intros. inv_go cs_tac. Qed.

#[local] Hint Resolve charsets_ok_parse_data : cs_db.

Lemma charsets_ok_input_byte v b :
  charsets_ok v -> charsets_ok (input_byte echo v b).
Proof. cbv beta delta [input_byte]. intros. inv_go cs_tac. Qed.

#[local] Hint Resolve charsets_ok_input_byte : cs_db.

Lemma charsets_ok_input_bytes u8 v :
  charsets_ok v -> charsets_ok (fold_left (input_byte echo) u8 v).
Proof.
  revert v. induction u8 as [|b u8 IH]; intros v H; cbn; [done|].
  by apply IH, charsets_ok_input_byte.
Qed.

#[local] Hint Resolve charsets_ok_input_bytes : cs_db.

Lemma charsets_ok_tsm_vte_input_body v u8 :
  charsets_ok v -> charsets_ok (tsm_vte_input_body echo v u8).
Proof. cbv beta delta [tsm_vte_input_body]. intros. inv_go cs_tac. Qed.

#[local] Hint Resolve charsets_ok_tsm_vte_input_body : cs_db.

Lemma charsets_ok_tsm_vte_handle_keyboard v keysym ascii mods unicode :
  charsets_ok v ->
  charsets_ok (tsm_vte_handle_keyboard echo v keysym ascii mods unicode).1.
Proof.
  unfold tsm_vte_handle_keyboard. intros. cbv zeta. repeat case_match; cbn [fst]; cs_tac.
Qed.

#[local] Hint Resolve charsets_ok_tsm_vte_handle_keyboard : cs_db.

End WithEcho.

Lemma charsets_ok_tsm_vte_input_fuel n v u8 :
  charsets_ok v -> charsets_ok (tsm_vte_input_fuel n v u8).
Proof.
  revert v u8. induction n as [|n IH]; intros v u8 H; cbn; [done|].
  by apply charsets_ok_tsm_vte_input_body.
Qed.

Lemma charsets_ok_vte_update_palette v :
  charsets_ok v -> charsets_ok (vte_update_palette v).
Proof. cbv beta delta [vte_update_palette]. intros. inv_go cs_tac. Qed.

(** A new object gets its pointers from the soft reset that ends the
    constructor *)
Lemma charsets_ok_after_reset v : charsets_ok (tsm_vte_reset v).
Proof.
  unfold charsets_ok.
  change (gl (tsm_vte_reset v)) with (Some GSLOT0).
  change (gr (tsm_vte_reset v)) with (Some GSLOT1).
  change (saved_gl (saved_state (tsm_vte_reset v))) with (Some GSLOT0).
  change (saved_gr (saved_state (tsm_vte_reset v))) with (Some GSLOT1).
  change (g0 (tsm_vte_reset v)) with (Some unicode_lower).
  change (g1 (tsm_vte_reset v)) with (Some unicode_upper).
  change (g2 (tsm_vte_reset v)) with (Some unicode_lower).
  change (g3 (tsm_vte_reset v)) with (Some unicode_upper).
  split_and!; eauto.
Qed.

Lemma charsets_ok_tsm_vte_new c : charsets_ok (tsm_vte_new c).
Proof.
  unfold tsm_vte_new. cbv zeta.
  match goal with
  | |- charsets_ok (set_con _ (tsm_vte_reset ?w)) =>
    generalize w; intros v
  end.
  peel_setter charsets_ok_ext. apply charsets_ok_after_reset.
Qed.

Lemma charsets_ok_reachable v : reachable v -> charsets_ok v.
Proof.
  induction 1; eauto 20 using charsets_ok_tsm_vte_new,
    charsets_ok_tsm_vte_input_fuel, charsets_ok_tsm_vte_handle_keyboard,
    charsets_ok_vte_update_palette with cs_db.
Qed.

(** Printing consumes a pending single shift only for the graphic
    columns of its half; GL and GR are left alone *)
Lemma print_charset_pointers echo v data :
  let v' := do_action echo v data ACTION_PRINT in
  glt v' = (if in_range 33 126 data then None else glt v) /\
  grt v' = (if in_range 161 254 data then None else grt v) /\
  gl v' = gl v /\ gr v' = gr v.
Proof.
  cbn [do_action]. cbv zeta. unfold write_console, vte_map.
  repeat case_match; simplify_eq; cbn; try done;
    unfold in_range in *; repeat case_match; try done; lia.
Qed.

(** C2 (amended).  In every state reachable through the public entry
    points GL and GR are non-NULL and each of G0..G3 designates a table.
    The single-shift pointers GLT and GRT are cleared by a printed
    character only when that character lies in the graphic range of
    their half, 33..126 for GLT and 161..254 for GRT: any other printed
    character, such as space (32), DEL (127), 160 or 255, leaves a
    pending single shift in place.  Printing changes neither GL nor
    GR. *)
Theorem charset_pointers_valid (v : tsm_vte) :
  reachable v ->
  (is_Some (gl v) /\ is_Some (gr v)) /\
  (is_Some (g0 v) /\ is_Some (g1 v) /\ is_Some (g2 v) /\ is_Some (g3 v)) /\
  (forall echo data,
     let v' := do_action echo v data ACTION_PRINT in
     glt v' = (if in_range 33 126 data then None else glt v) /\
     grt v' = (if in_range 161 254 data then None else grt v) /\
     gl v' = gl v /\ gr v' = gr v).
Proof.
  intros H%charsets_ok_reachable. unfold charsets_ok in H.
  split_and!; try tauto. intros. apply print_charset_pointers.
Qed.

End CharsetPointers.
(** ** Attributes are resolved against the palette *)

Ltac def_tac := cbv zeta; eauto 30 with def_db.

Ltac at_tac := cbv zeta; eauto 30 with at_db.

Section Attributes.

Context {SCR : Screen} {UNI : Unicode} {KEYS : Keysyms} {PLAT : Platform}.

(** What [to_rgb] does to the fields of an attribute: the codes and the
    flags stay, and a half whose code is not negative gets the palette's
    RGB triple *)
Lemma to_rgb_fields p fc bc bo it un iv pr bl r1 g1 b1 r2 g2 b2 :
  exists r1' g1' b1' r2' g2' b2',
    to_rgb p (Build_tsm_screen_attr fc bc r1 g1 b1 r2 g2 b2 bo it un iv pr bl)
    = Build_tsm_screen_attr fc bc r1' g1' b1' r2' g2' b2' bo it un iv pr bl
    /\ ((0 <=? fc) = true ->
        (r1', g1', b1') =
        palette_row p
          (let code := if bo && (fc <? 8) then fc + 8 else fc in
           if TSM_COLOR_NUM <=? code then TSM_COLOR_FOREGROUND else code))
    /\ ((0 <=? fc) = false -> (r1', g1', b1') = (r1, g1, b1))
    /\ ((0 <=? bc) = true ->
        (r2', g2', b2') =
        palette_row p
          (if TSM_COLOR_NUM <=? bc then TSM_COLOR_BACKGROUND else bc))
    /\ ((0 <=? bc) = false -> (r2', g2', b2') = (r2, g2, b2)).
Proof.
  unfold to_rgb. cbn [fccode bccode bold]. cbv zeta.
  destruct (0 <=? fc) eqn:Hf.
  all: lazy beta iota zeta delta [attr_set_fr attr_set_fg attr_set_fb
    attr_set_br attr_set_bg attr_set_bb fccode bccode bold fr fg fb br bg bb
    italic underline inverse protect blink].
  all: destruct (0 <=? bc) eqn:Hb.
  all: eexists _, _, _, _, _, _; (split; [reflexivity|]).
  all: split_and!; try done; intros _.
  all: by repeat destruct (palette_row _ _) as [[? ?] ?].
Qed.

(** Resolving twice is resolving once: [to_rgb] changes neither the colour
    codes nor the bold bit *)
Lemma to_rgb_idem p a : to_rgb p (to_rgb p a) = to_rgb p a.
Proof.
  destruct a as [fc bc r1 g1 b1 r2 g2 b2 bo it un iv pr bl].
  destruct (to_rgb_fields p fc bc bo it un iv pr bl r1 g1 b1 r2 g2 b2)
    as (r1' & g1' & b1' & r2' & g2' & b2' & -> & F1 & F2 & B1 & B2).
  destruct (to_rgb_fields p fc bc bo it un iv pr bl r1' g1' b1' r2' g2' b2')
    as (r1'' & g1'' & b1'' & r2'' & g2'' & b2'' & -> & F1' & F2' & B1' & B2').
  destruct (0 <=? fc), (0 <=? bc);
    repeat match goal with
    | H : ?x = ?x -> _ |- _ => specialize (H eq_refl)
    | H : _ = _ -> _ |- _ => clear H
    end; congruence.
Qed.

(** *** The default attribute *)

Lemma def_ok_ext (v v' : tsm_vte) :
  palette v' = palette v -> def_attr v' = def_attr v -> def_ok v -> def_ok v'.
Proof. unfold def_ok. by intros -> ->. Qed.

Create HintDb def_db discriminated.

#[local] Hint Constants Opaque : def_db.

#[local] Hint Extern 1 (def_ok (?s ?x ?w)) =>
  is_setter s; peel_setter def_ok_ext : def_db.

Lemma def_ok_resolve v :
  def_ok (set_def_attr (to_rgb (palette v) (def_attr v)) v).
Proof. unfold def_ok, resolved. cbn. apply to_rgb_idem. Qed.

#[local] Hint Extern 1 (def_ok (set_def_attr (to_rgb _ _) _)) =>
  simple apply def_ok_resolve : def_db.

Lemma def_ok_write_console v sym : def_ok v -> def_ok (write_console v sym).
Proof. cbv beta delta [write_console]. intros. inv_go def_tac. Qed.

#[local] Hint Extern 1 (def_ok (write_console _ _)) =>
  simple apply def_ok_write_console : def_db.

Lemma def_ok_reset_state v : def_ok v -> def_ok (reset_state v).
Proof. cbv beta delta [reset_state]. intros. inv_go def_tac. Qed.

#[local] Hint Extern 1 (def_ok (reset_state _)) =>
  simple apply def_ok_reset_state : def_db.

Lemma def_ok_save_state v : def_ok v -> def_ok (save_state v).
Proof. cbv beta delta [save_state]. intros. inv_go def_tac. Qed.

#[local] Hint Extern 1 (def_ok (save_state _)) =>
  simple apply def_ok_save_state : def_db.

Lemma def_ok_restore_state_attr v : def_ok v -> def_ok (restore_state_attr v).
Proof. cbv beta delta [restore_state_attr]. intros. inv_go def_tac. Qed.

#[local] Hint Extern 1 (def_ok (restore_state_attr _)) =>
  simple apply def_ok_restore_state_attr : def_db.

Lemma def_ok_restore_state_wrap v : def_ok v -> def_ok (restore_state_wrap v).
Proof. cbv beta delta [restore_state_wrap]. intros. inv_go def_tac. Qed.

#[local] Hint Extern 1 (def_ok (restore_state_wrap _)) =>
  simple apply def_ok_restore_state_wrap : def_db.

Lemma def_ok_restore_state_origin v : def_ok v -> def_ok (restore_state_origin v).
Proof. cbv beta delta [restore_state_origin]. intros. inv_go def_tac. Qed.

#[local] Hint Extern 1 (def_ok (restore_state_origin _)) =>
  simple apply def_ok_restore_state_origin : def_db.

Lemma def_ok_restore_state v : def_ok v -> def_ok (restore_state v).
Proof. cbv beta delta [restore_state]. intros. inv_go def_tac. Qed.

#[local] Hint Extern 1 (def_ok (restore_state _)) =>
  simple apply def_ok_restore_state : def_db.

Lemma def_ok_tsm_vte_reset v : def_ok v -> def_ok (tsm_vte_reset v).
Proof. cbv beta delta [tsm_vte_reset]. intros. inv_go def_tac. Qed.

#[local] Hint Extern 1 (def_ok (tsm_vte_reset _)) =>
  simple apply def_ok_tsm_vte_reset : def_db.

Lemma def_ok_tsm_vte_hard_reset v : def_ok v -> def_ok (tsm_vte_hard_reset v).
Proof. cbv beta delta [tsm_vte_hard_reset]. intros. inv_go def_tac. Qed.

#[local] Hint Extern 1 (def_ok (tsm_vte_hard_reset _)) =>
  simple apply def_ok_tsm_vte_hard_reset : def_db.

Lemma def_ok_do_clear v : def_ok v -> def_ok (do_clear v).
Proof. cbv beta delta [do_clear]. intros. inv_go def_tac. Qed.

#[local] Hint Extern 1 (def_ok (do_clear _)) =>
  simple apply def_ok_do_clear : def_db.

Lemma def_ok_do_collect v data : def_ok v -> def_ok (do_collect v data).
Proof. cbv beta delta [do_collect]. intros. inv_go def_tac. Qed.

#[local] Hint Extern 1 (def_ok (do_collect _ _)) =>
  simple apply def_ok_do_collect : def_db.

Lemma def_ok_csi_count_last v : def_ok v -> def_ok (csi_count_last v).
Proof. cbv beta delta [csi_count_last]. intros. inv_go def_tac. Qed.

#[local] Hint Extern 1 (def_ok (csi_count_last _)) =>
  simple apply def_ok_csi_count_last : def_db.

Lemma def_ok_do_param v data : def_ok v -> def_ok (do_param v data).
Proof. cbv beta delta [do_param set_csi_arg]. intros. inv_go def_tac. Qed.

#[local] Hint Extern 1 (def_ok (do_param _ _)) =>
  simple apply def_ok_do_param : def_db.

Lemma def_ok_set_charset v set v' :
  set_charset v set = Some v' -> def_ok v -> def_ok v'.
Proof.
  unfold set_charset. intros E H. repeat case_match; simplify_eq; def_tac.
Qed.

Lemma def_ok_do_esc_charset v data v' :
  do_esc_charset v data = Some v' -> def_ok v -> def_ok v'.
Proof.
  unfold do_esc_charset. intros E H.
  repeat case_match; simplify_eq;
    eauto using def_ok_set_charset with def_db.
Qed.

Lemma def_ok_sgr_set_color v val code cr cg cb :
  def_ok v -> def_ok (sgr_set_color v val code cr cg cb).
Proof. cbv beta delta [sgr_set_color]. intros. inv_go def_tac. Qed.

#[local] Hint Extern 1 (def_ok (sgr_set_color _ _ _ _ _ _)) =>
  simple apply def_ok_sgr_set_color : def_db.

Lemma def_ok_sgr_extended v i : def_ok v -> def_ok (sgr_extended v i).1.
Proof.
  unfold sgr_extended. intros. cbv zeta. repeat case_match; cbn [fst]; def_tac.
Qed.

#[local] Hint Extern 1 (def_ok (sgr_extended _ _).1) =>
  simple apply def_ok_sgr_extended : def_db.

Lemma def_ok_sgr_step v i : def_ok v -> def_ok (sgr_step v i).1.
Proof.
  unfold sgr_step. intros. cbv zeta. repeat case_match; cbn [fst]; def_tac.
Qed.

#[local] Hint Extern 1 (def_ok (sgr_step _ _).1) =>
  simple apply def_ok_sgr_step : def_db.

Lemma def_ok_csi_attribute_loop n i v :
  def_ok v -> def_ok (csi_attribute_loop n i v).
Proof.
  revert i v. induction n as [|n IH]; intros i v H; cbn; [done|].
  case_match; [|done]. by apply IH, def_ok_sgr_step.
Qed.

#[local] Hint Extern 1 (def_ok (csi_attribute_loop _ _ _)) =>
  simple apply def_ok_csi_attribute_loop : def_db.

Lemma def_ok_csi_attribute v : def_ok v -> def_ok (csi_attribute v).
Proof. cbv beta delta [csi_attribute set_csi_arg]. intros. inv_go def_tac. Qed.

#[local] Hint Extern 1 (def_ok (csi_attribute _)) =>
  simple apply def_ok_csi_attribute : def_db.

Lemma def_ok_csi_soft_reset v : def_ok v -> def_ok (csi_soft_reset v).
Proof. cbv beta delta [csi_soft_reset]. intros. inv_go def_tac. Qed.

#[local] Hint Extern 1 (def_ok (csi_soft_reset _)) =>
  simple apply def_ok_csi_soft_reset : def_db.

Lemma def_ok_csi_compat_mode v : def_ok v -> def_ok (csi_compat_mode v).
Proof. cbv beta delta [csi_compat_mode]. intros. inv_go def_tac. Qed.

#[local] Hint Extern 1 (def_ok (csi_compat_mode _)) =>
  simple apply def_ok_csi_compat_mode : def_db.

Lemma def_ok_set_reset_flag v set flag :
  def_ok v -> def_ok (set_reset_flag v set flag).
Proof. cbv beta delta [set_reset_flag]. intros. inv_go def_tac. Qed.

#[local] Hint Extern 1 (def_ok (set_reset_flag _ _ _)) =>
  simple apply def_ok_set_reset_flag : def_db.

Lemma def_ok_screen_flag v set flag : def_ok v -> def_ok (screen_flag v set flag).
Proof. cbv beta delta [screen_flag]. intros. inv_go def_tac. Qed.

#[local] Hint Extern 1 (def_ok (screen_flag _ _ _)) =>
  simple apply def_ok_screen_flag : def_db.

Lemma def_ok_csi_mode_arg v set a : def_ok v -> def_ok (csi_mode_arg v set a).
Proof. cbv beta delta [csi_mode_arg]. intros. inv_go def_tac. Qed.

#[local] Hint Extern 1 (def_ok (csi_mode_arg _ _ _)) =>
  simple apply def_ok_csi_mode_arg : def_db.

Lemma def_ok_csi_mode_loop n i set v :
  def_ok v -> def_ok (csi_mode_loop n i set v).
Proof.
  revert i v. induction n as [|n IH]; intros i v H; cbn; [done|].
  by apply IH, def_ok_csi_mode_arg.
Qed.

Lemma def_ok_csi_mode v set : def_ok v -> def_ok (csi_mode v set).
Proof. apply def_ok_csi_mode_loop. Qed.

#[local] Hint Extern 1 (def_ok (csi_mode _ _)) =>
  simple apply def_ok_csi_mode : def_db.

Lemma def_ok_vte_map v val : def_ok v -> def_ok (vte_map v val).1.
Proof.
  unfold vte_map. intros. cbv zeta. repeat case_match; cbn [fst]; def_tac.
Qed.

#[local] Hint Extern 1 (def_ok (vte_map _ _).1) =>
  simple apply def_ok_vte_map : def_db.

Lemma def_ok_do_osc_collect v val : def_ok v -> def_ok (do_osc_collect v val).
Proof. cbv beta delta [do_osc_collect]. intros. inv_go def_tac. Qed.

#[local] Hint Extern 1 (def_ok (do_osc_collect _ _)) =>
  simple apply def_ok_do_osc_collect : def_db.

Lemma def_ok_do_osc_end v : def_ok v -> def_ok (do_osc_end v).
Proof. cbv beta delta [do_osc_end]. intros. inv_go def_tac. Qed.

#[local] Hint Extern 1 (def_ok (do_osc_end _)) =>
  simple apply def_ok_do_osc_end : def_db.

Section WithEcho.

Variable echo : tsm_vte -> list Z -> tsm_vte.
Hypothesis echo_ok : forall v u8, def_ok v -> def_ok (echo v u8).

#[local] Hint Extern 1 (def_ok (echo _ _)) =>
  simple apply echo_ok : def_db.

Lemma def_ok_vte_write_debug v u8 : def_ok v -> def_ok (vte_write_debug echo v u8).
Proof. cbv beta delta [vte_write_debug write_cb]. intros. inv_go def_tac. Qed.

#[local] Hint Extern 1 (def_ok (vte_write_debug _ _ _)) =>
  simple apply def_ok_vte_write_debug : def_db.

Lemma def_ok_send_primary_da v : def_ok v -> def_ok (send_primary_da echo v).
Proof. cbv beta delta [send_primary_da]. intros. inv_go def_tac. Qed.

#[local] Hint Extern 1 (def_ok (send_primary_da _ _)) =>
  simple apply def_ok_send_primary_da : def_db.

Lemma def_ok_do_execute v ctrl : def_ok v -> def_ok (do_execute echo v ctrl).
Proof. cbv beta delta [do_execute]. intros. inv_go def_tac. Qed.

#[local] Hint Extern 1 (def_ok (do_execute _ _ _)) =>
  simple apply def_ok_do_execute : def_db.

Lemma def_ok_do_esc v data : def_ok v -> def_ok (do_esc echo v data).
Proof.
  cbv beta delta [do_esc]. intros.
  destruct (do_esc_charset v data) eqn:E;
    [by eapply def_ok_do_esc_charset|].
  inv_go def_tac.
Qed.

#[local] Hint Extern 1 (def_ok (do_esc _ _ _)) =>
  simple apply def_ok_do_esc : def_db.

Lemma def_ok_csi_dev_attr v : def_ok v -> def_ok (csi_dev_attr echo v).
Proof. cbv beta delta [csi_dev_attr]. intros. inv_go def_tac. Qed.

#[local] Hint Extern 1 (def_ok (csi_dev_attr _ _)) =>
  simple apply def_ok_csi_dev_attr : def_db.

Lemma def_ok_csi_dsr v : def_ok v -> def_ok (csi_dsr echo v).
Proof. cbv beta delta [csi_dsr]. intros. inv_go def_tac. Qed.

#[local] Hint Extern 1 (def_ok (csi_dsr _ _)) =>
  simple apply def_ok_csi_dsr : def_db.

Lemma def_ok_do_csi v data : def_ok v -> def_ok (do_csi echo v data).
Proof.
  cbv beta delta [do_csi]. intros.
  change (if csi_argc v <? CSI_ARG_MAX then set_csi_argc (csi_argc v + 1) v
          else v) with (csi_count_last v).
  inv_go def_tac.
Qed.

#[local] Hint Extern 1 (def_ok (do_csi _ _ _)) =>
  simple apply def_ok_do_csi : def_db.

Lemma def_ok_do_action v data act : def_ok v -> def_ok (do_action echo v data act).
Proof. intros. destruct act; cbn [do_action]; cbv zeta; def_tac. Qed.

#[local] Hint Extern 1 (def_ok (do_action _ _ _ _)) =>
  simple apply def_ok_do_action : def_db.

Lemma def_ok_do_trans v data st act :
  def_ok v -> def_ok (do_trans echo v data st act).
Proof. cbv beta delta [do_trans]. intros. destruct st; inv_go def_tac. Qed.

#[local] Hint Extern 1 (def_ok (do_trans _ _ _ _ _)) =>
  simple apply def_ok_do_trans : def_db.

Lemma def_ok_parse_data v raw : def_ok v -> def_ok (parse_data echo v raw).
Proof. cbv beta delta [parse_data]. intros. inv_go def_tac. Qed.

#[local] Hint Extern 1 (def_ok (parse_data _ _ _)) =>
  simple apply def_ok_parse_data : def_db.

Lemma def_ok_input_byte v b : def_ok v -> def_ok (input_byte echo v b).
Proof. cbv beta delta [input_byte]. intros. inv_go def_tac. Qed.

#[local] Hint Extern 1 (def_ok (input_byte _ _ _)) =>
  simple apply def_ok_input_byte : def_db.

Lemma def_ok_input_bytes u8 v :
  def_ok v -> def_ok (fold_left (input_byte echo) u8 v).
Proof.
  revert v. induction u8 as [|b u8 IH]; intros v H; cbn; [done|].
  by apply IH, def_ok_input_byte.
Qed.

#[local] Hint Extern 1 (def_ok (fold_left _ _ _)) =>
  simple apply def_ok_input_bytes : def_db.

Lemma def_ok_tsm_vte_input_body v u8 :
  def_ok v -> def_ok (tsm_vte_input_body echo v u8).
Proof. cbv beta delta [tsm_vte_input_body]. intros. inv_go def_tac. Qed.

#[local] Hint Extern 1 (def_ok (tsm_vte_input_body _ _ _)) =>
  simple apply def_ok_tsm_vte_input_body : def_db.

Lemma def_ok_tsm_vte_handle_keyboard v keysym ascii mods unicode :
  def_ok v ->
  def_ok (tsm_vte_handle_keyboard echo v keysym ascii mods unicode).1.
Proof.
  unfold tsm_vte_handle_keyboard. intros. cbv zeta. repeat case_match; cbn [fst]; def_tac.
Qed.

#[local] Hint Extern 1 (def_ok (tsm_vte_handle_keyboard _ _ _ _ _ _).1) =>
  simple apply def_ok_tsm_vte_handle_keyboard : def_db.

End WithEcho.

Lemma def_ok_tsm_vte_input_fuel n v u8 :
  def_ok v -> def_ok (tsm_vte_input_fuel n v u8).
Proof.
  revert v u8. induction n as [|n IH]; intros v u8 H; cbn; [done|].
  by apply def_ok_tsm_vte_input_body.
Qed.

Lemma def_ok_vte_update_palette v : def_ok (vte_update_palette v).
Proof. cbv beta delta [vte_update_palette]. do 3 skip_let. inv_go def_tac. Qed.

Lemma def_ok_tsm_vte_new c : def_ok (tsm_vte_new c).
Proof. cbv beta delta [tsm_vte_new]. do 4 skip_let. inv_go def_tac. Qed.

Lemma def_ok_reachable v : reachable v -> def_ok v.
Proof.
  induction 1.
  - apply def_ok_tsm_vte_new.
  - by apply def_ok_tsm_vte_input_fuel.
  - unfold handle_keyboard. apply def_ok_tsm_vte_handle_keyboard; [|done].
    intros. by apply def_ok_tsm_vte_input_fuel.
  - by apply def_ok_tsm_vte_reset.
  - by apply def_ok_tsm_vte_hard_reset.
  - apply def_ok_vte_update_palette.
  - apply def_ok_vte_update_palette.
  - unfold tsm_vte_set_bell_cb. def_tac.
  - unfold tsm_vte_set_osc_cb. def_tac.
  - def_tac.
Qed.

(** *** The current attribute *)

Lemma attrs_ok_ext (v v' : tsm_vte) :
  palette v' = palette v -> def_attr v' = def_attr v -> cattr v' = cattr v ->
  attrs_ok v -> attrs_ok v'.
Proof.
  intros Hp Hd Hc [H1 H2]. unfold def_ok in *.
  constructor; unfold def_ok; by rewrite ?Hp, ?Hd, ?Hc.
Qed.

Create HintDb at_db discriminated.

#[local] Hint Constants Opaque : at_db.

#[local] Hint Extern 1 (attrs_ok (?s ?x ?w)) =>
  is_setter s; peel_setter attrs_ok_ext : at_db.

Lemma attrs_ok_def v : attrs_ok v -> def_ok v.
Proof. by intros [? _]. Qed.

(** What [to_rgb(vte, &vte->cattr)] establishes *)
Lemma attrs_ok_resolve v :
  def_ok v -> attrs_ok (set_cattr (to_rgb (palette v) (cattr v)) v).
Proof. intros H. constructor; [done|]. apply to_rgb_idem. Qed.

(** What [memcpy(&vte->cattr, &vte->def_attr, ..)] establishes *)
Lemma attrs_ok_set_default v :
  def_ok v -> attrs_ok (set_cattr (def_attr v) v).
Proof. intros H. by constructor. Qed.

#[local] Hint Resolve attrs_ok_def : at_db.

#[local] Hint Extern 1 (attrs_ok (set_cattr (to_rgb _ _) _)) =>
  simple apply attrs_ok_resolve : at_db.

#[local] Hint Extern 1 (attrs_ok (set_cattr (def_attr _) _)) =>
  simple apply attrs_ok_set_default : at_db.

Lemma attrs_ok_write_console v sym : attrs_ok v -> attrs_ok (write_console v sym).
Proof. cbv beta delta [write_console]. intros. inv_go at_tac. Qed.

#[local] Hint Extern 1 (attrs_ok (write_console _ _)) =>
  simple apply attrs_ok_write_console : at_db.

Lemma attrs_ok_reset_state v : attrs_ok v -> attrs_ok (reset_state v).
Proof. cbv beta delta [reset_state]. intros. inv_go at_tac. Qed.

#[local] Hint Extern 1 (attrs_ok (reset_state _)) =>
  simple apply attrs_ok_reset_state : at_db.

Lemma attrs_ok_save_state v : attrs_ok v -> attrs_ok (save_state v).
Proof. cbv beta delta [save_state]. intros. inv_go at_tac. Qed.

#[local] Hint Extern 1 (attrs_ok (save_state _)) =>
  simple apply attrs_ok_save_state : at_db.

Lemma attrs_ok_restore_state_attr v :
  attrs_ok v -> attrs_ok (restore_state_attr v).
Proof.
  intros H%attrs_ok_def. cbv beta delta [restore_state_attr].
  do 2 step_let_with def_ok def_tac. inv_go at_tac.
Qed.

#[local] Hint Extern 1 (attrs_ok (restore_state_attr _)) =>
  simple apply attrs_ok_restore_state_attr : at_db.

Lemma attrs_ok_restore_state_wrap v : attrs_ok v -> attrs_ok (restore_state_wrap v).
Proof. cbv beta delta [restore_state_wrap]. intros. inv_go at_tac. Qed.

#[local] Hint Extern 1 (attrs_ok (restore_state_wrap _)) =>
  simple apply attrs_ok_restore_state_wrap : at_db.

Lemma attrs_ok_restore_state_origin v :
  attrs_ok v -> attrs_ok (restore_state_origin v).
Proof. cbv beta delta [restore_state_origin]. intros. inv_go at_tac. Qed.

#[local] Hint Extern 1 (attrs_ok (restore_state_origin _)) =>
  simple apply attrs_ok_restore_state_origin : at_db.

Lemma attrs_ok_restore_state v : attrs_ok v -> attrs_ok (restore_state v).
Proof. cbv beta delta [restore_state]. intros. inv_go at_tac. Qed.

#[local] Hint Extern 1 (attrs_ok (restore_state _)) =>
  simple apply attrs_ok_restore_state : at_db.

(** A soft reset needs the default attribute only *)
Lemma attrs_ok_after_reset v : def_ok v -> attrs_ok (tsm_vte_reset v).
Proof.
  intros H. cbv beta delta [tsm_vte_reset].
  do 18 step_let_with def_ok def_tac. inv_go at_tac.
Qed.

#[local] Hint Extern 1 (attrs_ok (tsm_vte_reset _)) =>
  simple apply attrs_ok_after_reset : at_db.

Lemma attrs_ok_tsm_vte_reset v : attrs_ok v -> attrs_ok (tsm_vte_reset v).
Proof. eauto with at_db. Qed.

Lemma attrs_ok_tsm_vte_hard_reset v : attrs_ok v -> attrs_ok (tsm_vte_hard_reset v).
Proof. cbv beta delta [tsm_vte_hard_reset]. intros. inv_go at_tac. Qed.

#[local] Hint Extern 1 (attrs_ok (tsm_vte_hard_reset _)) =>
  simple apply attrs_ok_tsm_vte_hard_reset : at_db.

Lemma attrs_ok_do_clear v : attrs_ok v -> attrs_ok (do_clear v).
Proof. cbv beta delta [do_clear]. intros. inv_go at_tac. Qed.

#[local] Hint Extern 1 (attrs_ok (do_clear _)) =>
  simple apply attrs_ok_do_clear : at_db.

Lemma attrs_ok_do_collect v data : attrs_ok v -> attrs_ok (do_collect v data).
Proof. cbv beta delta [do_collect]. intros. inv_go at_tac. Qed.

#[local] Hint Extern 1 (attrs_ok (do_collect _ _)) =>
  simple apply attrs_ok_do_collect : at_db.

Lemma attrs_ok_csi_count_last v : attrs_ok v -> attrs_ok (csi_count_last v).
Proof. cbv beta delta [csi_count_last]. intros. inv_go at_tac. Qed.

#[local] Hint Extern 1 (attrs_ok (csi_count_last _)) =>
  simple apply attrs_ok_csi_count_last : at_db.

Lemma attrs_ok_do_param v data : attrs_ok v -> attrs_ok (do_param v data).
Proof. cbv beta delta [do_param set_csi_arg]. intros. inv_go at_tac. Qed.

#[local] Hint Extern 1 (attrs_ok (do_param _ _)) =>
  simple apply attrs_ok_do_param : at_db.

Lemma attrs_ok_set_charset v set v' :
  set_charset v set = Some v' -> attrs_ok v -> attrs_ok v'.
Proof.
  unfold set_charset. intros E H. repeat case_match; simplify_eq; at_tac.
Qed.

Lemma attrs_ok_do_esc_charset v data v' :
  do_esc_charset v data = Some v' -> attrs_ok v -> attrs_ok v'.
Proof.
  unfold do_esc_charset. intros E H.
  repeat case_match; simplify_eq;
    eauto using attrs_ok_set_charset with at_db.
Qed.

(** SGR edits the current attribute and resolves it once at the end *)
Lemma attrs_ok_csi_attribute v : attrs_ok v -> attrs_ok (csi_attribute v).
Proof.
  intros H%attrs_ok_def. cbv beta delta [csi_attribute set_csi_arg].
  do 2 step_let_with def_ok ltac:(inv_go def_tac). inv_go at_tac.
Qed.

#[local] Hint Extern 1 (attrs_ok (csi_attribute _)) =>
  simple apply attrs_ok_csi_attribute : at_db.

Lemma attrs_ok_csi_soft_reset v : attrs_ok v -> attrs_ok (csi_soft_reset v).
Proof. cbv beta delta [csi_soft_reset]. intros. inv_go at_tac. Qed.

#[local] Hint Extern 1 (attrs_ok (csi_soft_reset _)) =>
  simple apply attrs_ok_csi_soft_reset : at_db.

Lemma attrs_ok_csi_compat_mode v : attrs_ok v -> attrs_ok (csi_compat_mode v).
Proof. cbv beta delta [csi_compat_mode]. intros. inv_go at_tac. Qed.

#[local] Hint Extern 1 (attrs_ok (csi_compat_mode _)) =>
  simple apply attrs_ok_csi_compat_mode : at_db.

Lemma attrs_ok_set_reset_flag v set flag :
  attrs_ok v -> attrs_ok (set_reset_flag v set flag).
Proof. cbv beta delta [set_reset_flag]. intros. inv_go at_tac. Qed.

#[local] Hint Extern 1 (attrs_ok (set_reset_flag _ _ _)) =>
  simple apply attrs_ok_set_reset_flag : at_db.

Lemma attrs_ok_screen_flag v set flag :
  attrs_ok v -> attrs_ok (screen_flag v set flag).
Proof. cbv beta delta [screen_flag]. intros. inv_go at_tac. Qed.

#[local] Hint Extern 1 (attrs_ok (screen_flag _ _ _)) =>
  simple apply attrs_ok_screen_flag : at_db.

Lemma attrs_ok_csi_mode_arg v set a : attrs_ok v -> attrs_ok (csi_mode_arg v set a).
Proof. cbv beta delta [csi_mode_arg]. intros. inv_go at_tac. Qed.

#[local] Hint Extern 1 (attrs_ok (csi_mode_arg _ _ _)) =>
  simple apply attrs_ok_csi_mode_arg : at_db.

Lemma attrs_ok_csi_mode_loop n i set v :
  attrs_ok v -> attrs_ok (csi_mode_loop n i set v).
Proof.
  revert i v. induction n as [|n IH]; intros i v H; cbn; [done|].
  by apply IH, attrs_ok_csi_mode_arg.
Qed.

Lemma attrs_ok_csi_mode v set : attrs_ok v -> attrs_ok (csi_mode v set).
Proof. apply attrs_ok_csi_mode_loop. Qed.

#[local] Hint Extern 1 (attrs_ok (csi_mode _ _)) =>
  simple apply attrs_ok_csi_mode : at_db.

Lemma attrs_ok_vte_map v val : attrs_ok v -> attrs_ok (vte_map v val).1.
Proof.
  unfold vte_map. intros. cbv zeta. repeat case_match; cbn [fst]; at_tac.
Qed.

#[local] Hint Extern 1 (attrs_ok (vte_map _ _).1) =>
  simple apply attrs_ok_vte_map : at_db.

Lemma attrs_ok_do_osc_collect v val : attrs_ok v -> attrs_ok (do_osc_collect v val).
Proof. cbv beta delta [do_osc_collect]. intros. inv_go at_tac. Qed.

#[local] Hint Extern 1 (attrs_ok (do_osc_collect _ _)) =>
  simple apply attrs_ok_do_osc_collect : at_db.

Lemma attrs_ok_do_osc_end v : attrs_ok v -> attrs_ok (do_osc_end v).
Proof. cbv beta delta [do_osc_end]. intros. inv_go at_tac. Qed.

#[local] Hint Extern 1 (attrs_ok (do_osc_end _)) =>
  simple apply attrs_ok_do_osc_end : at_db.

Section WithEcho.

Variable echo : tsm_vte -> list Z -> tsm_vte.
Hypothesis echo_ok : forall v u8, attrs_ok v -> attrs_ok (echo v u8).

#[local] Hint Extern 1 (attrs_ok (echo _ _)) =>
  simple apply echo_ok : at_db.

Lemma attrs_ok_vte_write_debug v u8 :
  attrs_ok v -> attrs_ok (vte_write_debug echo v u8).
Proof. cbv beta delta [vte_write_debug write_cb]. intros. inv_go at_tac. Qed.

#[local] Hint Extern 1 (attrs_ok (vte_write_debug _ _ _)) =>
  simple apply attrs_ok_vte_write_debug : at_db.

Lemma attrs_ok_send_primary_da v : attrs_ok v -> attrs_ok (send_primary_da echo v).
Proof. cbv beta delta [send_primary_da]. intros. inv_go at_tac. Qed.

#[local] Hint Extern 1 (attrs_ok (send_primary_da _ _)) =>
  simple apply attrs_ok_send_primary_da : at_db.

Lemma attrs_ok_do_execute v ctrl : attrs_ok v -> attrs_ok (do_execute echo v ctrl).
Proof. cbv beta delta [do_execute]. intros. inv_go at_tac. Qed.

#[local] Hint Extern 1 (attrs_ok (do_execute _ _ _)) =>
  simple apply attrs_ok_do_execute : at_db.

Lemma attrs_ok_do_esc v data : attrs_ok v -> attrs_ok (do_esc echo v data).
Proof.
  cbv beta delta [do_esc]. intros.
  destruct (do_esc_charset v data) eqn:E;
    [by eapply attrs_ok_do_esc_charset|].
  inv_go at_tac.
Qed.

#[local] Hint Extern 1 (attrs_ok (do_esc _ _ _)) =>
  simple apply attrs_ok_do_esc : at_db.

Lemma attrs_ok_csi_dev_attr v : attrs_ok v -> attrs_ok (csi_dev_attr echo v).
Proof. cbv beta delta [csi_dev_attr]. intros. inv_go at_tac. Qed.

#[local] Hint Extern 1 (attrs_ok (csi_dev_attr _ _)) =>
  simple apply attrs_ok_csi_dev_attr : at_db.

Lemma attrs_ok_csi_dsr v : attrs_ok v -> attrs_ok (csi_dsr echo v).
Proof. cbv beta delta [csi_dsr]. intros. inv_go at_tac. Qed.

#[local] Hint Extern 1 (attrs_ok (csi_dsr _ _)) =>
  simple apply attrs_ok_csi_dsr : at_db.

Lemma attrs_ok_do_csi v data : attrs_ok v -> attrs_ok (do_csi echo v data).
Proof.
  cbv beta delta [do_csi]. intros.
  change (if csi_argc v <? CSI_ARG_MAX then set_csi_argc (csi_argc v + 1) v
          else v) with (csi_count_last v).
  inv_go at_tac.
Qed.

#[local] Hint Extern 1 (attrs_ok (do_csi _ _ _)) =>
  simple apply attrs_ok_do_csi : at_db.

Lemma attrs_ok_do_action v data act :
  attrs_ok v -> attrs_ok (do_action echo v data act).
Proof. intros. destruct act; cbn [do_action]; cbv zeta; at_tac. Qed.

#[local] Hint Extern 1 (attrs_ok (do_action _ _ _ _)) =>
  simple apply attrs_ok_do_action : at_db.

Lemma attrs_ok_do_trans v data st act :
  attrs_ok v -> attrs_ok (do_trans echo v data st act).
Proof. cbv beta delta [do_trans]. intros. destruct st; inv_go at_tac. Qed.

#[local] Hint Extern 1 (attrs_ok (do_trans _ _ _ _ _)) =>
  simple apply attrs_ok_do_trans : at_db.

Lemma attrs_ok_parse_data v raw : attrs_ok v -> attrs_ok (parse_data echo v raw).
Proof. cbv beta delta [parse_data]. intros. inv_go at_tac. Qed.

#[local] Hint Extern 1 (attrs_ok (parse_data _ _ _)) =>
  simple apply attrs_ok_parse_data : at_db.

Lemma attrs_ok_input_byte v b : attrs_ok v -> attrs_ok (input_byte echo v b).
Proof. cbv beta delta [input_byte]. intros. inv_go at_tac. Qed.

#[local] Hint Extern 1 (attrs_ok (input_byte _ _ _)) =>
  simple apply attrs_ok_input_byte : at_db.

Lemma attrs_ok_input_bytes u8 v :
  attrs_ok v -> attrs_ok (fold_left (input_byte echo) u8 v).
Proof.
  revert v. induction u8 as [|b u8 IH]; intros v H; cbn; [done|].
  by apply IH, attrs_ok_input_byte.
Qed.

#[local] Hint Extern 1 (attrs_ok (fold_left _ _ _)) =>
  simple apply attrs_ok_input_bytes : at_db.

Lemma attrs_ok_tsm_vte_input_body v u8 :
  attrs_ok v -> attrs_ok (tsm_vte_input_body echo v u8).
Proof. cbv beta delta [tsm_vte_input_body]. intros. inv_go at_tac. Qed.

#[local] Hint Extern 1 (attrs_ok (tsm_vte_input_body _ _ _)) =>
  simple apply attrs_ok_tsm_vte_input_body : at_db.

Lemma attrs_ok_tsm_vte_handle_keyboard v keysym ascii mods unicode :
  attrs_ok v ->
  attrs_ok (tsm_vte_handle_keyboard echo v keysym ascii mods unicode).1.
Proof.
  unfold tsm_vte_handle_keyboard. intros. cbv zeta. repeat case_match; cbn [fst]; at_tac.
Qed.

#[local] Hint Extern 1 (attrs_ok (tsm_vte_handle_keyboard _ _ _ _ _ _).1) =>
  simple apply attrs_ok_tsm_vte_handle_keyboard : at_db.

End WithEcho.

Lemma attrs_ok_tsm_vte_input_fuel n v u8 :
  attrs_ok v -> attrs_ok (tsm_vte_input_fuel n v u8).
Proof.
  revert v u8. induction n as [|n IH]; intros v u8 H; cbn; [done|].
  by apply attrs_ok_tsm_vte_input_body.
Qed.

Lemma attrs_ok_vte_update_palette v : attrs_ok (vte_update_palette v).
Proof.
  cbv beta delta [vte_update_palette]. do 3 skip_let.
  step_let_with def_ok def_tac. inv_go at_tac.
Qed.

Lemma attrs_ok_tsm_vte_new c : attrs_ok (tsm_vte_new c).
Proof.
  cbv beta delta [tsm_vte_new]. do 4 skip_let.
  step_let_with def_ok def_tac. inv_go at_tac.
Qed.

Lemma attrs_ok_reachable v : reachable v -> attrs_ok v.
Proof.
  induction 1.
  - apply attrs_ok_tsm_vte_new.
  - by apply attrs_ok_tsm_vte_input_fuel.
  - unfold handle_keyboard. apply attrs_ok_tsm_vte_handle_keyboard; [|done].
    intros. by apply attrs_ok_tsm_vte_input_fuel.
  - by apply attrs_ok_tsm_vte_reset.
  - by apply attrs_ok_tsm_vte_hard_reset.
  - apply attrs_ok_vte_update_palette.
  - apply attrs_ok_vte_update_palette.
  - unfold tsm_vte_set_bell_cb. at_tac.
  - unfold tsm_vte_set_osc_cb. at_tac.
  - at_tac.
Qed.

(** *** What the invariant says *)

Lemma resolved_rgb_matches p a : resolved p a -> rgb_matches p a.
Proof.
  unfold resolved, rgb_matches, fg_index, bg_index.
  destruct a as [fc bc r1 g1 b1 r2 g2 b2 bo it un iv pr bl].
  destruct (to_rgb_fields p fc bc bo it un iv pr bl r1 g1 b1 r2 g2 b2)
    as (r1' & g1' & b1' & r2' & g2' & b2' & -> & F1 & _ & B1 & _).
  intros [= -> -> -> -> -> ->]. cbn [fccode bccode bold fr fg fb br bg bb].
  split; intros H%Z.leb_le; auto.
Qed.

(** X1.  [to_rgb] resolves an attribute against the palette: afterwards
    the RGB triple of each half with a non-negative colour code is the
    palette row of that code (the light variant for a bold foreground
    below 8, the default foreground or background for a code past the
    table), a half with a negative code keeps its RGB triple, the colour
    codes and the rendition flags are unchanged, and resolving again
    changes nothing. *)
Theorem to_rgb_resolves (p : palette_t) (a : tsm_screen_attr) :
  rgb_matches p (to_rgb p a)
  /\ (fccode a < 0 ->
      (fr (to_rgb p a), fg (to_rgb p a), fb (to_rgb p a)) = (fr a, fg a, fb a))
  /\ (bccode a < 0 ->
      (br (to_rgb p a), bg (to_rgb p a), bb (to_rgb p a)) = (br a, bg a, bb a))
  /\ (fccode (to_rgb p a) = fccode a /\ bccode (to_rgb p a) = bccode a)
  /\ (bold (to_rgb p a) = bold a /\ italic (to_rgb p a) = italic a
      /\ underline (to_rgb p a) = underline a
      /\ inverse (to_rgb p a) = inverse a
      /\ protect (to_rgb p a) = protect a /\ blink (to_rgb p a) = blink a)
  /\ to_rgb p (to_rgb p a) = to_rgb p a.
Proof.
  split; [apply resolved_rgb_matches, to_rgb_idem|].
  split_and!; try apply to_rgb_idem.
  all: destruct a as [fc bc r1 g1 b1 r2 g2 b2 bo it un iv pr bl].
  all: destruct (to_rgb_fields p fc bc bo it un iv pr bl r1 g1 b1 r2 g2 b2)
    as (r1' & g1' & b1' & r2' & g2' & b2' & -> & F1 & F2 & B1 & B2).
  all: cbn [fccode bccode bold italic underline inverse protect blink
            fr fg fb br bg bb]; try done.
  - intros H. apply F2, Z.leb_gt, H.
  - intros H. apply B2, Z.leb_gt, H.
Qed.

(** X2.  In every state reachable through the public entry points the
    RGB triples of the current attribute and of the default attribute
    agree with the palette in force, for each half that has a
    non-negative colour code; both attributes are fixed points of
    [to_rgb]. *)
Theorem attributes_follow_palette (v : tsm_vte) :
  reachable v ->
  rgb_matches (palette v) (cattr v)
  /\ rgb_matches (palette v) (def_attr v)
  /\ to_rgb (palette v) (cattr v) = cattr v
  /\ to_rgb (palette v) (def_attr v) = def_attr v.
Proof.
  intros [Hd Hc]%attrs_ok_reachable.
  split_and!; try done; by apply resolved_rgb_matches.
Qed.

(** What [vte_update_palette] leaves behind *)
Lemma vte_update_palette_attrs (v : tsm_vte) :
  let v' := vte_update_palette v in
  palette v' = get_palette v
  /\ cattr v' = def_attr v'
  /\ fg_color (def_attr v')
     = (TSM_COLOR_FOREGROUND, palette_row (palette v') TSM_COLOR_FOREGROUND)
  /\ bg_color (def_attr v')
     = (TSM_COLOR_BACKGROUND, palette_row (palette v') TSM_COLOR_BACKGROUND).
Proof.
  cbv zeta.
  assert (Hp : palette (vte_update_palette v) = get_palette v) by reflexivity.
  assert (Hd : def_attr (vte_update_palette v)
               = to_rgb (get_palette v)
                   (attr_set_bccode TSM_COLOR_BACKGROUND
                      (attr_set_fccode TSM_COLOR_FOREGROUND (def_attr v))))
    by reflexivity.
  assert (Hc : cattr (vte_update_palette v)
               = to_rgb (get_palette v)
                   (attr_set_bccode TSM_COLOR_BACKGROUND
                      (attr_set_fccode TSM_COLOR_FOREGROUND (def_attr v))))
    by reflexivity.
  rewrite Hp, Hd, Hc. clear Hp Hd Hc.
  split; [reflexivity|]. split; [reflexivity|].
  split; unfold fg_color, bg_color.
  all: destruct (def_attr v) as [fc bc r1 g1 b1 r2 g2 b2 bo it un iv pr bl].
  all: cbv beta iota delta [attr_set_fccode attr_set_bccode fccode bccode
    bold italic underline inverse protect blink fr fg fb br bg bb].
  all: destruct (to_rgb_fields (get_palette v) TSM_COLOR_FOREGROUND
                   TSM_COLOR_BACKGROUND bo it un iv pr bl r1 g1 b1 r2 g2 b2)
    as (r1' & g1' & b1' & r2' & g2' & b2' & -> & F1 & _ & B1 & _).
  - rewrite F1 by done. f_equal. f_equal. by destruct bo.
  - by rewrite B1.
Qed.

(** X3.  Selecting a palette, by name with [tsm_vte_set_palette] or a
    custom one with [tsm_vte_set_custom_palette], makes the palette that
    [get_palette] chooses for the new setting the palette in force, gives
    the default attribute the reserved foreground and background codes
    with the RGB triples of the rows 16 and 17 of that palette, and
    replaces the current attribute by the default one: the renditions and
    colours set by SGR are lost. *)
Theorem palette_change_resets_attributes
  (v : tsm_vte) (name : option string) (p : option palette_t) :
  let installed (w v' : tsm_vte) :=
    palette v' = get_palette w
    /\ cattr v' = def_attr v'
    /\ fg_color (def_attr v')
       = (TSM_COLOR_FOREGROUND, palette_row (palette v') TSM_COLOR_FOREGROUND)
    /\ bg_color (def_attr v')
       = (TSM_COLOR_BACKGROUND, palette_row (palette v') TSM_COLOR_BACKGROUND)
  in
  installed (set_palette_name name v) (tsm_vte_set_palette v name)
  /\ installed (set_custom_palette_storage p v)
       (tsm_vte_set_custom_palette v p).
Proof.
  cbv zeta. unfold tsm_vte_set_palette, tsm_vte_set_custom_palette.
  split; apply vte_update_palette_attrs.
Qed.

End Attributes.
(** ** The OSC buffer is never overrun *)

Ltac osc_tac := cbv zeta; eauto 30 with osc_db.

Section OscBuffer.

Context {SCR : Screen} {UNI : Unicode} {KEYS : Keysyms} {PLAT : Platform}.

Lemma osc_ok_ext (v v' : tsm_vte) :
  osc_len v' = osc_len v -> osc_arg v' = osc_arg v -> osc_ok v -> osc_ok v'.
Proof. intros Hl Ha [H1 H2]. constructor; by rewrite ?Hl, ?Ha. Qed.

Create HintDb osc_db discriminated.

#[local] Hint Constants Opaque : osc_db.

#[local] Hint Extern 1 (osc_ok (?s ?x ?w)) =>
  is_setter s; peel_setter osc_ok_ext : osc_db.

Lemma osc_ok_write_console v sym : osc_ok v -> osc_ok (write_console v sym).
Proof. cbv beta delta [write_console]. intros. inv_go osc_tac. Qed.

#[local] Hint Extern 1 (osc_ok (write_console _ _)) =>
  simple apply osc_ok_write_console : osc_db.

Lemma osc_ok_reset_state v : osc_ok v -> osc_ok (reset_state v).
Proof. cbv beta delta [reset_state]. intros. inv_go osc_tac. Qed.

#[local] Hint Extern 1 (osc_ok (reset_state _)) =>
  simple apply osc_ok_reset_state : osc_db.

Lemma osc_ok_save_state v : osc_ok v -> osc_ok (save_state v).
Proof. cbv beta delta [save_state]. intros. inv_go osc_tac. Qed.

#[local] Hint Extern 1 (osc_ok (save_state _)) =>
  simple apply osc_ok_save_state : osc_db.

Lemma osc_ok_restore_state_attr v : osc_ok v -> osc_ok (restore_state_attr v).
Proof. cbv beta delta [restore_state_attr]. intros. inv_go osc_tac. Qed.

#[local] Hint Extern 1 (osc_ok (restore_state_attr _)) =>
  simple apply osc_ok_restore_state_attr : osc_db.

Lemma osc_ok_restore_state_wrap v : osc_ok v -> osc_ok (restore_state_wrap v).
Proof. cbv beta delta [restore_state_wrap]. intros. inv_go osc_tac. Qed.

#[local] Hint Extern 1 (osc_ok (restore_state_wrap _)) =>
  simple apply osc_ok_restore_state_wrap : osc_db.

Lemma osc_ok_restore_state_origin v : osc_ok v -> osc_ok (restore_state_origin v).
Proof. cbv beta delta [restore_state_origin]. intros. inv_go osc_tac. Qed.

#[local] Hint Extern 1 (osc_ok (restore_state_origin _)) =>
  simple apply osc_ok_restore_state_origin : osc_db.

Lemma osc_ok_restore_state v : osc_ok v -> osc_ok (restore_state v).
Proof. cbv beta delta [restore_state]. intros. inv_go osc_tac. Qed.

#[local] Hint Extern 1 (osc_ok (restore_state _)) =>
  simple apply osc_ok_restore_state : osc_db.

Lemma osc_ok_tsm_vte_reset v : osc_ok v -> osc_ok (tsm_vte_reset v).
Proof. cbv beta delta [tsm_vte_reset]. intros. inv_go osc_tac. Qed.

#[local] Hint Extern 1 (osc_ok (tsm_vte_reset _)) =>
  simple apply osc_ok_tsm_vte_reset : osc_db.

Lemma osc_ok_tsm_vte_hard_reset v : osc_ok v -> osc_ok (tsm_vte_hard_reset v).
Proof. cbv beta delta [tsm_vte_hard_reset]. intros. inv_go osc_tac. Qed.

#[local] Hint Extern 1 (osc_ok (tsm_vte_hard_reset _)) =>
  simple apply osc_ok_tsm_vte_hard_reset : osc_db.

(** [do_clear] empties the buffer *)
Lemma osc_ok_do_clear v : osc_ok v -> osc_ok (do_clear v).
Proof.
  intros _. constructor; cbn; [unfold OSC_MAX_LEN; lia|].
  by rewrite length_replicate.
Qed.

#[local] Hint Extern 1 (osc_ok (do_clear _)) =>
  simple apply osc_ok_do_clear : osc_db.

Lemma osc_ok_do_collect v data : osc_ok v -> osc_ok (do_collect v data).
Proof. cbv beta delta [do_collect]. intros. inv_go osc_tac. Qed.

#[local] Hint Extern 1 (osc_ok (do_collect _ _)) =>
  simple apply osc_ok_do_collect : osc_db.

Lemma osc_ok_csi_count_last v : osc_ok v -> osc_ok (csi_count_last v).
Proof. cbv beta delta [csi_count_last]. intros. inv_go osc_tac. Qed.

#[local] Hint Extern 1 (osc_ok (csi_count_last _)) =>
  simple apply osc_ok_csi_count_last : osc_db.

Lemma osc_ok_do_param v data : osc_ok v -> osc_ok (do_param v data).
Proof. cbv beta delta [do_param set_csi_arg]. intros. inv_go osc_tac. Qed.

#[local] Hint Extern 1 (osc_ok (do_param _ _)) =>
  simple apply osc_ok_do_param : osc_db.

Lemma osc_ok_set_charset v set v' :
  set_charset v set = Some v' -> osc_ok v -> osc_ok v'.
Proof.
  unfold set_charset. intros E H. repeat case_match; simplify_eq; osc_tac.
Qed.

Lemma osc_ok_do_esc_charset v data v' :
  do_esc_charset v data = Some v' -> osc_ok v -> osc_ok v'.
Proof.
  unfold do_esc_charset. intros E H.
  repeat case_match; simplify_eq;
    eauto using osc_ok_set_charset with osc_db.
Qed.

Lemma osc_ok_sgr_set_color v val code cr cg cb :
  osc_ok v -> osc_ok (sgr_set_color v val code cr cg cb).
Proof. cbv beta delta [sgr_set_color]. intros. inv_go osc_tac. Qed.

#[local] Hint Extern 1 (osc_ok (sgr_set_color _ _ _ _ _ _)) =>
  simple apply osc_ok_sgr_set_color : osc_db.

Lemma osc_ok_sgr_extended v i : osc_ok v -> osc_ok (sgr_extended v i).1.
Proof.
  unfold sgr_extended. intros. cbv zeta. repeat case_match; cbn [fst]; osc_tac.
Qed.

#[local] Hint Extern 1 (osc_ok (sgr_extended _ _).1) =>
  simple apply osc_ok_sgr_extended : osc_db.

Lemma osc_ok_sgr_step v i : osc_ok v -> osc_ok (sgr_step v i).1.
Proof.
  unfold sgr_step. intros. cbv zeta. repeat case_match; cbn [fst]; osc_tac.
Qed.

#[local] Hint Extern 1 (osc_ok (sgr_step _ _).1) =>
  simple apply osc_ok_sgr_step : osc_db.

Lemma osc_ok_csi_attribute_loop n i v :
  osc_ok v -> osc_ok (csi_attribute_loop n i v).
Proof.
  revert i v. induction n as [|n IH]; intros i v H; cbn; [done|].
  case_match; [|done]. by apply IH, osc_ok_sgr_step.
Qed.

#[local] Hint Extern 1 (osc_ok (csi_attribute_loop _ _ _)) =>
  simple apply osc_ok_csi_attribute_loop : osc_db.

Lemma osc_ok_csi_attribute v : osc_ok v -> osc_ok (csi_attribute v).
Proof. cbv beta delta [csi_attribute set_csi_arg]. intros. inv_go osc_tac. Qed.

#[local] Hint Extern 1 (osc_ok (csi_attribute _)) =>
  simple apply osc_ok_csi_attribute : osc_db.

Lemma osc_ok_csi_soft_reset v : osc_ok v -> osc_ok (csi_soft_reset v).
Proof. cbv beta delta [csi_soft_reset]. intros. inv_go osc_tac. Qed.

#[local] Hint Extern 1 (osc_ok (csi_soft_reset _)) =>
  simple apply osc_ok_csi_soft_reset : osc_db.

Lemma osc_ok_csi_compat_mode v : osc_ok v -> osc_ok (csi_compat_mode v).
Proof. cbv beta delta [csi_compat_mode]. intros. inv_go osc_tac. Qed.

#[local] Hint Extern 1 (osc_ok (csi_compat_mode _)) =>
  simple apply osc_ok_csi_compat_mode : osc_db.

Lemma osc_ok_set_reset_flag v set flag :
  osc_ok v -> osc_ok (set_reset_flag v set flag).
Proof. cbv beta delta [set_reset_flag]. intros. inv_go osc_tac. Qed.

#[local] Hint Extern 1 (osc_ok (set_reset_flag _ _ _)) =>
  simple apply osc_ok_set_reset_flag : osc_db.

Lemma osc_ok_screen_flag v set flag : osc_ok v -> osc_ok (screen_flag v set flag).
Proof. cbv beta delta [screen_flag]. intros. inv_go osc_tac. Qed.

#[local] Hint Extern 1 (osc_ok (screen_flag _ _ _)) =>
  simple apply osc_ok_screen_flag : osc_db.

Lemma osc_ok_csi_mode_arg v set a : osc_ok v -> osc_ok (csi_mode_arg v set a).
Proof. cbv beta delta [csi_mode_arg]. intros. inv_go osc_tac. Qed.

#[local] Hint Extern 1 (osc_ok (csi_mode_arg _ _ _)) =>
  simple apply osc_ok_csi_mode_arg : osc_db.

Lemma osc_ok_csi_mode_loop n i set v :
  osc_ok v -> osc_ok (csi_mode_loop n i set v).
Proof.
  revert i v. induction n as [|n IH]; intros i v H; cbn; [done|].
  by apply IH, osc_ok_csi_mode_arg.
Qed.

Lemma osc_ok_csi_mode v set : osc_ok v -> osc_ok (csi_mode v set).
Proof. apply osc_ok_csi_mode_loop. Qed.

#[local] Hint Extern 1 (osc_ok (csi_mode _ _)) =>
  simple apply osc_ok_csi_mode : osc_db.

Lemma osc_ok_vte_map v val : osc_ok v -> osc_ok (vte_map v val).1.
Proof.
  unfold vte_map. intros. cbv zeta. repeat case_match; cbn [fst]; osc_tac.
Qed.

#[local] Hint Extern 1 (osc_ok (vte_map _ _).1) =>
  simple apply osc_ok_vte_map : osc_db.

(** [do_osc_collect] stores a character only if a byte stays free after
    it *)
Lemma osc_ok_do_osc_collect v val : osc_ok v -> osc_ok (do_osc_collect v val).
Proof.
  intros [H1 H2]. unfold do_osc_collect. cbv zeta.
  destruct (OSC_MAX_LEN - 1 <? osc_len v + _) eqn:E; [by constructor|].
  apply Z.ltb_ge in E. constructor; cbn.
  - lia.
  - by rewrite length_inserts.
Qed.

#[local] Hint Extern 1 (osc_ok (do_osc_collect _ _)) =>
  simple apply osc_ok_do_osc_collect : osc_db.

(** [do_osc_end] writes the NUL inside the buffer *)
Lemma osc_ok_do_osc_end v : osc_ok v -> osc_ok (do_osc_end v).
Proof.
  intros [H1 H2]. unfold do_osc_end. cbv zeta.
  destruct (negb (osc_cb v)); [by constructor|].
  constructor; cbn; [done|]. by rewrite length_insert.
Qed.

#[local] Hint Extern 1 (osc_ok (do_osc_end _)) =>
  simple apply osc_ok_do_osc_end : osc_db.

Section WithEcho.

Variable echo : tsm_vte -> list Z -> tsm_vte.
Hypothesis echo_ok : forall v u8, osc_ok v -> osc_ok (echo v u8).

#[local] Hint Extern 1 (osc_ok (echo _ _)) =>
  simple apply echo_ok : osc_db.

Lemma osc_ok_vte_write_debug v u8 : osc_ok v -> osc_ok (vte_write_debug echo v u8).
Proof. cbv beta delta [vte_write_debug write_cb]. intros. inv_go osc_tac. Qed.

#[local] Hint Extern 1 (osc_ok (vte_write_debug _ _ _)) =>
  simple apply osc_ok_vte_write_debug : osc_db.

Lemma osc_ok_send_primary_da v : osc_ok v -> osc_ok (send_primary_da echo v).
Proof. cbv beta delta [send_primary_da]. intros. inv_go osc_tac. Qed.

#[local] Hint Extern 1 (osc_ok (send_primary_da _ _)) =>
  simple apply osc_ok_send_primary_da : osc_db.

Lemma osc_ok_do_execute v ctrl : osc_ok v -> osc_ok (do_execute echo v ctrl).
Proof. cbv beta delta [do_execute]. intros. inv_go osc_tac. Qed.

#[local] Hint Extern 1 (osc_ok (do_execute _ _ _)) =>
  simple apply osc_ok_do_execute : osc_db.

Lemma osc_ok_do_esc v data : osc_ok v -> osc_ok (do_esc echo v data).
Proof.
  cbv beta delta [do_esc]. intros.
  destruct (do_esc_charset v data) eqn:E;
    [by eapply osc_ok_do_esc_charset|].
  inv_go osc_tac.
Qed.

#[local] Hint Extern 1 (osc_ok (do_esc _ _ _)) =>
  simple apply osc_ok_do_esc : osc_db.

Lemma osc_ok_csi_dev_attr v : osc_ok v -> osc_ok (csi_dev_attr echo v).
Proof. cbv beta delta [csi_dev_attr]. intros. inv_go osc_tac. Qed.

#[local] Hint Extern 1 (osc_ok (csi_dev_attr _ _)) =>
  simple apply osc_ok_csi_dev_attr : osc_db.

Lemma osc_ok_csi_dsr v : osc_ok v -> osc_ok (csi_dsr echo v).
Proof. cbv beta delta [csi_dsr]. intros. inv_go osc_tac. Qed.

#[local] Hint Extern 1 (osc_ok (csi_dsr _ _)) =>
  simple apply osc_ok_csi_dsr : osc_db.

Lemma osc_ok_do_csi v data : osc_ok v -> osc_ok (do_csi echo v data).
Proof.
  cbv beta delta [do_csi]. intros.
  change (if csi_argc v <? CSI_ARG_MAX then set_csi_argc (csi_argc v + 1) v
          else v) with (csi_count_last v).
  inv_go osc_tac.
Qed.

#[local] Hint Extern 1 (osc_ok (do_csi _ _ _)) =>
  simple apply osc_ok_do_csi : osc_db.

Lemma osc_ok_do_action v data act : osc_ok v -> osc_ok (do_action echo v data act).
Proof. intros. destruct act; cbn [do_action]; cbv zeta; osc_tac. Qed.

#[local] Hint Extern 1 (osc_ok (do_action _ _ _ _)) =>
  simple apply osc_ok_do_action : osc_db.

Lemma osc_ok_do_trans v data st act :
  osc_ok v -> osc_ok (do_trans echo v data st act).
Proof. cbv beta delta [do_trans]. intros. destruct st; inv_go osc_tac. Qed.

#[local] Hint Extern 1 (osc_ok (do_trans _ _ _ _ _)) =>
  simple apply osc_ok_do_trans : osc_db.

Lemma osc_ok_parse_data v raw : osc_ok v -> osc_ok (parse_data echo v raw).
Proof. cbv beta delta [parse_data]. intros. inv_go osc_tac. Qed.

#[local] Hint Extern 1 (osc_ok (parse_data _ _ _)) =>
  simple apply osc_ok_parse_data : osc_db.

Lemma osc_ok_input_byte v b : osc_ok v -> osc_ok (input_byte echo v b).
Proof. cbv beta delta [input_byte]. intros. inv_go osc_tac. Qed.

#[local] Hint Extern 1 (osc_ok (input_byte _ _ _)) =>
  simple apply osc_ok_input_byte : osc_db.

Lemma osc_ok_input_bytes u8 v :
  osc_ok v -> osc_ok (fold_left (input_byte echo) u8 v).
Proof.
  revert v. induction u8 as [|b u8 IH]; intros v H; cbn; [done|].
  by apply IH, osc_ok_input_byte.
Qed.

#[local] Hint Extern 1 (osc_ok (fold_left _ _ _)) =>
  simple apply osc_ok_input_bytes : osc_db.

Lemma osc_ok_tsm_vte_input_body v u8 :
  osc_ok v -> osc_ok (tsm_vte_input_body echo v u8).
Proof. cbv beta delta [tsm_vte_input_body]. intros. inv_go osc_tac. Qed.

#[local] Hint Extern 1 (osc_ok (tsm_vte_input_body _ _ _)) =>
  simple apply osc_ok_tsm_vte_input_body : osc_db.

Lemma osc_ok_tsm_vte_handle_keyboard v keysym ascii mods unicode :
  osc_ok v ->
  osc_ok (tsm_vte_handle_keyboard echo v keysym ascii mods unicode).1.
Proof.
  unfold tsm_vte_handle_keyboard. intros. cbv zeta. repeat case_match; cbn [fst]; osc_tac.
Qed.

#[local] Hint Extern 1 (osc_ok (tsm_vte_handle_keyboard _ _ _ _ _ _).1) =>
  simple apply osc_ok_tsm_vte_handle_keyboard : osc_db.

End WithEcho.

Lemma osc_ok_tsm_vte_input_fuel n v u8 :
  osc_ok v -> osc_ok (tsm_vte_input_fuel n v u8).
Proof.
  revert v u8. induction n as [|n IH]; intros v u8 H; cbn; [done|].
  by apply osc_ok_tsm_vte_input_body.
Qed.

Lemma osc_ok_vte_update_palette v : osc_ok v -> osc_ok (vte_update_palette v).
Proof. cbv beta delta [vte_update_palette]. intros. inv_go osc_tac. Qed.

Lemma osc_ok_tsm_vte_new c : osc_ok (tsm_vte_new c).
Proof.
  cbv beta delta [tsm_vte_new].
  lazymatch goal with
  | |- osc_ok (let v := ?a in _) => assert (H : osc_ok a)
  end.
  { constructor; [cbn; unfold OSC_MAX_LEN; lia|]. by vm_compute. }
  revert H.
  lazymatch goal with
  | |- osc_ok ?a -> osc_ok (let v := ?a in @?b v) =>
    generalize a; intros v H; change (osc_ok (b v)); cbv beta
  end.
  inv_go osc_tac.
Qed.

Lemma osc_ok_reachable v : reachable v -> osc_ok v.
Proof.
  induction 1.
  - apply osc_ok_tsm_vte_new.
  - by apply osc_ok_tsm_vte_input_fuel.
  - unfold handle_keyboard. apply osc_ok_tsm_vte_handle_keyboard; [|done].
    intros. by apply osc_ok_tsm_vte_input_fuel.
  - by apply osc_ok_tsm_vte_reset.
  - by apply osc_ok_tsm_vte_hard_reset.
  - unfold tsm_vte_set_palette. apply osc_ok_vte_update_palette. osc_tac.
  - unfold tsm_vte_set_custom_palette. apply osc_ok_vte_update_palette.
    osc_tac.
  - unfold tsm_vte_set_bell_cb. osc_tac.
  - unfold tsm_vte_set_osc_cb. osc_tac.
  - osc_tac.
Qed.

(** *** What an OSC string delivers *)

Lemma osc_ok_collect_all cs v :
  osc_ok v -> osc_ok (fold_left do_osc_collect cs v).
Proof.
  revert v. induction cs as [|c cs IH]; intros v H; cbn; [done|].
  by apply IH, osc_ok_do_osc_collect.
Qed.

(** The first [i + length k] elements after [k] is copied to the
    position [i] *)
Lemma take_inserts_app {A} (i : nat) (k l : list A) :
  (i + length k <= length l)%nat ->
  take (i + length k) (list_inserts i k l) = take i l ++ k.
Proof.
  intros Hl. apply list_eq. intros j.
  destruct (decide (j < i)%nat).
  - rewrite lookup_take_lt, list_lookup_inserts_lt by lia.
    rewrite lookup_app_l by (rewrite length_take; lia).
    by rewrite lookup_take_lt.
  - rewrite lookup_app_r by (rewrite length_take; lia).
    rewrite length_take_le by lia.
    destruct (decide (j < i + length k)%nat).
    + by rewrite lookup_take_lt, list_lookup_inserts by lia.
    + rewrite lookup_take_ge by lia. symmetry. apply lookup_ge_None_2. lia.
Qed.

(** A character that fits is stored behind those collected before *)
Lemma do_osc_collect_fits v c bs :
  length (osc_arg v) = Z.to_nat OSC_MAX_LEN ->
  osc_len v = Z.of_nat (length bs) ->
  take (length bs) (osc_arg v) = bs ->
  Z.of_nat (length (bs ++ tsm_ucs4_to_utf8 c)) <= OSC_MAX_LEN - 1 ->
  let v' := do_osc_collect v c in
  length (osc_arg v') = Z.to_nat OSC_MAX_LEN
  /\ osc_len v' = Z.of_nat (length (bs ++ tsm_ucs4_to_utf8 c))
  /\ take (length (bs ++ tsm_ucs4_to_utf8 c)) (osc_arg v')
     = bs ++ tsm_ucs4_to_utf8 c
  /\ cb_log v' = cb_log v /\ osc_cb v' = osc_cb v /\ state v' = state v.
Proof.
  intros Hlen Hl Ht Hfit. rewrite length_app in *.
  unfold do_osc_collect. cbv zeta.
  destruct (OSC_MAX_LEN - 1 <? _) eqn:E; [apply Z.ltb_lt in E; lia|].
  cbn. rewrite length_inserts. split_and!; try done; [lia|].
  rewrite Hl, Nat2Z.id, take_inserts_app by (unfold OSC_MAX_LEN in *; lia).
  by rewrite Ht.
Qed.

Section WithEcho.

Variable echo : tsm_vte -> list Z -> tsm_vte.

(** [ESC ]] opens an OSC string with an empty buffer *)
Lemma parse_data_osc_start v :
  state v = STATE_ESC ->
  parse_data echo v (chr "]") = set_state STATE_OSC_STRING (do_clear v).
Proof.
  intros H. unfold parse_data.
  change (parse_anywhere (chr "]")) with (@None (parser_state * parser_action)).
  rewrite H.
  change (parse_in_state STATE_ESC (chr "]"))
    with (Some (STATE_OSC_STRING, ACTION_NONE)).
  unfold do_trans. rewrite H. reflexivity.
Qed.

(** Inside the string a printable character is collected *)
Lemma parse_data_osc_char v c :
  state v = STATE_OSC_STRING -> osc_char c ->
  parse_data echo v c = do_osc_collect v c.
Proof.
  intros H Hc. unfold parse_data.
  assert (parse_anywhere c = None) as ->.
  { unfold parse_anywhere, in_range. destruct Hc; bool_lia; reflexivity. }
  rewrite H.
  assert (parse_in_state STATE_OSC_STRING c
          = Some (STATE_NONE, ACTION_OSC_COLLECT)) as ->.
  { unfold parse_in_state, in_range. destruct Hc; bool_lia; reflexivity. }
  reflexivity.
Qed.

(** BEL closes the string: leaving the state runs [do_osc_end] *)
Lemma parse_data_osc_bel v :
  state v = STATE_OSC_STRING ->
  parse_data echo v 0x07 = set_state STATE_GROUND (do_osc_end v).
Proof.
  intros H. unfold parse_data.
  change (parse_anywhere 7) with (@None (parser_state * parser_action)).
  rewrite H.
  change (parse_in_state STATE_OSC_STRING 7)
    with (Some (STATE_GROUND, ACTION_NONE)).
  unfold do_trans. rewrite H. reflexivity.
Qed.

Lemma parse_data_osc_chars cs : forall v bs,
  state v = STATE_OSC_STRING ->
  length (osc_arg v) = Z.to_nat OSC_MAX_LEN ->
  osc_len v = Z.of_nat (length bs) ->
  take (length bs) (osc_arg v) = bs ->
  Forall osc_char cs ->
  Z.of_nat (length (bs ++ osc_bytes cs)) <= OSC_MAX_LEN - 1 ->
  let v' := fold_left (parse_data echo) cs v in
  state v' = STATE_OSC_STRING
  /\ length (osc_arg v') = Z.to_nat OSC_MAX_LEN
  /\ osc_len v' = Z.of_nat (length (bs ++ osc_bytes cs))
  /\ take (length (bs ++ osc_bytes cs)) (osc_arg v') = bs ++ osc_bytes cs
  /\ cb_log v' = cb_log v /\ osc_cb v' = osc_cb v.
Proof.
  induction cs as [|c cs IH]; intros v bs Hs Hlen Hl Ht Hcs Hfit; cbn.
  - unfold osc_bytes. cbn. by rewrite app_nil_r.
  - inversion Hcs as [|? ? Hc Hcs']; subst. clear Hcs. rename Hcs' into Hcs.
    unfold osc_bytes in *. cbn [map concat] in *.
    rewrite app_assoc in *.
    rewrite parse_data_osc_char by done.
    destruct (do_osc_collect_fits v c bs) as (E1 & E2 & E3 & E4 & E5 & E6);
      try done.
    { rewrite !length_app in *. lia. }
    destruct (IH (do_osc_collect v c) (bs ++ tsm_ucs4_to_utf8 c))
      as (F1 & F2 & F3 & F4 & F5 & F6); try done; [congruence|].
    split_and!; try done; congruence.
Qed.

End WithEcho.

(** X4.  However many characters an OSC string has, the bytes stored for
    it never reach the last byte of the 128-byte buffer: from every
    reachable state, collecting any characters leaves the length at most
    127 and the buffer at its size, and the NUL that [do_osc_end] writes
    at that length lies inside the buffer. *)
Theorem osc_buffer_never_overrun (v : tsm_vte) (cs : list Z) :
  reachable v ->
  let w := fold_left do_osc_collect cs v in
  0 <= osc_len w <= OSC_MAX_LEN - 1
  /\ length (osc_arg w) = Z.to_nat OSC_MAX_LEN
  /\ (osc_cb w = true ->
      osc_arg (do_osc_end w) !! Z.to_nat (osc_len w) = Some 0
      /\ length (osc_arg (do_osc_end w)) = Z.to_nat OSC_MAX_LEN).
Proof.
  intros H%osc_ok_reachable. cbv zeta.
  apply (osc_ok_collect_all cs) in H as [H1 H2].
  split; [lia|]. split; [done|]. intros Hcb.
  unfold do_osc_end. rewrite Hcb. cbn.
  rewrite length_insert. split; [|done].
  apply list_lookup_insert_eq. unfold OSC_MAX_LEN in *. lia.
Qed.

(** X5.  An OSC string reaches the callback as it was sent: when the
    parser is in the escape state and an OSC callback is registered, the
    character ']', printable characters whose UTF-8 encodings take at most
    127 bytes together, and BEL make the parser call the callback once,
    with a length equal to the number of those bytes and a buffer that
    holds them in order followed by a NUL; the parser ends in the ground
    state. *)
Theorem osc_string_delivered
  (echo : tsm_vte -> list Z -> tsm_vte) (v : tsm_vte) (cs : list Z) :
  state v = STATE_ESC ->
  osc_cb v = true ->
  Forall osc_char cs ->
  Z.of_nat (length (osc_bytes cs)) <= OSC_MAX_LEN - 1 ->
  let v' :=
    parse_data echo
      (fold_left (parse_data echo) cs (parse_data echo v (chr "]"))) 0x07 in
  state v' = STATE_GROUND
  /\ exists buf,
       cb_log v' = cb_log v ++ [CB_OSC buf (Z.of_nat (length (osc_bytes cs)))]
       /\ take (length (osc_bytes cs)) buf = osc_bytes cs
       /\ buf !! length (osc_bytes cs) = Some 0.
Proof.
  intros Hs Hcb Hcs Hfit. cbv zeta.
  rewrite parse_data_osc_start by done.
  destruct (parse_data_osc_chars echo cs
              (set_state STATE_OSC_STRING (do_clear v)) [])
    as (F1 & F2 & F3 & F4 & F5 & F6); try done.
  rewrite app_nil_l in *.
  rewrite parse_data_osc_bel by done.
  split; [done|].
  set (w := fold_left _ _ _) in *.
  change (osc_cb (set_state STATE_OSC_STRING (do_clear v))) with (osc_cb v)
    in F6.
  change (cb_log (set_state STATE_OSC_STRING (do_clear v))) with (cb_log v)
    in F5.
  unfold do_osc_end. rewrite F6, Hcb. cbn.
  rewrite F3, F5, Nat2Z.id.
  eexists. split; [done|]. split.
  - by rewrite take_insert_ge by lia.
  - apply list_lookup_insert_eq. unfold OSC_MAX_LEN in *. lia.
Qed.

End OscBuffer.
(** ** CSI dispatch: defaults of the parameters, DECSCL *)

(** Decide the comparisons of the final byte with the case labels *)
Ltac eval_chr :=
  repeat match goal with
  | |- context [chr ?a =? chr ?b] =>
    let r := eval vm_compute in (chr a =? chr b) in
    change (chr a =? chr b) with r
  end;
  cbn [orb andb negb]; cbv iota.

(** Expose the branch [do_csi] takes for a given final byte *)
Ltac csi_final :=
  unfold do_csi;
  change (if csi_argc ?v <? CSI_ARG_MAX then set_csi_argc (csi_argc ?v + 1) ?v
          else ?v) with (csi_count_last v);
  eval_chr.

Section CsiDispatch.

Context {SCR : Screen} {UNI : Unicode} {KEYS : Keysyms} {PLAT : Platform}.

Variable echo : tsm_vte -> list Z -> tsm_vte.

Lemma num_or_1_max (num : Z) : num_or_1 num = Z.max 1 num.
Proof. unfold num_or_1. destruct (num <=? 0) eqn:E; lia. Qed.

Lemma clamp_0_max (num : Z) : (if num <? 0 then 0 else num) = Z.max 0 num.
Proof. destruct (num <? 0) eqn:E; lia. Qed.

Lemma csi_count_last_arg v i : csi_arg (csi_count_last v) i = csi_arg v i.
Proof. unfold csi_count_last. by destruct (csi_argc v <? CSI_ARG_MAX). Qed.

Lemma csi_count_last_con v : con (csi_count_last v) = con v.
Proof. unfold csi_count_last. by destruct (csi_argc v <? CSI_ARG_MAX). Qed.

Lemma csi_count_last_csi_flags v :
  csi_flags (csi_count_last v) = csi_flags v.
Proof. unfold csi_count_last. by destruct (csi_argc v <? CSI_ARG_MAX). Qed.

(** C3 (amended).  For the CSI finals A/B/C/D, H/f, G, X, L/M, @/P, Z/I,
    S/T, and for the row operand of d (VPA) and e (VPR), a parameter that
    is absent (-1) or at most 0 is replaced by 1: the screen operation
    receives max(1, p), for VPR added to the cursor row modulo 2^32.
    DECSTBM (final r) does not follow that rule: it replaces an absent
    (negative) margin by 0 and passes 0 on as it is. *)
Theorem csi_parameter_defaults (v : tsm_vte) :
  let p0 := csi_arg v 0 in
  let p1 := csi_arg v 1 in
  let c := con v in
  con (do_csi echo v (chr "A"))
     = tsm_screen_move_up c (Z.max 1 p0) false
  /\ con (do_csi echo v (chr "B"))
     = tsm_screen_move_down c (Z.max 1 p0) false
  /\ con (do_csi echo v (chr "C"))
     = tsm_screen_move_right c (Z.max 1 p0)
  /\ con (do_csi echo v (chr "D"))
     = tsm_screen_move_left c (Z.max 1 p0)
  /\ con (do_csi echo v (chr "H"))
     = tsm_screen_move_to c (Z.max 1 p1 - 1) (Z.max 1 p0 - 1)
  /\ con (do_csi echo v (chr "f"))
     = tsm_screen_move_to c (Z.max 1 p1 - 1) (Z.max 1 p0 - 1)
  /\ con (do_csi echo v (chr "G"))
     = tsm_screen_move_to c (Z.max 1 p0 - 1) (tsm_screen_get_cursor_y c)
  /\ con (do_csi echo v (chr "X"))
     = tsm_screen_erase_chars c (Z.max 1 p0)
  /\ con (do_csi echo v (chr "L"))
     = tsm_screen_insert_lines c (Z.max 1 p0)
  /\ con (do_csi echo v (chr "M"))
     = tsm_screen_delete_lines c (Z.max 1 p0)
  /\ con (do_csi echo v (chr "@"))
     = tsm_screen_insert_chars c (Z.max 1 p0)
  /\ con (do_csi echo v (chr "P"))
     = tsm_screen_delete_chars c (Z.max 1 p0)
  /\ con (do_csi echo v (chr "Z"))
     = tsm_screen_tab_left c (Z.max 1 p0)
  /\ con (do_csi echo v (chr "I"))
     = tsm_screen_tab_right c (Z.max 1 p0)
  /\ con (do_csi echo v (chr "S"))
     = tsm_screen_scroll_up c (Z.max 1 p0)
  /\ con (do_csi echo v (chr "T"))
     = tsm_screen_scroll_down c (Z.max 1 p0)
  /\ con (do_csi echo v (chr "d"))
     = tsm_screen_move_to c (tsm_screen_get_cursor_x c) (Z.max 1 p0 - 1)
  /\ con (do_csi echo v (chr "e"))
     = tsm_screen_move_to c (tsm_screen_get_cursor_x c)
         (wrap_u32 (tsm_screen_get_cursor_y c + Z.max 1 p0))
  /\ con (do_csi echo v (chr "r"))
     = tsm_screen_set_margins c (Z.max 0 p0) (Z.max 0 p1).
Proof.
  intros p0 p1 c. subst p0 p1 c.
  split_and!; csi_final; cbn [con set_con];
    rewrite ?csi_count_last_arg, ?csi_count_last_con, ?num_or_1_max,
      ?clamp_0_max; reflexivity.
Qed.

Lemma tsm_vte_reset_csi_arg v i : csi_arg (tsm_vte_reset v) i = csi_arg v i.
Proof. reflexivity. Qed.

(** C10.  A CSI dispatch with final byte p and none of the intermediates
    >, ! and $ performs the soft reset first, whatever the parameters
    are.  Only the levels 61 and 62/63/64 change anything after it: the
    7-bit or 8-bit flag (and USE_C1) and the sets G0 and G1; for every
    other parameter the result is that of the soft reset alone. *)
Theorem decscl_soft_reset_first (v : tsm_vte) :
  has_flag (csi_flags v) CSI_GT = false ->
  has_flag (csi_flags v) CSI_BANG = false ->
  has_flag (csi_flags v) CSI_CASH = false ->
  let r := tsm_vte_reset (csi_count_last v) in
  let level := csi_arg v 0 in
  let charsets (w : tsm_vte) :=
    set_g1 (Some dec_supplemental_graphics) (set_g0 (Some unicode_lower) w) in
  (level = 61 ->
   do_csi echo v (chr "p")
   = charsets (set_flags (flag_set (flags r) FLAG_7BIT_MODE) r))
  /\ (level = 62 \/ level = 63 \/ level = 64 ->
      do_csi echo v (chr "p")
      = let w :=
          if (csi_arg v 1 =? 1) || (csi_arg v 1 =? 2)
          then set_flags (flag_set (flags r) FLAG_USE_C1) r
          else r in
        charsets (set_flags (flag_set (flags w) FLAG_8BIT_MODE) w))
  /\ (level <> 61 -> level <> 62 -> level <> 63 -> level <> 64 ->
      do_csi echo v (chr "p") = r).
Proof.
  intros Hgt Hbang Hcash r level charsets.
  assert (E : do_csi echo v (chr "p") = csi_compat_mode (csi_count_last v)).
  { csi_final. by rewrite !csi_count_last_csi_flags, Hgt, Hbang, Hcash. }
  rewrite E. unfold csi_compat_mode, csi_soft_reset. fold r.
  change (csi_arg r 0) with (csi_arg (csi_count_last v) 0).
  change (csi_arg r 1) with (csi_arg (csi_count_last v) 1).
  rewrite !csi_count_last_arg. fold level.
  split_and!.
  - intros ->. reflexivity.
  - intros Hl.
    assert ((level =? 61) = false) as -> by lia.
    assert ((level =? 62) || (level =? 63) || (level =? 64) = true) as ->
      by lia.
    reflexivity.
  - intros H1 H2 H3 H4.
    assert ((level =? 61) = false) as -> by lia.
    assert ((level =? 62) || (level =? 63) || (level =? 64) = false) as ->
      by lia.
    reflexivity.
Qed.

End CsiDispatch.

(** ** SGR: extended colours *)

Section SgrColours.

Context {SCR : Screen} {UNI : Unicode} {KEYS : Keysyms} {PLAT : Platform}.

Variable echo : tsm_vte -> list Z -> tsm_vte.

Lemma to_rgb_fg_color p a : fccode a < 0 -> fg_color (to_rgb p a) = fg_color a.
Proof.
  intros H. unfold to_rgb, fg_color.
  assert ((0 <=? fccode a) = false) as -> by lia.
  by repeat case_match.
Qed.

Lemma to_rgb_bg_color p a : bccode a < 0 -> bg_color (to_rgb p a) = bg_color a.
Proof.
  intros H. unfold to_rgb, bg_color.
  destruct (0 <=? fccode a); cbn [bccode attr_set_fb attr_set_fg attr_set_fr];
    by assert ((0 <=? bccode a) = false) as -> by lia.
Qed.

Lemma sgr_target_set_color v sel code cr cg cb p :
  sel = 38 \/ sel = 48 -> cast_i8 code < 0 ->
  sgr_target sel (to_rgb p (cattr (sgr_set_color v sel code cr cg cb)))
  = (cast_i8 code, (cr, cg, cb)).
Proof.
  intros [-> | ->] H; unfold sgr_target, sgr_set_color; cbn [Z.eqb Pos.eqb].
  - by rewrite to_rgb_fg_color.
  - by rewrite to_rgb_bg_color.
Qed.

Lemma csi_argc_sgr_set_color v sel code cr cg cb :
  csi_argc (sgr_set_color v sel code cr cg cb) = csi_argc v.
Proof. unfold sgr_set_color. by destruct (sel =? 38). Qed.

Lemma sgr_step_extended v i :
  csi_arg v i = 38 \/ csi_arg v i = 48 -> sgr_step v i = sgr_extended v i.
Proof. intros H. unfold sgr_step. by destruct H as [-> | ->]. Qed.

(** A single SGR item that takes up the whole parameter list *)
Lemma csi_attribute_loop_single v v2 j :
  0 < csi_argc v -> sgr_step v 0 = (v2, j) -> j + 1 = csi_argc v ->
  csi_argc v2 = csi_argc v ->
  csi_attribute_loop (Z.to_nat (csi_argc v)) 0 v = v2.
Proof.
  intros Hc Hs Hj Hc2.
  destruct (Z.to_nat (csi_argc v)) as [|n] eqn:E; [lia|].
  cbn [csi_attribute_loop].
  assert ((0 <? csi_argc v) = true) as -> by lia.
  rewrite Hs. cbn [fst snd].
  destruct n as [|n]; [done|]. cbn [csi_attribute_loop].
  by assert ((j + 1 <? csi_argc v2) = false) as -> by lia.
Qed.

Lemma csi_count_last_argc v :
  csi_argc v < CSI_ARG_MAX -> csi_argc (csi_count_last v) = csi_argc v + 1.
Proof.
  intros H. unfold csi_count_last.
  by assert ((csi_argc v <? CSI_ARG_MAX) = true) as -> by lia.
Qed.

Lemma cattr_csi_attribute_single v v2 j :
  1 < csi_argc v -> sgr_step v 0 = (v2, j) -> j + 1 = csi_argc v ->
  csi_argc v2 = csi_argc v ->
  cattr (csi_attribute v) = to_rgb (palette v2) (cattr v2).
Proof.
  intros Hc Hs Hj Hc2. unfold csi_attribute.
  assert (((csi_argc v <=? 1) && (csi_arg v 0 =? -1)) = false) as ->.
  { apply andb_false_iff. left. lia. }
  rewrite (csi_attribute_loop_single v v2 j); [|lia|done..].
  by destruct (has_flag (flags _) FLAG_BACKGROUND_COLOR_ERASE_MODE).
Qed.

Lemma sgr_extended_256 v sel i :
  csi_arg v 0 = sel -> csi_arg v 1 = 5 -> csi_arg v 2 = i ->
  csi_argc v = 3 -> 16 <= i ->
  sgr_extended v 0
  = (if i <? 232
     then sgr_set_color v sel UINT_MAX
            (bval_at ((i - 16) / 6 / 6 mod 6))
            (bval_at ((i - 16) / 6 mod 6))
            (bval_at ((i - 16) mod 6))
     else sgr_set_color v sel UINT_MAX
            (cast_u8 (wrap_u32 ((i - 232) * 10 + 8)))
            (cast_u8 (wrap_u32 ((i - 232) * 10 + 8)))
            (cast_u8 (wrap_u32 ((i - 232) * 10 + 8))), 2).
Proof.
  intros H0 H1 H2 Hc Hi. unfold sgr_extended.
  change (0 + 1) with 1. change (0 + 2) with 2.
  rewrite H0, H1, H2, Hc. cbn [Z.eqb Pos.eqb].
  assert (((3 <=? 2) || (i <? 0)) = false) as -> by lia.
  assert ((i <? 16) = false) as -> by lia.
  by destruct (i <? 232).
Qed.

Lemma sgr_extended_truecolor v sel r g b :
  csi_arg v 0 = sel -> csi_arg v 1 = 2 ->
  csi_arg v 2 = r -> csi_arg v 3 = g -> csi_arg v 4 = b ->
  csi_argc v = 5 -> 0 <= r -> 0 <= g -> 0 <= b ->
  sgr_extended v 0
  = (sgr_set_color v sel UINT_MAX (cast_u8 r) (cast_u8 g) (cast_u8 b), 4).
Proof.
  intros H0 H1 H2 H3 H4 Hc Hr Hg Hb. unfold sgr_extended.
  change (0 + 1) with 1. change (0 + 2) with 2. change (0 + 3) with 3.
  change (0 + 4) with 4.
  rewrite H0, H1, H2, H3, H4, Hc. cbn [Z.eqb Pos.eqb].
  by assert (((5 <=? 4) || (r <? 0) || (g <? 0) || (b <? 0)) = false) as ->
    by lia.
Qed.

(** C6 (amended).  [CSI 38;5;i m] (and [48;5;i] for the background) sets
    the colour code to -1 and the RGB triple to the entry of the 6x6x6
    cube when 16 <= i <= 231, and to the grey (i-232)*10+8 when
    232 <= i <= 255.  [CSI 38;2;r;g;b m] (and [48;2;r;g;b]) sets the code
    to -1 and each component to its parameter reduced modulo 256, the
    attribute's components being bytes: the triple is (r, g, b) exactly
    when r, g and b are at most 255. *)
Theorem sgr_extended_colours (v : tsm_vte) (sel : Z) :
  sel = 38 \/ sel = 48 ->
  has_flag (csi_flags v) CSI_GT = false ->
  csi_arg v 0 = sel ->
  let a := cattr (do_csi echo v (chr "m")) in
  (forall i,
      csi_argc v = 2 -> csi_arg v 1 = 5 -> csi_arg v 2 = i ->
      (16 <= i <= 231 ->
       sgr_target sel a
       = (-1, (bval_at ((i - 16) / 36 mod 6), bval_at ((i - 16) / 6 mod 6),
               bval_at ((i - 16) mod 6))))
      /\ (232 <= i <= 255 ->
          sgr_target sel a
          = (-1, ((i - 232) * 10 + 8, (i - 232) * 10 + 8,
                  (i - 232) * 10 + 8))))
  /\ (forall r g b,
        csi_argc v = 4 -> csi_arg v 1 = 2 ->
        csi_arg v 2 = r -> csi_arg v 3 = g -> csi_arg v 4 = b ->
        0 <= r -> 0 <= g -> 0 <= b ->
        sgr_target sel a = (-1, (r mod 256, g mod 256, b mod 256))
        /\ (r <= 255 -> g <= 255 -> b <= 255 ->
            sgr_target sel a = (-1, (r, g, b)))).
Proof.
  intros Hsel Hgt H0 a.
  assert (E : do_csi echo v (chr "m") = csi_attribute (csi_count_last v)).
  { csi_final. by rewrite csi_count_last_csi_flags, Hgt. }
  subst a. rewrite E. clear E.
  assert (Hs : forall w, csi_arg w 0 = sel ->
                         sgr_step w 0 = sgr_extended w 0).
  { intros w Hw. apply sgr_step_extended. rewrite Hw. lia. }
  split.
  - intros i Hc H1 H2.
    assert (Hc3 : csi_argc (csi_count_last v) = 3).
    { rewrite csi_count_last_argc; unfold CSI_ARG_MAX; lia. }
    assert (Hi : 16 <= i ->
      cattr (csi_attribute (csi_count_last v))
      = to_rgb (palette (sgr_extended (csi_count_last v) 0).1)
          (cattr (sgr_extended (csi_count_last v) 0).1)).
    { intros Hi.
      apply (cattr_csi_attribute_single _ _ 2); [lia | | lia |].
      - rewrite Hs by (by rewrite csi_count_last_arg).
        rewrite (sgr_extended_256 _ sel i);
          rewrite ?csi_count_last_arg; done.
      - rewrite (sgr_extended_256 _ sel i);
          rewrite ?csi_count_last_arg; try done.
        cbn [fst]. by destruct (i <? 232);
          rewrite csi_argc_sgr_set_color. }
    split; intros Hr; rewrite Hi by lia;
      rewrite (sgr_extended_256 _ sel i);
      rewrite ?csi_count_last_arg; try done; try lia; cbn [fst].
    + assert ((i <? 232) = true) as -> by lia.
      rewrite sgr_target_set_color; [|done|done].
      by rewrite Z.div_div by lia.
    + assert ((i <? 232) = false) as -> by lia.
      rewrite sgr_target_set_color; [|done|done].
      unfold cast_u8, wrap_u32.
      rewrite (Z.mod_small ((i - 232) * 10 + 8) 4294967296) by lia.
      by rewrite Z.mod_small by lia.
  - intros r g b Hc H1 H2 H3 H4 Hr Hg Hb.
    assert (Hc5 : csi_argc (csi_count_last v) = 5).
    { rewrite csi_count_last_argc; unfold CSI_ARG_MAX; lia. }
    assert (Ha : sgr_target sel (cattr (csi_attribute (csi_count_last v)))
                 = (-1, (r mod 256, g mod 256, b mod 256))).
    { rewrite (cattr_csi_attribute_single _
                 (sgr_set_color (csi_count_last v) sel UINT_MAX
                    (cast_u8 r) (cast_u8 g) (cast_u8 b)) 4); [|lia| |lia|].
      - by rewrite sgr_target_set_color.
      - rewrite Hs by (by rewrite csi_count_last_arg).
        apply sgr_extended_truecolor; rewrite ?csi_count_last_arg; done.
      - by rewrite csi_argc_sgr_set_color. }
    split; [done|]. intros. rewrite Ha.
    by rewrite !Z.mod_small by lia.
Qed.

End SgrColours.


(** ** The re-entry counter *)

Section ReentryCounter.

Context {SCR : Screen} {UNI : Unicode} {KEYS : Keysyms} {PLAT : Platform}.

(** The counter has the value [c]; [echo], which the writer calls only
    when the counter is 0, then leaves the counter at 0 *)
Variable echo : tsm_vte -> list Z -> tsm_vte.
Variable c : Z.
Hypothesis echo_cnt :
  c = 0 -> forall v u8, parse_cnt v = 0 -> parse_cnt (echo v u8) = 0.

Lemma cnt_is_ext (k : Z) (v v' : tsm_vte) :
  parse_cnt v' = parse_cnt v -> cnt_is k v -> cnt_is k v'.
Proof. unfold cnt_is. by intros ->. Qed.

Create HintDb cnt_db.

#[local] Hint Extern 1 (cnt_is _ (?s ?x ?w)) =>
  is_setter s; peel_setter cnt_is_ext : cnt_db.

Lemma cnt_is_write_console v sym : cnt_is c v -> cnt_is c (write_console v sym).
Proof. unfold write_console. intros; repeat case_match; eauto 60 with cnt_db. Qed.

#[local] Hint Resolve cnt_is_write_console : cnt_db.

Lemma cnt_is_reset_state v : cnt_is c v -> cnt_is c (reset_state v).
Proof. unfold reset_state. intros; repeat case_match; eauto 60 with cnt_db. Qed.

#[local] Hint Resolve cnt_is_reset_state : cnt_db.

Lemma cnt_is_save_state v : cnt_is c v -> cnt_is c (save_state v).
Proof. unfold save_state. intros; repeat case_match; eauto 60 with cnt_db. Qed.

#[local] Hint Resolve cnt_is_save_state : cnt_db.

Lemma cnt_is_restore_state_attr v :
  cnt_is c v -> cnt_is c (restore_state_attr v).
Proof.
  unfold restore_state_attr. intros; repeat case_match; eauto 60 with cnt_db.
Qed.

#[local] Hint Resolve cnt_is_restore_state_attr : cnt_db.

Lemma cnt_is_restore_state_wrap v :
  cnt_is c v -> cnt_is c (restore_state_wrap v).
Proof.
  unfold restore_state_wrap. intros; repeat case_match; eauto 60 with cnt_db.
Qed.

#[local] Hint Resolve cnt_is_restore_state_wrap : cnt_db.

Lemma cnt_is_restore_state_origin v :
  cnt_is c v -> cnt_is c (restore_state_origin v).
Proof.
  unfold restore_state_origin. intros; repeat case_match; eauto 60 with cnt_db.
Qed.

#[local] Hint Resolve cnt_is_restore_state_origin : cnt_db.

Lemma cnt_is_restore_state v : cnt_is c v -> cnt_is c (restore_state v).
Proof. unfold restore_state. eauto with cnt_db. Qed.

#[local] Hint Resolve cnt_is_restore_state : cnt_db.

Lemma cnt_is_tsm_vte_reset v : cnt_is c v -> cnt_is c (tsm_vte_reset v).
Proof. unfold tsm_vte_reset. intros; repeat case_match; eauto 60 with cnt_db. Qed.

#[local] Hint Resolve cnt_is_tsm_vte_reset : cnt_db.

Lemma cnt_is_tsm_vte_hard_reset v : cnt_is c v -> cnt_is c (tsm_vte_hard_reset v).
Proof. unfold tsm_vte_hard_reset. intros; repeat case_match; eauto 60 with cnt_db. Qed.

#[local] Hint Resolve cnt_is_tsm_vte_hard_reset : cnt_db.

Lemma cnt_is_do_clear v : cnt_is c v -> cnt_is c (do_clear v).
Proof. unfold do_clear. intros; repeat case_match; eauto 60 with cnt_db. Qed.

#[local] Hint Resolve cnt_is_do_clear : cnt_db.

Lemma cnt_is_do_collect v data : cnt_is c v -> cnt_is c (do_collect v data).
Proof. unfold do_collect. intros; repeat case_match; eauto 60 with cnt_db. Qed.

#[local] Hint Resolve cnt_is_do_collect : cnt_db.

Lemma cnt_is_do_osc_collect v val : cnt_is c v -> cnt_is c (do_osc_collect v val).
Proof. unfold do_osc_collect. intros; repeat case_match; eauto 60 with cnt_db. Qed.

#[local] Hint Resolve cnt_is_do_osc_collect : cnt_db.

Lemma cnt_is_do_osc_end v : cnt_is c v -> cnt_is c (do_osc_end v).
Proof. unfold do_osc_end. intros; repeat case_match; eauto 60 with cnt_db. Qed.

#[local] Hint Resolve cnt_is_do_osc_end : cnt_db.

Lemma cnt_is_sgr_set_color v val code cr cg cb : cnt_is c v -> cnt_is c (sgr_set_color v val code cr cg cb).
Proof. unfold sgr_set_color. intros; repeat case_match; eauto 60 with cnt_db. Qed.

#[local] Hint Resolve cnt_is_sgr_set_color : cnt_db.

Lemma cnt_is_set_reset_flag v set flag : cnt_is c v -> cnt_is c (set_reset_flag v set flag).
Proof. unfold set_reset_flag. intros; repeat case_match; eauto 60 with cnt_db. Qed.

#[local] Hint Resolve cnt_is_set_reset_flag : cnt_db.

Lemma cnt_is_screen_flag v set flag : cnt_is c v -> cnt_is c (screen_flag v set flag).
Proof. unfold screen_flag. intros; repeat case_match; eauto 60 with cnt_db. Qed.

#[local] Hint Resolve cnt_is_screen_flag : cnt_db.

Lemma cnt_is_csi_mode_arg v set a : cnt_is c v -> cnt_is c (csi_mode_arg v set a).
Proof. unfold csi_mode_arg. intros; repeat case_match; eauto 60 with cnt_db. Qed.

#[local] Hint Resolve cnt_is_csi_mode_arg : cnt_db.

Lemma cnt_is_csi_soft_reset v : cnt_is c v -> cnt_is c (csi_soft_reset v).
Proof. unfold csi_soft_reset. intros; repeat case_match; eauto 60 with cnt_db. Qed.

#[local] Hint Resolve cnt_is_csi_soft_reset : cnt_db.

Lemma cnt_is_csi_compat_mode v : cnt_is c v -> cnt_is c (csi_compat_mode v).
Proof. unfold csi_compat_mode. intros; repeat case_match; eauto 60 with cnt_db. Qed.

#[local] Hint Resolve cnt_is_csi_compat_mode : cnt_db.

Lemma cnt_is_csi_count_last v : cnt_is c v -> cnt_is c (csi_count_last v).
Proof. unfold csi_count_last. intros; repeat case_match; eauto 60 with cnt_db. Qed.

#[local] Hint Resolve cnt_is_csi_count_last : cnt_db.

Lemma cnt_is_do_param v data : cnt_is c v -> cnt_is c (do_param v data).
Proof.
  unfold do_param, set_csi_arg. intros; repeat case_match; eauto with cnt_db.
Qed.

#[local] Hint Resolve cnt_is_do_param : cnt_db.

Lemma cnt_is_set_charset v set v' :
  set_charset v set = Some v' -> cnt_is c v -> cnt_is c v'.
Proof.
  unfold set_charset. intros E H.
  repeat case_match; simplify_eq; eauto 60 with cnt_db.
Qed.

Lemma cnt_is_do_esc_charset v data v' :
  do_esc_charset v data = Some v' -> cnt_is c v -> cnt_is c v'.
Proof.
  unfold do_esc_charset. intros E H.
  repeat case_match; simplify_eq;
    eauto 60 using cnt_is_set_charset with cnt_db.
Qed.

Lemma cnt_is_sgr_extended v i : cnt_is c v -> cnt_is c (sgr_extended v i).1.
Proof.
  unfold sgr_extended. intros.
  repeat case_match; cbn [fst]; eauto 60 with cnt_db.
Qed.

Lemma cnt_is_sgr_step v i : cnt_is c v -> cnt_is c (sgr_step v i).1.
Proof.
  unfold sgr_step. intros.
  repeat case_match; cbn [fst];
    eauto 60 using cnt_is_sgr_extended with cnt_db.
Qed.

Lemma cnt_is_csi_attribute_loop n i v :
  cnt_is c v -> cnt_is c (csi_attribute_loop n i v).
Proof.
  revert i v. induction n as [|n IH]; intros i v H; cbn; [done|].
  case_match; [|done]. by apply IH, cnt_is_sgr_step.
Qed.

Lemma cnt_is_csi_attribute v : cnt_is c v -> cnt_is c (csi_attribute v).
Proof.
  intros H. unfold csi_attribute.
  assert (H1 : cnt_is c (if (csi_argc v <=? 1) && (csi_arg v 0 =? -1)
                         then set_csi_arg 0 0 (set_csi_argc 1 v) else v)).
  { unfold set_csi_arg. case_match; eauto with cnt_db. }
  pose proof (cnt_is_csi_attribute_loop
    (Z.to_nat (csi_argc (if (csi_argc v <=? 1) && (csi_arg v 0 =? -1)
                         then set_csi_arg 0 0 (set_csi_argc 1 v) else v)))
    0 _ H1).
  repeat case_match; eauto 60 with cnt_db.
Qed.

Lemma cnt_is_csi_mode_loop n i set v :
  cnt_is c v -> cnt_is c (csi_mode_loop n i set v).
Proof.
  revert i v. induction n as [|n IH]; intros i v H; cbn; [done|].
  by apply IH, cnt_is_csi_mode_arg.
Qed.

Lemma cnt_is_csi_mode v set : cnt_is c v -> cnt_is c (csi_mode v set).
Proof. apply cnt_is_csi_mode_loop. Qed.

Lemma cnt_is_vte_map v val : cnt_is c v -> cnt_is c (vte_map v val).1.
Proof.
  unfold vte_map. intros. repeat case_match; cbn [fst]; eauto 60 with cnt_db.
Qed.

#[local] Hint Resolve cnt_is_csi_attribute cnt_is_csi_mode cnt_is_vte_map
  : cnt_db.

Lemma cnt_is_vte_write_debug v u8 :
  cnt_is c v -> cnt_is c (vte_write_debug echo v u8).
Proof.
  unfold vte_write_debug, write_cb. intros H.
  destruct (parse_cnt v =? 0) eqn:E; cbn [andb].
  - assert (Hc : c = 0) by (unfold cnt_is in H; lia).
    assert (He : forall w u, cnt_is c w -> cnt_is c (echo w u)).
    { intros w u. unfold cnt_is. rewrite Hc. by apply echo_cnt. }
    repeat case_match; eauto 10 with cnt_db.
  - repeat case_match; eauto 10 with cnt_db.
Qed.

#[local] Hint Resolve cnt_is_vte_write_debug : cnt_db.

Lemma cnt_is_send_primary_da v : cnt_is c v -> cnt_is c (send_primary_da echo v).
Proof. unfold send_primary_da. intros; repeat case_match; eauto 60 with cnt_db. Qed.

#[local] Hint Resolve cnt_is_send_primary_da : cnt_db.

Lemma cnt_is_do_execute v ctrl : cnt_is c v -> cnt_is c (do_execute echo v ctrl).
Proof. unfold do_execute. intros; repeat case_match; eauto 60 with cnt_db. Qed.

#[local] Hint Resolve cnt_is_do_execute : cnt_db.

Lemma cnt_is_csi_dev_attr v : cnt_is c v -> cnt_is c (csi_dev_attr echo v).
Proof. unfold csi_dev_attr. intros; repeat case_match; eauto 60 with cnt_db. Qed.

#[local] Hint Resolve cnt_is_csi_dev_attr : cnt_db.

Lemma cnt_is_csi_dsr v : cnt_is c v -> cnt_is c (csi_dsr echo v).
Proof. unfold csi_dsr. intros; repeat case_match; eauto 60 with cnt_db. Qed.

#[local] Hint Resolve cnt_is_csi_dsr : cnt_db.

Lemma cnt_is_do_esc v data : cnt_is c v -> cnt_is c (do_esc echo v data).
Proof.
  unfold do_esc. intros.
  destruct (do_esc_charset v data) eqn:E;
    [by eapply cnt_is_do_esc_charset|].
  repeat case_match; eauto 60 with cnt_db.
Qed.

Lemma cnt_is_do_csi v data : cnt_is c v -> cnt_is c (do_csi echo v data).
Proof.
  intros H%cnt_is_csi_count_last. unfold do_csi.
  change (if csi_argc v <? CSI_ARG_MAX then set_csi_argc (csi_argc v + 1) v
          else v) with (csi_count_last v).
  generalize dependent (csi_count_last v). intros v1 H.
  repeat case_match; eauto 60 with cnt_db.
Qed.

#[local] Hint Resolve cnt_is_do_esc cnt_is_do_csi : cnt_db.

Lemma cnt_is_do_action v data act :
  cnt_is c v -> cnt_is c (do_action echo v data act).
Proof. intros. destruct act; cbn; eauto 60 with cnt_db. Qed.

Lemma cnt_is_do_trans v data st act :
  cnt_is c v -> cnt_is c (do_trans echo v data st act).
Proof.
  intros. unfold do_trans.
  destruct st; eauto 60 using cnt_is_do_action with cnt_db.
Qed.

Lemma cnt_is_parse_data v raw : cnt_is c v -> cnt_is c (parse_data echo v raw).
Proof.
  intros. unfold parse_data.
  repeat case_match; eauto using cnt_is_do_trans.
Qed.

Lemma cnt_is_input_byte v b : cnt_is c v -> cnt_is c (input_byte echo v b).
Proof.
  intros. unfold input_byte.
  repeat case_match; eauto 10 using cnt_is_parse_data with cnt_db.
Qed.

Lemma cnt_is_input_bytes u8 v :
  cnt_is c v -> cnt_is c (fold_left (input_byte echo) u8 v).
Proof.
  revert v. induction u8 as [|b u8 IH]; intros v H; cbn; [done|].
  by apply IH, cnt_is_input_byte.
Qed.

Lemma cnt_is_tsm_vte_handle_keyboard v keysym ascii mods unicode :
  cnt_is c v ->
  cnt_is c (tsm_vte_handle_keyboard echo v keysym ascii mods unicode).1.
Proof.
  intros. unfold tsm_vte_handle_keyboard.
  repeat case_match; cbn [fst]; eauto 10 with cnt_db.
Qed.

End ReentryCounter.

(** ** The writer and local echo *)

Section LocalEcho.

Context {SCR : Screen} {UNI : Unicode} {KEYS : Keysyms} {PLAT : Platform}.

(** While input is being processed the writer only calls [write_cb] *)
Lemma vte_write_debug_busy echo v u8 :
  parse_cnt v <> 0 ->
  vte_write_debug echo v u8
  = set_flags (flag_clear (flags v) FLAG_PREPEND_ESCAPE)
      (write_cb (if has_flag (flags v) FLAG_PREPEND_ESCAPE
                 then write_cb v [ESC] else v) u8).
Proof.
  intros H. unfold vte_write_debug.
  assert ((parse_cnt v =? 0) = false) as -> by lia. cbn [andb].
  by destruct (has_flag (flags v) FLAG_PREPEND_ESCAPE).
Qed.

Lemma cb_log_vte_write_debug_busy echo v u8 :
  parse_cnt v <> 0 ->
  cb_log (vte_write_debug echo v u8)
  = cb_log v
    ++ (if has_flag (flags v) FLAG_PREPEND_ESCAPE then [CB_WRITE [ESC]]
        else [])
    ++ [CB_WRITE u8].
Proof.
  intros H. rewrite vte_write_debug_busy by done. unfold write_cb.
  destruct (has_flag (flags v) FLAG_PREPEND_ESCAPE); cbn [cb_log set_cb_log
    set_flags]; by rewrite <- ?app_assoc.
Qed.

Section Busy.

Variables e1 e2 : tsm_vte -> list Z -> tsm_vte.

Lemma busy_vacuous (c : Z) (e : tsm_vte -> list Z -> tsm_vte) :
  c <> 0 ->
  c = 0 -> forall v u8, parse_cnt v = 0 -> parse_cnt (e v u8) = 0.
Proof. done. Qed.

Lemma vte_write_debug_indep v u8 :
  parse_cnt v <> 0 -> vte_write_debug e1 v u8 = vte_write_debug e2 v u8.
Proof. intros. by rewrite !vte_write_debug_busy. Qed.

Lemma send_primary_da_indep v :
  parse_cnt v <> 0 -> send_primary_da e1 v = send_primary_da e2 v.
Proof. apply vte_write_debug_indep. Qed.

Lemma do_execute_indep v ctrl :
  parse_cnt v <> 0 -> do_execute e1 v ctrl = do_execute e2 v ctrl.
Proof.
  intros. unfold do_execute.
  by rewrite (send_primary_da_indep v), (vte_write_debug_indep v).
Qed.

Lemma do_esc_indep v data :
  parse_cnt v <> 0 -> do_esc e1 v data = do_esc e2 v data.
Proof. intros. unfold do_esc. by rewrite (send_primary_da_indep v). Qed.

Lemma csi_dev_attr_indep v :
  parse_cnt v <> 0 -> csi_dev_attr e1 v = csi_dev_attr e2 v.
Proof.
  intros. unfold csi_dev_attr.
  by rewrite (send_primary_da_indep v), (vte_write_debug_indep v).
Qed.

Lemma csi_dsr_indep v : parse_cnt v <> 0 -> csi_dsr e1 v = csi_dsr e2 v.
Proof. intros. unfold csi_dsr. by rewrite !(vte_write_debug_indep v). Qed.

Lemma do_csi_indep v data :
  parse_cnt v <> 0 -> do_csi e1 v data = do_csi e2 v data.
Proof.
  intros H. unfold do_csi.
  change (if csi_argc v <? CSI_ARG_MAX then set_csi_argc (csi_argc v + 1) v
          else v) with (csi_count_last v).
  assert (H1 : parse_cnt (csi_count_last v) <> 0).
  { unfold csi_count_last. by destruct (csi_argc v <? CSI_ARG_MAX). }
  by rewrite (csi_dev_attr_indep _ H1), (csi_dsr_indep _ H1).
Qed.

Lemma do_action_indep v data act :
  parse_cnt v <> 0 -> do_action e1 v data act = do_action e2 v data act.
Proof.
  intros. destruct act; cbn [do_action];
    auto using do_execute_indep, do_esc_indep, do_csi_indep.
Qed.

Lemma parse_cnt_do_action e v data act :
  parse_cnt v <> 0 -> parse_cnt (do_action e v data act) = parse_cnt v.
Proof.
  intros H.
  by apply (cnt_is_do_action e (parse_cnt v) (busy_vacuous _ e H)).
Qed.

Lemma do_trans_indep v data st act :
  parse_cnt v <> 0 -> do_trans e1 v data st act = do_trans e2 v data st act.
Proof.
  intros H. unfold do_trans.
  assert (E1 := do_action_indep v data (exit_action (state v)) H).
  assert (H1 : parse_cnt (do_action e2 v data (exit_action (state v))) <> 0)
    by (by rewrite parse_cnt_do_action).
  assert (E2 := do_action_indep _ data act H1).
  assert (H2 : parse_cnt (do_action e2
                 (do_action e2 v data (exit_action (state v))) data act) <> 0)
    by (by rewrite !parse_cnt_do_action).
  destruct st; rewrite ?E1, ?E2; first [by apply do_action_indep | f_equal;
    by apply do_action_indep].
Qed.

Lemma parse_data_indep v raw :
  parse_cnt v <> 0 -> parse_data e1 v raw = parse_data e2 v raw.
Proof.
  intros. unfold parse_data. repeat case_match; auto using do_trans_indep.
Qed.

Lemma input_byte_indep v b :
  parse_cnt v <> 0 -> input_byte e1 v b = input_byte e2 v b.
Proof.
  intros. unfold input_byte. repeat case_match; auto using parse_data_indep.
Qed.

Lemma parse_cnt_input_byte e v b :
  parse_cnt v <> 0 -> parse_cnt (input_byte e v b) = parse_cnt v.
Proof.
  intros H.
  by apply (cnt_is_input_byte e (parse_cnt v) (busy_vacuous _ e H)).
Qed.

Lemma input_bytes_indep u8 v :
  parse_cnt v <> 0 ->
  fold_left (input_byte e1) u8 v = fold_left (input_byte e2) u8 v.
Proof.
  revert v. induction u8 as [|b u8 IH]; intros v H; cbn; [done|].
  rewrite (input_byte_indep v b H). apply IH.
  by rewrite parse_cnt_input_byte.
Qed.

Lemma tsm_vte_input_body_indep v u8 :
  0 <= parse_cnt v < ULONG_MAX ->
  tsm_vte_input_body e1 v u8 = tsm_vte_input_body e2 v u8.
Proof.
  intros H. unfold tsm_vte_input_body. rewrite input_bytes_indep; [done|].
  cbn [parse_cnt set_parse_cnt]. unfold wrap_u64, ULONG_MAX in *.
  rewrite Z.mod_small; lia.
Qed.

End Busy.

(** One nested call of [tsm_vte_input] is never exceeded: with the
    counter below its maximum, any amount of fuel gives the result that
    one unit gives, because no nested call takes place at all. *)
Theorem tsm_vte_input_fuel_enough (n : nat) (v : tsm_vte) (u8 : list Z) :
  0 <= parse_cnt v < ULONG_MAX ->
  tsm_vte_input_fuel (S n) v u8 = tsm_vte_input_fuel 1 v u8.
Proof. intros. cbn [tsm_vte_input_fuel]. by apply tsm_vte_input_body_indep. Qed.

Lemma parse_cnt_tsm_vte_input_fuel (n : nat) (v : tsm_vte) (u8 : list Z) :
  0 <= parse_cnt v <= ULONG_MAX ->
  parse_cnt (tsm_vte_input_fuel n v u8) = parse_cnt v.
Proof.
  revert v u8. induction n as [|n IH]; intros v u8 H; [done|].
  cbn [tsm_vte_input_fuel]. unfold tsm_vte_input_body.
  cbn [parse_cnt set_parse_cnt].
  rewrite (cnt_is_input_bytes (tsm_vte_input_fuel n)
             (wrap_u64 (parse_cnt v + 1))).
  - unfold wrap_u64, ULONG_MAX in *.
    destruct (decide (parse_cnt v = 18446744073709551615)) as [->|];
      [done|].
    rewrite (Z.mod_small (parse_cnt v + 1)) by lia.
    rewrite Z.mod_small; lia.
  - intros _ w u Hw. rewrite IH; [done|]. unfold ULONG_MAX. lia.
  - done.
Qed.

(** C8.  [tsm_vte_input] returns with the re-entry counter at the value
    it had at the call.  While the counter is not zero the writer does
    not feed bytes back into the parser: its result does not depend on
    what [tsm_vte_input] would do, it only calls [write_cb].  With the
    counter at zero and SEND_RECEIVE_MODE off, the writer first feeds the
    payload through [tsm_vte_input], preceded by ESC when the
    prepend-escape flag is set, and then calls [write_cb]. *)
Theorem reentry_counter_local_echo (n : nat) (v : tsm_vte) (u8 : list Z) :
  0 <= parse_cnt v <= ULONG_MAX ->
  parse_cnt (tsm_vte_input_fuel n v u8) = parse_cnt v
  /\ (forall (e1 e2 : tsm_vte -> list Z -> tsm_vte) (w : tsm_vte)
             (payload : list Z),
        parse_cnt w <> 0 ->
        vte_write_debug e1 w payload = vte_write_debug e2 w payload
        /\ cb_log (vte_write_debug e1 w payload)
           = cb_log w
             ++ (if has_flag (flags w) FLAG_PREPEND_ESCAPE
                 then [CB_WRITE [ESC]] else [])
             ++ [CB_WRITE payload])
  /\ (forall (echo : tsm_vte -> list Z -> tsm_vte) (w : tsm_vte)
             (payload : list Z),
        parse_cnt w = 0 ->
        has_flag (flags w) FLAG_SEND_RECEIVE_MODE = false ->
        vte_write_debug echo w payload
        = let w1 :=
            if has_flag (flags w) FLAG_PREPEND_ESCAPE then echo w [ESC]
            else w in
          let w2 := echo w1 payload in
          let w3 :=
            if has_flag (flags w2) FLAG_PREPEND_ESCAPE then write_cb w2 [ESC]
            else w2 in
          set_flags (flag_clear (flags w3) FLAG_PREPEND_ESCAPE)
            (write_cb w3 payload)).
Proof.
  intros H. split_and!.
  - by apply parse_cnt_tsm_vte_input_fuel.
  - intros e1 e2 w payload Hw. split.
    + by apply vte_write_debug_indep.
    + by apply cb_log_vte_write_debug_busy.
  - intros echo w payload Hw Hs. unfold vte_write_debug.
    rewrite Hw, Hs. cbn [Z.eqb negb andb].
    by repeat case_match.
Qed.

End LocalEcho.

(** ** Input may arrive in pieces *)

Section Chunks.

Context {SCR : Screen} {UNI : Unicode} {KEYS : Keysyms} {PLAT : Platform}.

(** Writing the counter back undoes a change of the counter *)
Lemma set_parse_cnt_back (v : tsm_vte) (x : Z) :
  set_parse_cnt (parse_cnt v) (set_parse_cnt x v) = v.
Proof. by destruct v. Qed.

Lemma parse_cnt_input_bytes e u8 v :
  parse_cnt v <> 0 ->
  parse_cnt (fold_left (input_byte e) u8 v) = parse_cnt v.
Proof.
  revert v. induction u8 as [|b u8 IH]; intros v H; cbn; [done|].
  rewrite IH; rewrite parse_cnt_input_byte; done.
Qed.

(** The body of [tsm_vte_input], with the counter of the call written
    out *)
Lemma tsm_vte_input_body_unfold e v u8 :
  0 <= parse_cnt v < ULONG_MAX ->
  tsm_vte_input_body e v u8
  = set_parse_cnt (parse_cnt v)
      (fold_left (input_byte e) u8 (set_parse_cnt (parse_cnt v + 1) v)).
Proof.
  intros H. unfold tsm_vte_input_body. cbv zeta.
  assert (E : wrap_u64 (parse_cnt v + 1) = parse_cnt v + 1).
  { unfold wrap_u64, ULONG_MAX in *. rewrite Z.mod_small; lia. }
  rewrite E, parse_cnt_input_bytes by (cbn; lia).
  cbn [parse_cnt set_parse_cnt]. f_equal.
  unfold wrap_u64, ULONG_MAX in *. rewrite Z.mod_small; lia.
Qed.

(** X6.  Input may be fed in pieces: with the re-entry counter below its
    maximum, one call of [tsm_vte_input] with the bytes [a ++ b] leaves
    the object in the state that a call with [a] followed by a call with
    [b] leaves it in, and a call without bytes changes nothing. *)
Theorem input_in_chunks (v : tsm_vte) (a b : list Z) :
  0 <= parse_cnt v < ULONG_MAX ->
  tsm_vte_input v (a ++ b) = tsm_vte_input (tsm_vte_input v a) b
  /\ tsm_vte_input v [] = v.
Proof.
  intros H. unfold tsm_vte_input. cbn [tsm_vte_input_fuel].
  set (e := tsm_vte_input_body (fun v _ => v)).
  assert (Ha : parse_cnt (tsm_vte_input_body e v a) = parse_cnt v).
  { by rewrite tsm_vte_input_body_unfold. }
  rewrite (tsm_vte_input_body_unfold e (tsm_vte_input_body e v a))
    by (rewrite Ha; done).
  rewrite Ha. rewrite !tsm_vte_input_body_unfold by done.
  split.
  - rewrite fold_left_app. f_equal. f_equal.
    set (w := fold_left _ a _).
    assert (Hw : parse_cnt w = parse_cnt v + 1).
    { unfold w. rewrite parse_cnt_input_bytes; cbn; [done|lia]. }
    rewrite <- Hw. symmetry. apply set_parse_cnt_back.
  - cbn [fold_left]. apply set_parse_cnt_back.
Qed.

End Chunks.
(** ** Reading CSI parameters *)

Section Parameters.

Context {SCR : Screen} {UNI : Unicode} {KEYS : Keysyms} {PLAT : Platform}.

Lemma digits_value_ge (ds : list Z) (a : Z) :
  0 <= a -> Forall is_digit ds -> a <= digits_value a ds.
Proof.
  unfold is_digit. change (chr "0") with 48. change (chr "9") with 57.
  revert a. induction ds as [|d r IH]; intros a Ha Hd; cbn; [lia|].
  inversion Hd as [|? ? H1 H2]; subst.
  change (chr "0") with 48.
  etrans; [|apply IH; [lia|done]]. lia.
Qed.

Lemma digits_value_dec (ds : list Z) (a : Z) :
  0 <= a -> Forall is_digit ds ->
  digits_value a ds = fold_left (fun a d => a * 10 + (d - chr "0")) ds a.
Proof.
  unfold is_digit. change (chr "0") with 48. change (chr "9") with 57.
  revert a. induction ds as [|d r IH]; intros a Ha Hd; cbn; [done|].
  inversion Hd as [|? ? H1 H2]; subst.
  change (chr "0") with 48.
  rewrite Z.max_r by lia. apply IH; [lia|done].
Qed.

(** From an absent parameter the digits give their decimal value *)
Lemma digits_value_param (ds : list Z) :
  Forall is_digit ds -> digits_value (-1) ds = param_value ds.
Proof.
  destruct ds as [|d r]; [done|]. intros Hd.
  inversion Hd as [|? ? H1 H2]; subst. unfold is_digit in H1.
  change (chr "0") with 48 in *. change (chr "9") with 57 in *.
  unfold param_value, dec_value.
  change (digits_value (-1) (d :: r))
    with (digits_value (Z.max 0 (-1) * 10 + (d - 48)) r).
  rewrite digits_value_dec; [done|lia|done].
Qed.

(** Digits whose value stays at most 0xffff are all absorbed *)
Lemma digits_absorbed_intro (ds : list Z) (cur : Z) :
  -1 <= cur -> Forall is_digit ds -> digits_value cur ds <= 0xffff ->
  digits_absorbed cur ds.
Proof.
  revert cur. induction ds as [|d r IH]; intros cur Hc Hd Hv; [done|].
  inversion Hd as [|? ? H1 H2]; subst.
  pose proof H1 as H1'. unfold is_digit in H1'.
  change (chr "0") with 48 in *. change (chr "9") with 57 in *.
  change (digits_value cur (d :: r))
    with (digits_value (Z.max 0 cur * 10 + (d - 48)) r) in Hv.
  pose proof (digits_value_ge r (Z.max 0 cur * 10 + (d - 48))
                ltac:(lia) H2).
  cbn. change (chr "0") with 48. split_and!; [lia|done|].
  apply IH; [lia|done|done].
Qed.

(** The separator *)
Lemma do_param_semicolon (v : tsm_vte) :
  csi_argc v < CSI_ARG_MAX ->
  do_param v (chr ";") = set_csi_argc (csi_argc v + 1) v.
Proof.
  intros H. unfold do_param. rewrite Z.eqb_refl.
  by apply Z.ltb_lt in H as ->.
Qed.

Section WithEcho.

Variable echo : tsm_vte -> list Z -> tsm_vte.

(** In the states that read parameters, a digit or a semicolon goes to
    [do_param] and the parser continues in CSI_PARAM *)
Lemma parse_data_param (v : tsm_vte) (c : Z) :
  state v = STATE_CSI_ENTRY \/ state v = STATE_CSI_PARAM ->
  is_digit c \/ c = chr ";" ->
  parse_data echo v c = set_state STATE_CSI_PARAM (do_param v c)
  \/ (parse_data echo v c = do_param v c /\ state v = STATE_CSI_PARAM).
Proof.
  unfold is_digit. change (chr "0") with 48. change (chr "9") with 57.
  change (chr ";") with 59.
  intros Hs Hc. unfold parse_data.
  assert (parse_anywhere c = None) as ->.
  { unfold parse_anywhere, in_range. destruct Hc; bool_lia; reflexivity. }
  destruct Hs as [Hs|Hs]; rewrite Hs; [left|right; split; [|done]].
  - assert (parse_in_state STATE_CSI_ENTRY c
            = Some (STATE_CSI_PARAM, ACTION_PARAM)) as ->.
    { unfold parse_in_state, c0_ctrl, param_char, in_range.
      destruct Hc; bool_lia; reflexivity. }
    unfold do_trans. rewrite Hs. reflexivity.
  - assert (parse_in_state STATE_CSI_PARAM c
            = Some (STATE_NONE, ACTION_PARAM)) as ->.
    { unfold parse_in_state, c0_ctrl, param_char, in_range.
      destruct Hc; bool_lia; reflexivity. }
    reflexivity.
Qed.

(** The digits of one parameter *)
Lemma parse_data_digits (ds : list Z) : forall (v : tsm_vte) (cur : Z) (k : nat),
  state v = STATE_CSI_ENTRY \/ state v = STATE_CSI_PARAM ->
  csi_argc v = Z.of_nat k -> (k < 16)%nat ->
  csi_argv v !! k = Some cur ->
  digits_absorbed cur ds ->
  let v' := fold_left (parse_data echo) ds v in
  (state v' = STATE_CSI_ENTRY \/ state v' = STATE_CSI_PARAM)
  /\ csi_argc v' = csi_argc v
  /\ csi_argv v' = <[k := digits_value cur ds]> (csi_argv v)
  /\ csi_flags v' = csi_flags v.
Proof.
  induction ds as [|d r IH]; intros v cur k Hs Hk Hlt Hcur Ha; cbn.
  - split_and!; try done. by rewrite list_insert_id.
  - destruct Ha as (Hle & Hd & Ha).
    pose proof (do_param_digit v d cur k Hk Hlt Hcur Hle Hd) as E.
    assert (Hin : (k < length (csi_argv v))%nat)
      by (eapply lookup_lt_Some; eauto).
    set (w := parse_data echo v d).
    assert (Hw : (state w = STATE_CSI_ENTRY \/ state w = STATE_CSI_PARAM)
                 /\ csi_argc w = csi_argc v
                 /\ csi_argv w
                    = <[k := Z.max 0 cur * 10 + (d - chr "0")]> (csi_argv v)
                 /\ csi_flags w = csi_flags v).
    { unfold w.
      destruct (parse_data_param v d Hs (or_introl Hd)) as [->|[-> Hp]];
        rewrite E; cbn; auto. }
    destruct Hw as (W1 & W2 & W3 & W4).
    destruct (IH w (Z.max 0 cur * 10 + (d - chr "0")) k)
      as (F1 & F2 & F3 & F4); try done; try congruence.
    { rewrite W3. by apply list_lookup_insert_eq. }
    split_and!; try done; try congruence.
    rewrite F3, W3. by rewrite list_insert_insert_eq.
Qed.

(** A parameter list, behind the parameters [seen] read before *)
Lemma parse_data_params (dss : list (list Z)) :
  forall (v : tsm_vte) (seen : list Z),
  dss <> [] ->
  state v = STATE_CSI_ENTRY \/ state v = STATE_CSI_PARAM ->
  csi_argc v = Z.of_nat (length seen) ->
  (length seen + length dss <= 16)%nat ->
  csi_argv v = seen ++ replicate (16 - length seen) (-1) ->
  Forall (fun ds => Forall is_digit ds /\ dec_value ds <= 0xffff) dss ->
  let v' := fold_left (parse_data echo) (csi_params_text dss) v in
  (state v' = STATE_CSI_ENTRY \/ state v' = STATE_CSI_PARAM)
  /\ csi_argc v' = Z.of_nat (length seen + length dss) - 1
  /\ csi_argv v'
     = seen ++ map param_value dss
         ++ replicate (16 - length seen - length dss) (-1)
  /\ csi_flags v' = csi_flags v.
Proof.
  induction dss as [|ds rest IH]; intros v seen Hne Hs Hk Hlen Hargv Hok;
    [done|].
  inversion Hok as [|? ? [Hd Hv] Hok']; subst. cbn [length] in Hlen.
  assert (Hcur : csi_argv v !! length seen = Some (-1)).
  { rewrite Hargv, lookup_app_r, Nat.sub_diag by lia.
    apply lookup_replicate_2. lia. }
  assert (Habs : digits_absorbed (-1) ds).
  { apply digits_absorbed_intro; [lia|done|].
    rewrite digits_value_param by done. destruct ds; [done|]. apply Hv. }
  assert (Hins : <[length seen := param_value ds]> (csi_argv v)
                 = (seen ++ [param_value ds])
                     ++ replicate (16 - length (seen ++ [param_value ds]))
                          (-1)).
  { rewrite Hargv, length_app. cbn [length].
    replace (16 - length seen)%nat with (S (16 - (length seen + 1)))
      by lia.
    cbn [replicate].
    rewrite <- (Nat.add_0_r (length seen)) at 1.
    rewrite insert_app_r. cbn. by rewrite <- app_assoc. }
  destruct (parse_data_digits ds v (-1) (length seen))
    as (F1 & F2 & F3 & F4); try done; [lia|].
  rewrite digits_value_param in F3 by done.
  cbn [csi_params_text]. destruct rest as [|ds2 rest].
  - cbn [map length]. split_and!; try done.
    + rewrite F2, Hk. lia.
    + rewrite F3, Hins, length_app. cbn [length app].
      rewrite <- app_assoc. cbn [app]. do 3 f_equal. lia.
  - rewrite fold_left_app. cbn [fold_left].
    set (w := fold_left (parse_data echo) ds v) in *.
    set (w' := parse_data echo w (chr ";")).
    assert (Hw' : (state w' = STATE_CSI_ENTRY \/ state w' = STATE_CSI_PARAM)
                  /\ csi_argc w' = csi_argc w + 1
                  /\ csi_argv w' = csi_argv w
                  /\ csi_flags w' = csi_flags w).
    { unfold w'. cbn [length] in Hlen.
      assert (csi_argc w < CSI_ARG_MAX)
        by (rewrite F2, Hk; unfold CSI_ARG_MAX; lia).
      destruct (parse_data_param w (chr ";") F1 (or_intror eq_refl))
        as [->|[-> Hp]];
        rewrite do_param_semicolon by done; cbn; auto. }
    destruct Hw' as (W1 & W2 & W3 & W4).
    destruct (IH w' (seen ++ [param_value ds]))
      as (G1 & G2 & G3 & G4); try done.
    { rewrite W2, F2, Hk, length_app. cbn. lia. }
    { rewrite length_app. cbn [length] in *. lia. }
    { by rewrite W3, F3. }
    split_and!; try done.
    + rewrite G2, length_app. cbn [length]. lia.
    + rewrite G3, length_app. cbn [length map].
      rewrite <- app_assoc. cbn [app]. do 5 f_equal. lia.
    + congruence.
Qed.

(** [ESC [] from any state *)
Lemma parse_data_csi_entry (v : tsm_vte) :
  let v' := parse_data echo (parse_data echo v ESC) (chr "[") in
  state v' = STATE_CSI_ENTRY /\ csi_argc v' = 0
  /\ csi_argv v' = replicate 16 (-1) /\ csi_flags v' = 0.
Proof.
  cbv zeta.
  assert (E : state (parse_data echo v ESC) = STATE_ESC) by reflexivity.
  set (w := parse_data echo v ESC) in *. clearbody w.
  unfold parse_data.
  change (parse_anywhere (chr "[")) with (@None (parser_state * parser_action)).
  rewrite E.
  change (parse_in_state STATE_ESC (chr "["))
    with (Some (STATE_CSI_ENTRY, ACTION_NONE)).
  unfold do_trans. rewrite E. by cbn.
Qed.

End WithEcho.

(** X7.  A CSI parameter list is read as written: whatever state the
    parser is in, after ESC, '[' and up to 16 parameters separated by
    semicolons, each a possibly empty string of decimal digits of a value
    at most 65535, [csi_argv] holds the values of the parameters in
    order, -1 for a parameter without digits and for the slots behind the
    last parameter, [csi_argc] is the index of the last parameter, no
    intermediate flag is set, and the parser waits for more of the
    sequence. *)
Theorem csi_parameters_parsed
  (echo : tsm_vte -> list Z -> tsm_vte) (v : tsm_vte)
  (dss : list (list Z)) :
  dss <> [] ->
  (length dss <= 16)%nat ->
  Forall (fun ds => Forall is_digit ds /\ dec_value ds <= 0xffff) dss ->
  let v' :=
    fold_left (parse_data echo) (ESC :: chr "[" :: csi_params_text dss) v in
  csi_argc v' = Z.of_nat (length dss) - 1
  /\ csi_argv v'
     = map param_value dss ++ replicate (16 - length dss) (-1)
  /\ csi_flags v' = 0
  /\ (state v' = STATE_CSI_ENTRY \/ state v' = STATE_CSI_PARAM).
Proof.
  intros Hne Hlen Hok. cbv zeta. cbn [fold_left].
  destruct (parse_data_csi_entry echo v) as (E1 & E2 & E3 & E4).
  set (w := parse_data echo (parse_data echo v ESC) (chr "[")) in *.
  clearbody w.
  destruct (parse_data_params echo dss w [] Hne (or_introl E1) E2 Hlen E3 Hok)
    as (F1 & F2 & F3 & F4).
  cbn [length app Nat.add] in *. rewrite Nat.sub_0_r in F3.
  split; [exact F2|]. split; [exact F3|]. split; [congruence|exact F1].
Qed.

End Parameters.
(** ** Whole escape sequences *)

Section Sequences.

Context {SCR : Screen} {UNI : Unicode} {KEYS : Keysyms} {PLAT : Platform}.

Variable echo : tsm_vte -> list Z -> tsm_vte.

(** ESC is taken in every state: the state is left, the parameters are
    cleared *)
Lemma parse_data_escape (v : tsm_vte) :
  parse_data echo v ESC = set_state STATE_ESC (do_clear (leave_state v)).
Proof.
  unfold parse_data, leave_state.
  change (parse_anywhere ESC) with (Some (STATE_ESC, ACTION_NONE)).
  unfold do_trans. by destruct (state v).
Qed.

(** Leaving a state touches the OSC buffer and the callbacks only *)
Lemma leave_state_frame (v : tsm_vte) :
  con (leave_state v) = con v /\ flags (leave_state v) = flags v
  /\ palette (leave_state v) = palette v
  /\ def_attr (leave_state v) = def_attr v
  /\ alt_cursor_x (leave_state v) = alt_cursor_x v
  /\ alt_cursor_y (leave_state v) = alt_cursor_y v
  /\ (state v <> STATE_OSC_STRING -> cb_log (leave_state v) = cb_log v).
Proof.
  unfold leave_state, do_osc_end.
  destruct (state v), (negb (osc_cb v)); by split_and!.
Qed.

(** The final byte of [ESC c] *)
Lemma parse_data_ris (v : tsm_vte) :
  state v = STATE_ESC -> csi_flags v = 0 ->
  parse_data echo v (chr "c") = set_state STATE_GROUND (tsm_vte_hard_reset v).
Proof.
  intros Hs Hf. unfold parse_data.
  change (parse_anywhere (chr "c")) with (@None (parser_state * parser_action)).
  rewrite Hs.
  change (parse_in_state STATE_ESC (chr "c"))
    with (Some (STATE_GROUND, ACTION_ESC_DISPATCH)).
  unfold do_trans. rewrite Hs. cbn [exit_action entry_action do_action].
  unfold do_esc.
  change (do_esc_charset v (chr "c")) with (@None tsm_vte).
  by rewrite Hf.
Qed.

(** What a hard reset leaves behind *)
Lemma con_tsm_vte_hard_reset (w : tsm_vte) :
  con (tsm_vte_hard_reset w)
  = tsm_screen_move_to
      (tsm_screen_clear_sb
         (tsm_screen_erase_screen
            (tsm_screen_set_def_attr
               (tsm_screen_set_flags (tsm_screen_reset (con w))
                  TSM_SCREEN_AUTO_WRAP)
               (def_attr w))
            false))
      0 0.
Proof. reflexivity. Qed.

Lemma flags_tsm_vte_hard_reset (w : tsm_vte) :
  flags (tsm_vte_hard_reset w) = reset_flags.
Proof. reflexivity. Qed.

Lemma charsets_tsm_vte_hard_reset (w : tsm_vte) :
  gl (tsm_vte_hard_reset w) = Some GSLOT0
  /\ gr (tsm_vte_hard_reset w) = Some GSLOT1
  /\ glt (tsm_vte_hard_reset w) = None
  /\ grt (tsm_vte_hard_reset w) = None.
Proof. by split_and!. Qed.

Lemma cattr_tsm_vte_hard_reset (w : tsm_vte) :
  cattr (tsm_vte_hard_reset w) = to_rgb (palette w) (def_attr w).
Proof. reflexivity. Qed.

Lemma cb_log_tsm_vte_hard_reset (w : tsm_vte) :
  cb_log (tsm_vte_hard_reset w) = cb_log w.
Proof. reflexivity. Qed.

(** [ESC c] is a hard reset behind the leaving of the state *)
Lemma parse_data_esc_c (v : tsm_vte) :
  fold_left (parse_data echo) [ESC; chr "c"] v
  = set_state STATE_GROUND
      (tsm_vte_hard_reset (set_state STATE_ESC (do_clear (leave_state v)))).
Proof.
  cbn [fold_left]. rewrite parse_data_escape.
  apply parse_data_ris; reflexivity.
Qed.

(** X12.  [ESC c] resets the terminal from every parser state: the parser
    ends in the ground state, the screen is reset, told to wrap, given
    the default attribute, erased, stripped of its scrollback and has its
    cursor moved home, in this order; the mode flags are those of a soft
    reset, GL and GR are G0 and G1 without a pending single shift, and
    the current attribute is the default one resolved against the
    palette.  No callback is called, except the OSC callback when the
    sequence cuts an OSC string short. *)
Theorem ris_resets_terminal (v : tsm_vte) :
  let v' := fold_left (parse_data echo) [ESC; chr "c"] v in
  state v' = STATE_GROUND
  /\ con v'
     = tsm_screen_move_to
         (tsm_screen_clear_sb
            (tsm_screen_erase_screen
               (tsm_screen_set_def_attr
                  (tsm_screen_set_flags (tsm_screen_reset (con v))
                     TSM_SCREEN_AUTO_WRAP)
                  (def_attr v))
               false))
         0 0
  /\ flags v' = reset_flags
  /\ (gl v' = Some GSLOT0 /\ gr v' = Some GSLOT1
      /\ glt v' = None /\ grt v' = None)
  /\ cattr v' = to_rgb (palette v) (def_attr v)
  /\ (state v <> STATE_OSC_STRING -> cb_log v' = cb_log v).
Proof.
  cbv zeta. rewrite parse_data_esc_c.
  destruct (leave_state_frame v) as (L1 & L2 & L3 & L4 & _ & _ & L7).
  set (w := leave_state v) in *. clearbody w.
  set (u := set_state STATE_ESC (do_clear w)).
  assert (U1 : con u = con v) by (rewrite <- L1; reflexivity).
  assert (U2 : def_attr u = def_attr v) by (rewrite <- L4; reflexivity).
  assert (U3 : palette u = palette v) by (rewrite <- L3; reflexivity).
  assert (U4 : cb_log u = cb_log w) by reflexivity.
  clearbody u.
  assert (S1 : forall x : tsm_vte, con (set_state STATE_GROUND x) = con x)
    by reflexivity.
  assert (S2 : forall x : tsm_vte, flags (set_state STATE_GROUND x) = flags x)
    by reflexivity.
  assert (S3 : forall x : tsm_vte, cattr (set_state STATE_GROUND x) = cattr x)
    by reflexivity.
  assert (S4 : forall x : tsm_vte,
             cb_log (set_state STATE_GROUND x) = cb_log x) by reflexivity.
  assert (S5 : forall x : tsm_vte,
             gl (set_state STATE_GROUND x) = gl x
             /\ gr (set_state STATE_GROUND x) = gr x
             /\ glt (set_state STATE_GROUND x) = glt x
             /\ grt (set_state STATE_GROUND x) = grt x) by (by intros).
  rewrite S1, S2, S3, S4.
  destruct (S5 (tsm_vte_hard_reset u)) as (-> & -> & -> & ->).
  rewrite con_tsm_vte_hard_reset, flags_tsm_vte_hard_reset,
    cattr_tsm_vte_hard_reset, cb_log_tsm_vte_hard_reset, U1, U2, U3, U4.
  split; [reflexivity|]. split; [reflexivity|]. split; [reflexivity|].
  split; [apply charsets_tsm_vte_hard_reset|]. split; [reflexivity|].
  exact L7.
Qed.

(** The ways [csi_mode_arg] reads the object *)
Lemma csi_mode_arg_frame (v w : tsm_vte) (set : bool) (a : Z) :
  has_flag (csi_flags w) CSI_WHAT = has_flag (csi_flags v) CSI_WHAT ->
  flags w = flags v -> con w = con v ->
  alt_cursor_x w = alt_cursor_x v -> alt_cursor_y w = alt_cursor_y v ->
  flags (csi_mode_arg w set a) = flags (csi_mode_arg v set a)
  /\ con (csi_mode_arg w set a) = con (csi_mode_arg v set a).
Proof.
  intros Hw Hf Hc Hx Hy. unfold csi_mode_arg, set_reset_flag, screen_flag.
  rewrite Hw, Hf. cbv zeta.
  repeat case_match; cbn; rewrite ?Hf, ?Hc, ?Hx, ?Hy; done.
Qed.

(** Entering a state clears the parameters only *)
Lemma enter_state_frame (w : tsm_vte) (s : parser_state) :
  flags (set_state s (do_clear w)) = flags w
  /\ con (set_state s (do_clear w)) = con w
  /\ alt_cursor_x (set_state s (do_clear w)) = alt_cursor_x w
  /\ alt_cursor_y (set_state s (do_clear w)) = alt_cursor_y w.
Proof. by split_and!. Qed.

(** '[' after ESC *)
Lemma parse_data_bracket (w : tsm_vte) :
  state w = STATE_ESC ->
  parse_data echo w (chr "[") = set_state STATE_CSI_ENTRY (do_clear w).
Proof.
  intros E. unfold parse_data.
  change (parse_anywhere (chr "[")) with (@None (parser_state * parser_action)).
  rewrite E.
  change (parse_in_state STATE_ESC (chr "["))
    with (Some (STATE_CSI_ENTRY, ACTION_NONE)).
  unfold do_trans. rewrite E. reflexivity.
Qed.

(** [ESC [] leaves the modes and the screen alone *)
Lemma parse_data_csi_entry_frame (v : tsm_vte) :
  let w := parse_data echo (parse_data echo v ESC) (chr "[") in
  flags w = flags v /\ con w = con v
  /\ alt_cursor_x w = alt_cursor_x v /\ alt_cursor_y w = alt_cursor_y v.
Proof.
  cbv zeta.
  assert (E : state (parse_data echo v ESC) = STATE_ESC).
  { rewrite parse_data_escape. reflexivity. }
  rewrite (parse_data_bracket _ E), parse_data_escape.
  destruct (leave_state_frame v) as (L1 & L2 & _ & _ & L5 & L6 & _).
  set (u := leave_state v) in *. clearbody u.
  destruct (enter_state_frame (set_state STATE_ESC (do_clear u))
              STATE_CSI_ENTRY) as (A1 & A2 & A3 & A4).
  destruct (enter_state_frame u STATE_ESC) as (B1 & B2 & B3 & B4).
  rewrite A1, A2, A3, A4, B1, B2, B3, B4. by split_and!.
Qed.

(** Reading a parameter leaves the modes and the screen alone *)
Lemma parse_data_param_frame (v : tsm_vte) (c : Z) :
  state v = STATE_CSI_ENTRY \/ state v = STATE_CSI_PARAM ->
  is_digit c \/ c = chr ";" ->
  let r := parse_data echo v c in
  state r = STATE_CSI_PARAM
  /\ flags r = flags v /\ con r = con v
  /\ alt_cursor_x r = alt_cursor_x v /\ alt_cursor_y r = alt_cursor_y v.
Proof.
  intros Hs Hc. cbv zeta.
  destruct (parse_data_param echo v c Hs Hc) as [-> | [-> Hp]];
    unfold do_param, set_csi_arg; repeat case_match; by split_and!.
Qed.

Lemma parse_data_digits_frame (ds : list Z) : forall v : tsm_vte,
  state v = STATE_CSI_PARAM -> Forall is_digit ds ->
  let r := fold_left (parse_data echo) ds v in
  state r = STATE_CSI_PARAM
  /\ flags r = flags v /\ con r = con v
  /\ alt_cursor_x r = alt_cursor_x v /\ alt_cursor_y r = alt_cursor_y v.
Proof.
  induction ds as [|d r IH]; intros v Hs Hd; cbn; [done|].
  inversion Hd as [|? ? H1 H2]; subst.
  destruct (parse_data_param_frame v d (or_intror Hs) (or_introl H1))
    as (P1 & P2 & P3 & P4 & P5).
  destruct (IH (parse_data echo v d) P1 H2) as (Q1 & Q2 & Q3 & Q4 & Q5).
  split_and!; congruence.
Qed.

(** The final byte of SM and RM with a single parameter *)
Lemma parse_data_mode_final (v : tsm_vte) (set : bool) :
  state v = STATE_CSI_PARAM -> csi_argc v = 0 ->
  parse_data echo v (if set then chr "h" else chr "l")
  = set_state STATE_GROUND
      (csi_mode_arg (set_csi_argc 1 v) set (csi_arg v 0)).
Proof.
  intros Hs Hc.
  assert (E : csi_count_last v = set_csi_argc 1 v).
  { unfold csi_count_last. rewrite Hc. reflexivity. }
  unfold parse_data. destruct set.
  - change (parse_anywhere (chr "h"))
      with (@None (parser_state * parser_action)).
    rewrite Hs.
    change (parse_in_state STATE_CSI_PARAM (chr "h"))
      with (Some (STATE_GROUND, ACTION_CSI_DISPATCH)).
    unfold do_trans. rewrite Hs.
    cbn [exit_action entry_action do_action].
    csi_final. rewrite E. reflexivity.
  - change (parse_anywhere (chr "l"))
      with (@None (parser_state * parser_action)).
    rewrite Hs.
    change (parse_in_state STATE_CSI_PARAM (chr "l"))
      with (Some (STATE_GROUND, ACTION_CSI_DISPATCH)).
    unfold do_trans. rewrite Hs.
    cbn [exit_action entry_action do_action].
    csi_final. rewrite E. reflexivity.
Qed.

(** The mark '?' after [ESC [] *)
Lemma parse_data_mark (w : tsm_vte) :
  state w = STATE_CSI_ENTRY ->
  parse_data echo w (chr "?")
  = set_state STATE_CSI_PARAM
      (set_csi_flags (flag_set (csi_flags w) CSI_WHAT) w).
Proof.
  intros E. unfold parse_data.
  change (parse_anywhere (chr "?"))
    with (@None (parser_state * parser_action)).
  rewrite E.
  change (parse_in_state STATE_CSI_ENTRY (chr "?"))
    with (Some (STATE_CSI_PARAM, ACTION_COLLECT)).
  unfold do_trans. rewrite E. reflexivity.
Qed.

Lemma parse_data_mark_frame (w : tsm_vte) (private : bool) :
  state w = STATE_CSI_ENTRY -> csi_argc w = 0 ->
  csi_argv w = replicate 16 (-1) -> csi_flags w = 0 ->
  let r := fold_left (parse_data echo) (if private then [chr "?"] else []) w in
  (state r = STATE_CSI_ENTRY \/ state r = STATE_CSI_PARAM)
  /\ csi_argc r = 0 /\ csi_argv r = replicate 16 (-1)
  /\ csi_flags r = (if private then CSI_WHAT else 0)
  /\ flags r = flags w /\ con r = con w
  /\ alt_cursor_x r = alt_cursor_x w /\ alt_cursor_y r = alt_cursor_y w.
Proof.
  intros E1 E2 E3 E4. cbv zeta.
  destruct private; cbn [fold_left]; [|by split_and!; auto].
  rewrite (parse_data_mark w E1), E4.
  split; [by right|]. by split_and!.
Qed.

(** The digits of one parameter *)
Lemma parse_data_number (w : tsm_vte) (ds : list Z) :
  state w = STATE_CSI_ENTRY \/ state w = STATE_CSI_PARAM ->
  csi_argc w = 0 -> csi_argv w = replicate 16 (-1) ->
  ds <> [] -> Forall is_digit ds -> dec_value ds <= 0xffff ->
  let r := fold_left (parse_data echo) ds w in
  state r = STATE_CSI_PARAM /\ csi_argc r = 0
  /\ csi_arg r 0 = dec_value ds /\ csi_flags r = csi_flags w
  /\ flags r = flags w /\ con r = con w
  /\ alt_cursor_x r = alt_cursor_x w /\ alt_cursor_y r = alt_cursor_y w.
Proof.
  intros M1 M2 M3 Hne Hd Hv. cbv zeta.
  destruct (parse_data_params echo [ds] w [])
    as (F1 & F2 & F3 & F4); try done.
  { cbn. lia. }
  { by repeat constructor. }
  cbn [csi_params_text length app map Nat.add] in *.
  assert (F5 : state (fold_left (parse_data echo) ds w) = STATE_CSI_PARAM
               /\ flags (fold_left (parse_data echo) ds w) = flags w
               /\ con (fold_left (parse_data echo) ds w) = con w
               /\ alt_cursor_x (fold_left (parse_data echo) ds w)
                  = alt_cursor_x w
               /\ alt_cursor_y (fold_left (parse_data echo) ds w)
                  = alt_cursor_y w).
  { destruct ds as [|d r]; [done|]. cbn [fold_left].
    inversion Hd as [|? ? H1 H2]; subst.
    destruct (parse_data_param_frame w d M1 (or_introl H1))
      as (P1 & P2 & P3 & P4 & P5).
    destruct (parse_data_digits_frame r (parse_data echo w d) P1 H2)
      as (Q1 & Q2 & Q3 & Q4 & Q5).
    split_and!; congruence. }
  destruct F5 as (G1 & G2 & G3 & G4 & G5).
  set (w2 := fold_left (parse_data echo) ds w) in *. clearbody w2.
  split_and!; try done.
  unfold csi_arg. rewrite F3. cbn. by destruct ds.
Qed.

(** The final byte, up to the modes and the screen *)
Lemma parse_data_mode_final_frame (v w : tsm_vte) (set : bool) :
  state w = STATE_CSI_PARAM -> csi_argc w = 0 ->
  has_flag (csi_flags w) CSI_WHAT = has_flag (csi_flags v) CSI_WHAT ->
  flags w = flags v -> con w = con v ->
  alt_cursor_x w = alt_cursor_x v -> alt_cursor_y w = alt_cursor_y v ->
  let r := parse_data echo w (if set then chr "h" else chr "l") in
  let m := csi_mode_arg v set (csi_arg w 0) in
  state r = STATE_GROUND /\ flags r = flags m /\ con r = con m.
Proof.
  intros Hs Hc Hw Hf Hcon Hx Hy. cbv zeta.
  rewrite (parse_data_mode_final w set Hs Hc).
  destruct (csi_mode_arg_frame v (set_csi_argc 1 w) set (csi_arg w 0)
              Hw Hf Hcon Hx Hy) as (R1 & R2).
  set (r := csi_mode_arg (set_csi_argc 1 w) set (csi_arg w 0)) in *.
  clearbody r. rewrite <- R1, <- R2. by split_and!.
Qed.

(** X13.  A mode sequence does what [csi_mode_arg] says for its number:
    from every parser state, ESC, '[', the mark '?' for a DEC private
    mode, the decimal digits of a number [n] up to 65535 and the final
    byte 'h' (set) or 'l' (reset) leave the parser in the ground state
    with the mode flags and the screen that the mode [n] gives when it is
    set or reset in the state the sequence found. *)
Theorem mode_sequence
  (v : tsm_vte) (private : bool) (ds : list Z) (set : bool) :
  ds <> [] -> Forall is_digit ds -> dec_value ds <= 0xffff ->
  let v' :=
    fold_left (parse_data echo)
      (ESC :: chr "[" :: (if private then [chr "?"] else [])
           ++ ds ++ [if set then chr "h" else chr "l"])
      v in
  let m :=
    csi_mode_arg (set_csi_flags (if private then CSI_WHAT else 0) v) set
      (dec_value ds) in
  state v' = STATE_GROUND /\ flags v' = flags m /\ con v' = con m.
Proof.
  intros Hne Hd Hv. cbv zeta. cbn [fold_left].
  rewrite !fold_left_app. cbn [fold_left].
  destruct (parse_data_csi_entry echo v) as (E1 & E2 & E3 & E4).
  destruct (parse_data_csi_entry_frame v) as (W1 & W2 & W3 & W4).
  set (w0 := parse_data echo (parse_data echo v ESC) (chr "[")) in *.
  clearbody w0.
  destruct (parse_data_mark_frame w0 private E1 E2 E3 E4)
    as (M1 & M2 & M3 & M4 & M5 & M6 & M7 & M8).
  set (w1 := fold_left (parse_data echo) (if private then [chr "?"] else [])
               w0) in *.
  clearbody w1.
  destruct (parse_data_number w1 ds M1 M2 M3 Hne Hd Hv)
    as (N1 & N2 & N3 & N4 & N5 & N6 & N7 & N8).
  set (w2 := fold_left (parse_data echo) ds w1) in *. clearbody w2.
  rewrite <- N3.
  apply parse_data_mode_final_frame; try done.
  - rewrite N4, M4. reflexivity.
  - rewrite N5, M5, W1. reflexivity.
  - rewrite N6, M6, W2. reflexivity.
  - rewrite N7, M7, W3. reflexivity.
  - rewrite N8, M8, W4. reflexivity.
Qed.

(** A parameter list leaves the modes and the screen alone *)
Lemma parse_data_params_frame (cs : list Z) : forall v : tsm_vte,
  state v = STATE_CSI_ENTRY \/ state v = STATE_CSI_PARAM ->
  Forall (fun c => is_digit c \/ c = chr ";") cs ->
  let r := fold_left (parse_data echo) cs v in
  flags r = flags v /\ con r = con v.
Proof.
  induction cs as [|c r IH]; intros v Hs Hc; cbn; [done|].
  inversion Hc as [|? ? H1 H2]; subst.
  destruct (parse_data_param_frame v c Hs H1) as (P1 & P2 & P3 & _).
  destruct (IH (parse_data echo v c) (or_intror P1) H2) as (Q1 & Q2).
  split; congruence.
Qed.

(** A final byte behind the parameters dispatches the sequence *)
Lemma parse_data_csi_final (v : tsm_vte) (c : Z) :
  state v = STATE_CSI_ENTRY \/ state v = STATE_CSI_PARAM ->
  0x40 <= c <= 0x7e ->
  parse_data echo v c = set_state STATE_GROUND (do_csi echo v c).
Proof.
  intros Hs Hc.
  assert (A : parse_anywhere c = None).
  { unfold parse_anywhere, in_range. bool_lia. reflexivity. }
  assert (B : parse_in_state (state v) c
              = Some (STATE_GROUND, ACTION_CSI_DISPATCH)).
  { destruct Hs as [-> | ->];
      unfold parse_in_state, c0_ctrl, param_char, in_range; bool_lia;
      reflexivity. }
  unfold parse_data. rewrite A, B. unfold do_trans.
  destruct Hs as [-> | ->]; reflexivity.
Qed.

(** X14.  The cursor position sequence: from every parser state, ESC, '[',
    a row, ';', a column and the final byte 'H' (CUP) or 'f' (HVP), with
    row and column written as possibly empty strings of decimal digits of
    a value up to 65535, leave the parser in the ground state, keep the
    mode flags, and move the cursor of the screen to the column and the
    row counted from 1, an absent or zero number standing for 1. *)
Theorem cursor_position_sequence
  (v : tsm_vte) (row col : list Z) (final : Z) :
  final = chr "H" \/ final = chr "f" ->
  Forall is_digit row -> dec_value row <= 0xffff ->
  Forall is_digit col -> dec_value col <= 0xffff ->
  let v' :=
    fold_left (parse_data echo)
      (ESC :: chr "[" :: row ++ chr ";" :: col ++ [final]) v in
  state v' = STATE_GROUND
  /\ flags v' = flags v
  /\ con v'
     = tsm_screen_move_to (con v)
         (Z.max 1 (param_value col) - 1) (Z.max 1 (param_value row) - 1).
Proof.
  intros Hf Hr Hrv Hc Hcv. cbv zeta. cbn [fold_left].
  replace (row ++ chr ";" :: col ++ [final])
    with (csi_params_text [row; col] ++ [final])
    by (cbn [csi_params_text]; by rewrite <- app_assoc).
  rewrite fold_left_app. cbn [fold_left].
  destruct (parse_data_csi_entry echo v) as (E1 & E2 & E3 & E4).
  destruct (parse_data_csi_entry_frame v) as (W1 & W2 & _ & _).
  set (w0 := parse_data echo (parse_data echo v ESC) (chr "[")) in *.
  clearbody w0.
  destruct (parse_data_params echo [row; col] w0 [])
    as (F1 & F2 & F3 & F4); try done.
  { by left. }
  { cbn. lia. }
  { by repeat constructor. }
  destruct (parse_data_params_frame (csi_params_text [row; col]) w0
              (or_introl E1)) as (G1 & G2).
  { cbn [csi_params_text]. apply Forall_app. split.
    - eapply Forall_impl; [|exact Hr]. intros; by left.
    - constructor; [by right|].
      eapply Forall_impl; [|exact Hc]. intros; by left. }
  set (w := fold_left (parse_data echo) (csi_params_text [row; col]) w0)
    in *.
  clearbody w.
  rewrite (parse_data_csi_final w final F1)
    by (destruct Hf as [-> | ->]; vm_compute; split; discriminate).
  assert (A0 : csi_arg w 0 = param_value row).
  { unfold csi_arg. by rewrite F3. }
  assert (A1 : csi_arg w 1 = param_value col).
  { unfold csi_arg. by rewrite F3. }
  assert (D : do_csi echo w final
              = set_con
                  (tsm_screen_move_to (con (csi_count_last w))
                     (num_or_1 (csi_arg (csi_count_last w) 1) - 1)
                     (num_or_1 (csi_arg (csi_count_last w) 0) - 1))
                  (csi_count_last w)).
  { destruct Hf as [-> | ->]; csi_final; reflexivity. }
  rewrite D, !csi_count_last_arg, csi_count_last_con, A0, A1, !num_or_1_max.
  set (u := csi_count_last w).
  assert (U : flags u = flags w).
  { unfold u, csi_count_last. by destruct (csi_argc w <? CSI_ARG_MAX). }
  clearbody u.
  split; [reflexivity|]. split.
  - transitivity (flags u); [reflexivity|]. congruence.
  - transitivity
      (tsm_screen_move_to (con w) (Z.max 1 (param_value col) - 1)
         (Z.max 1 (param_value row) - 1)); [reflexivity|].
    by rewrite G2, W2.
Qed.

End Sequences.
(** ** Device status reports *)

Lemma fmt_u_digits_app (fuel : nat) (n : Z) (acc : list Z) :
  fmt_u_digits fuel n acc = fmt_u_digits fuel n [] ++ acc.
Proof.
  revert n acc. induction fuel as [|fuel IH]; intros n acc; cbn; [done|].
  destruct (n / 10 =? 0); [done|].
  rewrite (IH _ [_]), (IH _ (_ :: acc)). by rewrite <- app_assoc.
Qed.

Lemma dec_value_snoc (l : list Z) (d : Z) :
  dec_value (l ++ [d]) = dec_value l * 10 + (d - chr "0").
Proof. unfold dec_value. by rewrite fold_left_app. Qed.

(** [fmt_u] writes [n] in decimal *)
Lemma fmt_u_digits_value (fuel : nat) (n : Z) :
  0 <= n < 10 ^ Z.of_nat fuel ->
  dec_value (fmt_u_digits fuel n []) = n
  /\ Forall (fun d => chr "0" <= d <= chr "9") (fmt_u_digits fuel n [])
  /\ (length (fmt_u_digits fuel n []) <= fuel)%nat.
Proof.
  revert n. induction fuel as [|fuel IH]; intros n Hn.
  { cbn in *. split_and!; [lia | done | done]. }
  cbn [fmt_u_digits]. change (chr "0") with 48 in *.
  change (chr "9") with 57 in *.
  assert (Hd : 0 <= n mod 10 < 10) by (apply Z.mod_pos_bound; lia).
  destruct (n / 10 =? 0) eqn:E.
  - split_and!.
    + unfold dec_value. cbn. change (chr "0") with 48. 
      assert (n = 10 * (n / 10) + n mod 10) by (apply Z.div_mod; lia). lia.
    + repeat constructor; lia.
    + cbn. lia.
  - rewrite fmt_u_digits_app.
    assert (Hq : 0 <= n / 10 < 10 ^ Z.of_nat fuel).
    { split; [apply Z.div_pos; lia|].
      apply Z.div_lt_upper_bound; [lia|].
      rewrite Nat2Z.inj_succ, Z.pow_succ_r in Hn by lia. lia. }
    destruct (IH _ Hq) as (Hv & Hf & Hl). split_and!.
    + rewrite dec_value_snoc, Hv. change (chr "0") with 48.
      assert (n = 10 * (n / 10) + n mod 10) by (apply Z.div_mod; lia). lia.
    + apply Forall_app. split; [done|]. repeat constructor; lia.
    + rewrite length_app. cbn. lia.
Qed.

Lemma fmt_u_value (n : Z) :
  0 <= n <= UINT_MAX ->
  dec_value (fmt_u n) = n
  /\ Forall (fun d => chr "0" <= d <= chr "9") (fmt_u n)
  /\ (length (fmt_u n) <= 10)%nat.
Proof. intros H. apply fmt_u_digits_value. unfold UINT_MAX in H. lia. Qed.

Lemma dsr_reply_fits (x y : Z) :
  0 <= x < UINT_MAX -> 0 <= y < UINT_MAX ->
  dsr_reply 64 x y
  = ESC :: str "[" ++ fmt_u (y + 1) ++ str ";" ++ fmt_u (x + 1) ++ str "R".
Proof.
  intros Hx Hy. unfold dsr_reply, wrap_u32, UINT_MAX in *.
  rewrite !Z.mod_small by lia.
  destruct (fmt_u_value (x + 1)) as (_ & _ & Lx); [unfold UINT_MAX; lia|].
  destruct (fmt_u_value (y + 1)) as (_ & _ & Ly); [unfold UINT_MAX; lia|].
  match goal with |- (if ?b then _ else _) = _ => assert (b = false) as -> end;
    [|done].
  apply Z.leb_gt. cbn [length]. rewrite !length_app. cbn [length str map
    list_ascii_of_string]. lia.
Qed.

Section DeviceStatus.

Context {SCR : Screen} {UNI : Unicode} {KEYS : Keysyms} {PLAT : Platform}.

Variable echo : tsm_vte -> list Z -> tsm_vte.

(** C5.  A DSR dispatch (CSI final n) while input is processed hands the
    writer exactly ESC [0n for parameter 5 and exactly
    ESC [<y+1>;<x+1>R, in decimal, for parameter 6, where (x, y) is the
    cursor of the screen; [prefix] is the ESC a pending Alt modifier
    makes the writer send first, and is empty otherwise.  A reply that
    does not fit its buffer is replaced by ESC [0;0R; the 64 bytes of the
    buffer always suffice. *)
Theorem dsr_replies (v : tsm_vte) (x y : Z) :
  parse_cnt v <> 0 ->
  tsm_screen_get_cursor_x (con v) = x ->
  tsm_screen_get_cursor_y (con v) = y ->
  0 <= x < UINT_MAX -> 0 <= y < UINT_MAX ->
  let written := cb_log (do_csi echo v (chr "n")) in
  let prefix :=
    if has_flag (flags v) FLAG_PREPEND_ESCAPE then [CB_WRITE [ESC]] else [] in
  (csi_arg v 0 = 5 ->
   written = cb_log v ++ prefix ++ [CB_WRITE (ESC :: str "[0n")])
  /\ (csi_arg v 0 = 6 ->
      written
      = cb_log v ++ prefix
        ++ [CB_WRITE (ESC :: str "[" ++ fmt_u (y + 1) ++ str ";"
                          ++ fmt_u (x + 1) ++ str "R")])
  /\ dec_value (fmt_u (y + 1)) = y + 1
  /\ dec_value (fmt_u (x + 1)) = x + 1
  /\ (forall size x' y',
        size <= Z.of_nat (length
                  (ESC :: str "[" ++ fmt_u (wrap_u32 (y' + 1)) ++ str ";"
                       ++ fmt_u (wrap_u32 (x' + 1)) ++ str "R")) ->
        dsr_reply size x' y' = ESC :: str "[0;0R").
Proof.
  intros Hc Hx Hy Bx By written prefix.
  assert (E : do_csi echo v (chr "n") = csi_dsr echo (csi_count_last v)).
  { by csi_final. }
  assert (Hc1 : parse_cnt (csi_count_last v) <> 0).
  { unfold csi_count_last. by destruct (csi_argc v <? CSI_ARG_MAX). }
  assert (Hl : cb_log (csi_count_last v) = cb_log v).
  { unfold csi_count_last. by destruct (csi_argc v <? CSI_ARG_MAX). }
  assert (Hf : flags (csi_count_last v) = flags v).
  { unfold csi_count_last. by destruct (csi_argc v <? CSI_ARG_MAX). }
  subst written prefix. rewrite E. unfold csi_dsr.
  rewrite !csi_count_last_arg, !csi_count_last_con, Hx, Hy.
  split_and!.
  - intros ->. cbn [Z.eqb Pos.eqb].
    by rewrite cb_log_vte_write_debug_busy, Hl, Hf.
  - intros ->. cbn [Z.eqb Pos.eqb].
    by rewrite cb_log_vte_write_debug_busy, Hl, Hf, dsr_reply_fits.
  - apply fmt_u_value. unfold UINT_MAX in *. lia.
  - apply fmt_u_value. unfold UINT_MAX in *. lia.
  - intros size x' y' Hs. unfold dsr_reply. cbv zeta.
    apply Z.leb_le in Hs. by rewrite Hs.
Qed.

End DeviceStatus.

(** ** Keyboard: keys that are not consumed *)

Section Keyboard.

Context {SCR : Screen} {UNI : Unicode} {KEYS : Keysyms} {PLAT : Platform}.

(** C9.  A keyboard event that neither switch handles (the Ctrl switch
    is consulted only with the Control modifier) and whose unicode value
    is invalid is not consumed: the call returns false and changes the
    object only by clearing PREPEND_ESCAPE, also when the Alt modifier
    had just set it.  A later write, unless it is echoed locally, then
    hands [write_cb] its payload and no ESC. *)
Theorem unhandled_key_clears_prepend_escape
  (v : tsm_vte) (keysym ascii mods unicode : Z) :
  let sym := if ascii =? XKB_KEY_NoSymbol then keysym else ascii in
  (has_flag mods TSM_CONTROL_MASK = true -> switch_arm ctrl_keys sym = None) ->
  switch_arm keysym_keys keysym = None ->
  unicode = TSM_VTE_INVALID ->
  let r := handle_keyboard v keysym ascii mods unicode in
  r.2 = false
  /\ has_flag (flags r.1) FLAG_PREPEND_ESCAPE = false
  /\ r.1 = set_flags (flag_clear (flags v) FLAG_PREPEND_ESCAPE) v
  /\ (forall (echo : tsm_vte -> list Z -> tsm_vte) (u8 : list Z),
        parse_cnt v <> 0
        \/ has_flag (flags v) FLAG_SEND_RECEIVE_MODE = true ->
        cb_log (vte_write_debug echo r.1 u8) = cb_log v ++ [CB_WRITE u8]).
Proof.
  intros sym Hctrl Hkey Hu r.
  assert (E : r = (set_flags (flag_clear (flags v) FLAG_PREPEND_ESCAPE) v,
                   false)).
  { subst r. unfold handle_keyboard, tsm_vte_handle_keyboard. fold sym.
    assert ((if has_flag mods TSM_CONTROL_MASK then switch_arm ctrl_keys sym
             else None) = None) as ->.
    { destruct (has_flag mods TSM_CONTROL_MASK); [by apply Hctrl|done]. }
    rewrite Hkey, Hu, Z.eqb_refl. cbn [negb].
    destruct (has_flag mods TSM_ALT_MASK); [|done].
    cbn [flags set_flags]. by rewrite flag_clear_set. }
  rewrite E. cbn [fst snd flags set_flags]. split_and!; [done | | done |].
  - apply has_flag_clear_same.
  - intros echo u8 Hb.
    assert (Hp : has_flag (flag_clear (flags v) FLAG_PREPEND_ESCAPE)
                   FLAG_PREPEND_ESCAPE = false) by apply has_flag_clear_same.
    unfold vte_write_debug, write_cb. cbn [parse_cnt flags set_flags].
    assert (((parse_cnt v =? 0)
             && negb (has_flag (flag_clear (flags v) FLAG_PREPEND_ESCAPE)
                        FLAG_SEND_RECEIVE_MODE)) = false) as ->.
    { destruct Hb as [Hb | Hb]; [apply andb_false_iff; left; lia|].
      rewrite has_flag_clear_other by done. rewrite Hb.
      apply andb_false_r. }
    cbn [flags set_flags]. by rewrite Hp.
Qed.

End Keyboard.

(** ** Keyboard: what a key press writes *)

Section KeyPress.

Context {SCR : Screen} {UNI : Unicode} {KEYS : Keysyms} {PLAT : Platform}.

Variable echo : tsm_vte -> list Z -> tsm_vte.

(** Without local echo the writer calls [write_cb], for ESC first when
    PREPEND_ESCAPE is set, and clears the flag *)
Lemma vte_write_debug_quiet (v : tsm_vte) (u8 : list Z) :
  has_flag (flags v) FLAG_SEND_RECEIVE_MODE = true ->
  vte_write_debug echo v u8
  = set_flags (flag_clear (flags v) FLAG_PREPEND_ESCAPE)
      (write_cb (if has_flag (flags v) FLAG_PREPEND_ESCAPE
                 then write_cb v [ESC] else v) u8).
Proof.
  intros H. unfold vte_write_debug. rewrite H, andb_false_r. cbv zeta.
  by destruct (has_flag (flags v) FLAG_PREPEND_ESCAPE).
Qed.

(** The arm a switch takes is an arm of its table *)
Lemma switch_arm_In {A} (table : list (list xkb_key * A)) (sym : Z) (a : A) :
  switch_arm table sym = Some a -> exists keys, In (keys, a) table.
Proof.
  unfold switch_arm. destruct (find _ table) as [[keys a']|] eqn:E; [|done].
  intros [= <-]. exists keys. by apply find_some in E as [? _].
Qed.

(** The outcomes of [tsm_vte_handle_keyboard]: the key is not consumed,
    or one payload goes to the writer *)
Lemma tsm_vte_handle_keyboard_cases (v : tsm_vte)
  (keysym ascii mods unicode : Z) :
  let v1 :=
    if has_flag mods TSM_ALT_MASK
    then set_flags (flag_set (flags v) FLAG_PREPEND_ESCAPE) v else v in
  let r := tsm_vte_handle_keyboard echo v keysym ascii mods unicode in
  r = (set_flags (flag_clear (flags v1) FLAG_PREPEND_ESCAPE) v1, false)
  \/ exists payload,
       r = (vte_write_debug echo v1 payload, true)
       /\ ((exists keys byte, In (keys, byte) ctrl_keys /\ payload = [byte])
           \/ (exists keys f, In (keys, f) keysym_keys
                              /\ payload = f v1 mods)
           \/ (has_flag (flags v1) FLAG_7BIT_MODE = true
               /\ payload = [if has_flag unicode 0x80 then chr "?"
                             else cast_u8 unicode])
           \/ (has_flag (flags v1) FLAG_7BIT_MODE = false
               /\ has_flag (flags v1) FLAG_8BIT_MODE = true
               /\ payload = [if 0xff <? unicode then chr "?"
                             else cast_u8 unicode])
           \/ (has_flag (flags v1) FLAG_7BIT_MODE = false
               /\ has_flag (flags v1) FLAG_8BIT_MODE = false
               /\ payload = tsm_ucs4_to_utf8 (tsm_symbol_make unicode))).
Proof.
  cbv zeta. unfold tsm_vte_handle_keyboard. cbv zeta.
  set (v1 := if has_flag mods TSM_ALT_MASK then _ else v). clearbody v1.
  destruct (if has_flag mods TSM_CONTROL_MASK then _ else None)
    as [byte|] eqn:Ec.
  { right. exists [byte]. split; [done|]. left.
    destruct (has_flag mods TSM_CONTROL_MASK); [|done].
    apply switch_arm_In in Ec as [keys Hin]. eauto. }
  destruct (switch_arm keysym_keys keysym) as [f|] eqn:Ek.
  { right. exists (f v1 mods). split; [done|]. right. left.
    apply switch_arm_In in Ek as [keys Hin]. eauto. }
  destruct (negb (unicode =? TSM_VTE_INVALID)); [|by left].
  right. destruct (has_flag (flags v1) FLAG_7BIT_MODE) eqn:E7.
  { eexists. split; [done|]. right. right. left. done. }
  destruct (has_flag (flags v1) FLAG_8BIT_MODE) eqn:E8.
  { eexists. split; [done|]. do 3 right. left. done. }
  eexists. split; [done|]. do 4 right. done.
Qed.

(** The object after the Alt modifier is taken into account *)
Lemma alt_prepend (v : tsm_vte) (mods : Z) :
  let v1 :=
    if has_flag mods TSM_ALT_MASK
    then set_flags (flag_set (flags v) FLAG_PREPEND_ESCAPE) v else v in
  con v1 = con v /\ cb_log v1 = cb_log v
  /\ flag_clear (flags v1) FLAG_PREPEND_ESCAPE
     = flag_clear (flags v) FLAG_PREPEND_ESCAPE
  /\ has_flag (flags v1) FLAG_PREPEND_ESCAPE
     = has_flag mods TSM_ALT_MASK || has_flag (flags v) FLAG_PREPEND_ESCAPE
  /\ (forall k, Z.land FLAG_PREPEND_ESCAPE k = 0 ->
                has_flag (flags v1) k = has_flag (flags v) k).
Proof.
  cbv zeta. destruct (has_flag mods TSM_ALT_MASK); cbn; [|done].
  split_and!; try done.
  - apply flag_clear_set.
  - by apply has_flag_set_same.
  - intros k Hk. by apply has_flag_set_other.
Qed.

(** X8.  What a key press writes: without local echo (SEND_RECEIVE_MODE
    set), [tsm_vte_handle_keyboard] leaves the screen alone, returns with
    PREPEND_ESCAPE cleared and the other mode flags as they were, and
    either returns false and calls no callback, or returns true and calls
    [write_cb] for one payload, preceded by one separate call for ESC
    exactly when the Alt modifier is held (or PREPEND_ESCAPE was still
    set). *)
Theorem key_press_output (v : tsm_vte) (keysym ascii mods unicode : Z) :
  has_flag (flags v) FLAG_SEND_RECEIVE_MODE = true ->
  let r := tsm_vte_handle_keyboard echo v keysym ascii mods unicode in
  let pre :=
    if has_flag mods TSM_ALT_MASK || has_flag (flags v) FLAG_PREPEND_ESCAPE
    then [CB_WRITE [ESC]] else [] in
  flags r.1 = flag_clear (flags v) FLAG_PREPEND_ESCAPE
  /\ has_flag (flags r.1) FLAG_PREPEND_ESCAPE = false
  /\ con r.1 = con v
  /\ (r.2 = false -> cb_log r.1 = cb_log v)
  /\ (r.2 = true ->
      exists payload, cb_log r.1 = cb_log v ++ pre ++ [CB_WRITE payload]).
Proof.
  intros Hsr. cbv zeta.
  destruct (alt_prepend v mods) as (A1 & A2 & A3 & A4 & A5).
  destruct (tsm_vte_handle_keyboard_cases v keysym ascii mods unicode)
    as [->|(payload & -> & _)].
  - cbn [fst snd flags set_flags con cb_log]. rewrite A1, A2, A3.
    split_and!; try done. apply has_flag_clear_same.
  - rewrite vte_write_debug_quiet by (by rewrite A5).
    cbn [fst snd flags set_flags]. rewrite A3, A4.
    split_and!; try done.
    + apply has_flag_clear_same.
    + destruct (_ || _); cbn; by rewrite A1.
    + intros _. exists payload.
      destruct (_ || _); cbn; rewrite A2; by rewrite <- ?app_assoc.
Qed.

Lemma seven_bitb_seven_bit (l : list Z) : seven_bitb l = true -> seven_bit l.
Proof.
  unfold seven_bitb, seven_bit. rewrite forallb_forall, Forall_forall.
  intros H b Hb. apply H in Hb. lia.
Qed.

(** The Ctrl switch writes ASCII control characters and DEL *)
Lemma ctrl_keys_seven_bit keys byte :
  In (keys, byte) ctrl_keys -> seven_bit [byte].
Proof.
  assert (H : Forall (fun arm => seven_bit [arm.2]) ctrl_keys).
  { unfold ctrl_keys.
    repeat (apply Forall_cons; [by apply seven_bitb_seven_bit|]).
    apply Forall_nil. }
  rewrite Forall_forall in H. intros Hin. apply (H _ Hin).
Qed.

(** The keysym switch writes ASCII *)
Lemma keysym_keys_seven_bit keys f (v : tsm_vte) (mods : Z) :
  In (keys, f) keysym_keys -> seven_bit (f v mods).
Proof.
  assert (H : Forall (fun arm => forall v mods, seven_bit (arm.2 v mods))
                keysym_keys).
  { unfold keysym_keys.
    repeat (apply Forall_cons;
            [cbn [snd]; intros;
             unfold key_cursor, key_keypad, key_shift, key_return;
             repeat case_match; by apply seven_bitb_seven_bit|]).
    apply Forall_nil. }
  rewrite Forall_forall in H. intros Hin. apply (H _ Hin).
Qed.

(** A character without the bit 0x80 gives a byte below 0x80 *)
Lemma cast_u8_seven_bit (u : Z) :
  has_flag u 0x80 = false -> 0 <= cast_u8 u < 128.
Proof.
  unfold has_flag, cast_u8. intros H%negb_false_iff%Z.eqb_eq.
  assert (Hm : 0 <= u mod 256 < 256) by (apply Z.mod_pos_bound; lia).
  split; [lia|]. apply Z.nle_gt. intros Hge.
  assert (Hb : Z.testbit (Z.land u 128) 7 = true).
  { rewrite Z.land_spec. change (Z.testbit 128 7) with true.
    rewrite andb_true_r.
    replace (Z.testbit u 7) with (Z.testbit (u mod 2 ^ 8) 7)
      by (apply Z.mod_pow2_bits_low; lia).
    change (2 ^ 8) with 256. apply Z.testbit_true; [lia|].
    change (2 ^ 7) with 128.
    assert ((u mod 256) / 128 = 1); [|by replace ((u mod 256) / 128) with 1].
    symmetry. apply Z.div_unique with (r := u mod 256 - 128); lia. }
  rewrite H in Hb. by rewrite Z.bits_0 in Hb.
Qed.

(** X9.  Keyboard output in 7-bit mode is 7-bit clean: with FLAG_7BIT_MODE
    set and no local echo, every byte that a key press hands to
    [write_cb] is below 0x80, whatever the key, the modifiers and the
    character are; a character with the bit 0x80 goes out as '?'. *)
Theorem keyboard_7bit_clean (v : tsm_vte) (keysym ascii mods unicode : Z) :
  has_flag (flags v) FLAG_7BIT_MODE = true ->
  has_flag (flags v) FLAG_SEND_RECEIVE_MODE = true ->
  let r := tsm_vte_handle_keyboard echo v keysym ascii mods unicode in
  exists new,
    cb_log r.1 = cb_log v ++ new
    /\ Forall (fun e => exists p, e = CB_WRITE p /\ seven_bit p) new.
Proof.
  intros H7 Hsr. cbv zeta.
  destruct (alt_prepend v mods) as (A1 & A2 & A3 & A4 & A5).
  destruct (tsm_vte_handle_keyboard_cases v keysym ascii mods unicode)
    as [->|(payload & -> & Hp)].
  { exists []. cbn [fst cb_log set_flags]. rewrite A2, app_nil_r.
    by split. }
  assert (Hclean : seven_bit payload).
  { rewrite A5 in Hp by done. rewrite H7 in Hp.
    destruct Hp as [(k & b & Hin & ->)|[(k & f & Hin & ->)|
                   [[_ ->]|[[? _]|[? _]]]]]; try done.
    - by eapply ctrl_keys_seven_bit.
    - by eapply keysym_keys_seven_bit.
    - destruct (has_flag unicode 128) eqn:E.
      + by apply seven_bitb_seven_bit.
      + repeat constructor; by apply cast_u8_seven_bit. }
  rewrite vte_write_debug_quiet by (by rewrite A5).
  cbn [fst cb_log set_flags]. unfold write_cb.
  destruct (has_flag _ FLAG_PREPEND_ESCAPE); cbn [cb_log set_cb_log];
    rewrite A2, <- ?app_assoc; eexists; (split; [done|]).
  - repeat constructor; eexists; (split; [done|]); [|done].
    by apply seven_bitb_seven_bit.
  - repeat constructor. eauto.
Qed.

End KeyPress.
(** ** The cursor saved for the alternate screen *)

Section AlternateScreen.

Context {SCR : Screen} {UNI : Unicode} {KEYS : Keysyms} {PLAT : Platform}.

(** X10.  Leaving the alternate screen puts the cursor back: the DEC
    private mode 1049, when set, stores the cursor position of that
    moment, and when it is reset later, with the stored position
    untouched in between, switches the screen back and moves the cursor
    to that position; mode 1048 does the same without switching the
    screen.  With TITE_INHIBIT set both do nothing at all. *)
Theorem alternate_screen_restores_cursor (v w : tsm_vte) (a : Z) :
  a = 1048 \/ a = 1049 ->
  has_flag (csi_flags v) CSI_WHAT = true ->
  has_flag (csi_flags w) CSI_WHAT = true ->
  alt_cursor_x w = alt_cursor_x (csi_mode_arg v true a) ->
  alt_cursor_y w = alt_cursor_y (csi_mode_arg v true a) ->
  (has_flag (flags v) FLAG_TITE_INHIBIT_MODE = false ->
   has_flag (flags w) FLAG_TITE_INHIBIT_MODE = false ->
   con (csi_mode_arg w false a)
   = tsm_screen_move_to
       (if a =? 1049
        then tsm_screen_reset_flags (con w) TSM_SCREEN_ALTERNATE
        else con w)
       (tsm_screen_get_cursor_x (con v)) (tsm_screen_get_cursor_y (con v)))
  /\ (has_flag (flags v) FLAG_TITE_INHIBIT_MODE = true ->
      csi_mode_arg v true a = v /\ csi_mode_arg v false a = v).
Proof.
  intros Ha Hv Hw Hx Hy. split.
  - intros Tv Tw. revert Hx Hy. unfold csi_mode_arg.
    rewrite Hv, Hw, Tv, Tw.
    destruct Ha as [-> | ->]; cbn; by intros -> ->.
  - intros Tv. unfold csi_mode_arg. rewrite Hv, Tv.
    by destruct Ha as [-> | ->].
Qed.

End AlternateScreen.

(** ** Input bytes in the 7-bit and 8-bit modes *)

Section InputModes.

Context {SCR : Screen} {UNI : Unicode} {KEYS : Keysyms} {PLAT : Platform}.

Variable echo : tsm_vte -> list Z -> tsm_vte.

(** X11.  What the parser receives for an input byte [c] outside UTF-8
    mode.  In 7-bit mode it is the byte without its bit 0x80.  In 8-bit
    mode it is the byte converted from [char] to [uint32_t]: where [char]
    is unsigned the byte itself, but where [char] is signed a byte from
    0x80 on arrives as [c + 0xffffff00], which no case of the parser
    lists, so that in the ground state the C1 controls 0x80..0x9f are
    printed as that character instead of being executed. *)
Theorem input_byte_outside_utf8 (v : tsm_vte) (c : Z) :
  0 <= c < 256 ->
  (has_flag (flags v) FLAG_7BIT_MODE = true ->
   input_byte echo v c = parse_data echo v (c mod 128))
  /\ (has_flag (flags v) FLAG_7BIT_MODE = false ->
      has_flag (flags v) FLAG_8BIT_MODE = true ->
      (char_is_signed = false \/ c < 128 ->
       input_byte echo v c = parse_data echo v c)
      /\ (char_is_signed = true -> 128 <= c ->
          input_byte echo v c = parse_data echo v (c + 0xffffff00)
          /\ (state v = STATE_GROUND ->
              input_byte echo v c
              = do_action echo v (c + 0xffffff00) ACTION_PRINT))).
Proof.
  intros Hc. split.
  - intros H7. unfold input_byte. rewrite H7. f_equal.
    change 127 with (Z.ones 7). rewrite Z.land_ones by lia. done.
  - intros H7 H8. unfold input_byte, char_to_u32. rewrite H7, H8. split.
    + intros [-> | Hlt]; [done|].
      assert ((128 <=? c) = false) as -> by lia. by rewrite andb_false_r.
    + intros -> Hge. assert ((128 <=? c) = true) as -> by lia.
      cbn [andb]. unfold wrap_u32.
      replace ((c - 256) mod 4294967296) with (c + 4294967040).
      2:{ apply Z.mod_unique with (q := -1); lia. }
      split; [done|]. intros Hs. unfold parse_data.
      assert (parse_anywhere (c + 4294967040) = None) as ->.
      { unfold parse_anywhere, in_range. bool_lia. reflexivity. }
      rewrite Hs.
      assert (parse_in_state STATE_GROUND (c + 4294967040)
              = Some (STATE_NONE, ACTION_PRINT)) as ->.
      { unfold parse_in_state, c0_ctrl, in_range. bool_lia; reflexivity. }
      reflexivity.
Qed.

End InputModes.
(** ** Control characters *)

Section Controls.

Context {SCR : Screen} {UNI : Unicode} {KEYS : Keysyms} {PLAT : Platform}.

Variable echo : tsm_vte -> list Z -> tsm_vte.

(** A byte that is taken in every state: the state is left, the action
    and the entry action of the new state are done *)
Lemma parse_data_anywhere (v : tsm_vte) (c : Z) (s : parser_state)
  (a : parser_action) :
  parse_anywhere c = Some (s, a) -> s <> STATE_NONE ->
  parse_data echo v c
  = set_state s
      (do_action echo (do_action echo (leave_state v) c a) c
         (entry_action s)).
Proof.
  intros H Hs. unfold parse_data. rewrite H.
  unfold do_trans, leave_state.
  destruct s; try done; by destruct (state v).
Qed.

(** Leaving a state does not touch the count of running parsers *)
Lemma parse_cnt_leave_state (v : tsm_vte) :
  parse_cnt (leave_state v) = parse_cnt v.
Proof.
  unfold leave_state, do_osc_end.
  by destruct (state v), (negb (osc_cb v)).
Qed.

(** While input is parsed, the writer does not echo *)
Lemma vte_write_debug_parsing (v : tsm_vte) (u8 : list Z) :
  parse_cnt v <> 0 ->
  vte_write_debug echo v u8
  = set_flags (flag_clear (flags v) FLAG_PREPEND_ESCAPE)
      (write_cb
         (if has_flag (flags v) FLAG_PREPEND_ESCAPE then write_cb v [ESC]
          else v)
         u8).
Proof.
  intros H. unfold vte_write_debug.
  apply Z.eqb_neq in H. rewrite H. cbn [andb].
  by destruct (has_flag (flags v) FLAG_PREPEND_ESCAPE).
Qed.

(** DECID as a C1 control and as [ESC Z] *)
Lemma decid_as_escape (u : tsm_vte) :
  parse_cnt u <> 0 ->
  parse_data echo (set_state STATE_ESC (do_clear u)) (0x9a - 0x40)
  = do_clear
      (set_state STATE_GROUND
         (do_action echo (do_action echo u 0x9a ACTION_EXECUTE) 0x9a
            (entry_action STATE_GROUND))).
Proof.
  intros Hp.
  assert (L : parse_data echo (set_state STATE_ESC (do_clear u)) (0x9a - 0x40)
              = set_state STATE_GROUND
                  (send_primary_da echo (set_state STATE_ESC (do_clear u)))).
  { set (w := do_clear u).
    assert (Hw : csi_flags w = 0) by reflexivity.
    clearbody w.
    unfold parse_data.
    change (parse_anywhere (0x9a - 0x40))
      with (@None (parser_state * parser_action)).
    change (state (set_state STATE_ESC w)) with STATE_ESC.
    change (parse_in_state STATE_ESC (0x9a - 0x40))
      with (Some (STATE_GROUND, ACTION_ESC_DISPATCH)).
    unfold do_trans.
    change (state (set_state STATE_ESC w)) with STATE_ESC.
    cbn [exit_action entry_action do_action].
    unfold do_esc.
    assert (C : do_esc_charset (set_state STATE_ESC w) (0x9a - 0x40) = None).
    { unfold do_esc_charset, set_charset.
      change (csi_flags (set_state STATE_ESC w)) with (csi_flags w).
      rewrite Hw. reflexivity. }
    rewrite C.
    change (csi_flags (set_state STATE_ESC w)) with (csi_flags w).
    rewrite Hw. reflexivity. }
  rewrite L.
  change (do_action echo (do_action echo u 0x9a ACTION_EXECUTE) 0x9a
            (entry_action STATE_GROUND))
    with (send_primary_da echo u).
  unfold send_primary_da.
  rewrite !vte_write_debug_parsing by exact Hp.
  change (flags (set_state STATE_ESC (do_clear u))) with (flags u).
  destruct (has_flag (flags u) FLAG_PREPEND_ESCAPE); reflexivity.
Qed.

(** A C0 control is taken in no state by the first switch *)
Lemma parse_anywhere_c0 (c : Z) : c0_ctrl c = true -> parse_anywhere c = None.
Proof.
  unfold c0_ctrl, parse_anywhere, in_range. bool_lia; done.
Qed.

(** In the ground state and inside a sequence a C0 control is executed *)
Lemma parse_data_c0 (v : tsm_vte) (c : Z) :
  c0_ctrl c = true ->
  In (state v)
    [STATE_GROUND; STATE_ESC; STATE_ESC_INT; STATE_CSI_ENTRY;
     STATE_CSI_PARAM; STATE_CSI_INT; STATE_CSI_IGNORE] ->
  parse_data echo v c = do_execute echo v c.
Proof.
  intros Hc Hs. unfold parse_data. rewrite (parse_anywhere_c0 c Hc).
  repeat (destruct Hs as [<- | Hs]); try done;
    unfold parse_in_state; rewrite Hc; reflexivity.
Qed.

(** No control reads or writes the parser state *)
Lemma do_execute_set_state (v : tsm_vte) (c : Z) (s : parser_state) :
  parse_cnt v <> 0 ->
  do_execute echo (set_state s v) c = set_state s (do_execute echo v c).
Proof.
  intros Hp. unfold do_execute, send_primary_da.
  rewrite !vte_write_debug_parsing by exact Hp.
  change (bell_cb (set_state s v)) with (bell_cb v).
  change (flags (set_state s v)) with (flags v).
  repeat case_match; reflexivity.
Qed.

(** What a control leaves alone *)
Lemma do_execute_frame (v : tsm_vte) (c : Z) :
  parse_cnt v <> 0 ->
  state (do_execute echo v c) = state v
  /\ csi_argc (do_execute echo v c) = csi_argc v
  /\ csi_argv (do_execute echo v c) = csi_argv v
  /\ csi_flags (do_execute echo v c) = csi_flags v.
Proof.
  intros Hp. unfold do_execute, send_primary_da.
  rewrite !vte_write_debug_parsing by exact Hp.
  repeat case_match; by split_and!.
Qed.

Lemma set_state_state (v : tsm_vte) (s : parser_state) :
  state v = s -> set_state s v = v.
Proof. intros <-. by destruct v. Qed.

Lemma set_state_twice (v : tsm_vte) (s s' : parser_state) :
  set_state s (set_state s' v) = set_state s v.
Proof. reflexivity. Qed.

(** X15.  An 8-bit C1 control is its 7-bit form: while input is parsed,
    for every code [c] from 0x80 to 0x9f and every state, ESC followed by
    the byte [c - 0x40] leaves the object as [c] alone does, except that
    ESC has cleared the parameters, the intermediate flags and the OSC
    buffer, which [do_clear] does to the result of [c]. *)
Theorem c1_control_as_escape (v : tsm_vte) (c : Z) :
  0x80 <= c <= 0x9f ->
  parse_cnt v <> 0 ->
  parse_data echo (parse_data echo v ESC) (c - 0x40)
  = do_clear (parse_data echo v c).
Proof.
  intros Hc Hp. rewrite parse_data_escape.
  rewrite <- parse_cnt_leave_state in Hp.
  destruct (Z.eq_dec c 0x9a) as [-> | Hne].
  { rewrite (parse_data_anywhere v 0x9a STATE_GROUND ACTION_EXECUTE)
      by done.
    by apply decid_as_escape. }
  assert
    (Hcs :
       c = 0x80 \/ c = 0x81 \/ c = 0x82 \/ c = 0x83
     \/ c = 0x84 \/ c = 0x85 \/ c = 0x86 \/ c = 0x87
     \/ c = 0x88 \/ c = 0x89 \/ c = 0x8a \/ c = 0x8b
     \/ c = 0x8c \/ c = 0x8d \/ c = 0x8e \/ c = 0x8f
     \/ c = 0x90 \/ c = 0x91 \/ c = 0x92 \/ c = 0x93
     \/ c = 0x94 \/ c = 0x95 \/ c = 0x96 \/ c = 0x97
     \/ c = 0x98 \/ c = 0x99 \/ c = 0x9b \/ c = 0x9c
     \/ c = 0x9d \/ c = 0x9e \/ c = 0x9f) by lia.
  clear Hc Hne.
  repeat (destruct Hcs as [-> | Hcs]); try subst c;
    lazymatch goal with
    | |- _ = do_clear (parse_data echo ?w ?k) =>
      let r := eval vm_compute in (parse_anywhere k) in
      lazymatch r with
      | Some (?s, ?a) =>
        rewrite (parse_data_anywhere w k s a)
          by first [ vm_compute; reflexivity | discriminate ]
      end
    end;
    clear Hp; generalize (leave_state v); clear v; intros u;
    destruct u as
    [f_con f_log f_pn f_mach cnt st f_argc f_argv f_cf f_bell f_osc f_ol
     f_oa f_cp f_pal f_da f_ca f_fl f_gl f_gr f_glt f_grt f_g0 f_g1 f_g2 f_g3
     f_sv f_ax f_ay];
    vm_compute; reflexivity.
Qed.

(** X16.  A C0 control inside an escape or control sequence is executed
    at once and the sequence goes on: while input is parsed, in the
    states ESC, ESC_INT, CSI_ENTRY, CSI_PARAM, CSI_INT and CSI_IGNORE a
    code [c] of 0x00..0x17, 0x19 or 0x1c..0x1f does what it does in the
    ground state, and the parser state, the parameters and the
    intermediate flags stay as they are. *)
Theorem control_inside_sequence (v : tsm_vte) (c : Z) :
  c0_ctrl c = true ->
  parse_cnt v <> 0 ->
  In (state v)
    [STATE_ESC; STATE_ESC_INT; STATE_CSI_ENTRY; STATE_CSI_PARAM;
     STATE_CSI_INT; STATE_CSI_IGNORE] ->
  let r := parse_data echo v c in
  r = set_state (state v) (parse_data echo (set_state STATE_GROUND v) c)
  /\ state r = state v
  /\ csi_argc r = csi_argc v /\ csi_argv r = csi_argv v
  /\ csi_flags r = csi_flags v.
Proof.
  intros Hc Hp Hs. cbv zeta.
  rewrite (parse_data_c0 v c Hc) by (right; exact Hs).
  rewrite (parse_data_c0 (set_state STATE_GROUND v) c Hc) by (by left).
  rewrite (do_execute_set_state v c STATE_GROUND Hp).
  destruct (do_execute_frame v c Hp) as (F1 & F2 & F3 & F4).
  rewrite set_state_twice.
  split; [|done].
  symmetry. apply set_state_state. exact F1.
Qed.

(** The G-sets decide what a table lookup yields *)
Lemma charset_lookup_ext (a b : tsm_vte) (p : option gslot) (idx : Z) :
  g0 a = g0 b -> g1 a = g1 b -> g2 a = g2 b -> g3 a = g3 b ->
  charset_lookup a p idx = charset_lookup b p idx.
Proof.
  intros H0 H1 H2 H3. unfold charset_lookup, gset.
  destruct p as [[]|]; by rewrite ?H0, ?H1, ?H2, ?H3.
Qed.

(** Leaving a state and entering ESC keep what printing reads *)
Lemma print_view_leave_state (v : tsm_vte) :
  print_view (leave_state v) = print_view v.
Proof.
  unfold leave_state, do_osc_end.
  by destruct (state v), (negb (osc_cb v)).
Qed.

Lemma print_view_enter (u : tsm_vte) (s : parser_state) :
  print_view (set_state s (do_clear u)) = print_view u.
Proof. reflexivity. Qed.

Lemma print_view_single_shift (w : tsm_vte) (slot : gslot) :
  print_view (set_state STATE_GROUND (set_glt (Some slot) w)) = print_view w.
Proof. reflexivity. Qed.

(** The final byte of [ESC N] and [ESC O] *)
Lemma parse_data_ss (w : tsm_vte) (f : Z) (slot : gslot) :
  (f = chr "N" /\ slot = GSLOT2) \/ (f = chr "O" /\ slot = GSLOT3) ->
  state w = STATE_ESC -> csi_flags w = 0 ->
  parse_data echo w f = set_state STATE_GROUND (set_glt (Some slot) w).
Proof.
  intros Hf Hs Hc. unfold parse_data.
  destruct Hf as [[-> ->] | [-> ->]].
  - change (parse_anywhere (chr "N"))
      with (@None (parser_state * parser_action)).
    rewrite Hs.
    change (parse_in_state STATE_ESC (chr "N"))
      with (Some (STATE_GROUND, ACTION_ESC_DISPATCH)).
    unfold do_trans. rewrite Hs. cbn [exit_action entry_action do_action].
    unfold do_esc.
    change (do_esc_charset w (chr "N")) with (@None tsm_vte).
    by rewrite Hc.
  - change (parse_anywhere (chr "O"))
      with (@None (parser_state * parser_action)).
    rewrite Hs.
    change (parse_in_state STATE_ESC (chr "O"))
      with (Some (STATE_GROUND, ACTION_ESC_DISPATCH)).
    unfold do_trans. rewrite Hs. cbn [exit_action entry_action do_action].
    unfold do_esc.
    change (do_esc_charset w (chr "O")) with (@None tsm_vte).
    by rewrite Hc.
Qed.

(** [ESC N] and [ESC O] from any state *)
Lemma parse_data_single_shift (v : tsm_vte) (f : Z) (slot : gslot) :
  (f = chr "N" /\ slot = GSLOT2) \/ (f = chr "O" /\ slot = GSLOT3) ->
  let r := parse_data echo (parse_data echo v ESC) f in
  state r = STATE_GROUND /\ glt r = Some slot
  /\ print_view r = print_view v.
Proof.
  intros Hf. cbv zeta. rewrite parse_data_escape.
  rewrite <- (print_view_leave_state v).
  set (u := leave_state v). clearbody u.
  rewrite <- (print_view_enter u STATE_ESC).
  assert (Hs : state (set_state STATE_ESC (do_clear u)) = STATE_ESC)
    by reflexivity.
  assert (Hc : csi_flags (set_state STATE_ESC (do_clear u)) = 0)
    by reflexivity.
  set (w := set_state STATE_ESC (do_clear u)) in *. clearbody w.
  rewrite (parse_data_ss w f slot Hf Hs Hc).
  rewrite print_view_single_shift. by split_and!.
Qed.

(** A graphic character of the left half in the ground state *)
Lemma parse_data_print_gl (w : tsm_vte) (c : Z) :
  state w = STATE_GROUND -> 33 <= c <= 126 ->
  let r := parse_data echo w c in
  let attr := to_rgb (palette w) (cattr w) in
  let p := match glt w with Some _ => glt w | None => gl w end in
  state r = STATE_GROUND /\ glt r = None
  /\ print_view r
     = (tsm_screen_write (con w)
          (tsm_symbol_make (charset_lookup w p (c - 32))) attr,
        palette w, attr, gl w, (g0 w, g1 w, g2 w, g3 w)).
Proof.
  intros Hs Hc. cbv zeta.
  assert (A : parse_anywhere c = None).
  { unfold parse_anywhere, in_range. bool_lia; reflexivity. }
  assert (B : parse_in_state STATE_GROUND c = Some (STATE_NONE, ACTION_PRINT)).
  { unfold parse_in_state, c0_ctrl, in_range. bool_lia; reflexivity. }
  unfold parse_data. rewrite A, Hs, B.
  unfold do_trans, do_action, vte_map, write_console.
  assert (R : in_range 33 126 c = true).
  { unfold in_range. bool_lia; reflexivity. }
  rewrite R. rewrite <- Hs.
  destruct (glt w) eqn:G; cbn; rewrite ?G; by split_and!.
Qed.

(** X17.  A single shift lasts one character: from every parser state,
    after [ESC N] (SS2) or [ESC O] (SS3) the next graphic character of
    0x21..0x7e is looked up in G2 or G3, the one after it in the set GL
    points to again; both are written to the screen with the current
    attribute resolved against the palette, and no shift is pending
    afterwards. *)
Theorem single_shift_one_character
  (v : tsm_vte) (f c1 c2 : Z) (slot : gslot) :
  (f = chr "N" /\ slot = GSLOT2) \/ (f = chr "O" /\ slot = GSLOT3) ->
  33 <= c1 <= 126 -> 33 <= c2 <= 126 ->
  let v' := fold_left (parse_data echo) [ESC; f; c1; c2] v in
  let attr := to_rgb (palette v) (cattr v) in
  state v' = STATE_GROUND /\ glt v' = None /\ gl v' = gl v
  /\ con v'
     = tsm_screen_write
         (tsm_screen_write (con v)
            (tsm_symbol_make (charset_lookup v (Some slot) (c1 - 32))) attr)
         (tsm_symbol_make (charset_lookup v (gl v) (c2 - 32))) attr.
Proof.
  intros Hf H1 H2. cbv zeta. cbn [fold_left].
  destruct (parse_data_single_shift v f slot Hf) as (S1 & S2 & S3).
  set (a := parse_data echo (parse_data echo v ESC) f) in *. clearbody a.
  destruct (parse_data_print_gl a c1 S1 H1) as (P1 & P2 & P3).
  set (b := parse_data echo a c1) in *. clearbody b.
  destruct (parse_data_print_gl b c2 P1 H2) as (Q1 & Q2 & Q3).
  set (d := parse_data echo b c2) in *. clearbody d.
  rewrite S2 in P3. rewrite P2 in Q3.
  unfold print_view in *.
  injection S3 as Sc Sp Sa Sg S0 Sg1 Sg2 Sg3.
  injection P3 as Pc Pp Pa Pg P0 Pg1 Pg2 Pg3.
  injection Q3 as Qc Qp Qa Qg Q0 Qg1 Qg2 Qg3.
  fold (charset_lookup a (Some slot) (c1 - 32)) in Pc.
  split; [exact Q1|]. split; [exact Q2|]. split; [congruence|].
  rewrite Qc, Pc, Pp, Pa, Pg, Sc, Sp, Sa, Sg, to_rgb_idem.
  rewrite (charset_lookup_ext b v) by congruence.
  rewrite (charset_lookup_ext a v) by congruence.
  reflexivity.
Qed.

End Controls.
(** ** Soft reset, save and restore *)

Section ResetAndRestore.

Context {SCR : Screen} {UNI : Unicode} {KEYS : Keysyms} {PLAT : Platform}.

Variable echo : tsm_vte -> list Z -> tsm_vte.

(** What the soft reset leaves in the object *)
Lemma tsm_vte_reset_fields (v : tsm_vte) :
  state (tsm_vte_reset v) = STATE_GROUND
  /\ (g0 (tsm_vte_reset v) = Some unicode_lower
      /\ g1 (tsm_vte_reset v) = Some unicode_upper
      /\ g2 (tsm_vte_reset v) = Some unicode_lower
      /\ g3 (tsm_vte_reset v) = Some unicode_upper)
  /\ (gl (tsm_vte_reset v) = Some GSLOT0 /\ gr (tsm_vte_reset v) = Some GSLOT1)
  /\ (glt (tsm_vte_reset v) = None /\ grt (tsm_vte_reset v) = None)
  /\ cattr (tsm_vte_reset v) = to_rgb (palette v) (def_attr v)
  /\ def_attr (tsm_vte_reset v) = def_attr v
  /\ flags (tsm_vte_reset v) = reset_flags.
Proof. by split_and!. Qed.

(** C7.  After a soft reset ([tsm_vte_reset], which DECSTR and DECSCL
    call through [csi_soft_reset]) of a state the public entry points can
    reach, the parser is in the ground state, G0..G3 are the tables they
    are at creation with GL = G0 and GR = G1 and no single shift pending,
    the current attribute equals the default attribute, and the mode
    flags are exactly TEXT_CURSOR, AUTO_REPEAT, SEND_RECEIVE, AUTO_WRAP
    and BACKGROUND_COLOR_ERASE. *)
Theorem soft_reset_state (v : tsm_vte) :
  reachable v ->
  let r := tsm_vte_reset v in
  csi_soft_reset v = r
  /\ state r = STATE_GROUND
  /\ (g0 r = Some unicode_lower /\ g1 r = Some unicode_upper
      /\ g2 r = Some unicode_lower /\ g3 r = Some unicode_upper)
  /\ (gl r = Some GSLOT0 /\ gr r = Some GSLOT1)
  /\ (glt r = None /\ grt r = None)
  /\ cattr r = def_attr r
  /\ flags r = reset_flags
  /\ reset_flags = 0xb300.
Proof.
  intros Hr. cbv zeta.
  destruct (tsm_vte_reset_fields v) as (F1 & F2 & F3 & F4 & F5 & F6 & F7).
  pose proof (def_ok_reachable v Hr) as Hd.
  unfold def_ok, resolved in Hd.
  split; [reflexivity|].
  split; [exact F1|]. split; [exact F2|]. split; [exact F3|].
  split; [exact F4|]. split; [by rewrite F5, F6|].
  split; [exact F7|]. reflexivity.
Qed.






End ResetAndRestore.
(** * Closed examples: witnesses and counterexamples *)

Section Examples.

#[local] Existing Instance recording_screen.
#[local] Existing Instance simple_unicode.
#[local] Existing Instance xkb_keysyms.
#[local] Existing Instance signed_char_platform.

(** The bound of C1 at the parameter string 65535999;7: the first
    parameter absorbs one digit at the value 65535 and stops at 655359 *)
Lemma csi_parameters_bounded_witness :
  reachable (tsm_vte_new (screen_at 0 0))
  /\ csi_argv (tsm_vte_input (tsm_vte_new (screen_at 0 0))
                 (ESC :: str "[65535999;7")) !! 0%nat
     = Some 655359
  /\ let v' := tsm_vte_input (tsm_vte_new (screen_at 0 0))
                 (ESC :: str "[65535999;7") in
     csi_argc v' <= 16
     /\ (forall (j : nat) (x : Z),
           csi_argv v' !! j = Some x -> -1 <= x <= 655359)
     /\ (forall (w : tsm_vte) (data : Z),
           0xffff < csi_arg w (csi_argc w) -> data <> chr ";" ->
           do_param w data = w)
     /\ (forall (w : tsm_vte) (d cur : Z) (k : nat),
           csi_argc w = Z.of_nat k -> (k < 16)%nat ->
           csi_argv w !! k = Some cur -> cur <= 0xffff -> is_digit d ->
           do_param w d
           = set_csi_argv
               (<[k := Z.max 0 cur * 10 + (d - chr "0")]> (csi_argv w)) w).
Proof.
  split; [exact (reach_new _)|].
  split; [vm_compute; reflexivity|].
  exact (csi_parameters_bounded _ _ (reach_new _)).
Defined.

(** The input ESC [ 9 9 9 9 9 stores the parameter 99999, above 65535 *)
Lemma csi_parameter_above_65535 :
  ~ (forall (j : nat) (x : Z),
       csi_argv (tsm_vte_input (tsm_vte_new (screen_at 0 0))
                   (ESC :: str "[99999")) !! j = Some x ->
       -1 <= x <= 65535).
Proof.
  intros H. specialize (H 0%nat 99999).
  assert (E : csi_argv (tsm_vte_input (tsm_vte_new (screen_at 0 0))
                          (ESC :: str "[99999")) !! 0%nat
              = Some 99999) by (vm_compute; reflexivity).
  specialize (H E). lia.
Qed.

(** C2 after ESC N, with a single shift pending *)
Lemma charset_pointers_valid_witness :
  let v := tsm_vte_input (tsm_vte_new (screen_at 0 0)) (ESC :: str "N") in
  reachable v
  /\ ((is_Some (gl v) /\ is_Some (gr v)) /\
      (is_Some (g0 v) /\ is_Some (g1 v) /\ is_Some (g2 v) /\ is_Some (g3 v)) /\
      (forall echo data,
         let v' := do_action echo v data ACTION_PRINT in
         glt v' = (if in_range 33 126 data then None else glt v) /\
         grt v' = (if in_range 161 254 data then None else grt v) /\
         gl v' = gl v /\ gr v' = gr v)).
Proof.
  intros v.
  assert (H : reachable v) by exact (reach_input _ _ (reach_new _)).
  split; [exact H|].
  exact (charset_pointers_valid v H).
Defined.

(** After ESC N the single shift to G2 is pending; printing a space
    leaves it pending *)
Lemma single_shift_survives_space :
  ~ (forall data : Z,
       glt (tsm_vte_input
              (tsm_vte_input (tsm_vte_new (screen_at 0 0)) (ESC :: str "N"))
              [data])
       = None).
Proof.
  intros H. specialize (H 32).
  assert (E : glt (tsm_vte_input
                     (tsm_vte_input (tsm_vte_new (screen_at 0 0))
                        (ESC :: str "N"))
                     [32])
              = Some GSLOT2) by (vm_compute; reflexivity).
  rewrite E in H. discriminate H.
Qed.

(** ESC [ r, DECSTBM without parameters, sets the margins (0, 0), not
    (1, 1) *)
Lemma decstbm_absent_margin_is_zero :
  ~ (con (tsm_vte_input (tsm_vte_new (screen_at 0 0)) (ESC :: str "[r"))
     = tsm_screen_set_margins (con (tsm_vte_new (screen_at 0 0))) 1 1).
Proof.
  intros H.
  assert (E : con (tsm_vte_input (tsm_vte_new (screen_at 0 0))
                     (ESC :: str "[r"))
              = tsm_screen_set_margins (con (tsm_vte_new (screen_at 0 0)))
                  0 0) by (vm_compute; reflexivity).
  rewrite E in H. vm_compute in H. discriminate H.
Qed.

(** ESC [ 38;2;300;0;0 m stores the red component 300 mod 256 = 44 *)
Lemma truecolor_component_wraps :
  ~ (fg_color (cattr (tsm_vte_input (tsm_vte_new (screen_at 0 0))
                        (ESC :: str "[38;2;300;0;0m")))
     = (-1, (300, 0, 0))).
Proof.
  intros H.
  assert (E : fg_color (cattr (tsm_vte_input (tsm_vte_new (screen_at 0 0))
                                 (ESC :: str "[38;2;300;0;0m")))
              = (-1, (44, 0, 0))) by (vm_compute; reflexivity).
  rewrite E in H. discriminate H.
Qed.


(** C5 at the cursor x = 4, y = 9 with the parameter 6 read *)
Lemma dsr_replies_witness :
  let echo := fun (v : tsm_vte) (_ : list Z) => v in
  let v := fold_left (parse_data echo) (ESC :: str "[6")
             (set_parse_cnt 1 (tsm_vte_new (screen_at 4 9))) in
  parse_cnt v <> 0
  /\ tsm_screen_get_cursor_x (con v) = 4
  /\ tsm_screen_get_cursor_y (con v) = 9
  /\ 0 <= 4 < UINT_MAX /\ 0 <= 9 < UINT_MAX
  /\ let written := cb_log (do_csi echo v (chr "n")) in
     let prefix :=
       if has_flag (flags v) FLAG_PREPEND_ESCAPE then [CB_WRITE [ESC]]
       else [] in
     (csi_arg v 0 = 5 ->
      written = cb_log v ++ prefix ++ [CB_WRITE (ESC :: str "[0n")])
     /\ (csi_arg v 0 = 6 ->
         written
         = cb_log v ++ prefix
           ++ [CB_WRITE (ESC :: str "[" ++ fmt_u (9 + 1) ++ str ";"
                             ++ fmt_u (4 + 1) ++ str "R")])
     /\ dec_value (fmt_u (9 + 1)) = 9 + 1
     /\ dec_value (fmt_u (4 + 1)) = 4 + 1
     /\ (forall size x' y',
           size <= Z.of_nat (length
                     (ESC :: str "[" ++ fmt_u (wrap_u32 (y' + 1)) ++ str ";"
                          ++ fmt_u (wrap_u32 (x' + 1)) ++ str "R")) ->
           dsr_reply size x' y' = ESC :: str "[0;0R").
Proof.
  intros echo v.
  assert (H1 : parse_cnt v <> 0) by (vm_compute; discriminate).
  assert (H2 : tsm_screen_get_cursor_x (con v) = 4)
    by (vm_compute; reflexivity).
  assert (H3 : tsm_screen_get_cursor_y (con v) = 9)
    by (vm_compute; reflexivity).
  assert (H4 : 0 <= 4 < UINT_MAX) by (unfold UINT_MAX; lia).
  assert (H5 : 0 <= 9 < UINT_MAX) by (unfold UINT_MAX; lia).
  split; [exact H1|]. split; [exact H2|]. split; [exact H3|].
  split; [exact H4|]. split; [exact H5|].
  exact (dsr_replies echo v 4 9 H1 H2 H3 H4 H5).
Defined.

(** C7 after SGR 1;31 *)
Lemma soft_reset_state_witness :
  let v := tsm_vte_input (tsm_vte_new (screen_at 0 0))
             (ESC :: str "[1;31m") in
  reachable v
  /\ let r := tsm_vte_reset v in
     csi_soft_reset v = r
     /\ state r = STATE_GROUND
     /\ (g0 r = Some unicode_lower /\ g1 r = Some unicode_upper
         /\ g2 r = Some unicode_lower /\ g3 r = Some unicode_upper)
     /\ (gl r = Some GSLOT0 /\ gr r = Some GSLOT1)
     /\ (glt r = None /\ grt r = None)
     /\ cattr r = def_attr r
     /\ flags r = reset_flags
     /\ reset_flags = 0xb300.
Proof.
  intros v.
  assert (H : reachable v) by exact (reach_input _ _ (reach_new _)).
  split; [exact H|].
  exact (soft_reset_state v H).
Defined.

(** C8 for the input ESC [ 6 n, which makes the writer reply *)
Lemma reentry_counter_local_echo_witness :
  let v := tsm_vte_new (screen_at 0 0) in
  let u8 := ESC :: str "[6n" in
  0 <= parse_cnt v <= ULONG_MAX
  /\ (parse_cnt (tsm_vte_input_fuel 2 v u8) = parse_cnt v
      /\ (forall (e1 e2 : tsm_vte -> list Z -> tsm_vte) (w : tsm_vte)
                 (payload : list Z),
            parse_cnt w <> 0 ->
            vte_write_debug e1 w payload = vte_write_debug e2 w payload
            /\ cb_log (vte_write_debug e1 w payload)
               = cb_log w
                 ++ (if has_flag (flags w) FLAG_PREPEND_ESCAPE
                     then [CB_WRITE [ESC]] else [])
                 ++ [CB_WRITE payload])
      /\ (forall (echo : tsm_vte -> list Z -> tsm_vte) (w : tsm_vte)
                 (payload : list Z),
            parse_cnt w = 0 ->
            has_flag (flags w) FLAG_SEND_RECEIVE_MODE = false ->
            vte_write_debug echo w payload
            = let w1 :=
                if has_flag (flags w) FLAG_PREPEND_ESCAPE then echo w [ESC]
                else w in
              let w2 := echo w1 payload in
              let w3 :=
                if has_flag (flags w2) FLAG_PREPEND_ESCAPE
                then write_cb w2 [ESC]
                else w2 in
              set_flags (flag_clear (flags w3) FLAG_PREPEND_ESCAPE)
                (write_cb w3 payload))).
Proof.
  intros v u8.
  assert (H : 0 <= parse_cnt v <= ULONG_MAX)
    by (vm_compute; split; discriminate).
  split; [exact H|].
  exact (reentry_counter_local_echo 2 v u8 H).
Defined.

(** C9 for Alt with the keysym 0xffe1 (left Shift), which no switch
    handles *)
Lemma unhandled_key_clears_prepend_escape_witness :
  let v := tsm_vte_new (screen_at 0 0) in
  let keysym := 0xffe1 in
  let ascii := 0 in
  let mods := TSM_ALT_MASK in
  let unicode := TSM_VTE_INVALID in
  (has_flag mods TSM_CONTROL_MASK = true ->
   switch_arm ctrl_keys
     (if ascii =? XKB_KEY_NoSymbol then keysym else ascii) = None)
  /\ switch_arm keysym_keys keysym = None
  /\ unicode = TSM_VTE_INVALID
  /\ let r := handle_keyboard v keysym ascii mods unicode in
     r.2 = false
     /\ has_flag (flags r.1) FLAG_PREPEND_ESCAPE = false
     /\ r.1 = set_flags (flag_clear (flags v) FLAG_PREPEND_ESCAPE) v
     /\ (forall (echo : tsm_vte -> list Z -> tsm_vte) (u8 : list Z),
           parse_cnt v <> 0
           \/ has_flag (flags v) FLAG_SEND_RECEIVE_MODE = true ->
           cb_log (vte_write_debug echo r.1 u8) = cb_log v ++ [CB_WRITE u8]).
Proof.
  intros v keysym ascii mods unicode.
  assert (H1 : has_flag mods TSM_CONTROL_MASK = true ->
               switch_arm ctrl_keys
                 (if ascii =? XKB_KEY_NoSymbol then keysym else ascii)
               = None) by (intros _; vm_compute; reflexivity).
  assert (H2 : switch_arm keysym_keys keysym = None)
    by (vm_compute; reflexivity).
  assert (H3 : unicode = TSM_VTE_INVALID) by reflexivity.
  split; [exact H1|]. split; [exact H2|]. split; [exact H3|].
  exact (unhandled_key_clears_prepend_escape v keysym ascii mods unicode
           H1 H2 H3).
Defined.

(** C10 for ESC [ 6 1 double-quote, before the final byte p *)
Lemma decscl_soft_reset_first_witness :
  let echo := fun (v : tsm_vte) (_ : list Z) => v in
  let v := fold_left (parse_data echo) (ESC :: str "[61" ++ [0x22])
             (set_parse_cnt 1 (tsm_vte_new (screen_at 0 0))) in
  has_flag (csi_flags v) CSI_GT = false
  /\ has_flag (csi_flags v) CSI_BANG = false
  /\ has_flag (csi_flags v) CSI_CASH = false
  /\ let r := tsm_vte_reset (csi_count_last v) in
     let level := csi_arg v 0 in
     let charsets (w : tsm_vte) :=
       set_g1 (Some dec_supplemental_graphics)
         (set_g0 (Some unicode_lower) w) in
     (level = 61 ->
      do_csi echo v (chr "p")
      = charsets (set_flags (flag_set (flags r) FLAG_7BIT_MODE) r))
     /\ (level = 62 \/ level = 63 \/ level = 64 ->
         do_csi echo v (chr "p")
         = let w :=
             if (csi_arg v 1 =? 1) || (csi_arg v 1 =? 2)
             then set_flags (flag_set (flags r) FLAG_USE_C1) r
             else r in
           charsets (set_flags (flag_set (flags w) FLAG_8BIT_MODE) w))
     /\ (level <> 61 -> level <> 62 -> level <> 63 -> level <> 64 ->
         do_csi echo v (chr "p") = r).
Proof.
  intros echo v.
  assert (H1 : has_flag (csi_flags v) CSI_GT = false)
    by (vm_compute; reflexivity).
  assert (H2 : has_flag (csi_flags v) CSI_BANG = false)
    by (vm_compute; reflexivity).
  assert (H3 : has_flag (csi_flags v) CSI_CASH = false)
    by (vm_compute; reflexivity).
  split; [exact H1|]. split; [exact H2|]. split; [exact H3|].
  exact (decscl_soft_reset_first echo v H1 H2 H3).
Defined.

(** C6 for ESC [ 38;5;196, before the final byte m *)
Lemma sgr_extended_colours_witness :
  let echo := fun (v : tsm_vte) (_ : list Z) => v in
  let v := fold_left (parse_data echo) (ESC :: str "[38;5;196")
             (set_parse_cnt 1 (tsm_vte_new (screen_at 0 0))) in
  (38 = 38 \/ 38 = 48)
  /\ has_flag (csi_flags v) CSI_GT = false
  /\ csi_arg v 0 = 38
  /\ let a := cattr (do_csi echo v (chr "m")) in
     (forall i,
         csi_argc v = 2 -> csi_arg v 1 = 5 -> csi_arg v 2 = i ->
         (16 <= i <= 231 ->
          sgr_target 38 a
          = (-1, (bval_at ((i - 16) / 36 mod 6), bval_at ((i - 16) / 6 mod 6),
                  bval_at ((i - 16) mod 6))))
         /\ (232 <= i <= 255 ->
             sgr_target 38 a
             = (-1, ((i - 232) * 10 + 8, (i - 232) * 10 + 8,
                     (i - 232) * 10 + 8))))
     /\ (forall r g b,
           csi_argc v = 4 -> csi_arg v 1 = 2 ->
           csi_arg v 2 = r -> csi_arg v 3 = g -> csi_arg v 4 = b ->
           0 <= r -> 0 <= g -> 0 <= b ->
           sgr_target 38 a = (-1, (r mod 256, g mod 256, b mod 256))
           /\ (r <= 255 -> g <= 255 -> b <= 255 ->
               sgr_target 38 a = (-1, (r, g, b)))).
Proof.
  intros echo v.
  assert (H0 : 38 = 38 \/ 38 = 48) by (left; reflexivity).
  assert (H1 : has_flag (csi_flags v) CSI_GT = false)
    by (vm_compute; reflexivity).
  assert (H2 : csi_arg v 0 = 38) by (vm_compute; reflexivity).
  split; [exact H0|]. split; [exact H1|]. split; [exact H2|].
  exact (sgr_extended_colours echo v 38 H0 H1 H2).
Defined.

(** X2 after the input ESC [ 1 ; 3 1 m (bold, red foreground) *)
Lemma attributes_follow_palette_witness :
  reachable (tsm_vte_input (tsm_vte_new (screen_at 0 0)) (ESC :: str "[1;31m"))
  /\ let v := tsm_vte_input (tsm_vte_new (screen_at 0 0))
                (ESC :: str "[1;31m") in
     rgb_matches (palette v) (cattr v)
     /\ rgb_matches (palette v) (def_attr v)
     /\ to_rgb (palette v) (cattr v) = cattr v
     /\ to_rgb (palette v) (def_attr v) = def_attr v.
Proof.
  split; [exact (reach_input _ _ (reach_new _))|].
  exact (attributes_follow_palette _ (reach_input _ _ (reach_new _))).
Defined.

(** X4 for 200 characters collected into the buffer of 128 bytes *)
Lemma osc_buffer_never_overrun_witness :
  reachable (tsm_vte_set_osc_cb (tsm_vte_new (screen_at 0 0)) true)
  /\ let w := fold_left do_osc_collect (replicate 200 (chr "a"))
                (tsm_vte_set_osc_cb (tsm_vte_new (screen_at 0 0)) true) in
     0 <= osc_len w <= OSC_MAX_LEN - 1
     /\ length (osc_arg w) = Z.to_nat OSC_MAX_LEN
     /\ (osc_cb w = true ->
         osc_arg (do_osc_end w) !! Z.to_nat (osc_len w) = Some 0
         /\ length (osc_arg (do_osc_end w)) = Z.to_nat OSC_MAX_LEN).
Proof.
  split; [exact (reach_set_osc_cb _ _ (reach_new _))|].
  exact (osc_buffer_never_overrun _ _ (reach_set_osc_cb _ _ (reach_new _))).
Defined.

(** X5 for the window title sequence ESC ] 0 ; h i BEL *)
Lemma osc_string_delivered_witness :
  let echo := fun (v : tsm_vte) (_ : list Z) => v in
  let v := tsm_vte_input
             (tsm_vte_set_osc_cb (tsm_vte_new (screen_at 0 0)) true) [ESC] in
  let cs := str "0;hi" in
  state v = STATE_ESC
  /\ osc_cb v = true
  /\ Forall osc_char cs
  /\ Z.of_nat (length (osc_bytes cs)) <= OSC_MAX_LEN - 1
  /\ let v' :=
       parse_data echo
         (fold_left (parse_data echo) cs (parse_data echo v (chr "]"))) 0x07 in
     state v' = STATE_GROUND
     /\ exists buf,
          cb_log v' = cb_log v ++ [CB_OSC buf (Z.of_nat (length (osc_bytes cs)))]
          /\ take (length (osc_bytes cs)) buf = osc_bytes cs
          /\ buf !! length (osc_bytes cs) = Some 0.
Proof.
  intros echo v cs.
  assert (H1 : state v = STATE_ESC) by (vm_compute; reflexivity).
  assert (H2 : osc_cb v = true) by (vm_compute; reflexivity).
  assert (H3 : Forall osc_char cs).
  { change cs with [48; 59; 104; 105].
    repeat constructor; unfold osc_char; lia. }
  assert (H4 : Z.of_nat (length (osc_bytes cs)) <= OSC_MAX_LEN - 1)
    by (vm_compute; discriminate).
  split; [exact H1|]. split; [exact H2|]. split; [exact H3|].
  split; [exact H4|].
  exact (osc_string_delivered echo v cs H1 H2 H3 H4).
Defined.

(** X6 for a CSI sequence cut in the middle of its parameters *)
Lemma input_in_chunks_witness :
  let v := tsm_vte_new (screen_at 0 0) in
  let a := ESC :: str "[1" in
  let b := str "2;5H" in
  0 <= parse_cnt v < ULONG_MAX
  /\ tsm_vte_input v (a ++ b) = tsm_vte_input (tsm_vte_input v a) b
  /\ tsm_vte_input v [] = v.
Proof.
  intros v a b.
  assert (H : 0 <= parse_cnt v < ULONG_MAX)
    by (vm_compute; split; [discriminate | reflexivity]).
  split; [exact H|].
  exact (input_in_chunks v a b H).
Defined.

(** X7 for the parameters 12, empty and 5 *)
Lemma csi_parameters_parsed_witness :
  let echo := fun (v : tsm_vte) (_ : list Z) => v in
  let v := tsm_vte_new (screen_at 0 0) in
  let dss := [str "12"; []; str "5"] in
  dss <> []
  /\ (length dss <= 16)%nat
  /\ Forall (fun ds => Forall is_digit ds /\ dec_value ds <= 0xffff) dss
  /\ let v' :=
       fold_left (parse_data echo) (ESC :: chr "[" :: csi_params_text dss) v in
     csi_argc v' = Z.of_nat (length dss) - 1
     /\ csi_argv v' = map param_value dss ++ replicate (16 - length dss) (-1)
     /\ csi_flags v' = 0
     /\ (state v' = STATE_CSI_ENTRY \/ state v' = STATE_CSI_PARAM).
Proof.
  intros echo v dss.
  assert (H1 : dss <> []) by discriminate.
  assert (H2 : (length dss <= 16)%nat) by (cbn; lia).
  assert (H3 : Forall (fun ds => Forall is_digit ds /\ dec_value ds <= 0xffff)
                 dss).
  { change dss with [[49; 50]; []; [53]].
    repeat first [ apply Forall_cons | apply Forall_nil | split ];
      vm_compute; discriminate. }
  split; [exact H1|]. split; [exact H2|]. split; [exact H3|].
  exact (csi_parameters_parsed echo v dss H1 H2 H3).
Defined.

(** X8 for the key [a] pressed with Alt *)
Lemma key_press_output_witness :
  let echo := fun (v : tsm_vte) (_ : list Z) => v in
  let v := tsm_vte_new (screen_at 0 0) in
  has_flag (flags v) FLAG_SEND_RECEIVE_MODE = true
  /\ let r := tsm_vte_handle_keyboard echo v 0x61 0x61 TSM_ALT_MASK 0x61 in
     let pre :=
       if has_flag TSM_ALT_MASK TSM_ALT_MASK
          || has_flag (flags v) FLAG_PREPEND_ESCAPE
       then [CB_WRITE [ESC]] else [] in
     flags r.1 = flag_clear (flags v) FLAG_PREPEND_ESCAPE
     /\ has_flag (flags r.1) FLAG_PREPEND_ESCAPE = false
     /\ con r.1 = con v
     /\ (r.2 = false -> cb_log r.1 = cb_log v)
     /\ (r.2 = true ->
         exists payload, cb_log r.1 = cb_log v ++ pre ++ [CB_WRITE payload]).
Proof.
  intros echo v.
  assert (H : has_flag (flags v) FLAG_SEND_RECEIVE_MODE = true)
    by (vm_compute; reflexivity).
  split; [exact H|].
  exact (key_press_output echo v 0x61 0x61 TSM_ALT_MASK 0x61 H).
Defined.

(** X9 for the key U+00E9 after the 7-bit level was selected with
    ESC [ 6 1 double-quote p *)
Lemma keyboard_7bit_clean_witness :
  let echo := fun (v : tsm_vte) (_ : list Z) => v in
  let v := tsm_vte_input (tsm_vte_new (screen_at 0 0))
             (ESC :: str "[61" ++ [0x22; chr "p"]) in
  has_flag (flags v) FLAG_7BIT_MODE = true
  /\ has_flag (flags v) FLAG_SEND_RECEIVE_MODE = true
  /\ let r := tsm_vte_handle_keyboard echo v 0xe9 0 0 0xe9 in
     exists new,
       cb_log r.1 = cb_log v ++ new
       /\ Forall (fun e => exists p, e = CB_WRITE p /\ seven_bit p) new.
Proof.
  intros echo v.
  assert (H1 : has_flag (flags v) FLAG_7BIT_MODE = true)
    by (vm_compute; reflexivity).
  assert (H2 : has_flag (flags v) FLAG_SEND_RECEIVE_MODE = true)
    by (vm_compute; reflexivity).
  split; [exact H1|]. split; [exact H2|].
  exact (keyboard_7bit_clean echo v 0xe9 0 0 0xe9 H1 H2).
Defined.

(** X10 for the mode 1049, entered at the cursor position (3, 7) *)
Lemma alternate_screen_restores_cursor_witness :
  let v := set_csi_flags CSI_WHAT (tsm_vte_new (screen_at 3 7)) in
  let w := csi_mode_arg v true 1049 in
  (1049 = 1048 \/ 1049 = 1049)
  /\ has_flag (csi_flags v) CSI_WHAT = true
  /\ has_flag (csi_flags w) CSI_WHAT = true
  /\ alt_cursor_x w = alt_cursor_x (csi_mode_arg v true 1049)
  /\ alt_cursor_y w = alt_cursor_y (csi_mode_arg v true 1049)
  /\ ((has_flag (flags v) FLAG_TITE_INHIBIT_MODE = false ->
       has_flag (flags w) FLAG_TITE_INHIBIT_MODE = false ->
       con (csi_mode_arg w false 1049)
       = tsm_screen_move_to
           (if 1049 =? 1049
            then tsm_screen_reset_flags (con w) TSM_SCREEN_ALTERNATE
            else con w)
           (tsm_screen_get_cursor_x (con v)) (tsm_screen_get_cursor_y (con v)))
      /\ (has_flag (flags v) FLAG_TITE_INHIBIT_MODE = true ->
          csi_mode_arg v true 1049 = v /\ csi_mode_arg v false 1049 = v)).
Proof.
  intros v w.
  assert (H0 : 1049 = 1048 \/ 1049 = 1049) by (right; reflexivity).
  assert (H1 : has_flag (csi_flags v) CSI_WHAT = true)
    by (vm_compute; reflexivity).
  assert (H2 : has_flag (csi_flags w) CSI_WHAT = true)
    by (vm_compute; reflexivity).
  assert (H3 : alt_cursor_x w = alt_cursor_x (csi_mode_arg v true 1049))
    by reflexivity.
  assert (H4 : alt_cursor_y w = alt_cursor_y (csi_mode_arg v true 1049))
    by reflexivity.
  split; [exact H0|]. split; [exact H1|]. split; [exact H2|].
  split; [exact H3|]. split; [exact H4|].
  exact (alternate_screen_restores_cursor v w 1049 H0 H1 H2 H3 H4).
Defined.

(** X11 for the byte 0x9b after the 8-bit level was selected with
    ESC [ 6 2 double-quote p *)
Lemma input_byte_outside_utf8_witness :
  let echo := fun (v : tsm_vte) (_ : list Z) => v in
  let v := tsm_vte_input (tsm_vte_new (screen_at 0 0))
             (ESC :: str "[62" ++ [0x22; chr "p"]) in
  0 <= 0x9b < 256
  /\ (has_flag (flags v) FLAG_7BIT_MODE = true ->
      input_byte echo v 0x9b = parse_data echo v (0x9b mod 128))
  /\ (has_flag (flags v) FLAG_7BIT_MODE = false ->
      has_flag (flags v) FLAG_8BIT_MODE = true ->
      (char_is_signed = false \/ 0x9b < 128 ->
       input_byte echo v 0x9b = parse_data echo v 0x9b)
      /\ (char_is_signed = true -> 128 <= 0x9b ->
          input_byte echo v 0x9b = parse_data echo v (0x9b + 0xffffff00)
          /\ (state v = STATE_GROUND ->
              input_byte echo v 0x9b
              = do_action echo v (0x9b + 0xffffff00) ACTION_PRINT))).
Proof.
  intros echo v.
  assert (H : 0 <= 0x9b < 256) by lia.
  split; [exact H|].
  exact (input_byte_outside_utf8 echo v 0x9b H).
Defined.

(** X13 for ESC [ ? 2 5 l, which hides the cursor *)
Lemma mode_sequence_witness :
  let echo := fun (v : tsm_vte) (_ : list Z) => v in
  let v := tsm_vte_new (screen_at 0 0) in
  let ds := str "25" in
  ds <> []
  /\ Forall is_digit ds
  /\ dec_value ds <= 0xffff
  /\ let v' :=
       fold_left (parse_data echo)
         (ESC :: chr "[" :: (if true then [chr "?"] else [])
              ++ ds ++ [if false then chr "h" else chr "l"])
         v in
     let m :=
       csi_mode_arg (set_csi_flags (if true then CSI_WHAT else 0) v) false
         (dec_value ds) in
     state v' = STATE_GROUND /\ flags v' = flags m /\ con v' = con m.
Proof.
  intros echo v ds.
  assert (H1 : ds <> []) by discriminate.
  assert (H2 : Forall is_digit ds).
  { change ds with [50; 53].
    repeat first [ apply Forall_cons | apply Forall_nil | split ];
      vm_compute; discriminate. }
  assert (H3 : dec_value ds <= 0xffff) by (vm_compute; discriminate).
  split; [exact H1|]. split; [exact H2|]. split; [exact H3|].
  exact (mode_sequence echo v true ds false H1 H2 H3).
Defined.

(** X14 for ESC [ 1 2 ; 5 H *)
Lemma cursor_position_sequence_witness :
  let echo := fun (v : tsm_vte) (_ : list Z) => v in
  let v := tsm_vte_new (screen_at 0 0) in
  let row := str "12" in
  let col := str "5" in
  (chr "H" = chr "H" \/ chr "H" = chr "f")
  /\ Forall is_digit row /\ dec_value row <= 0xffff
  /\ Forall is_digit col /\ dec_value col <= 0xffff
  /\ let v' :=
       fold_left (parse_data echo)
         (ESC :: chr "[" :: row ++ chr ";" :: col ++ [chr "H"]) v in
     state v' = STATE_GROUND
     /\ flags v' = flags v
     /\ con v'
        = tsm_screen_move_to (con v)
            (Z.max 1 (param_value col) - 1) (Z.max 1 (param_value row) - 1).
Proof.
  intros echo v row col.
  assert (H0 : chr "H" = chr "H" \/ chr "H" = chr "f")
    by (left; reflexivity).
  assert (H1 : Forall is_digit row).
  { change row with [49; 50].
    repeat first [ apply Forall_cons | apply Forall_nil | split ];
      vm_compute; discriminate. }
  assert (H2 : dec_value row <= 0xffff) by (vm_compute; discriminate).
  assert (H3 : Forall is_digit col).
  { change col with [53].
    repeat first [ apply Forall_cons | apply Forall_nil | split ];
      vm_compute; discriminate. }
  assert (H4 : dec_value col <= 0xffff) by (vm_compute; discriminate).
  split; [exact H0|]. split; [exact H1|]. split; [exact H2|].
  split; [exact H3|]. split; [exact H4|].
  exact (cursor_position_sequence echo v row col (chr "H") H0 H1 H2 H3 H4).
Defined.

(** X15 for IND: the code 0x84 and ESC D *)
Lemma c1_control_as_escape_witness :
  let echo := fun (v : tsm_vte) (_ : list Z) => v in
  let v := set_parse_cnt 1 (tsm_vte_new (screen_at 0 0)) in
  0x80 <= 0x84 <= 0x9f
  /\ parse_cnt v <> 0
  /\ parse_data echo (parse_data echo v ESC) (0x84 - 0x40)
     = do_clear (parse_data echo v 0x84).
Proof.
  intros echo v.
  assert (H1 : 0x80 <= 0x84 <= 0x9f) by lia.
  assert (H2 : parse_cnt v <> 0) by (vm_compute; discriminate).
  split; [exact H1|]. split; [exact H2|].
  exact (c1_control_as_escape echo v 0x84 H1 H2).
Defined.

(** X16 for a line feed between the digits of ESC [ 1 *)
Lemma control_inside_sequence_witness :
  let echo := fun (v : tsm_vte) (_ : list Z) => v in
  let v := fold_left (parse_data echo) (ESC :: str "[1")
             (set_parse_cnt 1 (tsm_vte_new (screen_at 0 0))) in
  c0_ctrl 0x0a = true
  /\ parse_cnt v <> 0
  /\ In (state v)
       [STATE_ESC; STATE_ESC_INT; STATE_CSI_ENTRY; STATE_CSI_PARAM;
        STATE_CSI_INT; STATE_CSI_IGNORE]
  /\ let r := parse_data echo v 0x0a in
     r = set_state (state v) (parse_data echo (set_state STATE_GROUND v) 0x0a)
     /\ state r = state v
     /\ csi_argc r = csi_argc v /\ csi_argv r = csi_argv v
     /\ csi_flags r = csi_flags v.
Proof.
  intros echo v.
  assert (H1 : c0_ctrl 0x0a = true) by reflexivity.
  assert (H2 : parse_cnt v <> 0) by (vm_compute; discriminate).
  assert (H3 : In (state v)
                 [STATE_ESC; STATE_ESC_INT; STATE_CSI_ENTRY; STATE_CSI_PARAM;
                  STATE_CSI_INT; STATE_CSI_IGNORE]).
  { do 3 right. left. vm_compute. reflexivity. }
  split; [exact H1|]. split; [exact H2|]. split; [exact H3|].
  exact (control_inside_sequence echo v 0x0a H1 H2 H3).
Defined.

(** X17 for ESC N a b *)
Lemma single_shift_one_character_witness :
  let echo := fun (v : tsm_vte) (_ : list Z) => v in
  let v := tsm_vte_new (screen_at 0 0) in
  ((chr "N" = chr "N" /\ GSLOT2 = GSLOT2)
   \/ (chr "N" = chr "O" /\ GSLOT2 = GSLOT3))
  /\ 33 <= chr "a" <= 126 /\ 33 <= chr "b" <= 126
  /\ let v' :=
       fold_left (parse_data echo) [ESC; chr "N"; chr "a"; chr "b"] v in
     let attr := to_rgb (palette v) (cattr v) in
     state v' = STATE_GROUND /\ glt v' = None /\ gl v' = gl v
     /\ con v'
        = tsm_screen_write
            (tsm_screen_write (con v)
               (tsm_symbol_make
                  (charset_lookup v (Some GSLOT2) (chr "a" - 32))) attr)
            (tsm_symbol_make (charset_lookup v (gl v) (chr "b" - 32))) attr.
Proof.
  intros echo v.
  assert (H0 : (chr "N" = chr "N" /\ GSLOT2 = GSLOT2)
               \/ (chr "N" = chr "O" /\ GSLOT2 = GSLOT3))
    by (left; split; reflexivity).
  assert (H1 : 33 <= chr "a" <= 126) by (vm_compute; split; discriminate).
  assert (H2 : 33 <= chr "b" <= 126) by (vm_compute; split; discriminate).
  split; [exact H0|]. split; [exact H1|]. split; [exact H2|].
  exact (single_shift_one_character echo v (chr "N") (chr "a") (chr "b")
           GSLOT2 H0 H1 H2).
Defined.

End Examples.
